(* ===== verification/_CoqProject ===== *)
-Q . S2P
Prelude.v
JsNumber.v
JsValue.v
Regex.v
Grammar.v
GrammarFacts.v
Keywords.v
Parse.v
ParseRgb.v
RgbGrammar.v
ParseHex.v
Rounding.v
Format.v
ParsePercent.v
ParseAgColor.v
Color.v
RoundTrips.v
Compare.v
Host.v
Umd.v
DemoConfig.v
Harness.v
TestParsing.v
TestMethods.v
TestSuite.v
