(* ===== verification/Prelude.v ===== *)
(** * A verification development of colorful.js

    colorful.js ([src/src/colorful.js]) is a Backbone/Underscore plugin
    that defines one constructor, [Color]: it parses a color given as a
    CSS keyword, a hexadecimal, [rgb()]/[rgba()] (base 256 or percent)
    or [AgColor()] string, an array or an [{r, g, b[, a]}] object, keeps
    a raw record [{r, g, b, a}] of floating-point channels, and renders
    that record back in each syntax on demand.  The parts, leaves first,
    and the file that models each:

    - [Prelude] (this file): the [result] type of computations that may
      throw, its [let!] notation in [colorful_scope], the hint databases
      [colorful] and [colorful_rw], the tactics of the development,
      string helpers ([toLowerCase], [join]) and the generic lemmas
      ([forallb_Zrange], [ascii_forall]) that turn an exhaustive boolean
      check over a finite domain into a universal statement, and
      [join_inj]: a list joined by a separator whose first character
      no item contains splits back into its items.
    - [JsNumber], [JsValue], [Regex]: the JavaScript runtime the program
      calls, modelled after ECMA-262 because it is not code of the
      repository.  Numbers are IEEE binary64 ([spec_float] of the
      Standard Library, which needs no axiom); [StringToNumber],
      [Number::toString] (shortest round-trip digits, fuel 17 = the
      most significant digits a double ever needs), [toFixed],
      [toString(16)], [parseInt(s, 16)], [Math.round/floor/ceil] are
      executable.  [JsValue] holds the values a caller passes
      ([jsval]), truthiness, [ToString], [ToNumber], the mixed
      operators and Underscore's [_.keys]/[_.intersection].  [Regex] is
      a backtracking matcher in continuation-passing style, as in the
      ECMA-262 pattern semantics; a greedy star gets fuel [length + 1],
      enough because every iteration must consume a character.  Its
      relational semantics [accepts] is proved sound ([m_sound]) and
      complete ([m_complete]) for the matcher.
    - [Grammar] (colorful.js 191-214, 273-292): the pattern sources,
      [buildColorRx] and [matchColor].  [GrammarFacts]: inversion and
      construction lemmas for the pattern pieces ([\s*], literal
      characters, the separator, each kind of channel) and the tactic
      [acc_inv] that cuts a derivation of a whole pattern into them.
    - [Keywords] (40-189, 389): the table [CssColorNames] as a stdpp
      [gmap] and JavaScript property lookup on it, which also finds the
      names inherited from [Object.prototype].
    - [Parse] (294-415): the channel normalizers [getHexData],
      [getBase256Data], [getPercentData], [getAgColorData] and the input
      coercer [parseColor], with the string branch [parse_string] and
      the object and array branches through [rgb_call].
    - [ParseRgb], [ParseHex], [ParsePercent], [ParseAgColor]: each
      syntax on all its canonical texts at once ([rgb(r, g, b)] for all
      byte triples, [rgb(p%, q%, r%)] for integral percentages,
      [AgColor( ... )] and the [rgba()] alpha for three-decimal
      fractions), and the channel ranges of the base-256 and hexadecimal
      normalizers on any string.  The captures of a match come from
      inverting any derivation of the pattern ([m_sound]), so they do not
      depend on the order in which the matcher backtracks; the match
      itself exists because a derivation is built channel by channel
      ([m_complete]).  [RgbGrammar]: the base-256 [rgb()] form as a
      grammar written without patterns, which [matchColor] decides.
    - [Rounding] (232-266): [_decimalAdjust] and [Nums.round/floor/ceil].
    - [Format] (422-480): [rawToHex], [rawToBase256],
      [toDecimalNotation] (a [String.prototype.replace] with the
      [rxScientific] pattern and [toFixed]), [rawToPercent],
      [rawToFraction].
    - [Color] (487-642): the [Color] object (its input and
      [_rawColor]), the queries and guards ([ensureColor],
      [ensureOpaque], [ensureTransparent], which throw [Error] values
      with the source's messages), every conversion ([asHex] ...
      [asRGBAArray]) and the comparator ([equals], [strictlyEquals]).
    - [RoundTrips]: parse, then write back, for each syntax.
    - [Compare]: [equals] and [strictlyEquals] on every pair of colors
      parsed from [rgb(r, g, b)] texts, without and with a tolerance.
    - [Host]: the JavaScript host the module wrapper meets, as a heap
      of objects (a stdpp [gmap] from locations) with shared references,
      a function scope and a global object, [typeof], truthiness,
      property reads and strict property writes; the well-formedness
      invariant [wf] and the frame lemmas.  Runtime, not code of the
      repository.
    - [Umd] (1-34, 487-494, 645): the wrapper's guards
      [supportsExports] and [amd_check], its three branches ([define],
      CommonJS [require], globals) and the part of the factory seen from
      outside: the [Color] constructor, [_.extend] of its prototype with
      the method literal, and [exports.Color = Color].  The factory's
      [exports] is a reference into the heap, so a loader and its caller
      share it.
    - [DemoConfig] ([src/demo/amd/require-config.js]): the RequireJS
      configuration of the AMD demo, with the loader's URL resolution
      and instantiation of a registered factory.
    - [Harness], [TestParsing], [TestMethods], [TestSuite]
      ([src/spec/color.spec.js]): the 221 Mocha tests as data (title,
      input of the colour, Chai assertions in order), run on the model
      through [Color.prototype] looked up by method name, as a call
      [colour.name( args )] is in JavaScript.  Mocha and Chai are
      libraries, modelled from their documentation.

    How the parts interact: the wrapper runs the factory, which builds
    [Color] over [parseColor] (Parse) and the formatters (Format,
    Rounding); [parseColor] matches the patterns of Grammar against the
    keyword table (Keywords) and the normalizers; in the AMD demo the
    loader calls the factory the wrapper registered, with Underscore
    resolved through the demo configuration.

    A [Color] is built once and never mutated: a method is a function
    of the record [color], and a method that may throw returns a
    [result].  Where the source reads a property of [undefined] the
    model throws a [TypeError].

    The theorems, by group:
    - Parsing: every [rgb(r, g, b)] text parses to its channels (C1),
      as does every byte array (C14); [#rrggbb] is read in base 16
      (C10), [#rgb] doubled, in one case only (C24); keywords and
      [transparent] (C12, C13); an object's [r, g, b] whatever its other
      keys and its [a] (C27); no [AgColor( x, y, z )] without an alpha
      (C29); names inherited from [Object.prototype] (C23).
    - The grammar: [matchColor] decides the base-256 [rgb()] form and
      returns its channels (C38).
    - Round trips, the law of the specification: [asRGB] (C2), [asHex]
      then [parseColor] (C3, C11), [asRGBA] (C4), [asAgColor] (C5) and
      [asPercentRGB] at the default precision (C6) give back the text a
      color was parsed from, over the whole domains above; at full
      precision the law holds exactly outside 16 of the 101 integral
      percentages (C7).
    - Invariants: every channel the base-256 and hexadecimal
      normalizers read from any string is an integer in [0, 255] (C8,
      C9); the keyword table is well typed (C37).
    - Formatting: [rawToHex] of every byte (C16), [toDecimalNotation]
      on plain text (C17) and on [ke-n], exact down to 1e-20 (C26), the
      decimal rounding of [Nums.round] on the 2000 numbers with three
      decimals in [0, 2) (C15) and its NaN error path (C22).
    - The API's error behaviour: the guards and conversions on invalid
      or transparent colors (C18, C19); the comparisons are false on
      anything that is not a color (C20).
    - The comparator on all byte colors: [equals] is equality of the
      bytes (C21), and within a tolerance [t] each byte differs by at
      most [t] (C28); [strictlyEquals] is equality of the whole
      percentages, coarser than [equals] where the specification makes
      it finer (C25).
    - Loading the module (Umd): the guards never throw (C30); an AMD
      [define] wins over CommonJS and only registers the factory (C31);
      CommonJS and the global branch export a complete [Color] (C32,
      C33), the latter as a global variable, against the comment at
      line 8; the error paths without Underscore or without an object
      [this] (C34); a CommonJS load writes nothing but [exports.Color]
      (C35).  The AMD demo composes wrapper, configuration and loader
      (C36).
    - The test suite against the code (C39): a test fails exactly when
      it calls a method the prototype lacks (the suite was written for
      [asRgb], [asRgba], [asRgbaArray], [asComputed], ...) or is one of
      nine that expect fractional channels in arrays and hashes, or
      [strictlyEquals] to see below its precision.
    The closed examples of the specification (section 8) and of the
    divergences are kept as [Example]s beside the theorems.

    Bounds.  The exhaustive checks run over the 256 bytes, the 101
    integral percentages, the 1001 three-decimal fractions in [0, 1],
    the 2000 three-decimal numbers in [0, 2), the 1111 decimal and 507
    hexadecimal words of at most three and two characters (a channel
    capture has at most that many, by [max_len]), the 10648 short
    hexadecimal colors, the one-digit [ke-n] for [n] from 7 to 40 (the
    exponents [Number::toString] writes, to well past the 20-digit cap),
    the sums, differences and comparisons of a byte and a tolerance in
    [1, 255], the 256 characters of Latin-1 and the 221 tests of the
    suite; [vm_compute] decides each check, and [forallb_Zrange] or an
    enumeration lemma lifts it to the universal statement.  The
    tolerance is bounded by 255 because no two bytes differ by more.

    Hosts.  The theorems on the wrapper quantify over every well-formed
    host; six concrete hosts (Node.js, a RequireJS page, a browser page
    with an element [id="exports"], a page without Underscore, an ES
    module, a Node.js scope without Underscore) witness them, their
    well-formedness decided by the executable check [wfb].

    Termination.  colorful.js has no loop or recursion of its own (it
    iterates only through Underscore and array built-ins over at most
    four channels), so every definition of the model is structural; the
    one fuel, of the matcher's greedy star, is bounded as said above.

    Not modelled: the prototype chain of host objects
    (own properties only, which is all the wrapper reads); what a host
    function other than [define], [require] and [_.extend] does when
    called; characters beyond Latin-1 in strings; the fractional digits of
    [toString(16)], which the program only applies to rounded values. *)

From Stdlib Require Import ZArith List String Ascii Bool Lia.
Import ListNotations.

(** ** Notation scope of the development *)

Declare Scope colorful_scope.
Delimit Scope colorful_scope with cf.

(** ** JavaScript exceptions

    The program throws [Error] objects from its guards; the runtime may
    throw a [TypeError] (a property read on [undefined]) or a
    [RangeError] (from [Number.prototype.toFixed]); the module wrapper
    may meet a [ReferenceError] (an undeclared global).  A call
    that may throw returns a [result]. *)

Inductive js_error : Type :=
  | Error (msg : string)
  | TypeError (msg : string)
  | RangeError (msg : string)
  | ReferenceError (msg : string).

Inductive result (A : Type) : Type :=
  | Ok (a : A)
  | Throw (e : js_error).
Arguments Ok {A} a.
Arguments Throw {A} e.

Definition bind {A B : Type} (c : result A) (k : A -> result B) : result B :=
  match c with
  | Ok a => k a
  | Throw e => Throw e
  end.

Notation "'let!' x ':=' c 'in' k" := (bind c (fun x => k))
  (at level 10, x pattern, c at level 100, k at level 200) : colorful_scope.

Definition is_ok {A : Type} (r : result A) : bool :=
  match r with Ok _ => true | Throw _ => false end.

Lemma bind_Ok {A B : Type} (a : A) (k : A -> result B) :
  bind (Ok a) k = k a.
Proof. reflexivity. Qed.

Lemma bind_Throw {A B : Type} (e : js_error) (k : A -> result B) :
  bind (Throw e) k = Throw e.
Proof. reflexivity. Qed.

Lemma bind_Ok_inv {A B : Type} (c : result A) (k : A -> result B) (b : B) :
  bind c k = Ok b -> exists a, c = Ok a /\ k a = Ok b.
Proof. destruct c; simpl; [eauto | discriminate]. Qed.

Lemma bind_Throw_inv {A B : Type} (c : result A) (k : A -> result B) (e : js_error) :
  bind c k = Throw e -> c = Throw e \/ exists a, c = Ok a /\ k a = Throw e.
Proof. destruct c; simpl; intros H; [right; eauto | left; congruence]. Qed.

(** ** Automation *)

Create HintDb colorful discriminated.
Create Rewrite HintDb colorful_rw.
#[export] Hint Rewrite @bind_Ok @bind_Throw : colorful_rw.

Ltac inv H := inversion H; subst; clear H.

(** Decide a closed boolean or equational goal by evaluation. *)
Ltac by_eval := vm_compute; reflexivity.

(** Case on every boolean test left in the goal. *)
Ltac destruct_ifs :=
  repeat match goal with |- context [if ?b then _ else _] => destruct b end.

(** Destruct [bind]s whose scrutinee is already known. *)
Ltac simpl_result :=
  repeat match goal with
  | H : bind ?c _ = Ok _ |- _ =>
      let a := fresh "a" in let Ha := fresh "Ha" in let Hk := fresh "Hk" in
      apply bind_Ok_inv in H; destruct H as (a & Ha & Hk)
  | H : Ok _ = Ok _ |- _ => injection H as H
  | H : Ok _ = Throw _ |- _ => discriminate H
  | H : Throw _ = Ok _ |- _ => discriminate H
  end.

(** ** Characters and strings

    JavaScript strings are sequences of UTF-16 code units; the model
    keeps 8-bit code units (Latin-1), which covers every character the
    program's grammars and keyword table mention. *)

Open Scope string_scope.

Definition code (c : ascii) : nat := nat_of_ascii c.

Definition in_range (lo hi : nat) (c : ascii) : bool :=
  Nat.leb lo (code c) && Nat.leb (code c) hi.

Definition is_digit (c : ascii) : bool := in_range 48 57 c.

(** [\s] of JavaScript regular expressions and [StrWhiteSpaceChar] of
    [StringToNumber], restricted to Latin-1: TAB, LF, VT, FF, CR, SPACE
    and NO-BREAK SPACE. *)
Definition is_space (c : ascii) : bool :=
  in_range 9 13 c || Nat.eqb (code c) 32 || Nat.eqb (code c) 160.

Definition digit_value (c : ascii) : Z := (Z.of_nat (code c) - 48)%Z.

Definition lower_char (c : ascii) : ascii :=
  if in_range 65 90 c then ascii_of_nat (code c + 32)%nat else c.
Definition upper_char (c : ascii) : ascii :=
  if in_range 97 122 c then ascii_of_nat (code c - 32)%nat else c.

Definition map_string (f : ascii -> ascii) (s : string) : string :=
  string_of_list_ascii (map f (list_ascii_of_string s)).

(** [String.prototype.toLowerCase] and [toUpperCase] on ASCII letters. *)
Definition toLowerCase (s : string) : string := map_string lower_char s.
Definition toUpperCase (s : string) : string := map_string upper_char s.

(** [Array.prototype.join] on strings. *)
Fixpoint join (sep : string) (l : list string) : string :=
  match l with
  | [] => ""
  | [x] => x
  | x :: l' => x ++ sep ++ join sep l'
  end.

Fixpoint repeat_char (c : ascii) (n : nat) : string :=
  match n with
  | O => ""
  | S n' => String c (repeat_char c n')
  end.

(** Generic lemmas on strings and lists. *)

Lemma list_ascii_of_string_app (s t : string) :
  list_ascii_of_string (s ++ t) = (list_ascii_of_string s ++ list_ascii_of_string t)%list.
Proof. induction s; simpl; f_equal; auto. Qed.

Lemma string_length_app (s t : string) :
  String.length (s ++ t) = (String.length s + String.length t)%nat.
Proof. induction s; simpl; auto. Qed.

Lemma length_list_ascii_of_string (s : string) :
  List.length (list_ascii_of_string s) = String.length s.
Proof. induction s; simpl; auto. Qed.

Lemma join_cons2 (sep x y : string) (l : list string) :
  join sep (x :: y :: l) = x ++ sep ++ join sep (y :: l).
Proof. reflexivity. Qed.

Lemma string_app_assoc (s t u : string) : (s ++ t) ++ u = s ++ (t ++ u).
Proof. induction s; simpl; f_equal; auto. Qed.

Lemma string_app_inv_l (s t u : string) : s ++ t = s ++ u -> t = u.
Proof. induction s; simpl; intros H; [exact H | injection H; auto]. Qed.

#[export] Hint Rewrite list_ascii_of_string_app string_length_app
  length_list_ascii_of_string join_cons2 : colorful_rw.
#[export] Hint Resolve string_app_inv_l : colorful.

(** ** Splitting a joined list back

    [join] is injective on lists of one length whose elements do not
    contain the first character of the separator: the text of an
    element ends at the first occurrence of that character. *)

Definition free_of (x : ascii) (s : string) : bool :=
  forallb (fun a => negb (Ascii.eqb a x)) (list_ascii_of_string s).

Lemma app_char_inj (x : ascii) (a a' r r' : string) :
  free_of x a = true -> free_of x a' = true ->
  a ++ String x r = a' ++ String x r' -> a = a' /\ r = r'.
Proof.
  revert a'. induction a as [|c a IH]; intros [|c' a'] Ha Ha' E; cbn in *.
  - injection E as ->. auto.
  - injection E as -> _. apply andb_prop in Ha' as [H _]. rewrite Ascii.eqb_refl in H. discriminate.
  - injection E as <- _. apply andb_prop in Ha as [H _]. rewrite Ascii.eqb_refl in H. discriminate.
  - apply andb_prop in Ha as [_ Ha]. apply andb_prop in Ha' as [_ Ha'].
    injection E as <- E. destruct (IH a' Ha Ha' E) as [<- <-]. auto.
Qed.

Lemma string_app_inv_r (s t u : string) : s ++ u = t ++ u -> s = t.
Proof.
  intros E. apply (f_equal list_ascii_of_string) in E. rewrite !list_ascii_of_string_app in E.
  apply app_inv_tail in E.
  rewrite <- (string_of_list_ascii_of_string s), <- (string_of_list_ascii_of_string t), E.
  reflexivity.
Qed.

Lemma join_inj (x : ascii) (rest : string) (l l' : list string) :
  List.length l = List.length l' ->
  forallb (free_of x) l = true -> forallb (free_of x) l' = true ->
  join (String x rest) l = join (String x rest) l' -> l = l'.
Proof.
  revert l'. induction l as [|a [|b l] IH]; intros [|a' [|b' l']] Hl H H' E;
    cbn [List.length] in Hl; try lia; [reflexivity | cbn in E; subst; reflexivity |].
  rewrite !join_cons2 in E. cbn [forallb] in H, H'.
  apply andb_prop in H as [Ha H]. apply andb_prop in H' as [Ha' H'].
  destruct (app_char_inj x a a' _ _ Ha Ha' E) as [<- E'].
  apply string_app_inv_l in E'. f_equal.
  apply IH; [cbn [List.length] in *; lia | exact H | exact H' | exact E'].
Qed.

(** A joined list between a fixed prefix and suffix, as the accessors
    write [rgb(...)] and [rgba(...)]. *)
Lemma wrapped_join_eq (pre post : string) (x : ascii) (rest : string) (l l' : list string) :
  List.length l = List.length l' ->
  forallb (free_of x) l = true -> forallb (free_of x) l' = true ->
  pre ++ join (String x rest) l ++ post = pre ++ join (String x rest) l' ++ post <-> l = l'.
Proof.
  intros Hl H H'. split; [|intros ->; reflexivity].
  intros E. apply string_app_inv_l, string_app_inv_r in E. exact (join_inj x rest l l' Hl H H' E).
Qed.

(** Boolean reflection for [forallb] over an enumerated range: the
    exhaustive theorems of the development are proved by evaluating
    such a check. *)
Lemma forallb_seq_spec (f : nat -> bool) (lo n : nat) :
  forallb f (seq lo n) = true -> forall i, (lo <= i < lo + n)%nat -> f i = true.
Proof.
  intros H i Hi. rewrite forallb_forall in H. apply H.
  apply in_seq. lia.
Qed.

Lemma forallb_Zrange (f : Z -> bool) (lo : Z) (n : nat) :
  forallb (fun i => f (lo + Z.of_nat i)%Z) (seq 0 n) = true ->
  forall z, (lo <= z < lo + Z.of_nat n)%Z -> f z = true.
Proof.
  intros H z Hz.
  pose proof (forallb_seq_spec (fun i => f (lo + Z.of_nat i)%Z) 0 n H
                (Z.to_nat (z - lo))) as Hf.
  simpl in Hf. rewrite Z2Nat.id in Hf by lia.
  replace (lo + (z - lo))%Z with z in Hf by lia.
  apply Hf. lia.
Qed.

(** A boolean property of characters holds of all 256 of them when
    it holds of each code. *)
Lemma ascii_forall (P : ascii -> bool) :
  forallb (fun n => P (ascii_of_nat n)) (seq 0 256) = true -> forall c, P c = true.
Proof.
  intros H c. rewrite <- (ascii_nat_embedding c).
  apply (forallb_seq_spec (fun n => P (ascii_of_nat n)) 0 256 H).
  pose proof (nat_ascii_bounded c). lia.
Qed.
