(* ===== verification/JsNumber.v ===== *)
(** * JavaScript Numbers

    The ECMAScript Number type (IEEE 754 binary64, [spec_float] of the
    Standard Library at precision 53 and maximal exponent 1024) and the
    runtime conversions the program relies on: [StringToNumber] (unary
    [+] on strings), [Number::toString], [Number.prototype.toFixed],
    [Number.prototype.toString(16)], [Math.round], [Math.floor],
    [Math.ceil] and the arithmetic and comparison operators.  These are
    modelled after ECMA-262; they are the runtime, not code of the
    repository. *)

From Stdlib Require Import ZArith List String Ascii Bool Lia QArith Qround Qabs.
From Stdlib Require Import SpecFloat DecimalString.
From S2P Require Import Prelude.
Import ListNotations.

Module JsNumber.

Definition prec : Z := 53.
Definition emax : Z := 1024.

Abbreviation num := spec_float.

Definition NaN : num := S754_nan.
Definition zero : num := S754_zero false.

(** ** Arithmetic and comparison (round to nearest, ties to even) *)

Definition add (x y : num) : num := SFadd prec emax x y.
Definition sub (x y : num) : num := SFsub prec emax x y.
Definition mul (x y : num) : num := SFmul prec emax x y.
Definition div (x y : num) : num := SFdiv prec emax x y.
Definition neg (x : num) : num := SFopp x.

(** [x === y] on numbers, [x < y], [x <= y], and [isNaN]. *)
Definition strict_eq (x y : num) : bool := SFeqb x y.
Definition lt (x y : num) : bool := SFltb x y.
Definition le (x y : num) : bool := SFleb x y.
Definition isNaN (x : num) : bool := match x with S754_nan => true | _ => false end.

(** Structural equality of representations (canonical values only:
    every value the model builds is canonical). *)
Definition num_eqb (x y : num) : bool :=
  match x, y with
  | S754_zero a, S754_zero b => Bool.eqb a b
  | S754_infinity a, S754_infinity b => Bool.eqb a b
  | S754_nan, S754_nan => true
  | S754_finite a m e, S754_finite b m' e' =>
      Bool.eqb a b && Pos.eqb m m' && Z.eqb e e'
  | _, _ => false
  end.

Lemma num_eqb_eq (x y : num) : num_eqb x y = true <-> x = y.
Proof.
  split.
  - destruct x, y; simpl; intros H; try discriminate;
      repeat match goal with
      | H : _ && _ = true |- _ => apply andb_true_iff in H; destruct H
      | H : Bool.eqb _ _ = true |- _ => apply Bool.eqb_prop in H
      | H : Pos.eqb _ _ = true |- _ => apply Pos.eqb_eq in H
      | H : Z.eqb _ _ = true |- _ => apply Z.eqb_eq in H
      end; subst; reflexivity.
  - intros ->. destruct y; simpl;
      rewrite ?Bool.eqb_reflx, ?Pos.eqb_refl, ?Z.eqb_refl; reflexivity.
Qed.

(** ** Exact values and conversions from integers and decimals *)

Definition of_Z (z : Z) : num := binary_normalize prec emax z 0 false.

(** [floor (log10 z)] for positive [z], from the length of its decimal
    representation. *)
Definition log10 (z : Z) : Z :=
  match z with
  | Zpos p => (Z.of_nat (Decimal.nb_digits (Pos.to_uint p)) - 1)%Z
  | _ => 0%Z
  end.

(** The exact rational value of a finite number. *)
Definition to_Q (x : num) : Q :=
  match x with
  | S754_finite s m e =>
      let v := if Z.leb 0 e then (Zpos m * 2 ^ e # 1)%Q
               else (Zpos m # Pos.pow 2 (Z.to_pos (- e)))%Q in
      if s then Qopp v else v
  | _ => 0%Q
  end.

(** Finite and integral (both zeros included). *)
Definition is_integral (x : num) : bool :=
  match x with
  | S754_zero _ => true
  | S754_finite _ m e => Z.leb 0 e || Z.eqb (Z.modulo (Zpos m) (2 ^ (- e))) 0
  | _ => false
  end.

Definition is_finite (x : num) : bool :=
  match x with S754_zero _ | S754_finite _ _ _ => true | _ => false end.

(** The number nearest to [m * 10 ^ e] (with sign [negative]).  Beyond
    10^400 the result is infinite and below 10^-330 it is zero, so the
    two short cuts do not change the rounded value. *)
Definition of_decimal (negative : bool) (m e : Z) : num :=
  match m with
  | Zpos p =>
      if Z.leb 0 e then
        if Z.ltb 400 e then S754_infinity negative
        else binary_round prec emax negative (Z.to_pos (Zpos p * 10 ^ e)) 0
      else if Z.ltb (log10 m + 1 + e) (-330) then S754_zero negative
      else
        let '(mz, ez, lz) := SFdiv_core_binary prec emax (Zpos p) 0 (10 ^ (- e)) 0 in
        binary_round_aux prec emax negative mz ez lz
  | _ => S754_zero negative
  end.

(** ** [StringToNumber] (unary [+] on a string) *)

Fixpoint span_digits (l : list ascii) : list ascii * list ascii :=
  match l with
  | c :: r => if is_digit c then let '(d, r') := span_digits r in (c :: d, r') else ([], l)
  | [] => ([], [])
  end.

Definition digits_to_Z (ds : list ascii) : Z :=
  fold_left (fun acc c => acc * 10 + digit_value c)%Z ds 0%Z.

Fixpoint drop_spaces (l : list ascii) : list ascii :=
  match l with
  | c :: r => if is_space c then drop_spaces r else l
  | [] => []
  end.

Definition trim (l : list ascii) : list ascii := rev (drop_spaces (rev (drop_spaces l))).

Definition is_exp_char (c : ascii) : bool := (c =? "e")%char || (c =? "E")%char.

(** [DecimalDigits] followed by nothing. *)
Definition digits_only (l : list ascii) : option Z :=
  let '(d, r) := span_digits l in
  match d, r with
  | _ :: _, [] => Some (digits_to_Z d)
  | _, _ => None
  end.

(** [ExponentPart] without its letter: [SignedInteger]. *)
Definition parse_exponent (l : list ascii) : option Z :=
  match l with
  | "+"%char :: r => digits_only r
  | "-"%char :: r => option_map Z.opp (digits_only r)
  | _ => digits_only l
  end.

(** [StrUnsignedDecimalLiteral] as mantissa and exponent (Infinity apart). *)
Definition parse_unsigned_decimal (l : list ascii) : option (Z * Z) :=
  let '(ip, r1) := span_digits l in
  let '(fp, r2) :=
    match r1 with
    | "."%char :: r => span_digits r
    | _ => ([], r1)
    end in
  match (ip ++ fp)%list with
  | [] => None
  | mant =>
      let m := digits_to_Z mant in
      let shift := Z.of_nat (List.length fp) in
      match r2 with
      | [] => Some (m, - shift)%Z
      | c :: r3 => if is_exp_char c
                   then option_map (fun x => (m, x - shift)%Z) (parse_exponent r3)
                   else None
      end
  end.

Definition infinity_chars : list ascii := list_ascii_of_string "Infinity".

Definition unsigned_to_number (negative : bool) (l : list ascii) : num :=
  if list_eq_dec ascii_dec l infinity_chars then S754_infinity negative
  else match parse_unsigned_decimal l with
       | Some (m, e) => of_decimal negative m e
       | None => NaN
       end.

(** [NonDecimalIntegerLiteral]: 0x, 0o and 0b literals, unsigned. *)
Definition radix_digit (radix : Z) (c : ascii) : option Z :=
  let n := Z.of_nat (code c) in
  let d := if is_digit c then Some (n - 48)%Z
           else if in_range 97 122 c then Some (n - 87)%Z
           else if in_range 65 90 c then Some (n - 55)%Z else None in
  match d with Some v => if Z.ltb v radix then Some v else None | None => None end.

Fixpoint radix_value (radix acc : Z) (l : list ascii) : option Z :=
  match l with
  | [] => Some acc
  | c :: r => match radix_digit radix c with
              | Some v => radix_value radix (acc * radix + v)%Z r
              | None => None
              end
  end.

Definition non_decimal (l : list ascii) : option Z :=
  match l with
  | "0"%char :: p :: (_ :: _) as r =>
      let radix := if (p =? "x")%char || (p =? "X")%char then 16%Z
                   else if (p =? "o")%char || (p =? "O")%char then 8%Z
                   else if (p =? "b")%char || (p =? "B")%char then 2%Z else 0%Z in
      if Z.eqb radix 0 then None else radix_value radix 0 r
  | _ => None
  end.

Definition StringToNumber (s : string) : num :=
  match trim (list_ascii_of_string s) with
  | [] => zero
  | "+"%char :: r => unsigned_to_number false r
  | "-"%char :: r => unsigned_to_number true r
  | l => match non_decimal l with
         | Some z => of_Z z
         | None => unsigned_to_number false l
         end
  end.

(** ** [Number::toString] (radix 10)

    For a positive finite [x], ECMA-262 picks the least [k] and integers
    [s], [n] with [10^(k-1) <= s < 10^k] such that [s * 10^(n-k)] rounds
    to [x], and among those the [s] nearest to [x].  The nearest
    [k]-digit decimals to [x] are [floor(x / 10^(n-k))] and its
    successor, and a decimal rounds to [x] exactly when it lies in the
    rounding interval of [x], so it suffices to test these two for each
    [k].  Seventeen significant digits always suffice for binary64; the
    fuel of [shortest_aux] is that bound. *)

Definition ratio (m : positive) (e : Z) : Z * Z :=
  if Z.leb 0 e then (Zpos m * 2 ^ e, 1)%Z else (Zpos m, 2 ^ (- e))%Z.

(** [N / D >= 10 ^ j]. *)
Definition ge_pow10 (N D j : Z) : bool :=
  if Z.leb 0 j then Z.leb (D * 10 ^ j) N else Z.leb D (N * 10 ^ (- j)).

(** The [n] with [10^(n-1) <= N/D < 10^n]. *)
Definition dec_exponent (N D : Z) : Z :=
  let n0 := (log10 N - log10 D)%Z in
  ((if ge_pow10 N D n0 then n0 else n0 - 1) + 1)%Z.

Definition floor_scaled (N D scale : Z) : Z :=
  if Z.leb 0 scale then (N / (D * 10 ^ scale))%Z else (N * 10 ^ (- scale) / D)%Z.

(** [|s * 10^scale - N/D|], scaled by a positive factor that depends
    only on [D] and [scale]. *)
Definition scaled_dist (N D s scale : Z) : Z :=
  if Z.leb 0 scale then Z.abs (s * 10 ^ scale * D - N)
  else Z.abs (s * D - N * 10 ^ (- scale)).

Definition round_trips (m : positive) (e s scale : Z) : bool :=
  num_eqb (of_decimal false s scale) (S754_finite false m e).

Fixpoint shortest_aux (fuel : nat) (k : Z) (m : positive) (e N D n : Z) : Z * Z :=
  match fuel with
  | O => (floor_scaled N D (n - 17), 17%Z)
  | S f =>
      let scale := (n - k)%Z in
      let lo := floor_scaled N D scale in
      let hi := (lo + 1)%Z in
      let ok_lo := round_trips m e lo scale in
      let ok_hi := round_trips m e hi scale in
      if ok_lo && ok_hi then
        match Z.compare (scaled_dist N D lo scale) (scaled_dist N D hi scale) with
        | Lt => (lo, k)
        | Gt => (hi, k)
        | Eq => if Z.even lo then (lo, k) else (hi, k)
        end
      else if ok_lo then (lo, k)
      else if ok_hi then (hi, k)
      else shortest_aux f (k + 1)%Z m e N D n
  end.

(** The triple [(s, k, n)] of ECMA-262 for the positive value [m * 2^e]. *)
Definition shortest (m : positive) (e : Z) : Z * Z * Z :=
  let '(N, D) := ratio m e in
  let n := dec_exponent N D in
  let '(s, k) := shortest_aux 17 1 m e N D n in
  if Z.eqb s (10 ^ k) then (10 ^ (k - 1), k, n + 1)%Z else (s, k, n).

Definition digits_of_Z (z : Z) : string :=
  match z with
  | Zpos p => NilEmpty.string_of_uint (Pos.to_uint p)
  | _ => "0"
  end.

Definition zeros (n : Z) : string := repeat_char "0" (Z.to_nat n).

(** Steps 6 to 10 of [Number::toString]. *)
Definition format_decimal (s k n : Z) : string :=
  let ds := digits_of_Z s in
  if Z.leb k n && Z.leb n 21 then ds ++ zeros (n - k)
  else if Z.ltb 0 n && Z.leb n 21 then
    substring 0 (Z.to_nat n) ds ++ "." ++ substring (Z.to_nat n) (Z.to_nat (k - n)) ds
  else if Z.ltb (-6) n && Z.leb n 0 then "0." ++ zeros (- n) ++ ds
  else
    let ex := (n - 1)%Z in
    let es := (if Z.ltb ex 0 then "-" else "+") ++ digits_of_Z (Z.abs ex) in
    if Z.eqb k 1 then ds ++ "e" ++ es
    else substring 0 1 ds ++ "." ++ substring 1 (Z.to_nat (k - 1)) ds ++ "e" ++ es.

Definition Number_toString (x : num) : string :=
  match x with
  | S754_nan => "NaN"
  | S754_zero _ => "0"
  | S754_infinity false => "Infinity"
  | S754_infinity true => "-Infinity"
  | S754_finite sg m e =>
      let '(s, k, n) := shortest m e in
      (if sg then "-" else "") ++ format_decimal s k n
  end.

(** ** [Math.round], [Math.floor], [Math.ceil] *)

Definition integral_result (sg : bool) (z : Z) : num :=
  if Z.eqb z 0 then S754_zero sg else of_Z z.

Definition Math_round (x : num) : num :=
  match x with
  | S754_finite sg _ e =>
      if Z.leb 0 e then x else integral_result sg (Qfloor (to_Q x + (1 # 2)))
  | _ => x
  end.

Definition Math_floor (x : num) : num :=
  match x with
  | S754_finite sg _ e => if Z.leb 0 e then x else integral_result sg (Qfloor (to_Q x))
  | _ => x
  end.

Definition Math_ceil (x : num) : num :=
  match x with
  | S754_finite sg _ e => if Z.leb 0 e then x else integral_result sg (Qceiling (to_Q x))
  | _ => x
  end.

(** ** [Number.prototype.toFixed] *)

(** [ToIntegerOrInfinity] on a number: [None] for the infinities. *)
Definition to_integer (x : num) : option Z :=
  match x with
  | S754_infinity _ => None
  | S754_finite _ _ _ => Some (Qround.Qfloor (Qabs (to_Q x)) * (if Qle_bool 0 (to_Q x) then 1 else -1))%Z
  | _ => Some 0%Z
  end.

Definition toFixed_range_error : js_error :=
  RangeError "toFixed() digits argument must be between 0 and 100".

Definition Number_toFixed (x : num) (fractionDigits : num) : result string :=
  match to_integer fractionDigits with
  | Some f =>
      if Z.ltb f 0 || Z.ltb 100 f then Throw toFixed_range_error
      else if negb (is_finite x) then Ok (Number_toString x)
      else
        let q := to_Q x in
        let sign := if negb (Qle_bool 0 q) then "-" else "" in
        let q := Qabs q in
        if Qle_bool (10 ^ 21 # 1) q then Ok (sign ++ Number_toString (SFabs x))
        else
          let n := Qfloor (q * (10 ^ f # 1) + (1 # 2)) in
          let m := digits_of_Z n in
          if Z.eqb f 0 then Ok (sign ++ m)
          else
            let k := Z.of_nat (String.length m) in
            let '(m, k) := if Z.leb k f then (zeros (f + 1 - k) ++ m, (f + 1)%Z) else (m, k) in
            Ok (sign ++ substring 0 (Z.to_nat (k - f)) m ++ "." ++
                substring (Z.to_nat (k - f)) (Z.to_nat f) m)
  | None => Throw toFixed_range_error
  end.

(** ** [Number.prototype.toString(16)] on integral values

    The program converts only results of [Math.round] (integral, NaN or
    infinite); the fractional digits of a non-integral value are not
    modelled and the integral part is printed. *)

Definition hex_char (d : Z) : ascii :=
  if Z.ltb d 10 then ascii_of_nat (Z.to_nat (48 + d)) else ascii_of_nat (Z.to_nat (87 + d)).

Fixpoint hex_digits_aux (fuel : nat) (z : Z) (acc : string) : string :=
  match fuel with
  | O => acc
  | S f => if Z.ltb z 16 then String (hex_char z) acc
           else hex_digits_aux f (z / 16) (String (hex_char (z mod 16)) acc)
  end.

Definition hex_digits (z : Z) : string :=
  hex_digits_aux (S (Z.to_nat (Z.log2 (Z.max z 1)))) z "".

Definition Number_toString16 (x : num) : string :=
  match x with
  | S754_finite sg _ _ =>
      let q := to_Q x in
      (if sg then "-" else "") ++ hex_digits (Qfloor (Qabs q))
  | _ => Number_toString x
  end.

(** ** [parseInt(string, 16)]

    Leading white space, an optional sign, an optional [0x] prefix, then
    the longest prefix of hexadecimal digits; [NaN] when there is none. *)

Fixpoint hex_prefix (acc : Z) (seen : bool) (l : list ascii) : option Z :=
  match l with
  | c :: r => match radix_digit 16 c with
              | Some v => hex_prefix (acc * 16 + v)%Z true r
              | None => if seen then Some acc else None
              end
  | [] => if seen then Some acc else None
  end.

Definition parseInt16 (s : string) : num :=
  let l := drop_spaces (list_ascii_of_string s) in
  let '(negative, l) := match l with
                        | "-"%char :: r => (true, r)
                        | "+"%char :: r => (false, r)
                        | _ => (false, l)
                        end in
  let l := match l with
           | "0"%char :: x :: r => if (x =? "x")%char || (x =? "X")%char then r else l
           | _ => l
           end in
  match hex_prefix 0 false l with
  | Some z => if negative then (if Z.eqb z 0 then S754_zero true else of_Z (- z)) else of_Z z
  | None => NaN
  end.

End JsNumber.
