(* ===== verification/JsValue.v ===== *)
(** * JavaScript values

    The values a caller passes to [Color] and in option objects, the raw
    color record a [Color] instance holds, and the ECMAScript operations
    the program applies to values: [ToString] (with
    [Array.prototype.join]), [ToNumber], truthiness, property access,
    [_.keys], and the operators [+], [-], [<=], [>=], [>] on mixed
    operands.  This is the runtime, not code of the repository. *)

From Stdlib Require Import ZArith List String Ascii Bool Lia.
From Stdlib Require Import SpecFloat.
From S2P Require Import Prelude JsNumber.
Import ListNotations.
Import JsNumber.

Module JsValue.

Local Set Warnings "-register-all".


(** ** Raw colors and input values *)

(** [_rawColor]: [{r, g, b, a}] with numeric fields. *)
Record raw_color := { r : num; g : num; b : num; a : num }.

(** Values a caller can pass to [Color]: [JColor] is an existing
    [Color] instance, given by its [_input] and [_rawColor]. *)
Inductive jsval : Type :=
  | JUndefined
  | JNull
  | JBool (v : bool)
  | JNum (x : num)
  | JStr (s : string)
  | JArr (elems : list jsval)
  | JObj (props : list (string * jsval))
  | JColor (input : jsval) (raw : option raw_color).

(** [ToString] of a value, with [Array.prototype.join]'s rendering of
    elements ([undefined] and [null] as the empty string). *)
Fixpoint js_to_string (v : jsval) : string :=
  match v with
  | JUndefined => "undefined"
  | JNull => "null"
  | JBool true => "true"
  | JBool false => "false"
  | JNum x => Number_toString x
  | JStr s => s
  | JArr l =>
      join "," ((fix elems (l : list jsval) : list string :=
                   match l with
                   | [] => []
                   | (JUndefined | JNull) :: l' => "" :: elems l'
                   | x :: l' => js_to_string x :: elems l'
                   end) l)
  | JObj _ | JColor _ _ => "[object Object]"
  end.

Definition join_element (v : jsval) : string :=
  match v with JUndefined | JNull => "" | _ => js_to_string v end.

(** [array.join(sep)] *)
Definition array_join (sep : string) (l : list jsval) : string := join sep (map join_element l).

(** [obj[key]] on an object given by its own properties. *)
Definition get_prop (props : list (string * jsval)) (key : string) : jsval :=
  match find (fun kv => String.eqb (fst kv) key) props with
  | Some (_, v) => v
  | None => JUndefined
  end.

(** [_.keys]: own enumerable keys. *)
Definition keys (v : jsval) : list string :=
  match v with
  | JArr l => map (fun i => js_to_string (JNum (of_Z (Z.of_nat i)))) (seq 0 (List.length l))
  | JObj props => map fst props
  | _ => []
  end.

(** [_.intersection(names, keys).length] *)
Definition intersection_length (names keys : list string) : nat :=
  List.length (filter (fun n => existsb (String.eqb n) keys) names).

(** [color[key]] on an array or object. *)
Definition get_field (v : jsval) (key : string) : jsval :=
  match v with
  | JObj props => get_prop props key
  | JArr l =>
      match find (fun iv => String.eqb (fst iv) key)
                 (combine (keys v) l) with
      | Some (_, x) => x
      | None => JUndefined
      end
  | _ => JUndefined
  end.

(** [ToNumber] of a value ([ToPrimitive] of an object gives its string). *)
Definition to_number (v : jsval) : num :=
  match v with
  | JUndefined => NaN
  | JNull => zero
  | JBool true => of_Z 1
  | JBool false => zero
  | JNum x => x
  | JStr s => StringToNumber s
  | JArr _ => StringToNumber (js_to_string v)
  | JObj _ | JColor _ _ => NaN
  end.

(** [ToBoolean] *)
Definition truthy (v : jsval) : bool :=
  match v with
  | JUndefined | JNull => false
  | JBool b => b
  | JNum x => match x with S754_zero _ | S754_nan => false | _ => true end
  | JStr s => negb (String.eqb s "")
  | _ => true
  end.

(** [x || y] and [x && y] on values. *)
Definition js_or (x y : jsval) : jsval := if truthy x then x else y.
Definition js_and (x y : jsval) : jsval := if truthy x then y else x.

(** [ToPrimitive]: objects and arrays become their strings. *)
Definition to_primitive (v : jsval) : jsval :=
  match v with
  | JArr _ | JObj _ | JColor _ _ => JStr (js_to_string v)
  | _ => v
  end.

(** [x + y]: string concatenation when either primitive is a string. *)
Definition js_plus (x y : jsval) : jsval :=
  match to_primitive x, to_primitive y with
  | JStr s, py => JStr (s ++ js_to_string py)
  | px, JStr t => JStr (js_to_string px ++ t)
  | px, py => JNum (add (to_number px) (to_number py))
  end.

(** [x - y] *)
Definition js_minus (x y : jsval) : jsval := JNum (sub (to_number x) (to_number y)).

Fixpoint string_lt (s t : list ascii) : bool :=
  match s, t with
  | _, [] => false
  | [], _ :: _ => true
  | a :: s', b :: t' =>
      if Nat.ltb (code a) (code b) then true
      else if Nat.eqb (code a) (code b) then string_lt s' t' else false
  end.

(** [IsLessThan]: [Some] of the comparison, [None] when a NaN is involved. *)
Definition is_less_than (x y : jsval) : option bool :=
  match to_primitive x, to_primitive y with
  | JStr s, JStr t => Some (string_lt (list_ascii_of_string s) (list_ascii_of_string t))
  | px, py =>
      let nx := to_number px in let ny := to_number py in
      if isNaN nx || isNaN ny then None else Some (lt nx ny)
  end.

(** [x <= y], [x >= y], [x > y] *)
Definition js_le (x y : jsval) : bool :=
  match is_less_than y x with Some false => true | _ => false end.
Definition js_ge (x y : jsval) : bool :=
  match is_less_than x y with Some false => true | _ => false end.
Definition js_gt (x y : jsval) : bool :=
  match is_less_than y x with Some true => true | _ => false end.

(** [x === y] *)
Definition strict_equals (x y : jsval) : bool :=
  match x, y with
  | JUndefined, JUndefined | JNull, JNull => true
  | JBool a, JBool b => Bool.eqb a b
  | JNum a, JNum b => strict_eq a b
  | JStr s, JStr t => String.eqb s t
  | _, _ => false
  end.

End JsValue.
