(* ===== verification/Regex.v ===== *)
(** * JavaScript regular expressions

    The subset of ECMAScript regular expressions the program builds:
    character classes, concatenation, alternation, greedy repetition,
    capturing groups and the anchors [^] and [$] (no multiline flag).
    [m] is the backtracking matcher of ECMA-262 (section "Pattern
    Semantics") in continuation-passing style; [exec] is
    [RegExpBuiltinExec] for a regular expression without the global
    flag, which tries each start index in turn.  [accepts] is the
    relational semantics, and [m_sound] and [m_complete] relate the two.
    Like the runtime, this is not code of the repository. *)

From Stdlib Require Import List String Ascii Bool Arith Lia.
From S2P Require Import Prelude.
Import ListNotations.

Module Regex.

(** ** Syntax *)

Inductive cclass : Type :=
  | CChar (c : ascii)
  | CRange (lo hi : ascii)
  | CDigit                        (* \d *)
  | CSpace                        (* \s *)
  | CUnion (a b : cclass).

Fixpoint cc_match (cc : cclass) (a : ascii) : bool :=
  match cc with
  | CChar c => Ascii.eqb a c
  | CRange lo hi => in_range (code lo) (code hi) a
  | CDigit => is_digit a
  | CSpace => is_space a
  | CUnion x y => cc_match x a || cc_match y a
  end.

Inductive regex : Type :=
  | Empty                          (* the empty alternative *)
  | Chr (cc : cclass)
  | Seq (r1 r2 : regex)
  | Alt (r1 r2 : regex)            (* r1|r2 *)
  | Star (r : regex)               (* r*, greedy *)
  | Group (n : nat) (r : regex)    (* (r), capture number n *)
  | Bol                            (* ^ *)
  | Eol.                           (* $ *)

(** Greedy quantifiers as the repetitions they abbreviate. *)
Definition opt (r : regex) : regex := Alt r Empty.                 (* r? *)
Definition plus (r : regex) : regex := Seq r (Star r).             (* r+ *)
Fixpoint rep (n : nat) (r : regex) : regex :=                     (* r{n} *)
  match n with O => Empty | S n' => Seq r (rep n' r) end.
Fixpoint upto (n : nat) (r : regex) : regex :=                    (* r{0,n} *)
  match n with O => Empty | S n' => opt (Seq r (upto n' r)) end.

(** A literal string. *)
Fixpoint lit_chars (l : list ascii) : regex :=
  match l with
  | [] => Empty
  | [a] => Chr (CChar a)
  | a :: l' => Seq (Chr (CChar a)) (lit_chars l')
  end.
Definition lit (s : string) : regex := lit_chars (list_ascii_of_string s).

Definition seqs (rs : list regex) : regex := fold_right Seq Empty rs.

(** ** Backtracking matcher *)

(** Captures: entry [n] is the text of group [n], [None] when the group
    did not participate ([undefined]). *)
Definition caps := list (option string).

Fixpoint set_cap (n : nat) (v : string) (c : caps) : caps :=
  match n, c with
  | O, _ :: c' => Some v :: c'
  | O, [] => [Some v]
  | S n', x :: c' => x :: set_cap n' v c'
  | S n', [] => None :: set_cap n' v []
  end.

Definition mres := (list ascii * caps)%type.
Definition cont := list ascii -> caps -> option mres.

(** The text between two positions of the input, given by the suffixes
    that remain there. *)
Definition consumed (s s' : list ascii) : string :=
  string_of_list_ascii (firstn (List.length s - List.length s') s).

Section Star.
Variable step : list ascii -> caps -> cont -> option mres.
Variable k : cont.

(** [RepeatMatcher] with min 0 and max infinity, greedy: try one more
    iteration, which must consume input, before the continuation. *)
Fixpoint star_loop (fuel : nat) (s : list ascii) (c : caps) : option mres :=
  match fuel with
  | O => k s c
  | S f =>
      match step s c (fun s' c' => if Nat.ltb (List.length s') (List.length s) then star_loop f s' c' else None) with
      | Some x => Some x
      | None => k s c
      end
  end.
End Star.

(** [total] is the List.length of the whole input, so that [^] can tell the
    start of input from the current position. *)
Fixpoint m (total : nat) (r : regex) (s : list ascii) (c : caps) (k : cont) {struct r}
  : option mres :=
  match r with
  | Empty => k s c
  | Chr cc => match s with
              | a :: s' => if cc_match cc a then k s' c else None
              | [] => None
              end
  | Seq r1 r2 => m total r1 s c (fun s1 c1 => m total r2 s1 c1 k)
  | Alt r1 r2 => match m total r1 s c k with
                 | Some x => Some x
                 | None => m total r2 s c k
                 end
  | Star r1 => star_loop (m total r1) k (S (List.length s)) s c
  | Group n r1 => m total r1 s c (fun s' c' => k s' (set_cap n (consumed s s') c'))
  | Bol => if Nat.eqb (List.length s) total then k s c else None
  | Eol => match s with [] => k s c | _ => None end
  end.

Definition final : cont := fun s c => Some (s, c).

(** A successful [exec]: start index, end index and captures. *)
Record match_result := { m_start : nat; m_end : nat; m_caps : caps }.

Fixpoint search (total : nat) (r : regex) (s : list ascii) : option match_result :=
  match m total r s [] final with
  | Some (s', c) => Some {| m_start := total - List.length s; m_end := total - List.length s'; m_caps := c |}
  | None => match s with
            | [] => None
            | _ :: s1 => search total r s1
            end
  end.

Definition exec (r : regex) (input : string) : option match_result :=
  let l := list_ascii_of_string input in search (List.length l) r l.

(** [match[i]] of the result array for [i >= 1]: [undefined] as [None]. *)
Definition group (res : match_result) (i : nat) : option string :=
  match nth_error (m_caps res) i with Some v => v | None => None end.

(** ** Relational semantics *)

Inductive accepts (total : nat) : regex -> list ascii -> caps -> list ascii -> caps -> Prop :=
  | acc_empty s c : accepts total Empty s c s c
  | acc_chr cc a s c : cc_match cc a = true -> accepts total (Chr cc) (a :: s) c s c
  | acc_seq r1 r2 s c s1 c1 s2 c2 :
      accepts total r1 s c s1 c1 -> accepts total r2 s1 c1 s2 c2 ->
      accepts total (Seq r1 r2) s c s2 c2
  | acc_alt_l r1 r2 s c s' c' : accepts total r1 s c s' c' -> accepts total (Alt r1 r2) s c s' c'
  | acc_alt_r r1 r2 s c s' c' : accepts total r2 s c s' c' -> accepts total (Alt r1 r2) s c s' c'
  | acc_star_nil r s c : accepts total (Star r) s c s c
  | acc_star_cons r s c s1 c1 s2 c2 :
      accepts total r s c s1 c1 -> List.length s1 < List.length s ->
      accepts total (Star r) s1 c1 s2 c2 -> accepts total (Star r) s c s2 c2
  | acc_group n r s c s' c' :
      accepts total r s c s' c' ->
      accepts total (Group n r) s c s' (set_cap n (consumed s s') c')
  | acc_bol s c : List.length s = total -> accepts total Bol s c s c
  | acc_eol c : accepts total Eol [] c [] c.

#[export] Hint Constructors accepts : colorful.

(** ** Soundness: whatever the matcher returns comes from a derivation *)

Section Soundness.
Variable total : nat.

Lemma star_loop_sound (r : regex) (k : cont) :
  (forall s c k' res, m total r s c k' = Some res ->
     exists s' c', accepts total r s c s' c' /\ k' s' c' = Some res) ->
  forall fuel s c res, star_loop (m total r) k fuel s c = Some res ->
    exists s' c', accepts total (Star r) s c s' c' /\ k s' c' = Some res.
Proof.
  intros IH fuel. induction fuel as [|f IHf]; intros s c res H; simpl in H.
  - eauto with colorful.
  - destruct (m total r s c _) as [x|] eqn:E.
    + injection H as <-. apply IH in E as (s1 & c1 & Hacc & Hk).
      destruct (Nat.ltb (List.length s1) (List.length s)) eqn:L; [|discriminate].
      apply Nat.ltb_lt in L. apply IHf in Hk as (s2 & c2 & Hacc2 & Hk2).
      eauto with colorful.
    + eauto with colorful.
Qed.

Theorem m_sound (r : regex) :
  forall s c k res, m total r s c k = Some res ->
    exists s' c', accepts total r s c s' c' /\ k s' c' = Some res.
Proof.
  induction r as [| cc | r1 IH1 r2 IH2 | r1 IH1 r2 IH2 | r IH | n r IH | |];
    intros s c k res H; simpl in H.
  - eauto with colorful.
  - destruct s as [|a s]; [discriminate|].
    destruct (cc_match cc a) eqn:E; [eauto with colorful | discriminate].
  - apply IH1 in H as (s1 & c1 & H1 & H2). apply IH2 in H2 as (s2 & c2 & H2 & H3).
    eauto with colorful.
  - destruct (m total r1 s c k) eqn:E.
    + injection H as <-. apply IH1 in E as (? & ? & ? & ?). eauto with colorful.
    + apply IH2 in H as (? & ? & ? & ?). eauto with colorful.
  - exact (star_loop_sound r k IH (S (List.length s)) s c res H).
  - apply IH in H as (s' & c' & H1 & H2).
    exists s', (set_cap n (consumed s s') c'). split; [constructor; exact H1 | exact H2].
  - destruct (Nat.eqb (List.length s) total) eqn:E; [|discriminate].
    apply Nat.eqb_eq in E. eauto with colorful.
  - destruct s; [eauto with colorful | discriminate].
Qed.
End Soundness.

(** ** Completeness: a derivation whose continuation succeeds is found

    Captures are a function of the path through the pattern, so the
    matcher reaches the continuation with the very captures of the
    derivation, unless it succeeds earlier. *)

Section Completeness.
Variable total : nat.

Lemma star_loop_complete (r : regex) :
  (forall s c s' c', accepts total r s c s' c' ->
     forall k, k s' c' <> None -> m total r s c k <> None) ->
  forall s c s' c', accepts total (Star r) s c s' c' ->
    forall k fuel, List.length s < fuel -> k s' c' <> None ->
      star_loop (m total r) k fuel s c <> None.
Proof.
  intros Hr s c s' c' H. remember (Star r) as rs eqn:Ers.
  induction H; try discriminate; injection Ers as <-;
    intros k fuel Hfuel Hk; (destruct fuel as [|f]; [lia|]); simpl.
  - destruct (m total r0 s c _); [discriminate | exact Hk].
  - destruct (m total r0 s c _) eqn:E; [discriminate|].
    exfalso. revert E. eapply Hr; [eassumption|].
    pose proof H0 as Hlt. apply Nat.ltb_lt in H0. rewrite H0. apply IHaccepts2; auto; lia.
Qed.

Theorem m_complete (r : regex) :
  forall s c s' c', accepts total r s c s' c' ->
    forall k, k s' c' <> None -> m total r s c k <> None.
Proof.
  induction r as [| cc | r1 IH1 r2 IH2 | r1 IH1 r2 IH2 | r IH | n r IH | |];
    intros s c s' c' Hacc k Hk; inversion Hacc; subst; cbn [m].
  - exact Hk.
  - match goal with H : cc_match _ _ = true |- _ => rewrite H end. exact Hk.
  - eapply IH1; [eassumption|]. eapply IH2; eassumption.
  - destruct (m total r1 s c k) eqn:E; [discriminate|]. exfalso. eapply IH1; eauto.
  - destruct (m total r1 s c k); [discriminate|]. eapply IH2; eassumption.
  - apply (star_loop_complete r IH _ _ _ _ Hacc); [lia | exact Hk].
  - apply (star_loop_complete r IH _ _ _ _ Hacc); [lia | exact Hk].
  - eapply IH; eassumption.
  - rewrite Nat.eqb_refl. exact Hk.
  - exact Hk.
Qed.
End Completeness.

(** A derivation consumes a prefix of its input. *)
Lemma accepts_suffix (total : nat) (r : regex) (s : list ascii) (c : caps) (s' : list ascii) (c' : caps) :
  accepts total r s c s' c' -> exists p, s = (p ++ s')%list.
Proof.
  induction 1;
    repeat match goal with H : exists _, _ |- _ => destruct H as [? ->] end;
    try (exists []; reflexivity).
  - exists [a]; reflexivity.
  - eexists. rewrite app_assoc. reflexivity.
  - eexists; reflexivity.
  - eexists; reflexivity.
  - eexists. rewrite app_assoc. reflexivity.
  - eexists; reflexivity.
Qed.

Lemma accepts_seq_inv (total : nat) (r1 r2 : regex) (s : list ascii) (c : caps) (s2 : list ascii) (c2 : caps) :
  accepts total (Seq r1 r2) s c s2 c2 ->
  exists s1 c1, accepts total r1 s c s1 c1 /\ accepts total r2 s1 c1 s2 c2.
Proof. inversion 1; subst. eauto. Qed.

(** A character the derivation consumes occurs in the input. *)
Lemma accepts_chr_in (total : nat) (cc : cclass) (s : list ascii) (c : caps) (s' : list ascii) (c' : caps) :
  accepts total (Chr cc) s c s' c' -> exists a, In a s /\ cc_match cc a = true.
Proof. inversion 1; subst. exists a. split; [left; reflexivity | assumption]. Qed.

(** ** Derivations of patterns over one character class

    [chars_in P r] holds when [r] has no group and no anchor and each of
    its character classes only admits characters satisfying [P]; such a
    pattern consumes a run of [P] characters and leaves the captures
    alone, wherever it stands in the input. *)

Definition class_in (P : ascii -> bool) (cc : cclass) : bool :=
  forallb (fun n => implb (cc_match cc (ascii_of_nat n)) (P (ascii_of_nat n))) (seq 0 256).

Fixpoint chars_in (P : ascii -> bool) (r : regex) : bool :=
  match r with
  | Empty => true
  | Chr cc => class_in P cc
  | Seq r1 r2 | Alt r1 r2 => chars_in P r1 && chars_in P r2
  | Star r1 => chars_in P r1
  | Group _ _ | Bol | Eol => false
  end.

Lemma class_in_spec (P : ascii -> bool) (cc : cclass) (a : ascii) :
  class_in P cc = true -> cc_match cc a = true -> P a = true.
Proof.
  intros H Ha. pose proof (ascii_forall (fun a => implb (cc_match cc a) (P a)) H a) as E.
  cbv beta in E. rewrite Ha in E. exact E.
Qed.

Lemma accepts_chars_in (P : ascii -> bool) (total : nat) (r : regex) (s : list ascii) (c : caps)
    (s' : list ascii) (c' : caps) :
  accepts total r s c s' c' -> chars_in P r = true ->
  exists p, s = (p ++ s')%list /\ forallb P p = true /\ c' = c.
Proof.
  induction 1; cbn [chars_in]; intros Hr;
    repeat match goal with H : _ && _ = true |- _ => apply andb_prop in H as [? ?] end;
    try discriminate.
  - exists []. auto.
  - exists [a]. simpl. erewrite class_in_spec by eassumption. auto.
  - destruct IHaccepts1 as (p1 & -> & Hp1 & ->); [assumption|].
    destruct IHaccepts2 as (p2 & -> & Hp2 & ->); [assumption|].
    exists (p1 ++ p2)%list. rewrite app_assoc, forallb_app, Hp1, Hp2. auto.
  - apply IHaccepts; assumption.
  - apply IHaccepts; assumption.
  - exists []. auto.
  - destruct IHaccepts1 as (p1 & -> & Hp1 & ->); [assumption|].
    destruct IHaccepts2 as (p2 & -> & Hp2 & ->); [assumption|].
    exists (p1 ++ p2)%list. rewrite app_assoc, forallb_app, Hp1, Hp2. auto.
Qed.

(** Such a derivation can be moved to any position, total length and
    captures. *)
Lemma accepts_shift (P : ascii -> bool) (total : nat) (r : regex) (s : list ascii) (c : caps)
    (s' : list ascii) (c' : caps) :
  accepts total r s c s' c' -> chars_in P r = true ->
  forall total' c0 t, accepts total' r (s ++ t) c0 (s' ++ t) c0.
Proof.
  induction 1; cbn [chars_in]; intros Hr total' c0 t;
    repeat match goal with H : _ && _ = true |- _ => apply andb_prop in H as [? ?] end;
    try discriminate; eauto with colorful.
  - eapply acc_star_cons; [apply IHaccepts1; assumption | | apply IHaccepts2; assumption].
    rewrite !length_app. lia.
Qed.

Lemma accepts_group_inv (total n : nat) (r : regex) (s : list ascii) (c : caps) (s' : list ascii) (c' : caps) :
  accepts total (Group n r) s c s' c' ->
  exists c1, accepts total r s c s' c1 /\ c' = set_cap n (consumed s s') c1.
Proof. inversion 1; subst. eauto. Qed.

Lemma consumed_app (p s : list ascii) : consumed (p ++ s) s = string_of_list_ascii p.
Proof.
  unfold consumed. rewrite length_app, Nat.add_sub, firstn_app, Nat.sub_diag, firstn_all.
  simpl. rewrite app_nil_r. reflexivity.
Qed.

(** A literal consumes exactly its characters. *)
Lemma accepts_lit_chars (total : nat) (a : ascii) (l : list ascii) (s : list ascii) (c : caps)
    (s' : list ascii) (c' : caps) :
  accepts total (lit_chars (a :: l)) s c s' c' -> s = (a :: l ++ s')%list /\ c' = c.
Proof.
  revert a s c. induction l as [|b l IH]; intros a s c H.
  - inversion H as [| ? ? ? ? Hc | | | | | | | |]; subst.
    apply Ascii.eqb_eq in Hc. subst. auto.
  - apply accepts_seq_inv in H as (s1 & c1 & H1 & H2).
    inversion H1 as [| ? ? ? ? Hc | | | | | | | |]; subst. apply Ascii.eqb_eq in Hc. subst.
    apply IH in H2 as [-> ->]. auto.
Qed.

(** The fewest characters a pattern consumes. *)
Fixpoint min_len (r : regex) : nat :=
  match r with
  | Chr _ => 1
  | Seq r1 r2 => min_len r1 + min_len r2
  | Alt r1 r2 => Nat.min (min_len r1) (min_len r2)
  | Group _ r1 => min_len r1
  | Empty | Star _ | Bol | Eol => 0
  end.

Lemma accepts_min_len (total : nat) (r : regex) (s : list ascii) (c : caps) (s' : list ascii) (c' : caps) :
  accepts total r s c s' c' -> min_len r + List.length s' <= List.length s.
Proof.
  induction 1; cbn [min_len List.length] in *; lia.
Qed.

(** The most characters a pattern consumes, [None] when unbounded. *)
Fixpoint max_len (r : regex) : option nat :=
  match r with
  | Empty | Bol | Eol => Some 0
  | Chr _ => Some 1
  | Seq r1 r2 => match max_len r1, max_len r2 with
                 | Some a, Some b => Some (a + b)
                 | _, _ => None
                 end
  | Alt r1 r2 => match max_len r1, max_len r2 with
                 | Some a, Some b => Some (Nat.max a b)
                 | _, _ => None
                 end
  | Star _ => None
  | Group _ r1 => max_len r1
  end.

Lemma accepts_max_len (total : nat) (r : regex) (s : list ascii) (c : caps) (s' : list ascii) (c' : caps) :
  accepts total r s c s' c' -> forall k, max_len r = Some k -> List.length s <= k + List.length s'.
Proof.
  induction 1; cbn [max_len]; intros k Hk;
    repeat match goal with
           | H : match ?x with _ => _ end = Some _ |- _ => destruct x eqn:?; try discriminate
           end;
    try (injection Hk as <-); cbn [List.length] in *; try discriminate;
    repeat match goal with
           | IH : forall k, Some ?a = Some k -> _ |- _ => specialize (IH _ eq_refl)
           | IH : forall k, max_len ?r = Some k -> _, E : max_len ?r = Some _ |- _ => specialize (IH _ E)
           end; lia.
Qed.

(** A derivation of a pattern over one class, cut to the characters it
    consumes. *)
Lemma accepts_trim (P : ascii -> bool) (total : nat) (r : regex) (s : list ascii) (c : caps)
    (s' : list ascii) (c' : caps) :
  accepts total r s c s' c' -> chars_in P r = true ->
  forall x, s = (x ++ s')%list -> forall total' c0, accepts total' r x c0 [] c0.
Proof.
  induction 1; cbn [chars_in]; intros Hr x Ex total' c0;
    repeat match goal with H : _ && _ = true |- _ => apply andb_prop in H as [? ?] end;
    try discriminate.
  - rewrite <- (app_nil_l s) in Ex at 1. apply app_inv_tail in Ex. subst. constructor.
  - change (a :: s)%list with ([a] ++ s)%list in Ex. apply app_inv_tail in Ex. subst.
    constructor. assumption.
  - destruct (accepts_chars_in P _ _ _ _ _ _ H ltac:(assumption)) as (p1 & E1 & _ & _).
    destruct (accepts_chars_in P _ _ _ _ _ _ H0 ltac:(assumption)) as (p2 & E2 & _ & _).
    rewrite E1, E2, app_assoc in Ex. apply app_inv_tail in Ex. subst x.
    eapply acc_seq; [| apply (IHaccepts2 ltac:(assumption) p2 E2)].
    pose proof (accepts_shift P _ _ _ _ _ _ (IHaccepts1 ltac:(assumption) p1 E1 total' c0)
                  ltac:(assumption) total' c0 p2) as Hs. exact Hs.
  - apply acc_alt_l. apply IHaccepts; assumption.
  - apply acc_alt_r. apply IHaccepts; assumption.
  - rewrite <- (app_nil_l s) in Ex at 1. apply app_inv_tail in Ex. subst. constructor.
  - destruct (accepts_chars_in P _ _ _ _ _ _ H ltac:(assumption)) as (p1 & E1 & _ & _).
    destruct (accepts_chars_in P _ _ _ _ _ _ H1 ltac:(assumption)) as (p2 & E2 & _ & _).
    rewrite E1, E2, app_assoc in Ex. apply app_inv_tail in Ex. subst x.
    eapply acc_star_cons; [| | apply (IHaccepts2 ltac:(assumption) p2 E2)].
    + exact (accepts_shift P _ _ _ _ _ _ (IHaccepts1 ltac:(assumption) p1 E1 total' c0)
               ltac:(assumption) total' c0 p2).
    + rewrite E1, !length_app in *. lia.
Qed.

(** The longest run of [P] characters is unique. *)
Definition head_not (P : ascii -> bool) (s : list ascii) : bool :=
  match s with [] => true | a :: _ => negb (P a) end.

Lemma run_unique (P : ascii -> bool) (p q s1 s2 : list ascii) :
  forallb P p = true -> forallb P q = true -> (p ++ s1)%list = (q ++ s2)%list ->
  head_not P s1 = true -> head_not P s2 = true -> p = q /\ s1 = s2.
Proof.
  revert q. induction p as [|a p IH]; intros [|b q] Hp Hq E H1 H2; simpl in *.
  - auto.
  - subst s1. simpl in H1. apply andb_prop in Hq as [Hb _]. rewrite Hb in H1. discriminate.
  - subst s2. simpl in H2. apply andb_prop in Hp as [Ha _]. rewrite Ha in H2. discriminate.
  - injection E as <- E. apply andb_prop in Hp as [_ Hp]. apply andb_prop in Hq as [_ Hq].
    destruct (IH q Hp Hq E H1 H2) as [-> ->]. auto.
Qed.

(** ** Anchored patterns

    A pattern that starts with [^] can only match at index 0, so [exec]
    runs the matcher once on the whole input. *)

Lemma search_anchored_short (total : nat) (r : regex) (s : list ascii) :
  List.length s < total -> search total (Seq Bol r) s = None.
Proof.
  induction s as [|a s IH]; intros H; cbn [search m].
  - destruct (Nat.eqb (List.length (@nil ascii)) total) eqn:E;
      [apply Nat.eqb_eq in E; simpl in *; lia | reflexivity].
  - destruct (Nat.eqb (List.length (a :: s)) total) eqn:E;
      [apply Nat.eqb_eq in E; simpl in *; lia |].
    apply IH. simpl in H. lia.
Qed.

Lemma exec_anchored (r : regex) (input : string) :
  exec (Seq Bol r) input =
  let l := list_ascii_of_string input in
  match m (List.length l) r l [] final with
  | Some (s', c) => Some {| m_start := 0; m_end := List.length l - List.length s'; m_caps := c |}
  | None => None
  end.
Proof.
  unfold exec. cbv zeta. generalize (list_ascii_of_string input) as l. intros l.
  destruct l as [|a l']; cbn [search m]; rewrite Nat.eqb_refl.
  - destruct (m 0 r [] [] final) as [[s' c]|]; reflexivity.
  - destruct (m (List.length (a :: l')) r (a :: l') [] final) as [[s' c]|].
    + rewrite Nat.sub_diag. reflexivity.
    + apply search_anchored_short. simpl. lia.
Qed.

(** A match found by [exec] comes from a derivation at some suffix of
    the input; for a pattern anchored by [^], at the whole input. *)
Lemma search_sound (total : nat) (r : regex) (s : list ascii) (res : match_result) :
  search total r s = Some res ->
  exists p s0 s', s = (p ++ s0)%list /\ accepts total r s0 [] s' (m_caps res).
Proof.
  induction s as [|a s IH]; cbn [search]; intros H;
    destruct (m total r _ [] final) as [[s' c]|] eqn:E.
  - injection H as <-. apply m_sound in E as (s0 & c0 & Hacc & Hf). injection Hf as -> ->.
    exists [], [], s'. auto.
  - discriminate.
  - injection H as <-. apply m_sound in E as (s0 & c0 & Hacc & Hf). injection Hf as -> ->.
    exists [], (a :: s), s'. auto.
  - destruct (IH H) as (p & s0 & s' & -> & Hacc). exists (a :: p), s0, s'. auto.
Qed.

Lemma exec_anchored_sound (r : regex) (input : string) (res : match_result) :
  exec (Seq Bol r) input = Some res ->
  let l := list_ascii_of_string input in
  exists s', accepts (List.length l) (Seq Bol r) l [] s' (m_caps res).
Proof.
  intros H. unfold exec in H. cbv zeta in *.
  set (l := list_ascii_of_string input) in *.
  destruct (search_sound _ _ _ _ H) as (p & s0 & s' & E & Hacc). exists s'.
  assert (Hb : List.length s0 = List.length l).
  { apply accepts_seq_inv in Hacc as (s1 & c1 & Hb & _). inversion Hb; subst. assumption. }
  assert (Hp : p = []).
  { destruct p; [reflexivity|]. apply (f_equal (@List.length ascii)) in E.
    simpl in E. rewrite length_app in E. lia. }
  subst p. simpl in E. rewrite <- E in Hacc. exact Hacc.
Qed.

End Regex.
