(* ===== verification/Grammar.v ===== *)
(** * Grammar Matcher: the color patterns of colorful.js

    The regular-expression sources of [src/src/colorful.js] (lines
    191-214), the function [buildColorRx] that assembles an anchored
    pattern from a prefix and a channel pattern (lines 273-283), and
    [matchColor] (lines 285-292).  A channel pattern is written as a
    function of its capture number: in the source the number comes from
    the position of the channel's parenthesis in the concatenated
    pattern string, left to right, which is what [buildColorRx] passes. *)

From Stdlib Require Import List String Ascii Bool Arith Lia.
From S2P Require Import Prelude Regex.
Import ListNotations.
Import Regex.

Module Grammar.

Definition sp : regex := Star (Chr CSpace).                 (* \s* *)
Definition digit : regex := Chr CDigit.                    (* \d *)
Definition chr (c : ascii) : regex := Chr (CChar c).

(** [_rxFraction = "(?:1(?:\.0+)?|0?\.\d+|0)"] *)
Definition rxFraction : regex :=
  Alt (Seq (chr "1") (opt (Seq (chr ".") (plus (chr "0")))))
      (Alt (Seq (opt (chr "0")) (Seq (chr ".") (plus digit)))
           (chr "0")).

(** [rxAlpha = "(" + _rxFraction + ")"] *)
Definition rxAlpha (n : nat) : regex := Group n rxFraction.

(** [rxOptionalAlpha = "(" + _rxFraction + "?)"] (declared, never used) *)
Definition rxOptionalAlpha (n : nat) : regex := Group n (opt rxFraction).

(** [rxRgbChannelBase256 = "(255|25[0-4]|2[0-4]\d|(?:[0-1]?\d)?\d)"]:
    the alternatives inside the parenthesis, then the capture. *)
Definition rxRgbChannelBase256_body : regex :=
  Alt (lit "255")
      (Alt (Seq (lit "25") (Chr (CRange "0" "4")))
      (Alt (seqs [chr "2"; Chr (CRange "0" "4"); digit])
           (Seq (opt (Seq (opt (Chr (CRange "0" "1"))) digit)) digit))).

Definition rxRgbChannelBase256 (n : nat) : regex := Group n rxRgbChannelBase256_body.

(** [rxRgbChannelPercent = "(100(?:\.0+)?|\d{0,2}(?:\.\d+)|\d{1,2})\s*%"]:
    the alternatives inside the parenthesis, then the capture and the
    percent sign. *)
Definition rxRgbChannelPercent_body : regex :=
  Alt (Seq (lit "100") (opt (Seq (chr ".") (plus (chr "0")))))
      (Alt (Seq (upto 2 digit) (Seq (chr ".") (plus digit)))
           (Seq digit (opt digit))).

Definition rxRgbChannelPercent (n : nat) : regex :=
  Seq (Group n rxRgbChannelPercent_body) (Seq sp (chr "%")).

Definition hexLC : cclass := CUnion (CRange "a" "f") CDigit.   (* [a-f\d] *)
Definition hexUC : cclass := CUnion (CRange "A" "F") CDigit.   (* [A-F\d] *)

(** [rxRgbChannelHexLC = "([a-f\d]{2})"] and the other hex channels. *)
Definition rxRgbChannelHexLC (n : nat) : regex := Group n (rep 2 (Chr hexLC)).
Definition rxRgbChannelHexUC (n : nat) : regex := Group n (rep 2 (Chr hexUC)).
Definition rxRgbChannelShortHexLC (n : nat) : regex := Group n (Chr hexLC).
Definition rxRgbChannelShortHexUC (n : nat) : regex := Group n (Chr hexUC).

(** [rxRgbChannelFraction = rxAlpha] *)
Definition rxRgbChannelFraction (n : nat) : regex := rxAlpha n.

(** [Array.prototype.join] on pattern sources. *)
Fixpoint join_rx (sep : regex) (rs : list regex) : regex :=
  match rs with
  | [] => Empty
  | [r] => r
  | r :: rs' => seqs [r; sep; join_rx sep rs']
  end.

(** [buildColorRx (prefix, rxRgbChannel, withAlpha)] *)
Definition buildColorRx (prefix : string) (rxRgbChannel : nat -> regex) (withAlpha : bool)
  : regex :=
  let isHex := String.eqb prefix "#" in
  let channelSeparator := if isHex then Empty else seqs [sp; chr ","; sp] in
  let suffix := if isHex then Empty else Seq sp (chr ")") in
  let rxChannels := [rxRgbChannel 1; rxRgbChannel 2; rxRgbChannel 3] in
  let rxChannels := if withAlpha then (rxChannels ++ [rxAlpha 4])%list else rxChannels in
  let prefix := if isHex then lit prefix else seqs [lit prefix; sp; chr "("; sp] in
  Seq Bol (seqs [sp; prefix; join_rx channelSeparator rxChannels; suffix; sp; Eol]).

Definition rxHexLC : regex := buildColorRx "#" rxRgbChannelHexLC false.
Definition rxHexUC : regex := buildColorRx "#" rxRgbChannelHexUC false.
Definition rxHexShortLC : regex := buildColorRx "#" rxRgbChannelShortHexLC false.
Definition rxHexShortUC : regex := buildColorRx "#" rxRgbChannelShortHexUC false.
Definition rxRgbBase256 : regex := buildColorRx "rgb" rxRgbChannelBase256 false.
Definition rxRgbaBase256 : regex := buildColorRx "rgba" rxRgbChannelBase256 true.
Definition rxRgbPercent : regex := buildColorRx "rgb" rxRgbChannelPercent false.
Definition rxRgbaPercent : regex := buildColorRx "rgba" rxRgbChannelPercent true.
Definition rxAgColor : regex := buildColorRx "AgColor" rxRgbChannelFraction true.

(** [matchColor (color, rx)]: [None] is [isMatch: false]; otherwise the
    three channel captures and [matches[4]] ([None] for [undefined]). *)
Record match_data := { md_rgb : list (option string); md_a : option string }.

Definition matchColor (color : string) (rx : regex) : option match_data :=
  match exec rx color with
  | Some res => Some {| md_rgb := [group res 1; group res 2; group res 3];
                        md_a := group res 4 |}
  | None => None
  end.

End Grammar.
