(* ===== verification/GrammarFacts.v ===== *)
(** * Facts about the grammar's building blocks

    Inversion and construction lemmas for the pieces [buildColorRx]
    assembles ([\s*] runs, literal characters, the separator
    [\s*,\s*], the base-256 channel), the lemmas that solve the list
    equation between an input and the pieces a derivation cuts it into,
    and the tactic [acc_inv] that inverts a derivation of a whole
    pattern into those pieces. *)

From Stdlib Require Import List String Ascii Bool Arith Lia.
From S2P Require Import Prelude Regex Grammar.
Import ListNotations.
Import Regex Grammar.

Module GrammarFacts.

(** The continuation that accepts only the end of the input. *)
Definition at_end : cont := fun s c => match s with [] => Some (s, c) | _ => None end.

Definition sep : regex := seqs [sp; chr ","; sp].

(** ** White space, literal characters and the base-256 channel *)

Lemma body_digits : chars_in is_digit rxRgbChannelBase256_body = true.
Proof. vm_compute. reflexivity. Qed.

(** A capture of a channel pattern over one class. *)
Lemma group_inv (P : ascii -> bool) (body : regex) (total n : nat) (s : list ascii) (c : caps)
    (s' : list ascii) (c' : caps) :
  chars_in P body = true -> 1 <= min_len body ->
  accepts total (Group n body) s c s' c' ->
  exists p, s = (p ++ s')%list /\ forallb P p = true /\ p <> [] /\
            (forall total' c0, accepts total' body p c0 [] c0) /\
            c' = set_cap n (string_of_list_ascii p) c.
Proof.
  intros Hb Hmin H. apply accepts_group_inv in H as (c1 & H & ->).
  pose proof (accepts_min_len _ _ _ _ _ _ H) as Hl.
  pose proof (accepts_trim P _ _ _ _ _ _ H Hb) as Ht.
  apply (accepts_chars_in P) in H as (p & -> & Hp & ->); [|exact Hb].
  exists p. rewrite consumed_app. repeat split; auto.
  intros ->. simpl in Hl. lia.
Qed.

Lemma channel_inv (total n : nat) (s : list ascii) (c : caps) (s' : list ascii) (c' : caps) :
  accepts total (rxRgbChannelBase256 n) s c s' c' ->
  exists p, s = (p ++ s')%list /\ forallb is_digit p = true /\ p <> [] /\
            (forall total' c0, accepts total' rxRgbChannelBase256_body p c0 [] c0) /\
            c' = set_cap n (string_of_list_ascii p) c.
Proof. apply group_inv; [exact body_digits | cbn; lia]. Qed.

(** The characters of a percentage: digits and the decimal point. *)
Definition is_numchar (a : ascii) : bool := is_digit a || Ascii.eqb a ".".

Lemma percent_body_numchars : chars_in is_numchar rxRgbChannelPercent_body = true.
Proof. vm_compute. reflexivity. Qed.

Lemma percent_inv (total n : nat) (s : list ascii) (c : caps) (s' : list ascii) (c' : caps) :
  accepts total (Group n rxRgbChannelPercent_body) s c s' c' ->
  exists p, s = (p ++ s')%list /\ forallb is_numchar p = true /\ p <> [] /\
            (forall total' c0, accepts total' rxRgbChannelPercent_body p c0 [] c0) /\
            c' = set_cap n (string_of_list_ascii p) c.
Proof. apply group_inv; [exact percent_body_numchars | cbn; lia]. Qed.

(** The alpha and fraction channels capture a run of digits and points. *)
Lemma fraction_numchars : chars_in is_numchar rxFraction = true.
Proof. vm_compute. reflexivity. Qed.

Lemma alpha_inv (total n : nat) (s : list ascii) (c : caps) (s' : list ascii) (c' : caps) :
  accepts total (rxAlpha n) s c s' c' ->
  exists p, s = (p ++ s')%list /\ forallb is_numchar p = true /\ p <> [] /\
            (forall total' c0, accepts total' rxFraction p c0 [] c0) /\
            c' = set_cap n (string_of_list_ascii p) c.
Proof. apply group_inv; [exact fraction_numchars | cbn; lia]. Qed.

(** The hexadecimal channels capture hexadecimal digits. *)
Definition is_hexchar (a : ascii) : bool := cc_match hexLC a || cc_match hexUC a.

Lemma hex_channel_inv (body : regex) (total n : nat) (s : list ascii) (c : caps) (s' : list ascii)
    (c' : caps) :
  body = rep 2 (Chr hexLC) \/ body = rep 2 (Chr hexUC) \/ body = Chr hexLC \/ body = Chr hexUC ->
  accepts total (Group n body) s c s' c' ->
  exists p, s = (p ++ s')%list /\ forallb is_hexchar p = true /\ p <> [] /\
            (forall total' c0, accepts total' body p c0 [] c0) /\
            c' = set_cap n (string_of_list_ascii p) c.
Proof.
  intros Hb. apply group_inv;
    destruct Hb as [-> | [-> | [-> | ->]]]; first [vm_compute; reflexivity | cbn; lia].
Qed.

(** White space runs. *)
Lemma sp_inv (total : nat) (s : list ascii) (c : caps) (s' : list ascii) (c' : caps) :
  accepts total sp s c s' c' -> exists w, s = (w ++ s')%list /\ forallb is_space w = true /\ c' = c.
Proof. intros H. apply (accepts_chars_in is_space) in H; [exact H | reflexivity]. Qed.

Lemma sp_accepts (total : nat) (w s : list ascii) (c : caps) :
  forallb is_space w = true -> accepts total sp (w ++ s) c s c.
Proof.
  induction w as [|a w IH]; simpl; intros H; [constructor|].
  apply andb_prop in H as [Ha Hw].
  eapply acc_star_cons; [constructor; exact Ha | simpl; rewrite length_app; lia | exact (IH Hw)].
Qed.

Lemma chr_inv (total : nat) (a : ascii) (s : list ascii) (c : caps) (s' : list ascii) (c' : caps) :
  accepts total (chr a) s c s' c' -> s = a :: s' /\ c' = c.
Proof. intros H. apply (accepts_lit_chars total a [] s c s' c' H). Qed.

(** ** Inverting a derivation of a whole pattern *)

Ltac acc_inv H :=
  lazymatch type of H with
  | accepts _ (Seq _ _) _ _ _ _ =>
      let H1 := fresh "Ha" in
      apply accepts_seq_inv in H as (? & ? & H1 & H); acc_inv H1; acc_inv H
  | accepts _ (seqs _) _ _ _ _ => cbn [seqs fold_right] in H; acc_inv H
  | accepts _ sep _ _ _ _ => unfold sep in H; acc_inv H
  | accepts _ (lit _) _ _ _ _ => cbn [lit list_ascii_of_string lit_chars] in H; acc_inv H
  | accepts _ Empty _ _ _ _ => inversion H; subst; clear H
  | accepts _ Bol _ _ _ _ => inversion H; subst; clear H
  | accepts _ Eol _ _ _ _ => inversion H; subst; clear H
  | accepts _ sp _ _ _ _ =>
      let w := fresh "w" in let Hw := fresh "Hw" in
      apply sp_inv in H as (w & ? & Hw & ?); subst
  | accepts _ (chr _) _ _ _ _ => apply chr_inv in H as [? ?]; subst
  | accepts _ (Chr (CChar _)) _ _ _ _ => apply (chr_inv _ _) in H as [? ?]; subst
  | accepts _ (rxRgbChannelBase256 _) _ _ _ _ =>
      let p := fresh "p" in let Hp := fresh "Hp" in let Hn := fresh "Hn" in let Hm := fresh "Hm" in
      apply channel_inv in H as (p & ? & Hp & Hn & Hm & ?); subst
  | accepts _ (rxRgbChannelPercent _) _ _ _ _ => unfold rxRgbChannelPercent in H; acc_inv H
  | accepts _ (Group _ rxRgbChannelPercent_body) _ _ _ _ =>
      let p := fresh "p" in let Hp := fresh "Hp" in let Hn := fresh "Hn" in let Hm := fresh "Hm" in
      apply percent_inv in H as (p & ? & Hp & Hn & Hm & ?); subst
  | accepts _ (rxRgbChannelHexLC _) _ _ _ _ => unfold rxRgbChannelHexLC in H; acc_inv H
  | accepts _ (rxRgbChannelHexUC _) _ _ _ _ => unfold rxRgbChannelHexUC in H; acc_inv H
  | accepts _ (rxRgbChannelShortHexLC _) _ _ _ _ => unfold rxRgbChannelShortHexLC in H; acc_inv H
  | accepts _ (rxRgbChannelShortHexUC _) _ _ _ _ => unfold rxRgbChannelShortHexUC in H; acc_inv H
  | accepts _ (Group _ (rep 2 (Chr _))) _ _ _ _ =>
      let p := fresh "p" in let Hp := fresh "Hp" in let Hn := fresh "Hn" in let Hm := fresh "Hm" in
      apply hex_channel_inv in H as (p & ? & Hp & Hn & Hm & ?); [subst | auto]
  | accepts _ (Group _ (Chr _)) _ _ _ _ =>
      let p := fresh "p" in let Hp := fresh "Hp" in let Hn := fresh "Hn" in let Hm := fresh "Hm" in
      apply hex_channel_inv in H as (p & ? & Hp & Hn & Hm & ?); [subst | auto]
  | accepts _ (rxRgbChannelFraction _) _ _ _ _ => unfold rxRgbChannelFraction in H; acc_inv H
  | accepts _ (rxAlpha _) _ _ _ _ =>
      let p := fresh "q" in let Hp := fresh "Hq" in let Hn := fresh "Hqn" in let Hm := fresh "Hqm" in
      apply alpha_inv in H as (p & ? & Hp & Hn & Hm & ?); subst
  end.


(** ** Solving the input equation

    White space runs are empty or the one space of [", "], and a digit
    run is the whole decimal text of its channel. *)

Lemma digit_not_space (a : ascii) : is_digit a = true -> is_space a = false.
Proof.
  intros Ha.
  assert (H : implb (is_digit a) (negb (is_space a)) = true)
    by (apply (ascii_forall (fun a => implb (is_digit a) (negb (is_space a)))); reflexivity). rewrite Ha in H. apply negb_true_iff. exact H.
Qed.

Lemma digits_hns (p s : list ascii) :
  forallb is_digit p = true -> p <> [] -> head_not is_space (p ++ s) = true.
Proof.
  destruct p as [|a p]; [congruence|]. simpl. intros H _.
  apply andb_prop in H as [Ha _]. rewrite (digit_not_space a Ha). reflexivity.
Qed.

Lemma spaces_hnd (w s : list ascii) (a : ascii) :
  forallb is_space w = true -> is_digit a = false -> head_not is_digit (w ++ a :: s) = true.
Proof.
  destruct w as [|x w]; simpl; intros Hw Ha; [rewrite Ha; reflexivity|].
  apply andb_prop in Hw as [Hx _]. destruct (is_digit x) eqn:E; [|reflexivity].
  rewrite (digit_not_space x E) in Hx. discriminate.
Qed.

Lemma numchar_not_space (a : ascii) : is_numchar a = true -> is_space a = false.
Proof.
  intros Ha.
  assert (H : implb (is_numchar a) (negb (is_space a)) = true)
    by (apply (ascii_forall (fun a => implb (is_numchar a) (negb (is_space a)))); reflexivity).
  rewrite Ha in H. apply negb_true_iff. exact H.
Qed.

Lemma numchars_hns (p s : list ascii) :
  forallb is_numchar p = true -> p <> [] -> head_not is_space (p ++ s) = true.
Proof.
  destruct p as [|a p]; [congruence|]. simpl. intros H _.
  apply andb_prop in H as [Ha _]. rewrite (numchar_not_space a Ha). reflexivity.
Qed.

Lemma spaces_hnn (w s : list ascii) (a : ascii) :
  forallb is_space w = true -> is_numchar a = false -> head_not is_numchar (w ++ a :: s) = true.
Proof.
  destruct w as [|x w]; simpl; intros Hw Ha; [rewrite Ha; reflexivity|].
  apply andb_prop in Hw as [Hx _]. destruct (is_numchar x) eqn:E; [|reflexivity].
  rewrite (numchar_not_space x E) in Hx. discriminate.
Qed.

Lemma digits_numchars (p : list ascii) : forallb is_digit p = true -> forallb is_numchar p = true.
Proof.
  induction p as [|a p IH]; simpl; [reflexivity|].
  intros [Ha Hp]%andb_prop. rewrite (IH Hp). unfold is_numchar. rewrite Ha. reflexivity.
Qed.

Lemma strip_sp (w s t : list ascii) :
  forallb is_space w = true -> head_not is_space s = true -> head_not is_space t = true ->
  t = (w ++ s)%list -> w = [] /\ t = s.
Proof.
  intros Hw Hs Ht E. destruct (run_unique is_space [] w t s eq_refl Hw E Ht Hs) as [<- ->]. auto.
Qed.

Lemma strip_sp1 (w s t : list ascii) :
  forallb is_space w = true -> head_not is_space s = true -> head_not is_space t = true ->
  (" "%char :: t)%list = (w ++ s)%list -> w = [" "%char] /\ t = s.
Proof.
  intros Hw Hs Ht E. destruct (run_unique is_space [" "%char] w t s eq_refl Hw E Ht Hs) as [<- ->]. auto.
Qed.

Ltac chan E D Hp Hw a :=
  let E' := fresh "E" in
  destruct (run_unique is_digit _ _ _ _ D Hp E eq_refl (spaces_hnd _ _ a Hw eq_refl)) as [<- E'];
  clear E; rename E' into E.

Ltac chan_with P hn E D Hp Hw a :=
  let E' := fresh "E" in
  destruct (run_unique P _ _ _ _ D Hp E eq_refl (hn _ _ a Hw eq_refl)) as [<- E'];
  clear E; rename E' into E.

(** A numeric run, captured by a percent channel. *)
Ltac pchan E D Hp Hw a := chan_with is_numchar spaces_hnn E (digits_numchars _ D) Hp Hw a.

Ltac strip_with L E H :=
  apply L in E as [-> E];
  [ | exact H
    | first [reflexivity | apply digits_hns; assumption | apply numchars_hns; assumption]
    | first [reflexivity | apply digits_hns; assumption | apply numchars_hns; assumption] ].
Ltac strip E H := strip_with strip_sp E H.
Ltac strip1 E H := strip_with strip_sp1 E H.

End GrammarFacts.
