(* ===== verification/Keywords.v ===== *)
(** * Keyword Table: [CssColorNames]

    The object literal [CssColorNames] of [src/src/colorful.js] (lines
    40-189), 148 lower-case CSS color names with their RGB triples, as a
    finite map, and JavaScript property lookup on it.  A property
    access [CssColorNames[color]] also finds the properties that every
    object inherits from [Object.prototype] ([constructor], [toString],
    [__proto__], ...): their values are functions or objects, truthy,
    with no array elements. *)

From stdpp Require Import base gmap strings list.
From Stdlib Require Import ZArith String Ascii Lia.
From S2P Require Import Prelude.

Module Keywords.

Local Open Scope Z_scope.
Local Open Scope string_scope.

Definition rgb_triple : Type := (Z * Z * Z)%type.

(** The literal, in source order. *)
Definition CssColorNames_entries : list (string * rgb_triple) := [
    ("aliceblue", (240, 248, 255));
    ("antiquewhite", (250, 235, 215));
    ("aqua", (0, 255, 255));
    ("aquamarine", (127, 255, 212));
    ("azure", (240, 255, 255));
    ("beige", (245, 245, 220));
    ("bisque", (255, 228, 196));
    ("black", (0, 0, 0));
    ("blanchedalmond", (255, 235, 205));
    ("blue", (0, 0, 255));
    ("blueviolet", (138, 43, 226));
    ("brown", (165, 42, 42));
    ("burlywood", (222, 184, 135));
    ("cadetblue", (95, 158, 160));
    ("chartreuse", (127, 255, 0));
    ("chocolate", (210, 105, 30));
    ("coral", (255, 127, 80));
    ("cornflowerblue", (100, 149, 237));
    ("cornsilk", (255, 248, 220));
    ("crimson", (220, 20, 60));
    ("cyan", (0, 255, 255));
    ("darkblue", (0, 0, 139));
    ("darkcyan", (0, 139, 139));
    ("darkgoldenrod", (184, 134, 11));
    ("darkgray", (169, 169, 169));
    ("darkgreen", (0, 100, 0));
    ("darkgrey", (169, 169, 169));
    ("darkkhaki", (189, 183, 107));
    ("darkmagenta", (139, 0, 139));
    ("darkolivegreen", (85, 107, 47));
    ("darkorange", (255, 140, 0));
    ("darkorchid", (153, 50, 204));
    ("darkred", (139, 0, 0));
    ("darksalmon", (233, 150, 122));
    ("darkseagreen", (143, 188, 143));
    ("darkslateblue", (72, 61, 139));
    ("darkslategray", (47, 79, 79));
    ("darkslategrey", (47, 79, 79));
    ("darkturquoise", (0, 206, 209));
    ("darkviolet", (148, 0, 211));
    ("deeppink", (255, 20, 147));
    ("deepskyblue", (0, 191, 255));
    ("dimgray", (105, 105, 105));
    ("dimgrey", (105, 105, 105));
    ("dodgerblue", (30, 144, 255));
    ("firebrick", (178, 34, 34));
    ("floralwhite", (255, 250, 240));
    ("forestgreen", (34, 139, 34));
    ("fuchsia", (255, 0, 255));
    ("gainsboro", (220, 220, 220));
    ("ghostwhite", (248, 248, 255));
    ("gold", (255, 215, 0));
    ("goldenrod", (218, 165, 32));
    ("gray", (128, 128, 128));
    ("green", (0, 128, 0));
    ("greenyellow", (173, 255, 47));
    ("grey", (128, 128, 128));
    ("honeydew", (240, 255, 240));
    ("hotpink", (255, 105, 180));
    ("indianred", (205, 92, 92));
    ("indigo", (75, 0, 130));
    ("ivory", (255, 255, 240));
    ("khaki", (240, 230, 140));
    ("lavender", (230, 230, 250));
    ("lavenderblush", (255, 240, 245));
    ("lawngreen", (124, 252, 0));
    ("lemonchiffon", (255, 250, 205));
    ("lightblue", (173, 216, 230));
    ("lightcoral", (240, 128, 128));
    ("lightcyan", (224, 255, 255));
    ("lightgoldenrodyellow", (250, 250, 210));
    ("lightgray", (211, 211, 211));
    ("lightgreen", (144, 238, 144));
    ("lightgrey", (211, 211, 211));
    ("lightpink", (255, 182, 193));
    ("lightsalmon", (255, 160, 122));
    ("lightseagreen", (32, 178, 170));
    ("lightskyblue", (135, 206, 250));
    ("lightslategray", (119, 136, 153));
    ("lightslategrey", (119, 136, 153));
    ("lightsteelblue", (176, 196, 222));
    ("lightyellow", (255, 255, 224));
    ("lime", (0, 255, 0));
    ("limegreen", (50, 205, 50));
    ("linen", (250, 240, 230));
    ("magenta", (255, 0, 255));
    ("maroon", (128, 0, 0));
    ("mediumaquamarine", (102, 205, 170));
    ("mediumblue", (0, 0, 205));
    ("mediumorchid", (186, 85, 211));
    ("mediumpurple", (147, 112, 219));
    ("mediumseagreen", (60, 179, 113));
    ("mediumslateblue", (123, 104, 238));
    ("mediumspringgreen", (0, 250, 154));
    ("mediumturquoise", (72, 209, 204));
    ("mediumvioletred", (199, 21, 133));
    ("midnightblue", (25, 25, 112));
    ("mintcream", (245, 255, 250));
    ("mistyrose", (255, 228, 225));
    ("moccasin", (255, 228, 181));
    ("navajowhite", (255, 222, 173));
    ("navy", (0, 0, 128));
    ("oldlace", (253, 245, 230));
    ("olive", (128, 128, 0));
    ("olivedrab", (107, 142, 35));
    ("orange", (255, 165, 0));
    ("orangered", (255, 69, 0));
    ("orchid", (218, 112, 214));
    ("palegoldenrod", (238, 232, 170));
    ("palegreen", (152, 251, 152));
    ("paleturquoise", (175, 238, 238));
    ("palevioletred", (219, 112, 147));
    ("papayawhip", (255, 239, 213));
    ("peachpuff", (255, 218, 185));
    ("peru", (205, 133, 63));
    ("pink", (255, 192, 203));
    ("plum", (221, 160, 221));
    ("powderblue", (176, 224, 230));
    ("purple", (128, 0, 128));
    ("rebeccapurple", (102, 51, 153));
    ("red", (255, 0, 0));
    ("rosybrown", (188, 143, 143));
    ("royalblue", (65, 105, 225));
    ("saddlebrown", (139, 69, 19));
    ("salmon", (250, 128, 114));
    ("sandybrown", (244, 164, 96));
    ("seagreen", (46, 139, 87));
    ("seashell", (255, 245, 238));
    ("sienna", (160, 82, 45));
    ("silver", (192, 192, 192));
    ("skyblue", (135, 206, 235));
    ("slateblue", (106, 90, 205));
    ("slategray", (112, 128, 144));
    ("slategrey", (112, 128, 144));
    ("snow", (255, 250, 250));
    ("springgreen", (0, 255, 127));
    ("steelblue", (70, 130, 180));
    ("tan", (210, 180, 140));
    ("teal", (0, 128, 128));
    ("thistle", (216, 191, 216));
    ("tomato", (255, 99, 71));
    ("turquoise", (64, 224, 208));
    ("violet", (238, 130, 238));
    ("wheat", (245, 222, 179));
    ("white", (255, 255, 255));
    ("whitesmoke", (245, 245, 245));
    ("yellow", (255, 255, 0));
    ("yellowgreen", (154, 205, 50))
  ].

Definition CssColorNames : gmap string rgb_triple := list_to_map CssColorNames_entries.

(** The property names of [Object.prototype] (ECMA-262 and its Annex B). *)
Definition object_prototype_keys : list string :=
  ["constructor"; "__defineGetter__"; "__defineSetter__"; "hasOwnProperty";
   "__lookupGetter__"; "__lookupSetter__"; "isPrototypeOf"; "propertyIsEnumerable";
   "toString"; "valueOf"; "__proto__"; "toLocaleString"].

(** The value of [CssColorNames[name]]: an own entry, an inherited
    function or object, or [undefined]. *)
Inductive property : Type :=
  | POwn (v : rgb_triple)
  | PInherited
  | PUndefined.

Definition get_property (name : string) : property :=
  match CssColorNames !! name with
  | Some v => POwn v
  | None => if bool_decide (name ∈ object_prototype_keys) then PInherited else PUndefined
  end.

(** JavaScript truthiness of the property value. *)
Definition truthy (p : property) : bool :=
  match p with PUndefined => false | _ => true end.

(** ** Properties of the table *)

Definition byte (z : Z) : bool := Z.leb 0 z && Z.leb z 255.
Definition lower_name (k : string) : bool :=
  forallb (fun c => in_range 97 122 c) (list_ascii_of_string k).

Lemma entries_keys_NoDup : NoDup (CssColorNames_entries.*1).
Proof. apply (bool_decide_unpack _). vm_compute. exact I. Qed.

Lemma entries_wf :
  Forall (fun kv => lower_name kv.1 = true /\
                    byte kv.2.1.1 = true /\ byte kv.2.1.2 = true /\ byte kv.2.2 = true)
         CssColorNames_entries.
Proof. apply (bool_decide_unpack _). vm_compute. exact I. Qed.

(** The map holds exactly the entries of the literal. *)
Lemma CssColorNames_lookup (k : string) (v : rgb_triple) :
  CssColorNames !! k = Some v <-> (k, v) ∈ CssColorNames_entries.
Proof.
  unfold CssColorNames. split.
  - apply elem_of_list_to_map_2.
  - apply elem_of_list_to_map_1, entries_keys_NoDup.
Qed.

Lemma entry_wf (k : string) (v : rgb_triple) :
  (k, v) ∈ CssColorNames_entries ->
  lower_name k = true /\ byte v.1.1 = true /\ byte v.1.2 = true /\ byte v.2 = true.
Proof.
  intros Hin. pose proof entries_wf as H. rewrite Forall_forall in H.
  apply (H (k, v)). exact Hin.
Qed.

Lemma lower_char_id (c : ascii) : in_range 97 122 c = true -> lower_char c = c.
Proof.
  unfold lower_char, in_range. intros H.
  apply andb_true_iff in H as [H1 H2]. apply Nat.leb_le in H1.
  destruct (Nat.leb 65 (code c) && Nat.leb (code c) 90) eqn:E; [|reflexivity].
  apply andb_true_iff in E as [_ E]. apply Nat.leb_le in E. lia.
Qed.

Lemma lower_name_toLowerCase (k : string) : lower_name k = true -> toLowerCase k = k.
Proof.
  unfold toLowerCase, map_string, lower_name.
  induction k as [|c k IH]; simpl; [done|].
  intros [Hc Hk]%andb_true_iff. by rewrite lower_char_id, IH.
Qed.

(** An entry of the literal is found as an own property. *)
Lemma get_property_own (k : string) (v : rgb_triple) :
  List.In (k, v) CssColorNames_entries -> get_property k = POwn v.
Proof.
  intros Hin. unfold get_property.
  rewrite (proj2 (CssColorNames_lookup k v)); [done|]. by apply list_elem_of_In.
Qed.

(** No name that lower-cases to "transparent" is a property of the table. *)
Lemma get_property_transparent (s : string) :
  toLowerCase s = "transparent" -> get_property s = PUndefined.
Proof.
  intros Hs. unfold get_property.
  destruct (CssColorNames !! s) as [v|] eqn:E.
  - pose proof E as E0. apply CssColorNames_lookup, entry_wf in E0 as [Hl _].
    rewrite lower_name_toLowerCase in Hs by exact Hl. subst s. vm_compute in E. discriminate.
  - case_bool_decide as Hin; [|done]. exfalso.
    repeat (apply elem_of_cons in Hin as [-> | Hin]; [vm_compute in Hs; discriminate|]).
    by apply elem_of_nil in Hin.
Qed.

(** A string whose first character is neither a lower-case letter nor
    an underscore is no property of the table. *)
Lemma get_property_nonletter (c : ascii) (s : string) :
  in_range 97 122 c = false -> c <> "_"%char -> get_property (String c s) = PUndefined.
Proof.
  intros Hc Hu. unfold get_property.
  destruct (CssColorNames !! String c s) as [v|] eqn:E.
  - apply CssColorNames_lookup, entry_wf in E as [Hl _].
    unfold lower_name in Hl. cbn [forallb list_ascii_of_string] in Hl. rewrite Hc in Hl. discriminate.
  - case_bool_decide as Hin; [|done]. exfalso.
    assert (Hall : forallb (fun k => match k with
                                     | String c' _ => in_range 97 122 c' || Ascii.eqb c' "_"
                                     | EmptyString => false
                                     end) object_prototype_keys = true) by reflexivity.
    apply list_elem_of_In in Hin. rewrite forallb_forall in Hall.
    apply Hall in Hin. rewrite Hc in Hin. apply Ascii.eqb_eq in Hin. contradiction.
Qed.

(** A name with a character that is neither a letter nor an underscore
    is no property of the table. *)
Definition name_char (c : ascii) : bool :=
  in_range 97 122 c || in_range 65 90 c || Ascii.eqb c "_".

Lemma get_property_not_name (s : string) :
  forallb name_char (list_ascii_of_string s) = false -> get_property s = PUndefined.
Proof.
  intros Hs. unfold get_property.
  destruct (CssColorNames !! s) as [v|] eqn:E.
  - apply CssColorNames_lookup, entry_wf in E as [Hl _]. exfalso.
    unfold lower_name in Hl. revert Hl Hs. generalize (list_ascii_of_string s).
    induction l as [|c l IH]; simpl; [done|].
    intros [Hc Hl]%andb_true_iff. unfold name_char at 1. rewrite Hc. simpl. auto.
  - case_bool_decide as Hin; [|done]. exfalso.
    assert (Hall : forallb (fun k => forallb name_char (list_ascii_of_string k))
                     object_prototype_keys = true) by reflexivity.
    apply list_elem_of_In in Hin. rewrite forallb_forall in Hall.
    apply Hall in Hin. congruence.
Qed.

(** C37: the keyword table is well typed: every name [CssColorNames[name]]
    finds as an own entry is a lower-case ASCII name, and its value is a
    triple of integers between 0 and 255. *)
Theorem get_property_typed (name : string) (v : rgb_triple) :
  get_property name = POwn v ->
  lower_name name = true /\ byte v.1.1 = true /\ byte v.1.2 = true /\ byte v.2 = true.
Proof.
  unfold get_property. destruct (CssColorNames !! name) as [v'|] eqn:E.
  - intros [= <-]. by apply entry_wf, CssColorNames_lookup.
  - by case_bool_decide.
Qed.

Lemma get_property_typed_witness :
  get_property "rebeccapurple" = POwn (102, 51, 153)%Z /\
  lower_name "rebeccapurple" = true /\ byte 102 = true /\ byte 51 = true /\ byte 153 = true.
Proof.
  assert (H : get_property "rebeccapurple" = POwn (102, 51, 153)%Z) by (vm_compute; reflexivity).
  split; [exact H | exact (get_property_typed _ _ H)].
Defined.

End Keywords.
