(* ===== verification/Parse.v ===== *)
(** * Input Coercer and Channel Normalizer: [parseColor]

    The channel
    normalizers [getHexData], [getBase256Data], [getPercentData] and
    [getAgColorData] (colorful.js lines 294-359) and [parseColor] (lines
    362-415), which turns any input into a raw color record or
    [undefined].

    A raw channel read from an inherited property of [CssColorNames] is
    [undefined] in the program; every use of a raw channel passes it
    through arithmetic or [Math.round] first, where [undefined] and
    [NaN] behave alike, so the model stores [NaN]. *)

From Stdlib Require Import ZArith List String Ascii Bool Lia.
From S2P Require Import Prelude JsNumber JsValue Regex Grammar Keywords.
Import ListNotations.
Import JsNumber JsValue Regex Grammar.

Module Parse.

(** ** Channel normalizers *)

(** A match with numeric channels and the alpha capture. *)
Record channel_data := { cd_rgb : list num; cd_a : option string }.

(** [ToNumber] of a capture ([undefined] is [NaN]). *)
Definition capture_to_number (v : option string) : num :=
  match v with Some s => StringToNumber s | None => NaN end.

(** [parseInt(value, 16)] of a capture. *)
Definition capture_parseInt16 (v : option string) : num :=
  match v with Some s => parseInt16 s | None => NaN end.

Definition convert (f : option string -> num) (d : match_data) : channel_data :=
  {| cd_rgb := map f (md_rgb d); cd_a := md_a d |}.

Definition orElse {A : Type} (x : option A) (y : unit -> option A) : option A :=
  match x with Some _ => x | None => y tt end.

(** [getHexData] (lines 294-318) *)
Definition getHexData (color : string) : option channel_data :=
  let long := orElse (matchColor color rxHexLC) (fun _ => matchColor color rxHexUC) in
  let data :=
    match long with
    | Some d => Some d
    | None =>
        match orElse (matchColor color rxHexShortLC) (fun _ => matchColor color rxHexShortUC) with
        | Some d => Some {| md_rgb := map (option_map (fun v => v ++ v)) (md_rgb d);
                            md_a := md_a d |}
        | None => None
        end
    end in
  option_map (convert capture_parseInt16) data.

(** [getBase256Data] (lines 320-332) *)
Definition getBase256Data (color : string) : option channel_data :=
  option_map (convert capture_to_number)
    (orElse (matchColor color rxRgbBase256) (fun _ => matchColor color rxRgbaBase256)).

(** [getPercentData] (lines 334-346): [value * 255 / 100] *)
Definition getPercentData (color : string) : option channel_data :=
  option_map (convert (fun v => div (mul (capture_to_number v) (of_Z 255)) (of_Z 100)))
    (orElse (matchColor color rxRgbPercent) (fun _ => matchColor color rxRgbaPercent)).

(** [getAgColorData] (lines 348-359): [value * 255] *)
Definition getAgColorData (color : string) : option channel_data :=
  option_map (convert (fun v => mul (capture_to_number v) (of_Z 255)))
    (matchColor color rxAgColor).

(** ** [parseColor] *)

(** The alpha field before the final conversion (lines 410-412). *)
Inductive alpha_val : Type :=
  | AUndefined
  | AStr (s : string)
  | ANum (x : num).

Record parsed := { p_r : num; p_g : num; p_b : num; p_a : alpha_val }.

(** [_.object(["r", "g", "b"], list)] with [parsed.a = a]. *)
Definition parsed_of_list (rgb : list num) (av : alpha_val) : parsed :=
  {| p_r := nth 0 rgb NaN; p_g := nth 1 rgb NaN; p_b := nth 2 rgb NaN; p_a := av |}.

Definition parsed_of_raw (c : raw_color) : parsed :=
  {| p_r := r c; p_g := g c; p_b := b c; p_a := ANum (a c) |}.

(** Lines 410-414: alpha converted to a number, 1 when undefined. *)
Definition finalize (p : option parsed) : option raw_color :=
  match p with
  | Some q =>
      let alpha := match p_a q with
                   | AUndefined => of_Z 1
                   | AStr s => StringToNumber s
                   | ANum x => x
                   end in
      Some {| r := p_r q; g := p_g q; b := p_b q; a := alpha |}
  | None => None
  end.

(** The string branch (lines 387-406). *)
Definition parse_string (color : string) : option parsed :=
  match Keywords.get_property color with
  | Keywords.POwn (rr, gg, bb) => Some (parsed_of_list [of_Z rr; of_Z gg; of_Z bb] AUndefined)
  | Keywords.PInherited => Some (parsed_of_list [] AUndefined)
  | Keywords.PUndefined =>
      if String.eqb (toLowerCase color) "transparent"
      then Some (parsed_of_list [of_Z 0; of_Z 0; of_Z 0] (ANum (of_Z 0)))
      else
        let data := orElse (getHexData color) (fun _ =>
                    orElse (getBase256Data color) (fun _ =>
                    orElse (getPercentData color) (fun _ => getAgColorData color))) in
        match data with
        | Some d => Some (parsed_of_list (cd_rgb d)
                            (match cd_a d with Some s => AStr s | None => AUndefined end))
        | None => None
        end
  end.

(** [new Color(colorStr)._rawColor] for a string. *)
Definition parseColorString (color : string) : option raw_color :=
  finalize (parse_string color).

(** [(n === 4 ? "rgba" : "rgb") + "(" + list.join(", ") + ")"] *)
Definition rgb_call (l : list jsval) : string :=
  (if Nat.eqb (List.length l) 4 then "rgba" else "rgb") ++ "(" ++ array_join ", " l ++ ")".

(** The [_.isObject] branch (lines 374-385). *)
Definition object_branch (color : jsval) : option parsed :=
  let ks := keys color in
  if Nat.eqb (intersection_length ["r"; "g"; "b"] ks) 3
     || Nat.eqb (intersection_length ["r"; "g"; "b"; "a"] ks) 4
  then
    let colorArr := [get_field color "r"; get_field color "g"; get_field color "b"] in
    let colorArr := if Nat.eqb (List.length ks) 4
                    then (colorArr ++ [get_field color "a"])%list else colorArr in
    option_map parsed_of_raw (parseColorString (rgb_call colorArr))
  else None.

(** [parseColor] (lines 362-415). *)
Definition parseColor (color : jsval) : option raw_color :=
  finalize
    match color with
    | JColor _ raw => option_map parsed_of_raw raw
    | JArr l =>
        if Nat.eqb (List.length l) 3 || Nat.eqb (List.length l) 4
        then option_map parsed_of_raw (parseColorString (rgb_call l))
        else object_branch color
    | JObj _ => object_branch color
    | JStr s => parse_string s
    | JUndefined | JNull | JBool _ | JNum _ => None
    end.

(** ** Properties *)

Definition opaque_rgb (rr gg bb : Z) : raw_color :=
  {| r := of_Z rr; g := of_Z gg; b := of_Z bb; a := of_Z 1 |}.

(** *** Keywords *)

(** (C12) A name of the keyword table parses to its triple, opaque. *)
Theorem parseColor_keyword (name : string) (rr gg bb : Z) :
  In (name, (rr, gg, bb)) Keywords.CssColorNames_entries ->
  parseColor (JStr name) = Some (opaque_rgb rr gg bb).
Proof.
  intros H. unfold parseColor, parse_string.
  rewrite (Keywords.get_property_own _ _ H). reflexivity.
Qed.

Lemma parseColor_keyword_witness :
  In ("turquoise", (64, 224, 208)%Z) Keywords.CssColorNames_entries /\
  parseColor (JStr "turquoise") = Some (opaque_rgb 64 224 208).
Proof.
  assert (H : In ("turquoise", (64, 224, 208)%Z) Keywords.CssColorNames_entries)
    by (vm_compute; repeat (first [left; reflexivity | right])).
  split; [exact H | exact (parseColor_keyword _ _ _ _ H)].
Defined.

(** (C13) "transparent", in any letter case, is transparent black. *)
Theorem parseColor_transparent (s : string) :
  toLowerCase s = "transparent" ->
  parseColor (JStr s) = Some {| r := of_Z 0; g := of_Z 0; b := of_Z 0; a := of_Z 0 |}.
Proof.
  intros H. unfold parseColor, parse_string.
  rewrite (Keywords.get_property_transparent s H), H. reflexivity.
Qed.

Lemma parseColor_transparent_witness :
  toLowerCase "TransParent" = "transparent" /\
  parseColor (JStr "TransParent") = Some {| r := of_Z 0; g := of_Z 0; b := of_Z 0; a := of_Z 0 |}.
Proof.
  assert (H : toLowerCase "TransParent" = "transparent") by reflexivity.
  split; [exact H | exact (parseColor_transparent _ H)].
Defined.

(** *** Hexadecimal forms *)

Definition hex_lc_chars : list ascii :=
  ["0"; "1"; "2"; "3"; "4"; "5"; "6"; "7"; "8"; "9"; "a"; "b"; "c"; "d"; "e"; "f"]%char.

Lemma hexLC_in (h : ascii) : cc_match hexLC h = true -> In h hex_lc_chars.
Proof.
  intros H.
  assert (E : implb (cc_match hexLC h) (existsb (Ascii.eqb h) hex_lc_chars) = true).
  { apply (ascii_forall (fun c => implb (cc_match hexLC c) (existsb (Ascii.eqb c) hex_lc_chars))).
    vm_compute. reflexivity. }
  rewrite H in E. cbn [implb] in E.
  apply existsb_exists in E as (x & Hx & Ex). apply Ascii.eqb_eq in Ex. subst x. exact Hx.
Qed.

(** The value of a hexadecimal digit. *)
Definition hex_value (c : ascii) : Z :=
  match radix_digit 16 c with Some v => v | None => 0%Z end.

Lemma parseInt16_pair (h1 h2 : ascii) :
  cc_match hexLC h1 = true -> cc_match hexLC h2 = true ->
  parseInt16 (String h1 (String h2 "")) = of_Z (16 * hex_value h1 + hex_value h2).
Proof.
  intros H1 H2. apply hexLC_in in H1, H2. simpl in H1, H2.
  repeat (destruct H1 as [<- | H1]); try contradiction;
  repeat (destruct H2 as [<- | H2]); try contradiction; vm_compute; reflexivity.
Qed.

Definition hex6 (h1 h2 h3 h4 h5 h6 : ascii) : string :=
  String "#" (String h1 (String h2 (String h3 (String h4 (String h5 (String h6 "")))))).

Lemma matchColor_hex6 (h1 h2 h3 h4 h5 h6 : ascii) :
  cc_match hexLC h1 = true -> cc_match hexLC h2 = true -> cc_match hexLC h3 = true ->
  cc_match hexLC h4 = true -> cc_match hexLC h5 = true -> cc_match hexLC h6 = true ->
  matchColor (hex6 h1 h2 h3 h4 h5 h6) rxHexLC =
  Some {| md_rgb := [Some (String h1 (String h2 "")); Some (String h3 (String h4 ""));
                     Some (String h5 (String h6 ""))]; md_a := None |}.
Proof.
  intros H1 H2 H3 H4 H5 H6.
  unfold matchColor, rxHexLC, buildColorRx. rewrite exec_anchored.
  simpl in *. rewrite H1, H2, H3, H4, H5, H6. reflexivity.
Qed.

Lemma parse_string_hex6 (h1 h2 h3 h4 h5 h6 : ascii) :
  cc_match hexLC h1 = true -> cc_match hexLC h2 = true -> cc_match hexLC h3 = true ->
  cc_match hexLC h4 = true -> cc_match hexLC h5 = true -> cc_match hexLC h6 = true ->
  parse_string (hex6 h1 h2 h3 h4 h5 h6) =
  Some (parsed_of_list [of_Z (16 * hex_value h1 + hex_value h2); of_Z (16 * hex_value h3 + hex_value h4);
                        of_Z (16 * hex_value h5 + hex_value h6)] AUndefined).
Proof.
  intros H1 H2 H3 H4 H5 H6. unfold parse_string, hex6 at 1.
  rewrite Keywords.get_property_nonletter by (vm_compute; congruence).
  unfold getHexData. rewrite (matchColor_hex6 _ _ _ _ _ _ H1 H2 H3 H4 H5 H6). simpl.
  rewrite !parseInt16_pair by assumption. reflexivity.
Qed.

(** (C10) [#rrggbb] in lower case: each pair is read in base 16. *)
Theorem parseColor_hex6 (h1 h2 h3 h4 h5 h6 : ascii) :
  cc_match hexLC h1 = true -> cc_match hexLC h2 = true -> cc_match hexLC h3 = true ->
  cc_match hexLC h4 = true -> cc_match hexLC h5 = true -> cc_match hexLC h6 = true ->
  parseColor (JStr (hex6 h1 h2 h3 h4 h5 h6)) =
  Some (opaque_rgb (16 * hex_value h1 + hex_value h2) (16 * hex_value h3 + hex_value h4)
                   (16 * hex_value h5 + hex_value h6)).
Proof.
  intros H1 H2 H3 H4 H5 H6. unfold parseColor.
  rewrite (parse_string_hex6 _ _ _ _ _ _ H1 H2 H3 H4 H5 H6). reflexivity.
Qed.

Lemma parseColor_hex6_witness :
  parseColor (JStr (hex6 "0" "4" "9" "0" "a" "3")) = Some (opaque_rgb 4 144 163).
Proof. apply (parseColor_hex6 "0" "4" "9" "0" "a" "3"); reflexivity. Defined.

(** *** Inputs the grammar rejects or accepts against the specification *)

Definition nan_color : raw_color := {| r := NaN; g := NaN; b := NaN; a := of_Z 1 |}.

(** (C23) The names every object inherits from [Object.prototype] are
    found by the keyword lookup [CssColorNames[color]]: such a string
    parses to a "color" whose channels are [undefined] (NaN). *)
Theorem parseColor_inherited_name (name : string) :
  In name Keywords.object_prototype_keys -> parseColor (JStr name) = Some nan_color.
Proof.
  intros H. unfold parseColor, parse_string.
  simpl in H. repeat (destruct H as [<- | H]; [vm_compute; reflexivity |]). contradiction.
Qed.

Lemma parseColor_inherited_name_witness :
  In "constructor" Keywords.object_prototype_keys /\ parseColor (JStr "constructor") = Some nan_color.
Proof.
  assert (H : In "constructor" Keywords.object_prototype_keys) by (simpl; left; reflexivity).
  split; [exact H | exact (parseColor_inherited_name _ H)].
Defined.

Definition num_of (s : string) : jsval := JNum (StringToNumber s).

(** Divergences of the grammar from the specification: the
    alpha of [rgba(...)] and [AgColor(...)] is required, not optional,
    so the three-channel [AgColor] form is rejected; arrays and objects
    with fractional channels are rejected; a mapping with two keys
    besides [r, g, b] is accepted and its [a] is ignored. *)
Example parseColor_spec_divergences :
  parseColor (JStr "AgColor(0, 1, 0.5)") = None /\
  parseColor (JStr "rgba(0, 153, 170)") = None /\
  parseColor (JArr [num_of "4.499999999999999"; num_of "143.5"; num_of "163.00000010101010101"]) = None /\
  parseColor (JArr [num_of "4.499999999999999"; num_of "143.5"; JStr "67.2587491%"]) = None /\
  parseColor (JObj [("r", num_of "4"); ("g", num_of "144"); ("b", num_of "163");
                    ("x", num_of "1"); ("a", num_of "0.5")]) = Some (opaque_rgb 4 144 163).
Proof. vm_compute. repeat split. Qed.

(** Channel encodings are not mixed: percent and plain channels in
    one call do not parse; keywords are case-sensitive, [transparent]
    is not. *)
Example parseColor_homogeneity_and_case :
  parseColor (JStr "rgb(0, 60%, 67%)") = None /\
  parseColor (JStr "rgba(0, 60%, 67%, .5)") = None /\
  parseColor (JStr "Turquoise") = None /\
  parseColor (JStr "TRANSPARENT") = Some {| r := of_Z 0; g := of_Z 0; b := of_Z 0; a := of_Z 0 |}.
Proof. vm_compute. repeat split. Qed.

End Parse.
