(* ===== verification/ParseRgb.v ===== *)
(** * The [rgb(r, g, b)] form for every byte triple

    [parseColor] on the base-256 form [rgb(r, g, b)] (colorful.js lines
    200, 320-332, 387-406), for all 2^24 byte triples at once: the
    matcher captures exactly the three decimal runs, whatever the
    backtracking order, and the captures convert back to the bytes. The
    proof goes through the relational semantics of [Regex]: the
    existence of a match from a derivation ([m_complete]) and the
    captures from the inversion of any derivation ([m_sound]). *)

From Stdlib Require Import ZArith List String Ascii Bool Lia.
From S2P Require Import Prelude JsNumber JsValue Regex Grammar GrammarFacts Keywords Parse.
Import ListNotations.
Import JsNumber JsValue Regex Grammar GrammarFacts Parse.

Module ParseRgb.

(** The decimal text of an integer, as characters. *)
Definition dec (v : Z) : list ascii := list_ascii_of_string (digits_of_Z v).

(** The text [asRGB] writes for an opaque color with integral channels. *)
Definition rgb_text (rr gg bb : Z) : string :=
  "rgb(" ++ digits_of_Z rr ++ ", " ++ digits_of_Z gg ++ ", " ++ digits_of_Z bb ++ ")".

(** What the proof needs of one byte, decided for the 256 of them. *)
Definition byte_facts (v : Z) : bool :=
  forallb is_digit (dec v) && negb (Nat.eqb (List.length (dec v)) 0) &&
  (match m 0 rxRgbChannelBase256_body (dec v) [] at_end with Some _ => true | None => false end) &&
  num_eqb (StringToNumber (digits_of_Z v)) (of_Z v) &&
  String.eqb (Number_toString (of_Z v)) (digits_of_Z v).

Lemma byte_facts_check : forallb (fun i => byte_facts (0 + Z.of_nat i)) (seq 0 256) = true.
Proof. vm_compute. reflexivity. Qed.

Lemma byte_facts_spec (v : Z) : (0 <= v < 256)%Z ->
  forallb is_digit (dec v) = true /\ dec v <> [] /\
  (exists c', accepts 0 rxRgbChannelBase256_body (dec v) [] [] c') /\
  StringToNumber (digits_of_Z v) = of_Z v /\ Number_toString (of_Z v) = digits_of_Z v.
Proof.
  intros Hv. pose proof (forallb_Zrange _ 0 256 byte_facts_check v Hv) as H.
  unfold byte_facts in H.
  apply andb_prop in H as [H H5]. apply andb_prop in H as [H H4].
  apply andb_prop in H as [H H3]. apply andb_prop in H as [H1 H2].
  apply num_eqb_eq in H4. apply String.eqb_eq in H5.
  repeat split; auto.
  - intros E. rewrite E in H2. discriminate.
  - destruct (m 0 _ _ _ at_end) as [[s' c']|] eqn:E; [|discriminate].
    apply m_sound in E as (s0 & c0 & Hacc & Hk).
    destruct s0; [|discriminate]. eauto.
Qed.

Lemma channel_accepts (total n : nat) (v : Z) (t : list ascii) (c : caps) :
  (0 <= v < 256)%Z ->
  accepts total (rxRgbChannelBase256 n) (dec v ++ t) c t (set_cap n (digits_of_Z v) c).
Proof.
  intros Hv. destruct (byte_facts_spec v Hv) as (_ & _ & [c' H] & _).
  pose proof (accepts_shift _ _ _ _ _ _ _ H body_digits total c t) as H'.
  replace (digits_of_Z v) with (consumed (dec v ++ t) t)
    by (rewrite consumed_app; apply string_of_list_ascii_of_string).
  constructor. exact H'.
Qed.

(** The pattern [rxRgbBase256] as [buildColorRx] assembles it. *)
Lemma rxRgbBase256_eq :
  rxRgbBase256 =
  Seq Bol (seqs [sp; seqs [lit "rgb"; sp; chr "("; sp];
                 seqs [rxRgbChannelBase256 1; sep; seqs [rxRgbChannelBase256 2; sep; rxRgbChannelBase256 3]];
                 Seq sp (chr ")"); sp; Eol]).
Proof. reflexivity. Qed.

(** The captures of the three channels. *)
Definition rgb_caps (rr gg bb : Z) : caps :=
  set_cap 3 (digits_of_Z bb) (set_cap 2 (digits_of_Z gg) (set_cap 1 (digits_of_Z rr) [])).

Definition is_byte (v : Z) : Prop := (0 <= v < 256)%Z.

Lemma text_eq (rr gg bb : Z) :
  list_ascii_of_string (rgb_text rr gg bb) =
  ("r" :: "g" :: "b" :: "(" :: dec rr ++ "," :: " " :: dec gg ++ "," :: " " :: dec bb ++ [")"])%char%list.
Proof.
  unfold rgb_text. rewrite !list_ascii_of_string_app. reflexivity.
Qed.

Lemma rgb_accepts_inv (total : nat) (rr gg bb : Z) (s' : list ascii) (c' : caps) :
  is_byte rr -> is_byte gg -> is_byte bb ->
  accepts total rxRgbBase256 (list_ascii_of_string (rgb_text rr gg bb)) [] s' c' ->
  s' = [] /\ c' = rgb_caps rr gg bb.
Proof.
  intros Hr Hg Hb. rewrite text_eq, rxRgbBase256_eq. intros H. acc_inv H.
  rewrite <- ?app_assoc in *. cbn [app] in *.
  destruct (byte_facts_spec rr Hr) as (Dr & Nr & _).
  destruct (byte_facts_spec gg Hg) as (Dg & Ng & _).
  destruct (byte_facts_spec bb Hb) as (Db & Nb & _).
  rename H0 into E.
  strip E Hw. injection E as E. strip E Hw0. injection E as E.
  strip E Hw1. chan E Dr Hp Hw2 ","%char. strip E Hw2. injection E as E.
  strip1 E Hw3. chan E Dg Hp0 Hw4 ","%char. strip E Hw4. injection E as E.
  strip1 E Hw5. chan E Db Hp1 Hw6 ")"%char. strip E Hw6. injection E as E.
  symmetry in E. apply app_eq_nil in E as [-> _].
  split; [reflexivity|].
  unfold rgb_caps, dec. rewrite !string_of_list_ascii_of_string. reflexivity.
Qed.

Lemma rgb_accepts (rr gg bb : Z) :
  is_byte rr -> is_byte gg -> is_byte bb ->
  let l := list_ascii_of_string (rgb_text rr gg bb) in
  accepts (List.length l) rxRgbBase256 l [] [] (rgb_caps rr gg bb).
Proof.
  intros Hr Hg Hb l. subst l. rewrite text_eq, rxRgbBase256_eq.
  unfold sep, rgb_caps. cbn [seqs fold_right lit list_ascii_of_string lit_chars].
  repeat first [ eapply acc_seq
               | apply acc_empty
               | apply acc_eol
               | apply acc_bol; reflexivity
               | apply acc_chr; reflexivity
               | apply (sp_accepts _ [" "%char]); reflexivity
               | apply acc_star_nil
               | apply channel_accepts; assumption ].
Qed.

Lemma matchColor_rgb_text (rr gg bb : Z) :
  is_byte rr -> is_byte gg -> is_byte bb ->
  matchColor (rgb_text rr gg bb) rxRgbBase256 =
  Some {| md_rgb := [Some (digits_of_Z rr); Some (digits_of_Z gg); Some (digits_of_Z bb)];
          md_a := None |}.
Proof.
  intros Hr Hg Hb. pose proof (rgb_accepts rr gg bb Hr Hg Hb) as Hacc. cbv zeta in Hacc.
  unfold matchColor. rewrite rxRgbBase256_eq in Hacc |- *. rewrite exec_anchored. cbv zeta.
  set (l := list_ascii_of_string (rgb_text rr gg bb)) in *.
  apply accepts_seq_inv in Hacc as (s1 & c1 & HB & Hacc). inversion HB; subst.
  destruct (m _ _ l [] final) as [[s' c']|] eqn:E.
  - apply m_sound in E as (s0 & c0 & H0 & Hf). injection Hf as <- <-.
    assert (Hall : accepts (List.length l) rxRgbBase256 l [] s0 c0)
      by (rewrite rxRgbBase256_eq; econstructor; [constructor; reflexivity | exact H0]).
    apply rgb_accepts_inv in Hall as [-> ->]; auto.
  - exfalso. refine (m_complete _ _ _ _ _ _ Hacc final _ E). unfold final. discriminate.
Qed.

(** The hexadecimal patterns need a [#] after the leading white space. *)
Lemma matchColor_hex_rgb (ch : nat -> regex) (rr gg bb : Z) :
  matchColor (rgb_text rr gg bb) (buildColorRx "#" ch false) = None.
Proof.
  unfold matchColor, buildColorRx. cbv zeta. rewrite exec_anchored. reflexivity.
Qed.

(** The string branch of [parseColor] on [rgb(r, g, b)]: not a keyword,
    not [transparent], not hexadecimal, then [getBase256Data]. *)
Lemma parse_string_rgb_text (rr gg bb : Z) :
  is_byte rr -> is_byte gg -> is_byte bb ->
  parse_string (rgb_text rr gg bb) = Some (parsed_of_list [of_Z rr; of_Z gg; of_Z bb] AUndefined).
Proof.
  intros Hr Hg Hb. unfold parse_string.
  rewrite Keywords.get_property_not_name by reflexivity.
  replace (String.eqb (toLowerCase (rgb_text rr gg bb)) "transparent") with false by reflexivity.
  unfold getHexData, rxHexLC, rxHexUC, rxHexShortLC, rxHexShortUC.
  rewrite !matchColor_hex_rgb. cbn [orElse option_map].
  unfold getBase256Data. rewrite matchColor_rgb_text by assumption.
  destruct (byte_facts_spec rr Hr) as (_ & _ & _ & Er & _).
  destruct (byte_facts_spec gg Hg) as (_ & _ & _ & Eg & _).
  destruct (byte_facts_spec bb Hb) as (_ & _ & _ & Eb & _).
  cbn. rewrite Er, Eg, Eb. reflexivity.
Qed.

(** An array of three numbers is read through the text [rgb(...)]. *)
Lemma rgb_call_bytes (rr gg bb : Z) :
  is_byte rr -> is_byte gg -> is_byte bb ->
  rgb_call [JNum (of_Z rr); JNum (of_Z gg); JNum (of_Z bb)] = rgb_text rr gg bb.
Proof.
  intros Hr Hg Hb.
  destruct (byte_facts_spec rr Hr) as (_ & _ & _ & _ & Er).
  destruct (byte_facts_spec gg Hg) as (_ & _ & _ & _ & Eg).
  destruct (byte_facts_spec bb Hb) as (_ & _ & _ & _ & Eb).
  unfold rgb_call, array_join, rgb_text. cbn [map join_element js_to_string join List.length Nat.eqb].
  rewrite Er, Eg, Eb, !string_app_assoc. reflexivity.
Qed.

(** (C1) Every [rgb(r, g, b)] text with byte channels written in
    decimal parses to the opaque color with those channels. *)
Theorem parseColor_rgb_text (rr gg bb : Z) :
  is_byte rr -> is_byte gg -> is_byte bb ->
  parseColor (JStr (rgb_text rr gg bb)) = Some (opaque_rgb rr gg bb).
Proof.
  intros Hr Hg Hb. unfold parseColor. rewrite parse_string_rgb_text by assumption. reflexivity.
Qed.

Lemma parseColor_rgb_text_witness :
  is_byte 0 /\ is_byte 128 /\ is_byte 254 /\
  parseColor (JStr "rgb(0, 128, 254)") = Some (opaque_rgb 0 128 254).
Proof.
  assert (H0 : is_byte 0) by (unfold is_byte; lia).
  assert (H1 : is_byte 128) by (unfold is_byte; lia).
  assert (H2 : is_byte 254) by (unfold is_byte; lia).
  split; [exact H0|]. split; [exact H1|]. split; [exact H2|].
  exact (parseColor_rgb_text 0 128 254 H0 H1 H2).
Defined.

(** (C14) An array of three bytes is the opaque color with those
    channels. *)
Theorem parseColor_byte_array (rr gg bb : Z) :
  is_byte rr -> is_byte gg -> is_byte bb ->
  parseColor (JArr [JNum (of_Z rr); JNum (of_Z gg); JNum (of_Z bb)]) = Some (opaque_rgb rr gg bb).
Proof.
  intros Hr Hg Hb. unfold parseColor. cbn [List.length Nat.eqb orb].
  unfold parseColorString. rewrite rgb_call_bytes, parse_string_rgb_text by assumption.
  reflexivity.
Qed.

Lemma parseColor_byte_array_witness :
  is_byte 4 /\ is_byte 144 /\ is_byte 163 /\
  parseColor (JArr [JNum (of_Z 4); JNum (of_Z 144); JNum (of_Z 163)]) = Some (opaque_rgb 4 144 163).
Proof.
  assert (H0 : is_byte 4) by (unfold is_byte; lia).
  assert (H1 : is_byte 144) by (unfold is_byte; lia).
  assert (H2 : is_byte 163) by (unfold is_byte; lia).
  split; [exact H0|]. split; [exact H1|]. split; [exact H2|].
  exact (parseColor_byte_array 4 144 163 H0 H1 H2).
Defined.

(** ** Objects

    A key whose value is not [undefined] is a key of the object. *)
Lemma get_prop_key (props : list (string * jsval)) (k : string) (v : jsval) :
  get_prop props k = v -> v <> JUndefined -> existsb (String.eqb k) (map fst props) = true.
Proof.
  unfold get_prop. intros E Hv. destruct (find _ props) as [[k' w]|] eqn:F; [|congruence].
  apply find_some in F as [Hin Hk]. cbn [fst] in Hk. apply String.eqb_eq in Hk. subst k'.
  apply existsb_exists. exists k. split; [apply (in_map fst _ _ Hin) | apply String.eqb_refl].
Qed.

(** (C27) An object whose [r], [g] and [b] are bytes, and whose number
    of keys is not 4, is the opaque color with those channels, whatever
    its other keys and its [a]: line 377 only asks that [r, g, b] be
    among the keys, and line 380 pushes [color.a] only when there are
    exactly 4 keys.  The specification (section 4.3) makes a mapping
    whose keys are neither [{r,g,b}] nor [{r,g,b,a}] invalid; here
    [{r, g, b, x}] with a fifth key is a color, and its [a] is ignored. *)
Theorem parseColor_object_alpha_ignored (props : list (string * jsval)) (rr gg bb : Z) :
  is_byte rr -> is_byte gg -> is_byte bb ->
  get_prop props "r" = JNum (of_Z rr) -> get_prop props "g" = JNum (of_Z gg) ->
  get_prop props "b" = JNum (of_Z bb) -> List.length props <> 4%nat ->
  parseColor (JObj props) = Some (opaque_rgb rr gg bb).
Proof.
  intros Hr Hg Hb Er Eg Eb Hl. unfold parseColor, object_branch. cbn [keys get_field].
  unfold intersection_length. cbn [filter].
  rewrite (get_prop_key _ _ _ Er), (get_prop_key _ _ _ Eg), (get_prop_key _ _ _ Eb) by discriminate.
  cbn [List.length Nat.eqb orb]. rewrite length_map. apply Nat.eqb_neq in Hl. rewrite Hl.
  rewrite Er, Eg, Eb. unfold parseColorString. rewrite rgb_call_bytes, parse_string_rgb_text by assumption.
  reflexivity.
Qed.

Lemma parseColor_object_alpha_ignored_witness :
  let o := [("r", JNum (of_Z 4)); ("g", JNum (of_Z 144)); ("b", JNum (of_Z 163));
            ("x", JNum (of_Z 1)); ("a", JNum (StringToNumber "0.5"))] in
  is_byte 4 /\ is_byte 144 /\ is_byte 163 /\ List.length o <> 4%nat /\
  parseColor (JObj o) = Some (opaque_rgb 4 144 163).
Proof.
  intros o.
  assert (H0 : is_byte 4) by (unfold is_byte; lia).
  assert (H1 : is_byte 144) by (unfold is_byte; lia).
  assert (H2 : is_byte 163) by (unfold is_byte; lia).
  assert (Hl : List.length o <> 4%nat) by discriminate.
  split; [exact H0|]. split; [exact H1|]. split; [exact H2|]. split; [exact Hl|].
  apply (parseColor_object_alpha_ignored o 4 144 163 H0 H1 H2); [reflexivity | reflexivity | reflexivity | exact Hl].
Defined.

(** ** The channels of any base-256 match are bytes

    Whatever the white space and leading zeros, every channel
    [getBase256Data] returns is an integer between 0 and 255: a capture
    of [rxRgbChannelBase256] is a run of at most three digits that the
    channel pattern accepts, and the 1111 digit strings of length at
    most three are decided one by one. *)

Definition digits10 : list ascii := map ascii_of_nat (seq 48 10).

(** The digit strings of length at most [n]. *)
Fixpoint words (n : nat) : list (list ascii) :=
  match n with
  | O => [[]]
  | S n' => [] :: flat_map (fun d => map (cons d) (words n')) digits10
  end.

Lemma digit_in_digits10 (a : ascii) : is_digit a = true -> In a digits10.
Proof.
  intros Ha.
  assert (H : implb (is_digit a) (existsb (Ascii.eqb a) digits10) = true)
    by (apply (ascii_forall (fun a => implb (is_digit a) (existsb (Ascii.eqb a) digits10))); reflexivity).
  rewrite Ha in H. apply existsb_exists in H as (x & Hx & E). apply Ascii.eqb_eq in E. subst. exact Hx.
Qed.

Lemma words_complete (n : nat) (p : list ascii) :
  forallb is_digit p = true -> List.length p <= n -> In p (words n).
Proof.
  revert p. induction n as [|n IH]; intros [|a p] Hd Hl; cbn [words List.length forallb] in *;
    try (left; reflexivity); [lia|].
  apply andb_prop in Hd as [Ha Hd]. right. apply in_flat_map. exists a.
  split; [apply digit_in_digits10; exact Ha | apply in_map, IH; [exact Hd | lia]].
Qed.

(** A capture the channel accepts reads as a byte. *)
Definition capture_ok (p : list ascii) : bool :=
  match m 0 rxRgbChannelBase256_body p [] at_end with
  | Some _ => let v := digits_to_Z p in
              Z.leb 0 v && Z.leb v 255 && num_eqb (StringToNumber (string_of_list_ascii p)) (of_Z v)
  | None => true
  end.

Lemma capture_check : forallb capture_ok (words 3) = true.
Proof. vm_compute. reflexivity. Qed.

Lemma channel_capture_byte (p : list ascii) :
  forallb is_digit p = true ->
  (forall total c0, accepts total rxRgbChannelBase256_body p c0 [] c0) ->
  exists v, is_byte v /\ StringToNumber (string_of_list_ascii p) = of_Z v.
Proof.
  intros Hd Hacc.
  assert (Hl : List.length p <= 3)
    by (pose proof (accepts_max_len _ _ _ _ _ _ (Hacc 0 []) 3 eq_refl); simpl in *; lia).
  pose proof capture_check as Hc. rewrite forallb_forall in Hc.
  specialize (Hc p (words_complete 3 p Hd Hl)). unfold capture_ok in Hc.
  destruct (m 0 _ p [] at_end) as [x|] eqn:E.
  - apply andb_prop in Hc as [Hc H3]. apply andb_prop in Hc as [H1 H2].
    apply num_eqb_eq in H3. apply Z.leb_le in H1, H2.
    exists (digits_to_Z p). split; [unfold is_byte; lia | exact H3].
  - exfalso. refine (m_complete 0 _ _ _ _ _ (Hacc 0 []) at_end _ E). unfold at_end. discriminate.
Qed.

Lemma rxRgbaBase256_eq :
  rxRgbaBase256 =
  Seq Bol (seqs [sp; seqs [lit "rgba"; sp; chr "("; sp];
                 seqs [rxRgbChannelBase256 1; sep; seqs [rxRgbChannelBase256 2; sep;
                       seqs [rxRgbChannelBase256 3; sep; rxAlpha 4]]];
                 Seq sp (chr ")"); sp; Eol]).
Proof. reflexivity. Qed.

(** A channel capture of the base-256 patterns. *)
Definition byte_capture (o : option string) : Prop :=
  exists p, o = Some (string_of_list_ascii p) /\ forallb is_digit p = true /\
            forall total c0, accepts total rxRgbChannelBase256_body p c0 [] c0.

Lemma matchColor_base256_captures (color : string) (d : match_data) :
  matchColor color rxRgbBase256 = Some d \/ matchColor color rxRgbaBase256 = Some d ->
  Forall byte_capture (md_rgb d).
Proof.
  unfold matchColor.
  intros [H | H]; destruct (exec _ color) as [res|] eqn:E; try discriminate; injection H as <-;
    [rewrite rxRgbBase256_eq in E | rewrite rxRgbaBase256_eq in E];
    apply exec_anchored_sound in E as [s' Hacc]; acc_inv Hacc;
    cbn [md_rgb]; unfold group; match goal with Hc : _ = m_caps res |- _ => rewrite <- Hc end;
    repeat constructor; eexists; (split; [reflexivity | split; assumption]).
Qed.

(** (C8) Every channel [getBase256Data] reads from any string is an
    integer between 0 and 255. *)
Theorem getBase256Data_bytes (color : string) (d : channel_data) :
  getBase256Data color = Some d ->
  Forall (fun x => exists v, is_byte v /\ x = of_Z v) (cd_rgb d).
Proof.
  unfold getBase256Data, orElse. intros H.
  assert (Hm : exists md, (matchColor color rxRgbBase256 = Some md \/ matchColor color rxRgbaBase256 = Some md)
                          /\ d = convert capture_to_number md).
  { destruct (matchColor color rxRgbBase256) as [md|] eqn:E1.
    - injection H as <-. eauto.
    - destruct (matchColor color rxRgbaBase256) as [md|] eqn:E2; [|discriminate].
      injection H as <-. eauto. }
  destruct Hm as (md & Hmd & ->). apply matchColor_base256_captures in Hmd.
  cbn [convert cd_rgb]. apply Forall_map. eapply Forall_impl; [|exact Hmd].
  intros o (p & -> & Hd & Hacc). cbn [capture_to_number].
  destruct (channel_capture_byte p Hd Hacc) as (v & Hv & E). eauto.
Qed.

Lemma getBase256Data_bytes_witness :
  getBase256Data " rgba( 007 ,255,  0 , .5 ) " <> None /\
  Forall (fun x => exists v, is_byte v /\ x = of_Z v)
    (match getBase256Data " rgba( 007 ,255,  0 , .5 ) " with Some d => cd_rgb d | None => [] end).
Proof.
  split; [vm_compute; discriminate|].
  destruct (getBase256Data " rgba( 007 ,255,  0 , .5 ) ") as [d|] eqn:E; [|constructor].
  exact (getBase256Data_bytes _ d E).
Defined.

End ParseRgb.
