(* ===== verification/RgbGrammar.v ===== *)
(** * The base-256 [rgb()] form against its grammar

    A declarative reading of the texts [rxRgbBase256] (colorful.js
    lines 195 and 273-283) should match, written without regular
    expressions: [rgb], [(], three channels separated by commas, and
    [)], with any white space ([\s], [is_space]) around every token; a
    channel is one to three decimal digits whose value is at most 255.
    [matchColor] returns match data exactly for these texts, and its
    captures are their three channels: the matcher is sound and complete
    for this grammar, and its backtracking always finds the one way the
    text splits into tokens. *)

From Stdlib Require Import ZArith List String Ascii Bool Lia.
From S2P Require Import Prelude JsNumber Regex Grammar GrammarFacts ParseRgb.
Import ListNotations.
Import JsNumber Regex Grammar GrammarFacts ParseRgb.

Module RgbGrammar.

(** ** The grammar *)

Definition blank (w : list ascii) : bool := forallb is_space w.

(** A base-256 channel: one to three digits, at most 255. *)
Definition byte_word (p : list ascii) : bool :=
  Nat.leb 1 (List.length p) && Nat.leb (List.length p) 3 && forallb is_digit p &&
  Z.leb (digits_to_Z p) 255.

(** [rgb( p1 , p2 , p3 )] with the white space [w0 .. w8] around the
    tokens. *)
Inductive rgb_syntax : list ascii -> list ascii -> list ascii -> list ascii -> Prop :=
  | rgb_syntax_intro (w0 w1 w2 w3 w4 w5 w6 w7 w8 p1 p2 p3 : list ascii) :
      forallb blank [w0; w1; w2; w3; w4; w5; w6; w7; w8] = true ->
      rgb_syntax (w0 ++ "r" :: "g" :: "b" :: w1 ++ "(" :: w2 ++ p1 ++ w3 ++ "," :: w4 ++ p2 ++ w5 ++
                  "," :: w6 ++ p3 ++ w7 ++ ")" :: w8)%char%list p1 p2 p3.

(** The match data of a text of the grammar. *)
Definition rgb_data (p1 p2 p3 : list ascii) : match_data :=
  {| md_rgb := [Some (string_of_list_ascii p1); Some (string_of_list_ascii p2);
                Some (string_of_list_ascii p3)];
     md_a := None |}.

(** ** A channel of the grammar is a match of the channel pattern *)

Definition channel_agrees (p : list ascii) : bool :=
  Bool.eqb (byte_word p) (match m 0 rxRgbChannelBase256_body p [] at_end with Some _ => true | None => false end).

Lemma channel_agrees_check : forallb channel_agrees (words 3) = true.
Proof. vm_compute. reflexivity. Qed.

Lemma channel_agrees_spec (p : list ascii) :
  forallb is_digit p = true -> List.length p <= 3 -> channel_agrees p = true.
Proof.
  intros Hd Hl. pose proof channel_agrees_check as H. rewrite forallb_forall in H.
  exact (H p (words_complete 3 p Hd Hl)).
Qed.

Lemma byte_word_digits (p : list ascii) : byte_word p = true -> forallb is_digit p = true /\ p <> [].
Proof.
  unfold byte_word. intros H. apply andb_prop in H as [H _]. apply andb_prop in H as [H Hd].
  apply andb_prop in H as [H1 _]. split; [exact Hd|]. intros ->. discriminate.
Qed.

Lemma byte_word_accepts (p : list ascii) :
  byte_word p = true <->
  forallb is_digit p = true /\ forall total c0, accepts total rxRgbChannelBase256_body p c0 [] c0.
Proof.
  split.
  - intros Hb. destruct (byte_word_digits p Hb) as [Hd _]. split; [exact Hd|].
    assert (Hl : List.length p <= 3).
    { unfold byte_word in Hb. apply andb_prop in Hb as [Hb _]. apply andb_prop in Hb as [Hb _].
      apply andb_prop in Hb as [_ Hb]. apply Nat.leb_le. exact Hb. }
    pose proof (channel_agrees_spec p Hd Hl) as Ha. unfold channel_agrees in Ha. rewrite Hb in Ha.
    destruct (m 0 _ p [] at_end) as [x|] eqn:E; [|discriminate].
    apply m_sound in E as (s0 & c1 & Hacc & Hk). destruct s0; [|discriminate].
    intros total c0. pose proof (accepts_shift _ _ _ _ _ _ _ Hacc body_digits total c0 []) as H.
    rewrite app_nil_r in H. exact H.
  - intros [Hd Hacc].
    assert (Hl : List.length p <= 3)
      by (pose proof (accepts_max_len _ _ _ _ _ _ (Hacc 0 []) 3 eq_refl); cbn in *; lia).
    pose proof (channel_agrees_spec p Hd Hl) as Ha. unfold channel_agrees in Ha.
    destruct (m 0 _ p [] at_end) as [x|] eqn:E.
    + apply Bool.eqb_prop in Ha. exact Ha.
    + exfalso. refine (m_complete 0 _ _ _ _ _ (Hacc 0 []) at_end _ E). unfold at_end. discriminate.
Qed.

(** ** The text splits one way *)

(** Peel equal white space, then equal channels, off the front of two
    texts of the grammar. *)
Ltac peel_sp E :=
  let E' := fresh "E" in
  lazymatch type of E with
  | (?w ++ _)%list = (?v ++ _)%list =>
      destruct (run_unique is_space w v _ _ ltac:(assumption) ltac:(assumption) E
                  ltac:(first [reflexivity | apply digits_hns; assumption])
                  ltac:(first [reflexivity | apply digits_hns; assumption])) as [<- E'];
      clear E; rename E' into E
  end.

Ltac peel_digits E :=
  let E' := fresh "E" in
  lazymatch type of E with
  | (?p ++ _)%list = (?q ++ _)%list =>
      destruct (run_unique is_digit p q _ _ ltac:(assumption) ltac:(assumption) E
                  ltac:(apply spaces_hnd; [assumption | reflexivity])
                  ltac:(apply spaces_hnd; [assumption | reflexivity])) as [<- E'];
      clear E; rename E' into E
  end.

Lemma rgb_syntax_unique (l p1 p2 p3 q1 q2 q3 : list ascii) :
  rgb_syntax l p1 p2 p3 -> rgb_syntax l q1 q2 q3 ->
  byte_word p1 && byte_word p2 && byte_word p3 = true ->
  byte_word q1 && byte_word q2 && byte_word q3 = true ->
  p1 = q1 /\ p2 = q2 /\ p3 = q3.
Proof.
  intros Hp Hq Bp Bq. destruct Hp as [w0 w1 w2 w3 w4 w5 w6 w7 w8 p1 p2 p3 Hw].
  inversion Hq as [v0 v1 v2 v3 v4 v5 v6 v7 v8 q1' q2' q3' Hv E]; subst. clear Hq.
  cbn [forallb blank] in Hw, Hv. rewrite !andb_true_r in Hw, Hv.
  repeat match goal with H : _ && _ = true |- _ => apply andb_prop in H as [? ?] end.
  repeat match goal with H : byte_word ?p = true |- _ =>
    apply byte_word_digits in H as [? ?] end.
  peel_sp E. injection E as E. peel_sp E. injection E as E. peel_sp E. peel_digits E.
  peel_sp E. injection E as E. peel_sp E. peel_digits E.
  peel_sp E. injection E as E. peel_sp E. peel_digits E. auto.
Qed.

(** ** Soundness and completeness of the matcher *)

Lemma channel_accepts_word (total n : nat) (p t : list ascii) (c : caps) :
  byte_word p = true ->
  accepts total (rxRgbChannelBase256 n) (p ++ t) c t (set_cap n (string_of_list_ascii p) c).
Proof.
  intros Hb. apply byte_word_accepts in Hb as [_ Hm].
  pose proof (accepts_shift _ _ _ _ _ _ _ (Hm 0 []) body_digits total c t) as H.
  rewrite <- (consumed_app p t). constructor. exact H.
Qed.

Lemma rgb_sound (color : string) (md : match_data) :
  matchColor color rxRgbBase256 = Some md ->
  exists p1 p2 p3, byte_word p1 && byte_word p2 && byte_word p3 = true /\
    rgb_syntax (list_ascii_of_string color) p1 p2 p3 /\ md = rgb_data p1 p2 p3.
Proof.
  unfold matchColor. destruct (exec _ color) as [res|] eqn:E; [|discriminate]. intros [= <-].
  rewrite rxRgbBase256_eq in E. apply exec_anchored_sound in E as [s' Hacc]. acc_inv Hacc.
  rewrite app_nil_r in H0.
  assert (B : forall q, forallb is_digit q = true ->
                (forall total c0, accepts total rxRgbChannelBase256_body q c0 [] c0) -> byte_word q = true)
    by (intros q Hq Hmq; apply byte_word_accepts; auto).
  exists p, p0, p1. split; [rewrite (B p), (B p0), (B p1) by assumption; reflexivity|]. split.
  - rewrite H0. constructor. cbn [forallb]. unfold blank. rewrite Hw, Hw0, Hw1, Hw2, Hw3, Hw4, Hw5, Hw6, Hw7.
    reflexivity.
  - unfold group. rewrite <- H1. reflexivity.
Qed.

Lemma rgb_complete (color : string) (p1 p2 p3 : list ascii) :
  byte_word p1 && byte_word p2 && byte_word p3 = true ->
  rgb_syntax (list_ascii_of_string color) p1 p2 p3 -> matchColor color rxRgbBase256 <> None.
Proof.
  intros Hb Hs. repeat match goal with H : _ && _ = true |- _ => apply andb_prop in H as [? ?] end.
  assert (Hacc : exists c, accepts (List.length (list_ascii_of_string color))
                   (seqs [sp; seqs [lit "rgb"; sp; chr "("; sp];
                          seqs [rxRgbChannelBase256 1; sep; seqs [rxRgbChannelBase256 2; sep; rxRgbChannelBase256 3]];
                          Seq sp (chr ")"); sp; Eol])
                   (list_ascii_of_string color) [] [] c).
  { destruct Hs as [w0 w1 w2 w3 w4 w5 w6 w7 w8 p1 p2 p3 Hw]. cbn [forallb] in Hw. unfold blank in Hw.
    repeat match goal with H : _ && _ = true |- _ => apply andb_prop in H as [? ?] end.
    unfold sep. cbn [seqs fold_right lit list_ascii_of_string lit_chars]. eexists.
    repeat first [ eapply acc_seq
                 | apply acc_empty
                 | apply acc_eol
                 | apply acc_chr; reflexivity
                 | apply channel_accepts_word; assumption
                 | apply sp_accepts; assumption
                 | rewrite <- (app_nil_r w8); apply sp_accepts; assumption ]. }
  destruct Hacc as [c Hacc].
  unfold matchColor. rewrite rxRgbBase256_eq, exec_anchored. cbv zeta.
  destruct (m _ _ _ [] final) as [[s' c']|] eqn:E; [discriminate|].
  exfalso. refine (m_complete _ _ _ _ _ _ Hacc final _ E). discriminate.
Qed.

(** C38: [matchColor] with the pattern [rxRgbBase256] refines the
    grammar of the base-256 form: it returns match data exactly for the
    texts [rgb( p1 , p2 , p3 )] with any white space around the tokens
    and channels of one to three digits of value at most 255, and the
    data it returns are those three channels, in order, with no alpha. *)
Theorem matchColor_rgb_grammar (color : string) (md : match_data) :
  matchColor color rxRgbBase256 = Some md <->
  exists p1 p2 p3, byte_word p1 && byte_word p2 && byte_word p3 = true /\
    rgb_syntax (list_ascii_of_string color) p1 p2 p3 /\ md = rgb_data p1 p2 p3.
Proof.
  split; [apply rgb_sound|].
  intros (p1 & p2 & p3 & Hb & Hs & ->).
  destruct (matchColor color rxRgbBase256) as [md'|] eqn:E;
    [| exfalso; exact (rgb_complete color p1 p2 p3 Hb Hs E)].
  destruct (rgb_sound color md' E) as (q1 & q2 & q3 & Hb' & Hs' & ->).
  destruct (rgb_syntax_unique _ _ _ _ _ _ _ Hs Hs' Hb Hb') as (-> & -> & ->). reflexivity.
Qed.

Lemma matchColor_rgb_grammar_witness :
  matchColor " rgb( 007 ,255,0 ) " rxRgbBase256 =
  Some (rgb_data (list_ascii_of_string "007") (list_ascii_of_string "255") (list_ascii_of_string "0")).
Proof.
  apply matchColor_rgb_grammar.
  exists (list_ascii_of_string "007"), (list_ascii_of_string "255"), (list_ascii_of_string "0").
  split; [reflexivity|]. split; [|reflexivity].
  exact (rgb_syntax_intro [" "%char] [] [" "%char] [" "%char] [] [] [] [" "%char] [" "%char]
           (list_ascii_of_string "007") (list_ascii_of_string "255") (list_ascii_of_string "0") eq_refl).
Defined.

End RgbGrammar.
