(* ===== verification/ParseHex.v ===== *)
(** * The hexadecimal forms: every channel is a byte

    [getHexData] (colorful.js lines 294-318) on any string: the long
    forms [#rrggbb] and the short forms [#rgb], in lower or upper case,
    capture one or two hexadecimal digits per channel, and
    [parseInt(value, 16)] of such a capture, doubled for the short
    forms, is an integer between 0 and 255.  The 507 hexadecimal words
    of length at most two are decided one by one. *)

From Stdlib Require Import ZArith List String Ascii Bool Lia.
From S2P Require Import Prelude JsNumber JsValue Regex Grammar GrammarFacts Parse ParseRgb.
Import ListNotations.
Import JsNumber JsValue Regex Grammar GrammarFacts Parse ParseRgb.

Module ParseHex.

Definition hexchars : list ascii :=
  ["0"; "1"; "2"; "3"; "4"; "5"; "6"; "7"; "8"; "9"; "a"; "b"; "c"; "d"; "e"; "f";
   "A"; "B"; "C"; "D"; "E"; "F"]%char.

(** The hexadecimal words of length at most [n]. *)
Fixpoint hwords (n : nat) : list (list ascii) :=
  match n with
  | O => [[]]
  | S n' => [] :: flat_map (fun d => map (cons d) (hwords n')) hexchars
  end.

Lemma hexchar_in (a : ascii) : is_hexchar a = true -> In a hexchars.
Proof.
  intros Ha.
  assert (H : implb (is_hexchar a) (existsb (Ascii.eqb a) hexchars) = true)
    by (apply (ascii_forall (fun a => implb (is_hexchar a) (existsb (Ascii.eqb a) hexchars))); reflexivity).
  rewrite Ha in H. apply existsb_exists in H as (x & Hx & E). apply Ascii.eqb_eq in E. subst. exact Hx.
Qed.

Lemma hwords_complete (n : nat) (p : list ascii) :
  forallb is_hexchar p = true -> List.length p <= n -> In p (hwords n).
Proof.
  revert p. induction n as [|n IH]; intros [|a p] Hd Hl; cbn [hwords List.length forallb] in *;
    try (left; reflexivity); [lia|].
  apply andb_prop in Hd as [Ha Hd]. right. apply in_flat_map. exists a.
  split; [apply hexchar_in; exact Ha | apply in_map, IH; [exact Hd | lia]].
Qed.

(** [parseInt(w, 16)] of a nonempty word is a byte. *)
Definition hex_ok (p : list ascii) : bool :=
  match p with
  | [] => true
  | _ => match JsNumber.hex_prefix 0 false p with
         | Some z => Z.leb 0 z && Z.leb z 255 && num_eqb (parseInt16 (string_of_list_ascii p)) (of_Z z)
         | None => false
         end
  end.

Lemma hex_check :
  forallb (fun p => hex_ok p && (if Nat.leb (List.length p) 1 then hex_ok (p ++ p) else true))
          (hwords 2) = true.
Proof. vm_compute. reflexivity. Qed.

Lemma hex_ok_byte (p : list ascii) :
  hex_ok p = true -> p <> [] -> exists v, is_byte v /\ parseInt16 (string_of_list_ascii p) = of_Z v.
Proof.
  unfold hex_ok. destruct p as [|a p]; [congruence|]. intros H _.
  destruct (JsNumber.hex_prefix 0 false (a :: p)) as [z|]; [|discriminate].
  apply andb_prop in H as [H H3]. apply andb_prop in H as [H1 H2].
  apply Z.leb_le in H1, H2. apply num_eqb_eq in H3. exists z. split; [unfold is_byte; lia | exact H3].
Qed.

Lemma string_of_list_ascii_app (l1 l2 : list ascii) :
  string_of_list_ascii (l1 ++ l2) = (string_of_list_ascii l1 ++ string_of_list_ascii l2)%string.
Proof. induction l1 as [|a l1 IH]; simpl; [reflexivity | rewrite IH; reflexivity]. Qed.

Lemma hex_capture_byte (p : list ascii) :
  forallb is_hexchar p = true -> p <> [] -> List.length p <= 2 ->
  (exists v, is_byte v /\ parseInt16 (string_of_list_ascii p) = of_Z v) /\
  (List.length p <= 1 ->
   exists v, is_byte v /\ parseInt16 (string_of_list_ascii p ++ string_of_list_ascii p) = of_Z v).
Proof.
  intros Hd Hn Hl. pose proof hex_check as Hc. rewrite forallb_forall in Hc.
  specialize (Hc p (hwords_complete 2 p Hd Hl)). apply andb_prop in Hc as [H1 H2].
  split; [exact (hex_ok_byte p H1 Hn)|].
  intros H1'. apply Nat.leb_le in H1'. rewrite H1' in H2. rewrite <- string_of_list_ascii_app.
  apply hex_ok_byte; [exact H2 | destruct p; [congruence | discriminate]].
Qed.

Lemma hex_rx_eq (ch : nat -> regex) :
  buildColorRx "#" ch false =
  Seq Bol (seqs [sp; lit "#"; seqs [ch 1; Empty; seqs [ch 2; Empty; ch 3]]; Empty; sp; Eol]).
Proof. reflexivity. Qed.

(** A channel capture of a hexadecimal pattern: at most [k] digits. *)
Definition hex_capture (k : nat) (o : option string) : Prop :=
  exists p, o = Some (string_of_list_ascii p) /\ forallb is_hexchar p = true /\ p <> [] /\
            List.length p <= k.

Lemma matchColor_hex_captures (ch : nat -> regex) (k : nat) (color : string) (d : match_data) :
  (ch = rxRgbChannelHexLC /\ k = 2) \/ (ch = rxRgbChannelHexUC /\ k = 2) \/
  (ch = rxRgbChannelShortHexLC /\ k = 1) \/ (ch = rxRgbChannelShortHexUC /\ k = 1) ->
  matchColor color (buildColorRx "#" ch false) = Some d -> Forall (hex_capture k) (md_rgb d).
Proof.
  intros Hc. unfold matchColor. destruct (exec _ color) as [res|] eqn:E; [|discriminate].
  intros H. injection H as <-. rewrite hex_rx_eq in E. apply exec_anchored_sound in E as [s' Hacc].
  destruct Hc as [[-> ->] | [[-> ->] | [[-> ->] | [-> ->]]]]; acc_inv Hacc;
    cbn [md_rgb]; unfold group; match goal with Hc : _ = m_caps res |- _ => rewrite <- Hc end;
    repeat constructor; eexists; (split; [reflexivity|]); (split; [assumption|]); (split; [assumption|]);
    match goal with Hm : forall total' c0, accepts total' ?body ?p c0 [] c0 |- List.length ?p <= _ =>
      pose proof (accepts_max_len _ _ _ _ _ _ (Hm 0 []) _ eq_refl); simpl in *; lia end.
Qed.

Lemma hex_capture_parse (k : nat) (o : option string) :
  hex_capture k o -> k <= 2 -> exists v, is_byte v /\ capture_parseInt16 o = of_Z v.
Proof.
  intros (p & -> & Hd & Hn & Hl) Hk. apply (hex_capture_byte p Hd Hn). lia.
Qed.

Lemma hex_capture_parse_doubled (o : option string) :
  hex_capture 1 o -> exists v, is_byte v /\ capture_parseInt16 (option_map (fun v => v ++ v) o) = of_Z v.
Proof.
  intros (p & -> & Hd & Hn & Hl). apply (hex_capture_byte p Hd Hn); lia.
Qed.

(** (C9) Every channel [getHexData] reads from any string, long or
    short form, in either case, is an integer between 0 and 255. *)
Theorem getHexData_bytes (color : string) (d : channel_data) :
  getHexData color = Some d -> Forall (fun x => exists v, is_byte v /\ x = of_Z v) (cd_rgb d).
Proof.
  unfold getHexData, orElse.
  destruct (matchColor color rxHexLC) as [md|] eqn:E1;
    [| destruct (matchColor color rxHexUC) as [md|] eqn:E2;
       [| destruct (matchColor color rxHexShortLC) as [md|] eqn:E3;
          [| destruct (matchColor color rxHexShortUC) as [md|] eqn:E4]]];
    intros H; try discriminate; injection H as <-; cbn [convert cd_rgb md_rgb]; apply Forall_map.
  - apply (matchColor_hex_captures rxRgbChannelHexLC 2) in E1; [|auto 6].
    eapply Forall_impl; [|exact E1]. intros o Ho.
    destruct (hex_capture_parse 2 o Ho ltac:(lia)) as (v & Hv & ->). eauto.
  - apply (matchColor_hex_captures rxRgbChannelHexUC 2) in E2; [|auto 6].
    eapply Forall_impl; [|exact E2]. intros o Ho.
    destruct (hex_capture_parse 2 o Ho ltac:(lia)) as (v & Hv & ->). eauto.
  - apply (matchColor_hex_captures rxRgbChannelShortHexLC 1) in E3; [|auto 6].
    apply Forall_map. eapply Forall_impl; [|exact E3]. intros o Ho.
    destruct (hex_capture_parse_doubled o Ho) as (v & Hv & ->). eauto.
  - apply (matchColor_hex_captures rxRgbChannelShortHexUC 1) in E4; [|auto 6].
    apply Forall_map. eapply Forall_impl; [|exact E4]. intros o Ho.
    destruct (hex_capture_parse_doubled o Ho) as (v & Hv & ->). eauto.
Qed.

Lemma getHexData_bytes_witness :
  getHexData " #0A9 " <> None /\
  Forall (fun x => exists v, is_byte v /\ x = of_Z v)
    (match getHexData " #0A9 " with Some d => cd_rgb d | None => [] end).
Proof.
  split; [vm_compute; discriminate|].
  destruct (getHexData " #0A9 ") as [d|] eqn:E; [|constructor].
  exact (getHexData_bytes _ d E).
Defined.

(** ** The short form, in each case *)

Definition short_hex (h1 h2 h3 : ascii) : string := String "#" (String h1 (String h2 (String h3 ""))).

(** The three digits are all of [[a-f\d]] or all of [[A-F\d]]. *)
Definition same_case (l : list ascii) : bool := forallb (cc_match hexLC) l || forallb (cc_match hexUC) l.

Definition raw_eqb (x y : raw_color) : bool :=
  num_eqb (r x) (r y) && num_eqb (g x) (g y) && num_eqb (b x) (b y) && num_eqb (a x) (a y).

Lemma raw_eqb_eq (x y : raw_color) : raw_eqb x y = true -> x = y.
Proof.
  destruct x, y. unfold raw_eqb. cbn [r g b a]. intros H.
  repeat match goal with H : _ && _ = true |- _ => apply andb_prop in H as [? ?] end.
  repeat match goal with H : num_eqb _ _ = true |- _ => apply num_eqb_eq in H end. subst. reflexivity.
Qed.

Definition short_hex_expected (h1 h2 h3 : ascii) : option raw_color :=
  if same_case [h1; h2; h3]
  then Some (opaque_rgb (17 * hex_value h1) (17 * hex_value h2) (17 * hex_value h3))
  else None.

Definition short_hex_ok (h1 h2 h3 : ascii) : bool :=
  match parseColor (JStr (short_hex h1 h2 h3)), short_hex_expected h1 h2 h3 with
  | Some x, Some y => raw_eqb x y
  | None, None => true
  | _, _ => false
  end.

Lemma short_hex_check :
  forallb (fun h1 => forallb (fun h2 => forallb (short_hex_ok h1 h2) hexchars) hexchars) hexchars = true.
Proof. vm_compute. reflexivity. Qed.

(** (C24) A short hexadecimal color [#rgb] is the color with each digit
    doubled ([#a1c] is [#aa11cc]) when its three digits are all lower
    case or all upper case, and is not a color when they mix cases:
    the source tries [rxHexShortLC], then [rxHexShortUC] (lines
    301-302), while the specification accepts [#RGB] in any case. *)
Theorem parseColor_short_hex (h1 h2 h3 : ascii) :
  is_hexchar h1 = true -> is_hexchar h2 = true -> is_hexchar h3 = true ->
  parseColor (JStr (short_hex h1 h2 h3)) = short_hex_expected h1 h2 h3.
Proof.
  intros H1 H2 H3. pose proof short_hex_check as H. rewrite forallb_forall in H.
  specialize (H h1 (hexchar_in h1 H1)). rewrite forallb_forall in H.
  specialize (H h2 (hexchar_in h2 H2)). rewrite forallb_forall in H.
  specialize (H h3 (hexchar_in h3 H3)). unfold short_hex_ok in H.
  destruct (parseColor _), (short_hex_expected h1 h2 h3); try discriminate; [|reflexivity].
  apply raw_eqb_eq in H. subst. reflexivity.
Qed.

Lemma parseColor_short_hex_witness :
  is_hexchar "a" = true /\ is_hexchar "B" = true /\ is_hexchar "c" = true /\
  parseColor (JStr "#aBc") = None.
Proof.
  split; [reflexivity|]. split; [reflexivity|]. split; [reflexivity|].
  exact (parseColor_short_hex "a" "B" "c" eq_refl eq_refl eq_refl).
Defined.

End ParseHex.
