(* ===== verification/Rounding.v ===== *)
(** * Rounding helpers: [_decimalAdjust] and [Nums]

    [_decimalAdjust] (colorful.js lines 232-252) rounds a number to a
    number of decimal places by shifting the decimal point in the
    number's string form ("1.005" becomes "1.005e2"), rounding, and
    shifting back; [Nums.round], [Nums.floor], [Nums.ceil] (lines
    254-266) apply it with [Math.round], [Math.floor], [Math.ceil]. *)

From Stdlib Require Import ZArith List String Ascii Bool Lia.
From Stdlib Require Import SpecFloat.
From S2P Require Import Prelude JsNumber JsValue.
Import ListNotations.
Import JsNumber JsValue.

Module Rounding.

(** The [operation] argument, a key of [Math]. *)
Inductive operation : Type := ORound | OFloor | OCeil.

Definition Math_op (op : operation) : num -> num :=
  match op with ORound => Math_round | OFloor => Math_floor | OCeil => Math_ceil end.

(** [String.prototype.split] on a one-character separator. *)
Fixpoint split_chars (sep : ascii) (l : list ascii) (cur : list ascii) : list string :=
  match l with
  | [] => [string_of_list_ascii (rev cur)]
  | c :: l' => if Ascii.eqb c sep then string_of_list_ascii (rev cur) :: split_chars sep l' []
               else split_chars sep l' (c :: cur)
  end.

Definition split (s : string) (sep : ascii) : list string :=
  split_chars sep (list_ascii_of_string s) [].

(** [x % 1 === 0]: [%] is exact, so this holds of the finite integral
    numbers (and of both zeros). *)
Definition mod1_is_zero (x : num) : bool := is_integral x.

(** [value[0] + 'e' + (value[1] ? (+value[1] OP exp) : exp')] *)
Definition shifted (parts : list string) (combine : num -> num) (otherwise : num) : string :=
  let v0 := match parts with p0 :: _ => p0 | [] => "undefined" end in
  let v1 := match parts with _ :: p1 :: _ => Some p1 | _ => None end in
  v0 ++ "e" ++ match v1 with
               | Some p1 => if String.eqb p1 "" then Number_toString otherwise
                            else Number_toString (combine (StringToNumber p1))
               | None => Number_toString otherwise
               end.

(** [_decimalAdjust (operation, value, precision)]; [value] is a number
    at every call site, [precision] any value. *)
Definition is_undefined (v : jsval) : bool := match v with JUndefined => true | _ => false end.

Definition decimalAdjust (op : operation) (value : num) (precision : jsval) : num :=
  if is_undefined precision || strict_eq (to_number precision) zero then Math_op op value
  else
    let precision := to_number precision in
    if isNaN value || negb (mod1_is_zero precision) then NaN
    else
      let exp := neg precision in
      (* Shift *)
      let parts := split (Number_toString value) "e" in
      let value := Math_op op (StringToNumber
                     (shifted parts (fun v1 => sub v1 exp) (neg exp))) in
      (* Shift back *)
      let parts := split (Number_toString value) "e" in
      StringToNumber (shifted parts (fun v1 => add v1 exp) exp).

(** [Nums.round], [Nums.floor], [Nums.ceil] *)
Definition Nums_round (value : num) (precision : jsval) : num := decimalAdjust ORound value precision.
Definition Nums_floor (value : num) (precision : jsval) : num := decimalAdjust OFloor value precision.
Definition Nums_ceil (value : num) (precision : jsval) : num := decimalAdjust OCeil value precision.

(** ** Properties *)

(** The decimal shift rounds the decimal value the number prints
    as: [Nums.round(1.005, 2)] is 1.01, where rounding the binary
    product [1.005 * 100] gives 100 (1.005 is stored below 1.005);
    a negative precision rounds to tens. *)
Theorem Nums_round_examples :
  Nums_round (StringToNumber "1.005") (JNum (of_Z 2)) = StringToNumber "1.01" /\
  Math_round (mul (StringToNumber "1.005") (of_Z 100)) = of_Z 100 /\
  Nums_round (of_Z 104) (JNum (of_Z (-1))) = of_Z 100 /\
  Nums_round (StringToNumber "2.5") JUndefined = of_Z 3.
Proof. vm_compute. repeat split. Qed.

(** The rounding of [k / 1000] to two places, half up, in decimal. *)
Definition round2_reference (k : Z) : num := of_decimal false ((k + 5) / 10) (-2).

Definition round2_check (k : Z) : bool :=
  num_eqb (Nums_round (of_decimal false k (-3)) (JNum (of_Z 2))) (round2_reference k).

(** (C15) On every number written with three decimals in [0, 2),
    [Nums.round(x, 2)] is the decimal rounding of the written value, half
    up; the binary value of [x] lies on either side of the written one. *)
Theorem Nums_round_decimal_correct (k : Z) :
  (0 <= k < 2000)%Z ->
  Nums_round (of_decimal false k (-3)) (JNum (of_Z 2)) = round2_reference k.
Proof.
  intros Hk. apply num_eqb_eq.
  apply (forallb_Zrange round2_check 0 2000); [vm_compute; reflexivity | lia].
Qed.

Lemma Nums_round_decimal_correct_witness :
  (0 <= 1005 < 2000)%Z /\
  Nums_round (of_decimal false 1005 (-3)) (JNum (of_Z 2)) = round2_reference 1005.
Proof. split; [lia | apply Nums_round_decimal_correct; lia]. Defined.

Lemma strict_eq_zero_integral (x : num) : strict_eq x zero = true -> is_integral x = true.
Proof. destruct x as [sg|sg| |sg m e]; try destruct sg; simpl; intros H; try reflexivity; discriminate. Qed.

(** (C22) A precision given but not an integer makes every rounding NaN. *)
Theorem decimalAdjust_fractional_precision (op : operation) (value : num) (precision : jsval) :
  is_undefined precision = false -> is_integral (to_number precision) = false ->
  decimalAdjust op value precision = NaN.
Proof.
  intros Hu H. unfold decimalAdjust, mod1_is_zero.
  destruct (strict_eq (to_number precision) zero) eqn:E.
  - apply strict_eq_zero_integral in E. congruence.
  - rewrite Hu, H, orb_true_r. reflexivity.
Qed.

Lemma decimalAdjust_fractional_precision_witness :
  is_integral (to_number (JNum (StringToNumber "1.5"))) = false /\
  Nums_round (StringToNumber "2.25") (JNum (StringToNumber "1.5")) = NaN.
Proof.
  assert (H : is_integral (to_number (JNum (StringToNumber "1.5"))) = false) by (vm_compute; reflexivity).
  split; [exact H | exact (decimalAdjust_fractional_precision ORound (StringToNumber "2.25") (JNum (StringToNumber "1.5")) eq_refl H)].
Defined.

End Rounding.
