(* ===== verification/Format.v ===== *)
(** * Decimal Formatter: channel conversions

    [rawToHex], [rawToBase256] (colorful.js lines 422-433),
    [toDecimalNotation] (lines 448-468), [rawToPercent] (lines 470-476)
    and [rawToFraction] (lines 478-480).  [toDecimalNotation] rewrites
    the exponent form of small numbers ("1e-7") as plain decimal text
    through a regular-expression replacement and [toFixed]. *)

From Stdlib Require Import ZArith List String Ascii Bool Lia.
From Stdlib Require Import SpecFloat.
From S2P Require Import Prelude JsNumber JsValue Regex Rounding.
Import ListNotations.
Import JsNumber JsValue Regex Rounding.

Module Format.

Local Open Scope colorful_scope.

(** [options && options.key]: [undefined] when [options] is falsy or
    lacks the key. *)
Definition option_field (options : jsval) (key : string) : jsval :=
  if truthy options then get_field options key else options.

(** [options && (options.upperCase || options.lowerCase === false)] *)
Definition upperCase_option (options : jsval) : bool :=
  truthy (if truthy options
          then js_or (get_field options "upperCase")
                     (JBool (strict_equals (get_field options "lowerCase") (JBool false)))
          else options).

(** [rawToHex (rawChannel, options)]: the rounded channel in base 16,
    padded to two digits, then put in the case the options ask for. *)
Definition padded_hex (rawChannel : num) : string :=
  let hex := Number_toString16 (Nums_round rawChannel JUndefined) in
  if Nat.ltb (String.length hex) 2 then "0" ++ hex else hex.

Definition rawToHex (rawChannel : num) (options : jsval) : string :=
  let upperCase := upperCase_option options in
  let hex := padded_hex rawChannel in
  if upperCase then toUpperCase hex else toLowerCase hex.

(** [rawToBase256 (rawChannel)] *)
Definition rawToBase256 (rawChannel : num) : num := Nums_round rawChannel JUndefined.

(** Under the [i] flag the letter [e] matches [e] and [E]. *)
Definition exp_letter : cclass := CUnion (CChar "e") (CChar "E").

(** [/^(\d+)(?:\.(\d+))?e-(\d+)$/i] *)
Definition rxScientific : regex :=
  Seq Bol (seqs [Group 1 (plus (Chr CDigit));
                 opt (Seq (Chr (CChar ".")) (Group 2 (plus (Chr CDigit))));
                 Chr exp_letter;
                 Chr (CChar "-");
                 Group 3 (plus (Chr CDigit));
                 Eol]).

(** The replacement function of [toDecimalNotation]. *)
Definition expand (number : num) (fractionalDigits absExponent : option string) : result string :=
  let fracLen := match fractionalDigits with
                 | Some f => if String.eqb f "" then zero else of_Z (Z.of_nat (String.length f))
                 | None => zero
                 end in
  let digits := add (match absExponent with Some e => StringToNumber e | None => NaN end) fracLen in
  let digits :=
    if lt (of_Z 20) digits
    then let _ := Nums_round number (JNum (of_Z 20)) in of_Z 20   (* result discarded *)
    else digits in
  Number_toFixed number digits.

(** [String.prototype.replace] with a non-global pattern and a
    replacement function. *)
Definition replace_first (s : string) (rx : regex)
    (f : match_result -> result string) : result string :=
  match exec rx s with
  | Some res =>
      let! rep := f res in
      Ok (substring 0 (m_start res) s ++ rep ++
          substring (m_end res) (String.length s - m_end res) s)
  | None => Ok s
  end.

(** [toDecimalNotation (number)] *)
Definition toDecimalNotation (number : num) : result string :=
  let numStr := Number_toString number in
  replace_first numStr rxScientific (fun res => expand number (group res 2) (group res 3)).

(** [options && options.precision || 0] *)
Definition precision_option (options : jsval) : jsval :=
  js_or (option_field options "precision") (JNum zero).

(** [rawToPercent (rawChannel, options)] *)
Definition rawToPercent (rawChannel : num) (options : jsval) : result string :=
  let precision := precision_option options in
  let percentage := div (mul rawChannel (of_Z 100)) (of_Z 255) in
  let percentage := if strict_equals precision (JStr "max") then percentage
                    else Nums_round percentage precision in
  let! s := toDecimalNotation percentage in
  Ok (s ++ "%").

(** [rawToFraction (rawChannel)] *)
Definition rawToFraction (rawChannel : num) : num := div rawChannel (of_Z 255).

(** ** Properties *)

Definition has_exponent (s : string) : bool :=
  existsb (cc_match exp_letter) (list_ascii_of_string s).

(** A text without an exponent letter does not match [rxScientific]. *)
Lemma exec_rxScientific_none (s : string) :
  has_exponent s = false -> exec rxScientific s = None.
Proof.
  intros H. unfold rxScientific. rewrite exec_anchored. cbv zeta.
  destruct (m _ _ _ _ final) as [[s' c]|] eqn:E; [|reflexivity].
  apply m_sound in E as (s0 & c0 & Hacc & _). cbn [seqs fold_right] in Hacc.
  apply accepts_seq_inv in Hacc as (s1 & c1 & H1 & Hacc).
  apply accepts_seq_inv in Hacc as (s2 & c2 & H2 & Hacc).
  apply accepts_seq_inv in Hacc as (s3 & c3 & H3 & _).
  apply accepts_chr_in in H3 as (a & Hin & Ha).
  apply accepts_suffix in H1 as [p1 E1]. apply accepts_suffix in H2 as [p2 ->].
  unfold has_exponent in H. rewrite E1 in H.
  assert (Hex : existsb (cc_match exp_letter) (p1 ++ p2 ++ s2)%list = true)
    by (apply existsb_exists; exists a; rewrite !in_app_iff; auto).
  congruence.
Qed.

(** (C17) [toDecimalNotation] returns the text of [Number::toString]
    unchanged whenever that text has no exponent. *)
Theorem toDecimalNotation_plain (x : num) :
  has_exponent (Number_toString x) = false -> toDecimalNotation x = Ok (Number_toString x).
Proof.
  intros H. unfold toDecimalNotation, replace_first.
  rewrite (exec_rxScientific_none _ H). reflexivity.
Qed.

Lemma toDecimalNotation_plain_witness :
  has_exponent (Number_toString (StringToNumber "0.000123")) = false /\
  toDecimalNotation (StringToNumber "0.000123") = Ok "0.000123".
Proof.
  assert (H : has_exponent (Number_toString (StringToNumber "0.000123")) = false)
    by (vm_compute; reflexivity).
  split; [exact H|]. rewrite (toDecimalNotation_plain _ H). vm_compute. reflexivity.
Defined.

(** The two lower-case hexadecimal digits of a byte. *)
Definition hex_byte (v : Z) : string :=
  String (hex_char (v / 16)) (String (hex_char (v mod 16)) "").

Definition rawToHex_byte_ok (v : Z) : bool :=
  String.eqb (padded_hex (of_Z v)) (hex_byte v) &&
  String.eqb (toLowerCase (hex_byte v)) (hex_byte v).

Lemma rawToHex_bytes_check :
  forallb (fun i => rawToHex_byte_ok (0 + Z.of_nat i)) (seq 0 256) = true.
Proof. vm_compute. reflexivity. Qed.

Lemma padded_hex_byte (v : Z) :
  (0 <= v < 256)%Z -> padded_hex (of_Z v) = hex_byte v /\ toLowerCase (hex_byte v) = hex_byte v.
Proof.
  intros Hv.
  pose proof (forallb_Zrange _ 0 256 rawToHex_bytes_check v Hv) as H.
  apply andb_prop in H as [H1 H2]. apply String.eqb_eq in H1, H2. auto.
Qed.

(** ** Numbers written with an exponent *)

(** The number [k * 10^-n], as the literal [ke-n] denotes it. *)
Definition sci (k n : Z) : num := StringToNumber (digits_of_Z k ++ "e-" ++ digits_of_Z n).

(** Its plain decimal text when [n <= 20]; below, [toFixed(20)] of it:
    [k * 10^-21] rounded to the nearest multiple of [10^-20] (the
    binary64 [5e-21] lies just below the midpoint), and 0 further down. *)
Definition sci_text (k n : Z) : string :=
  if Z.leb n 20 then "0." ++ zeros (n - 1) ++ digits_of_Z k
  else if Z.eqb n 21 && Z.leb 6 k then "0." ++ zeros 19 ++ "1"
  else "0." ++ zeros 20.

Definition sci_ok (k n : Z) : bool :=
  match toDecimalNotation (sci k n) with Ok s => String.eqb s (sci_text k n) | Throw _ => false end.

Lemma sci_check : forallb (fun k => forallb (fun n => sci_ok (1 + Z.of_nat k) (7 + Z.of_nat n)) (seq 0 34)) (seq 0 9) = true.
Proof. vm_compute. reflexivity. Qed.

(** (C26) [toDecimalNotation] writes a one-digit number [k * 10^-n],
    which [Number::toString] writes [ke-n], in plain decimal notation
    down to [n = 20], and rounded to 20 decimal places below: the digit
    count is capped at 20 (line 459) and the [Nums.round] beside the
    cap is discarded, so the alphas the specification's round trip
    covers (down to 1e-18) are kept and those below 1e-20 collapse to
    0 or [1e-20]. *)
Theorem toDecimalNotation_exponent (k n : Z) :
  (1 <= k <= 9)%Z -> (7 <= n <= 40)%Z -> toDecimalNotation (sci k n) = Ok (sci_text k n).
Proof.
  intros Hk Hn.
  assert (H : forallb (fun n => sci_ok k (7 + Z.of_nat n)) (seq 0 34) = true).
  { refine (forallb_Zrange (fun k => forallb (fun n => sci_ok k (7 + Z.of_nat n)) (seq 0 34)) 1 9 _ k ltac:(lia)).
    exact sci_check. }
  pose proof (forallb_Zrange (sci_ok k) 7 34 H n ltac:(lia)) as E. unfold sci_ok in E.
  destruct (toDecimalNotation (sci k n)); [apply String.eqb_eq in E; subst; reflexivity | discriminate].
Qed.

Lemma toDecimalNotation_exponent_witness :
  (1 <= 3 <= 9)%Z /\ (7 <= 18 <= 40)%Z /\
  toDecimalNotation (StringToNumber "3e-18") = Ok "0.000000000000000003".
Proof.
  split; [lia|]. split; [lia|]. exact (toDecimalNotation_exponent 3 18 ltac:(lia) ltac:(lia)).
Defined.

(** (C16) A byte is written as exactly two hexadecimal digits, its high
    nibble first, in the case the options ask for. *)
Theorem rawToHex_byte (v : Z) (options : jsval) :
  (0 <= v < 256)%Z ->
  rawToHex (of_Z v) options =
  if upperCase_option options then toUpperCase (hex_byte v) else hex_byte v.
Proof.
  intros Hv. destruct (padded_hex_byte v Hv) as [H1 H2].
  unfold rawToHex. rewrite H1.
  destruct (upperCase_option options); [reflexivity | exact H2].
Qed.

Lemma rawToHex_byte_witness :
  (0 <= 171 < 256)%Z /\ rawToHex (of_Z 171) (JObj [("upperCase", JBool true)]) = "AB".
Proof.
  assert (H : (0 <= 171 < 256)%Z) by lia.
  split; [exact H|]. rewrite (rawToHex_byte 171 _ H). vm_compute. reflexivity.
Defined.

(** Small numbers lose their exponent; the digits beyond the 20th
    fractional place are cut. *)
Theorem toDecimalNotation_examples :
  toDecimalNotation (StringToNumber "1e-7") = Ok "0.0000001" /\
  toDecimalNotation (StringToNumber "1.5e-10") = Ok "0.00000000015" /\
  toDecimalNotation (StringToNumber "1.2345e-18") = Ok "0.00000000000000000123" /\
  toDecimalNotation (StringToNumber "1e-21") = Ok "0.00000000000000000000" /\
  toDecimalNotation (StringToNumber "1e21") = Ok "1e+21".
Proof. vm_compute. repeat split. Qed.

End Format.
