(* ===== verification/ParsePercent.v ===== *)
(** * The percent form [rgb(p%, q%, r%)] for integral percentages

    [parseColor] on [rgb(p%, q%, r%)] with integral percentages between
    0 and 100 (colorful.js lines 211, 334-346, 387-406), and what
    [rawToPercent] (lines 470-476) makes of the raw channels it stores.
    As for the base-256 form, the captures come from inverting any
    derivation of [rxRgbPercent], and the base-256 patterns, tried
    first, are shown to fail: the channel [50] is followed by [%], not
    by a separator. *)

From Stdlib Require Import ZArith List String Ascii Bool Lia.
From S2P Require Import Prelude JsNumber JsValue Regex Grammar GrammarFacts Keywords Parse ParseRgb.
From S2P Require Import Rounding Format.
Import ListNotations.
Import JsNumber JsValue Regex Grammar GrammarFacts Parse ParseRgb Format.

Module ParsePercent.

(** The text [asPercentRGB] writes for integral percentages. *)
Definition pct_text (p q r : Z) : string :=
  "rgb(" ++ digits_of_Z p ++ "%, " ++ digits_of_Z q ++ "%, " ++ digits_of_Z r ++ "%)".

Definition is_pct (v : Z) : Prop := (0 <= v <= 100)%Z.

(** The raw channel [getPercentData] stores for [v%]: [v * 255 / 100]. *)
Definition pct_raw (v : Z) : num := div (mul (of_Z v) (of_Z 255)) (of_Z 100).

(** What the proof needs of one percentage, decided for the 101 of them. *)
Definition pct_facts (v : Z) : bool :=
  forallb is_digit (dec v) && negb (Nat.eqb (List.length (dec v)) 0) &&
  (match m 0 rxRgbChannelPercent_body (dec v) [] at_end with Some _ => true | None => false end) &&
  num_eqb (StringToNumber (digits_of_Z v)) (of_Z v) &&
  (match rawToPercent (pct_raw v) JUndefined with
   | Ok s => String.eqb s (digits_of_Z v ++ "%")
   | Throw _ => false
   end).

Lemma pct_facts_check : forallb (fun i => pct_facts (0 + Z.of_nat i)) (seq 0 101) = true.
Proof. vm_compute. reflexivity. Qed.

Lemma pct_facts_spec (v : Z) : is_pct v ->
  forallb is_digit (dec v) = true /\ dec v <> [] /\
  (exists c', accepts 0 rxRgbChannelPercent_body (dec v) [] [] c') /\
  StringToNumber (digits_of_Z v) = of_Z v /\
  rawToPercent (pct_raw v) JUndefined = Ok (digits_of_Z v ++ "%").
Proof.
  intros Hv. assert (Hr : (0 <= v < 0 + Z.of_nat 101)%Z) by (unfold is_pct in Hv; lia).
  pose proof (forallb_Zrange _ 0 101 pct_facts_check v Hr) as H. unfold pct_facts in H.
  apply andb_prop in H as [H H5]. apply andb_prop in H as [H H4].
  apply andb_prop in H as [H H3]. apply andb_prop in H as [H1 H2].
  apply num_eqb_eq in H4.
  repeat split; auto.
  - intros E. rewrite E in H2. discriminate.
  - destruct (m 0 _ _ _ at_end) as [[s' c']|] eqn:E; [|discriminate].
    apply m_sound in E as (s0 & c0 & Hacc & Hk).
    destruct s0; [|discriminate]. eauto.
  - destruct (rawToPercent (pct_raw v) JUndefined); [|discriminate].
    apply String.eqb_eq in H5. subst. reflexivity.
Qed.

Lemma pchannel_accepts (total n : nat) (v : Z) (t : list ascii) (c : caps) :
  is_pct v ->
  accepts total (rxRgbChannelPercent n) (dec v ++ "%" :: t)%char%list c t (set_cap n (digits_of_Z v) c).
Proof.
  intros Hv. destruct (pct_facts_spec v Hv) as (_ & _ & [c' H] & _).
  pose proof (accepts_shift _ _ _ _ _ _ _ H percent_body_numchars total c ("%" :: t)%char) as H'.
  cbn [app] in H'. unfold rxRgbChannelPercent.
  apply (acc_seq _ _ _ _ _ ("%" :: t)%char (set_cap n (digits_of_Z v) c)).
  - replace (digits_of_Z v) with (consumed (dec v ++ "%" :: t)%char%list ("%" :: t)%char)
      by (rewrite consumed_app; apply string_of_list_ascii_of_string).
    constructor. exact H'.
  - eapply acc_seq; [apply acc_star_nil | apply acc_chr; reflexivity].
Qed.

Lemma rxRgbPercent_eq :
  rxRgbPercent =
  Seq Bol (seqs [sp; seqs [lit "rgb"; sp; chr "("; sp];
                 seqs [rxRgbChannelPercent 1; sep; seqs [rxRgbChannelPercent 2; sep; rxRgbChannelPercent 3]];
                 Seq sp (chr ")"); sp; Eol]).
Proof. reflexivity. Qed.

Lemma pct_text_eq (p q r : Z) :
  list_ascii_of_string (pct_text p q r) =
  ("r" :: "g" :: "b" :: "(" :: dec p ++ "%" :: "," :: " " :: dec q ++ "%" :: "," :: " " ::
   dec r ++ ["%"; ")"])%char%list.
Proof. unfold pct_text. rewrite !list_ascii_of_string_app. reflexivity. Qed.

Lemma pct_accepts_inv (total : nat) (p q r : Z) (s' : list ascii) (c' : caps) :
  is_pct p -> is_pct q -> is_pct r ->
  accepts total rxRgbPercent (list_ascii_of_string (pct_text p q r)) [] s' c' ->
  s' = [] /\ c' = rgb_caps p q r.
Proof.
  intros Hp' Hq' Hr'. rewrite pct_text_eq, rxRgbPercent_eq. intros H. acc_inv H.
  rewrite <- ?app_assoc in *. cbn [app] in *.
  destruct (pct_facts_spec p Hp') as (Dp & Np & _).
  destruct (pct_facts_spec q Hq') as (Dq & Nq & _).
  destruct (pct_facts_spec r Hr') as (Dr & Nr & _).
  rename H0 into E.
  strip E Hw. injection E as E. strip E Hw0. injection E as E.
  strip E Hw1. pchan E Dp Hp Hw2 "%"%char. strip E Hw2. injection E as E.
  strip E Hw3. injection E as E.
  strip1 E Hw4. pchan E Dq Hp0 Hw5 "%"%char. strip E Hw5. injection E as E.
  strip E Hw6. injection E as E.
  strip1 E Hw7. pchan E Dr Hp1 Hw8 "%"%char. strip E Hw8. injection E as E.
  strip E Hw9. injection E as E.
  symmetry in E. apply app_eq_nil in E as [-> _].
  split; [reflexivity|].
  unfold rgb_caps, dec. rewrite !string_of_list_ascii_of_string. reflexivity.
Qed.

Lemma pct_accepts (p q r : Z) :
  is_pct p -> is_pct q -> is_pct r ->
  let l := list_ascii_of_string (pct_text p q r) in
  accepts (List.length l) rxRgbPercent l [] [] (rgb_caps p q r).
Proof.
  intros Hp Hq Hr l. subst l. rewrite pct_text_eq, rxRgbPercent_eq.
  unfold sep, rgb_caps. cbn [seqs fold_right lit list_ascii_of_string lit_chars].
  repeat first [ apply pchannel_accepts; assumption
               | eapply acc_seq
               | apply acc_empty
               | apply acc_eol
               | apply acc_bol; reflexivity
               | apply acc_chr; reflexivity
               | apply (sp_accepts _ [" "%char]); reflexivity
               | apply acc_star_nil ].
Qed.

Lemma matchColor_pct_text (p q r : Z) :
  is_pct p -> is_pct q -> is_pct r ->
  matchColor (pct_text p q r) rxRgbPercent =
  Some {| md_rgb := [Some (digits_of_Z p); Some (digits_of_Z q); Some (digits_of_Z r)];
          md_a := None |}.
Proof.
  intros Hp Hq Hr. pose proof (pct_accepts p q r Hp Hq Hr) as Hacc. cbv zeta in Hacc.
  unfold matchColor. rewrite rxRgbPercent_eq in Hacc |- *. rewrite exec_anchored. cbv zeta.
  set (l := list_ascii_of_string (pct_text p q r)) in *.
  apply accepts_seq_inv in Hacc as (s1 & c1 & HB & Hacc). inversion HB; subst.
  destruct (m _ _ l [] final) as [[s' c']|] eqn:E.
  - apply m_sound in E as (s0 & c0 & H0 & Hf). injection Hf as <- <-.
    assert (Hall : accepts (List.length l) rxRgbPercent l [] s0 c0)
      by (rewrite rxRgbPercent_eq; econstructor; [constructor; reflexivity | exact H0]).
    apply pct_accepts_inv in Hall as [-> ->]; auto.
  - exfalso. refine (m_complete _ _ _ _ _ _ Hacc final _ E). unfold final. discriminate.
Qed.

(** The base-256 patterns, tried before, fail: a digit run is followed
    by [%], not by a separator, and [rgba] needs an [a]. *)
Lemma matchColor_base256_pct (p q r : Z) :
  is_pct p -> is_pct q -> is_pct r ->
  matchColor (pct_text p q r) rxRgbBase256 = None /\ matchColor (pct_text p q r) rxRgbaBase256 = None.
Proof.
  intros Hp' Hq' Hr'.
  destruct (pct_facts_spec p Hp') as (Dp & Np & _).
  unfold matchColor. split; destruct (exec _ _) as [res|] eqn:H; try reflexivity; exfalso;
    [rewrite rxRgbBase256_eq in H | rewrite rxRgbaBase256_eq in H];
    apply exec_anchored_sound in H as [s' Hacc]; rewrite pct_text_eq in Hacc; acc_inv Hacc;
    rewrite <- ?app_assoc in *; cbn [app] in *;
    match goal with Heq : ("r"%char :: _)%list = _ |- _ => rename Heq into E end;
    strip E Hw; injection E as E; try discriminate E.
  strip E Hw0. injection E as E. strip E Hw1. chan E Dp Hp Hw2 ","%char.
  strip E Hw2. discriminate E.
Qed.

(** Hexadecimal patterns need a [#]. *)
Lemma matchColor_hex_pct (ch : nat -> regex) (p q r : Z) :
  matchColor (pct_text p q r) (buildColorRx "#" ch false) = None.
Proof.
  unfold matchColor, buildColorRx. cbv zeta. rewrite exec_anchored. reflexivity.
Qed.

(** The string branch of [parseColor] on [rgb(p%, q%, r%)]. *)
Lemma parse_string_pct_text (p q r : Z) :
  is_pct p -> is_pct q -> is_pct r ->
  parse_string (pct_text p q r) = Some (parsed_of_list [pct_raw p; pct_raw q; pct_raw r] AUndefined).
Proof.
  intros Hp Hq Hr. unfold parse_string.
  rewrite Keywords.get_property_not_name by reflexivity.
  replace (String.eqb (toLowerCase (pct_text p q r)) "transparent") with false by reflexivity.
  unfold getHexData, rxHexLC, rxHexUC, rxHexShortLC, rxHexShortUC.
  rewrite !matchColor_hex_pct. cbn [orElse option_map].
  unfold getBase256Data. destruct (matchColor_base256_pct p q r Hp Hq Hr) as [-> ->].
  cbn [orElse option_map]. unfold getPercentData. rewrite matchColor_pct_text by assumption.
  destruct (pct_facts_spec p Hp) as (_ & _ & _ & Ep & _).
  destruct (pct_facts_spec q Hq) as (_ & _ & _ & Eq & _).
  destruct (pct_facts_spec r Hr) as (_ & _ & _ & Er & _).
  cbn. rewrite Ep, Eq, Er. reflexivity.
Qed.

End ParsePercent.
