(* ===== verification/ParseAgColor.v ===== *)
(** * The [AgColor( r, g, b, a )] form for three-decimal fractions

    [parseColor] on [AgColor( r, g, b, a )] (colorful.js lines 214,
    348-359, 387-412) where each component is the shortest decimal text
    of a multiple of 1/1000 in [0, 1], and what [rawToFraction] and
    [toDecimalNotation] (lines 448-480) make of the stored channels.
    The stored channel is [x * 255] and [asAgColor] prints [x * 255 / 255]:
    for each of the 1001 fractions this gives back the text [x] was read
    from, which [agc_facts_check] decides one by one. *)

From Stdlib Require Import ZArith List String Ascii Bool Lia.
From S2P Require Import Prelude JsNumber JsValue Regex Grammar GrammarFacts Keywords Parse ParseRgb.
From S2P Require Import Rounding Format.
Import ListNotations.
Import JsNumber JsValue Regex Grammar GrammarFacts Parse ParseRgb Format.

Module ParseAgColor.

(** The shortest decimal text of [k / 1000]. *)
Definition frac_text (k : Z) : string := Number_toString (of_decimal false k (-3)).

Definition fr (k : Z) : list ascii := list_ascii_of_string (frac_text k).

Definition is_milli (k : Z) : Prop := (0 <= k <= 1000)%Z.

(** The text [asAgColor] writes for four such fractions. *)
Definition agc_text (k1 k2 k3 k4 : Z) : string :=
  "AgColor( " ++ frac_text k1 ++ ", " ++ frac_text k2 ++ ", " ++ frac_text k3 ++ ", " ++
  frac_text k4 ++ " )".

Definition res_is (x : result string) (t : string) : bool :=
  match x with Ok s => String.eqb s t | Throw _ => false end.

(** What the proof needs of one fraction, decided for the 1001 of them. *)
Definition agc_facts (k : Z) : bool :=
  let t := frac_text k in
  forallb is_numchar (fr k) && negb (Nat.eqb (List.length (fr k)) 0) &&
  (match m 0 rxFraction (fr k) [] at_end with Some _ => true | None => false end) &&
  res_is (toDecimalNotation (rawToFraction (mul (StringToNumber t) (of_Z 255)))) t &&
  res_is (toDecimalNotation (StringToNumber t)) t.

Lemma agc_facts_check : forallb (fun i => agc_facts (0 + Z.of_nat i)) (seq 0 1001) = true.
Proof. vm_compute. reflexivity. Qed.

Lemma res_is_Ok (x : result string) (t : string) : res_is x t = true -> x = Ok t.
Proof. destruct x; simpl; [intros H; apply String.eqb_eq in H; subst; reflexivity | discriminate]. Qed.

Lemma agc_facts_spec (k : Z) : is_milli k ->
  forallb is_numchar (fr k) = true /\ fr k <> [] /\
  (exists c', accepts 0 rxFraction (fr k) [] [] c') /\
  toDecimalNotation (rawToFraction (mul (StringToNumber (frac_text k)) (of_Z 255))) = Ok (frac_text k) /\
  toDecimalNotation (StringToNumber (frac_text k)) = Ok (frac_text k).
Proof.
  intros Hk. assert (Hr : (0 <= k < 0 + Z.of_nat 1001)%Z) by (unfold is_milli in Hk; lia).
  pose proof (forallb_Zrange _ 0 1001 agc_facts_check k Hr) as H. unfold agc_facts in H.
  apply andb_prop in H as [H H5]. apply andb_prop in H as [H H4].
  apply andb_prop in H as [H H3]. apply andb_prop in H as [H1 H2].
  apply res_is_Ok in H4, H5.
  repeat split; auto.
  - intros E. rewrite E in H2. discriminate.
  - destruct (m 0 _ _ _ at_end) as [[s' c']|] eqn:E; [|discriminate].
    apply m_sound in E as (s0 & c0 & Hacc & Hk').
    destruct s0; [|discriminate]. eauto.
Qed.

Lemma fchannel_accepts (total n : nat) (k : Z) (t : list ascii) (c : caps) :
  is_milli k -> accepts total (rxAlpha n) (fr k ++ t) c t (set_cap n (frac_text k) c).
Proof.
  intros Hk. destruct (agc_facts_spec k Hk) as (_ & _ & [c' H] & _).
  pose proof (accepts_shift _ _ _ _ _ _ _ H fraction_numchars total c t) as H'.
  replace (frac_text k) with (consumed (fr k ++ t) t)
    by (rewrite consumed_app; apply string_of_list_ascii_of_string).
  constructor. exact H'.
Qed.

Lemma rxAgColor_eq :
  rxAgColor =
  Seq Bol (seqs [sp; seqs [lit "AgColor"; sp; chr "("; sp];
                 seqs [rxAlpha 1; sep; seqs [rxAlpha 2; sep; seqs [rxAlpha 3; sep; rxAlpha 4]]];
                 Seq sp (chr ")"); sp; Eol]).
Proof. reflexivity. Qed.

Lemma agc_text_eq (k1 k2 k3 k4 : Z) :
  list_ascii_of_string (agc_text k1 k2 k3 k4) =
  ("A" :: "g" :: "C" :: "o" :: "l" :: "o" :: "r" :: "(" :: " " :: fr k1 ++ "," :: " " ::
   fr k2 ++ "," :: " " :: fr k3 ++ "," :: " " :: fr k4 ++ [" "; ")"])%char%list.
Proof. unfold agc_text, fr. rewrite !list_ascii_of_string_app. reflexivity. Qed.

(** The captures of the four components. *)
Definition agc_caps (k1 k2 k3 k4 : Z) : caps :=
  set_cap 4 (frac_text k4) (set_cap 3 (frac_text k3) (set_cap 2 (frac_text k2)
    (set_cap 1 (frac_text k1) []))).

Ltac fchan E D Hp Hw a := chan_with is_numchar spaces_hnn E D Hp Hw a.

Lemma agc_accepts_inv (total : nat) (k1 k2 k3 k4 : Z) (s' : list ascii) (c' : caps) :
  is_milli k1 -> is_milli k2 -> is_milli k3 -> is_milli k4 ->
  accepts total rxAgColor (list_ascii_of_string (agc_text k1 k2 k3 k4)) [] s' c' ->
  s' = [] /\ c' = agc_caps k1 k2 k3 k4.
Proof.
  intros H1 H2 H3 H4. rewrite agc_text_eq, rxAgColor_eq. intros H. acc_inv H.
  rewrite <- ?app_assoc in *. cbn [app] in *.
  destruct (agc_facts_spec k1 H1) as (D1 & N1 & _).
  destruct (agc_facts_spec k2 H2) as (D2 & N2 & _).
  destruct (agc_facts_spec k3 H3) as (D3 & N3 & _).
  destruct (agc_facts_spec k4 H4) as (D4 & N4 & _).
  match goal with Heq : ("A"%char :: _)%list = _ |- _ => rename Heq into E end.
  strip E Hw. injection E as E. strip E Hw0. injection E as E.
  strip1 E Hw1. fchan E D1 Hq Hw2 ","%char. strip E Hw2. injection E as E.
  strip1 E Hw3. fchan E D2 Hq0 Hw4 ","%char. strip E Hw4. injection E as E.
  strip1 E Hw5. fchan E D3 Hq1 Hw6 ","%char. strip E Hw6. injection E as E.
  strip1 E Hw7. fchan E D4 Hq2 Hw8 ")"%char. strip1 E Hw8. injection E as E.
  symmetry in E. apply app_eq_nil in E as [-> _].
  split; [reflexivity|].
  unfold agc_caps, fr. rewrite !string_of_list_ascii_of_string. reflexivity.
Qed.

Lemma agc_accepts (k1 k2 k3 k4 : Z) :
  is_milli k1 -> is_milli k2 -> is_milli k3 -> is_milli k4 ->
  let l := list_ascii_of_string (agc_text k1 k2 k3 k4) in
  accepts (List.length l) rxAgColor l [] [] (agc_caps k1 k2 k3 k4).
Proof.
  intros H1 H2 H3 H4 l. subst l. rewrite agc_text_eq, rxAgColor_eq.
  unfold sep, agc_caps. cbn [seqs fold_right lit list_ascii_of_string lit_chars].
  repeat first [ apply fchannel_accepts; assumption
               | eapply acc_seq
               | apply acc_empty
               | apply acc_eol
               | apply acc_bol; reflexivity
               | apply acc_chr; reflexivity
               | apply (sp_accepts _ [" "%char]); reflexivity
               | apply acc_star_nil ].
Qed.

Lemma matchColor_agc_text (k1 k2 k3 k4 : Z) :
  is_milli k1 -> is_milli k2 -> is_milli k3 -> is_milli k4 ->
  matchColor (agc_text k1 k2 k3 k4) rxAgColor =
  Some {| md_rgb := [Some (frac_text k1); Some (frac_text k2); Some (frac_text k3)];
          md_a := Some (frac_text k4) |}.
Proof.
  intros H1 H2 H3 H4. pose proof (agc_accepts k1 k2 k3 k4 H1 H2 H3 H4) as Hacc. cbv zeta in Hacc.
  unfold matchColor. rewrite rxAgColor_eq in Hacc |- *. rewrite exec_anchored. cbv zeta.
  set (l := list_ascii_of_string (agc_text k1 k2 k3 k4)) in *.
  apply accepts_seq_inv in Hacc as (s1 & c1 & HB & Hacc). inversion HB; subst.
  destruct (m _ _ l [] final) as [[s' c']|] eqn:E.
  - apply m_sound in E as (s0 & c0 & H0 & Hf). injection Hf as <- <-.
    assert (Hall : accepts (List.length l) rxAgColor l [] s0 c0)
      by (rewrite rxAgColor_eq; econstructor; [constructor; reflexivity | exact H0]).
    apply agc_accepts_inv in Hall as [-> ->]; auto.
  - exfalso. refine (m_complete _ _ _ _ _ _ Hacc final _ E). unfold final. discriminate.
Qed.

(** The patterns tried before need [#] or [rgb] after the leading
    white space. *)
Lemma matchColor_other_agc (prefix : string) (ch : nat -> regex) (withAlpha : bool)
    (k1 k2 k3 k4 : Z) :
  prefix = "#" \/ prefix = "rgb" \/ prefix = "rgba" ->
  matchColor (agc_text k1 k2 k3 k4) (buildColorRx prefix ch withAlpha) = None.
Proof.
  intros Hp. unfold matchColor, buildColorRx. cbv zeta. rewrite exec_anchored.
  destruct Hp as [-> | [-> | ->]]; destruct withAlpha; reflexivity.
Qed.

(** The string branch of [parseColor] on [AgColor( ... )]. *)
Lemma parse_string_agc_text (k1 k2 k3 k4 : Z) :
  is_milli k1 -> is_milli k2 -> is_milli k3 -> is_milli k4 ->
  parse_string (agc_text k1 k2 k3 k4) =
  Some (parsed_of_list [mul (StringToNumber (frac_text k1)) (of_Z 255);
                        mul (StringToNumber (frac_text k2)) (of_Z 255);
                        mul (StringToNumber (frac_text k3)) (of_Z 255)] (AStr (frac_text k4))).
Proof.
  intros H1 H2 H3 H4. unfold parse_string.
  rewrite Keywords.get_property_not_name by reflexivity.
  replace (String.eqb (toLowerCase (agc_text k1 k2 k3 k4)) "transparent") with false by reflexivity.
  unfold getHexData, getBase256Data, getPercentData, rxHexLC, rxHexUC, rxHexShortLC, rxHexShortUC,
    rxRgbBase256, rxRgbaBase256, rxRgbPercent, rxRgbaPercent.
  rewrite !matchColor_other_agc by auto. cbn [orElse option_map].
  unfold getAgColorData. rewrite matchColor_agc_text by assumption. reflexivity.
Qed.

(** ** The [rgba(r, g, b, a)] form with a three-decimal alpha *)

Definition rgba_text (rr gg bb k : Z) : string :=
  "rgba(" ++ digits_of_Z rr ++ ", " ++ digits_of_Z gg ++ ", " ++ digits_of_Z bb ++ ", " ++
  frac_text k ++ ")".

Lemma rgba_text_eq (rr gg bb k : Z) :
  list_ascii_of_string (rgba_text rr gg bb k) =
  ("r" :: "g" :: "b" :: "a" :: "(" :: dec rr ++ "," :: " " :: dec gg ++ "," :: " " ::
   dec bb ++ "," :: " " :: fr k ++ [")"])%char%list.
Proof. unfold rgba_text, fr. rewrite !list_ascii_of_string_app. reflexivity. Qed.

Definition rgba_caps (rr gg bb k : Z) : caps := set_cap 4 (frac_text k) (rgb_caps rr gg bb).

Lemma rgba_accepts_inv (total : nat) (rr gg bb k : Z) (s' : list ascii) (c' : caps) :
  is_byte rr -> is_byte gg -> is_byte bb -> is_milli k ->
  accepts total rxRgbaBase256 (list_ascii_of_string (rgba_text rr gg bb k)) [] s' c' ->
  s' = [] /\ c' = rgba_caps rr gg bb k.
Proof.
  intros Hr Hg Hb Hk. rewrite rgba_text_eq, rxRgbaBase256_eq. intros H. acc_inv H.
  rewrite <- ?app_assoc in *. cbn [app] in *.
  destruct (byte_facts_spec rr Hr) as (Dr & Nr & _).
  destruct (byte_facts_spec gg Hg) as (Dg & Ng & _).
  destruct (byte_facts_spec bb Hb) as (Db & Nb & _).
  destruct (agc_facts_spec k Hk) as (Dk & Nk & _).
  match goal with Heq : ("r"%char :: _)%list = _ |- _ => rename Heq into E end.
  strip E Hw. injection E as E. strip E Hw0. injection E as E.
  strip E Hw1. chan E Dr Hp Hw2 ","%char. strip E Hw2. injection E as E.
  strip1 E Hw3. chan E Dg Hp0 Hw4 ","%char. strip E Hw4. injection E as E.
  strip1 E Hw5. chan E Db Hp1 Hw6 ","%char. strip E Hw6. injection E as E.
  strip1 E Hw7. fchan E Dk Hq Hw8 ")"%char. strip E Hw8. injection E as E.
  symmetry in E. apply app_eq_nil in E as [-> _].
  split; [reflexivity|].
  unfold rgba_caps, rgb_caps, fr, dec. rewrite !string_of_list_ascii_of_string. reflexivity.
Qed.

Lemma rgba_accepts (rr gg bb k : Z) :
  is_byte rr -> is_byte gg -> is_byte bb -> is_milli k ->
  let l := list_ascii_of_string (rgba_text rr gg bb k) in
  accepts (List.length l) rxRgbaBase256 l [] [] (rgba_caps rr gg bb k).
Proof.
  intros Hr Hg Hb Hk l. subst l. rewrite rgba_text_eq, rxRgbaBase256_eq.
  unfold sep, rgba_caps, rgb_caps. cbn [seqs fold_right lit list_ascii_of_string lit_chars].
  repeat first [ apply channel_accepts; assumption
               | apply fchannel_accepts; assumption
               | eapply acc_seq
               | apply acc_empty
               | apply acc_eol
               | apply acc_bol; reflexivity
               | apply acc_chr; reflexivity
               | apply (sp_accepts _ [" "%char]); reflexivity
               | apply acc_star_nil ].
Qed.

Lemma matchColor_rgba_text (rr gg bb k : Z) :
  is_byte rr -> is_byte gg -> is_byte bb -> is_milli k ->
  matchColor (rgba_text rr gg bb k) rxRgbaBase256 =
  Some {| md_rgb := [Some (digits_of_Z rr); Some (digits_of_Z gg); Some (digits_of_Z bb)];
          md_a := Some (frac_text k) |}.
Proof.
  intros Hr Hg Hb Hk. pose proof (rgba_accepts rr gg bb k Hr Hg Hb Hk) as Hacc. cbv zeta in Hacc.
  unfold matchColor. rewrite rxRgbaBase256_eq in Hacc |- *. rewrite exec_anchored. cbv zeta.
  set (l := list_ascii_of_string (rgba_text rr gg bb k)) in *.
  apply accepts_seq_inv in Hacc as (s1 & c1 & HB & Hacc). inversion HB; subst.
  destruct (m _ _ l [] final) as [[s' c']|] eqn:E.
  - apply m_sound in E as (s0 & c0 & H0 & Hf). injection Hf as <- <-.
    assert (Hall : accepts (List.length l) rxRgbaBase256 l [] s0 c0)
      by (rewrite rxRgbaBase256_eq; econstructor; [constructor; reflexivity | exact H0]).
    apply rgba_accepts_inv in Hall as [-> ->]; auto.
  - exfalso. refine (m_complete _ _ _ _ _ _ Hacc final _ E). unfold final. discriminate.
Qed.

(** [rxRgbBase256], tried first, needs [(] or white space after [rgb]. *)
Lemma matchColor_rgb_rgba (rr gg bb k : Z) :
  matchColor (rgba_text rr gg bb k) rxRgbBase256 = None.
Proof.
  unfold matchColor. destruct (exec _ _) as [res|] eqn:H; [exfalso | reflexivity].
  rewrite rxRgbBase256_eq in H. apply exec_anchored_sound in H as [s' Hacc].
  rewrite rgba_text_eq in Hacc. acc_inv Hacc. rewrite <- ?app_assoc in *. cbn [app] in *.
  match goal with Heq : ("r"%char :: _)%list = _ |- _ => rename Heq into E end.
  strip E Hw. injection E as E. strip E Hw0. discriminate E.
Qed.

Lemma parse_string_rgba_text (rr gg bb k : Z) :
  is_byte rr -> is_byte gg -> is_byte bb -> is_milli k ->
  parse_string (rgba_text rr gg bb k) =
  Some (parsed_of_list [of_Z rr; of_Z gg; of_Z bb] (AStr (frac_text k))).
Proof.
  intros Hr Hg Hb Hk. unfold parse_string.
  rewrite Keywords.get_property_not_name by reflexivity.
  replace (String.eqb (toLowerCase (rgba_text rr gg bb k)) "transparent") with false by reflexivity.
  unfold getHexData, rxHexLC, rxHexUC, rxHexShortLC, rxHexShortUC.
  assert (Hx : forall ch, matchColor (rgba_text rr gg bb k) (buildColorRx "#" ch false) = None)
    by (intros ch; unfold matchColor, buildColorRx; cbv zeta; rewrite exec_anchored; reflexivity).
  rewrite !Hx. cbn [orElse option_map].
  unfold getBase256Data. rewrite matchColor_rgb_rgba, matchColor_rgba_text by assumption.
  destruct (byte_facts_spec rr Hr) as (_ & _ & _ & Er & _).
  destruct (byte_facts_spec gg Hg) as (_ & _ & _ & Eg & _).
  destruct (byte_facts_spec bb Hb) as (_ & _ & _ & Eb & _).
  cbn. rewrite Er, Eg, Eb. reflexivity.
Qed.

(** ** [AgColor] without an alpha *)

(** The text [AgColor( x, y, z )] of three such fractions. *)
Definition agc3_text (k1 k2 k3 : Z) : string :=
  "AgColor( " ++ frac_text k1 ++ ", " ++ frac_text k2 ++ ", " ++ frac_text k3 ++ " )".

Definition commas (l : list ascii) : nat := List.length (filter (fun a => Ascii.eqb a ",") l).

Lemma commas_app (l1 l2 : list ascii) : commas (l1 ++ l2) = commas l1 + commas l2.
Proof. unfold commas. rewrite filter_app, length_app. reflexivity. Qed.

Lemma commas_cons (a : ascii) (l : list ascii) :
  commas (a :: l) = (if Ascii.eqb a "," then 1 else 0) + commas l.
Proof. unfold commas. cbn [filter]. destruct (Ascii.eqb a ","); reflexivity. Qed.

Lemma commas_none (P : ascii -> bool) (l : list ascii) :
  (forall a, P a = true -> Ascii.eqb a "," = false) -> forallb P l = true -> commas l = 0.
Proof.
  intros HP. unfold commas. induction l as [|a l IH]; cbn [forallb filter]; [reflexivity|].
  intros H. apply andb_prop in H as [Ha H]. rewrite (HP a Ha). exact (IH H).
Qed.

Lemma space_not_comma (a : ascii) : is_space a = true -> Ascii.eqb a "," = false.
Proof.
  intros Ha. assert (H : implb (is_space a) (negb (Ascii.eqb a ",")) = true)
    by (apply (ascii_forall (fun a => implb (is_space a) (negb (Ascii.eqb a ",")))); reflexivity).
  rewrite Ha in H. apply negb_true_iff. exact H.
Qed.

Lemma numchar_not_comma (a : ascii) : is_numchar a = true -> Ascii.eqb a "," = false.
Proof.
  intros Ha. assert (H : implb (is_numchar a) (negb (Ascii.eqb a ",")) = true)
    by (apply (ascii_forall (fun a => implb (is_numchar a) (negb (Ascii.eqb a ",")))); reflexivity).
  rewrite Ha in H. apply negb_true_iff. exact H.
Qed.

(** A derivation of [rxAgColor] reads three separators, and the text
    has two commas. *)
Lemma matchColor_agc3 (k1 k2 k3 : Z) :
  is_milli k1 -> is_milli k2 -> is_milli k3 -> matchColor (agc3_text k1 k2 k3) rxAgColor = None.
Proof.
  intros H1 H2 H3. unfold matchColor. destruct (exec _ _) as [res|] eqn:E; [exfalso | reflexivity].
  rewrite rxAgColor_eq in E. apply exec_anchored_sound in E as [s' Hacc]. acc_inv Hacc.
  match goal with Heq : list_ascii_of_string (agc3_text _ _ _) = _ |- _ => rename Heq into E end.
  apply (f_equal commas) in E. unfold agc3_text in E. rewrite !list_ascii_of_string_app in E.
  repeat rewrite ?commas_app, ?commas_cons in E. cbn -[commas] in E.
  repeat match goal with
    | H : forallb is_space ?w = true |- _ => rewrite (commas_none _ w space_not_comma H) in E; clear H
    | H : forallb is_numchar ?q = true |- _ => rewrite (commas_none _ q numchar_not_comma H) in E; clear H
    end.
  destruct (agc_facts_spec k1 H1) as (D1 & _). destruct (agc_facts_spec k2 H2) as (D2 & _).
  destruct (agc_facts_spec k3 H3) as (D3 & _). unfold fr in D1, D2, D3.
  rewrite (commas_none _ _ numchar_not_comma D1), (commas_none _ _ numchar_not_comma D2),
    (commas_none _ _ numchar_not_comma D3) in E.
  cbn in E. lia.
Qed.

(** (C29) No text [AgColor( x, y, z )] without an alpha is a color, for
    any three fractions: [rxAgColor] (line 214) takes the alpha group
    [rxAlpha], which is required, where the specification (section 6)
    accepts [AgColor(f,f,f)] as well as [AgColor(f,f,f,a)]. *)
Theorem parseColor_agcolor_no_alpha (k1 k2 k3 : Z) :
  is_milli k1 -> is_milli k2 -> is_milli k3 -> parseColor (JStr (agc3_text k1 k2 k3)) = None.
Proof.
  intros H1 H2 H3. unfold parseColor, parse_string.
  rewrite Keywords.get_property_not_name by reflexivity.
  replace (String.eqb (toLowerCase (agc3_text k1 k2 k3)) "transparent") with false by reflexivity.
  assert (Ho : forall prefix ch withAlpha, prefix = "#" \/ prefix = "rgb" \/ prefix = "rgba" ->
                 matchColor (agc3_text k1 k2 k3) (buildColorRx prefix ch withAlpha) = None).
  { intros prefix ch withAlpha Hp. unfold matchColor, buildColorRx. cbv zeta. rewrite exec_anchored.
    destruct Hp as [-> | [-> | ->]]; destruct withAlpha; reflexivity. }
  unfold getHexData, getBase256Data, getPercentData, getAgColorData, rxHexLC, rxHexUC, rxHexShortLC,
    rxHexShortUC, rxRgbBase256, rxRgbaBase256, rxRgbPercent, rxRgbaPercent.
  rewrite !Ho by auto. rewrite matchColor_agc3 by assumption. reflexivity.
Qed.

Lemma parseColor_agcolor_no_alpha_witness :
  is_milli 0 /\ is_milli 600 /\ is_milli 667 /\ parseColor (JStr "AgColor( 0, 0.6, 0.667 )") = None.
Proof.
  assert (H0 : is_milli 0) by (unfold is_milli; lia).
  assert (H1 : is_milli 600) by (unfold is_milli; lia).
  assert (H2 : is_milli 667) by (unfold is_milli; lia).
  split; [exact H0|]. split; [exact H1|]. split; [exact H2|].
  exact (parseColor_agcolor_no_alpha 0 600 667 H0 H1 H2).
Defined.

End ParseAgColor.
