(* ===== verification/Color.v ===== *)
(** * Color Value and Comparator: the [Color] object

    The constructor [Color] (colorful.js lines 487-492) and the methods
    of [Color.prototype] (lines 494-642): queries, guards that throw,
    conversions and the two comparisons.  A [Color] holds its input and
    the raw record [parseColor] made of it, and nothing else; every
    method recomputes its result from the raw record.  A method that may
    throw returns a [result]. *)

From Stdlib Require Import ZArith List String Ascii Bool Lia.
From Stdlib Require Import SpecFloat.
From S2P Require Import Prelude JsNumber JsValue Regex Grammar Rounding Format Parse.
Import ListNotations.
Import JsNumber JsValue Regex Rounding Format Parse.

Module Color.

Local Open Scope colorful_scope.

Record color := { _input : jsval; _rawColor : option raw_color }.

(** [new Color(value)] and [Color(value)] alike. *)
Definition Color (value : jsval) : color :=
  {| _input := value; _rawColor := parseColor value |}.

(** [this._rawColor.x]: reading a field of [undefined] throws. *)
Definition rawColor (c : color) : result raw_color :=
  match _rawColor c with
  | Some rc => Ok rc
  | None => Throw (TypeError "Cannot read properties of undefined")
  end.

(** ** Queries and guards *)

Definition isColor (c : color) : bool :=
  match _rawColor c with Some _ => true | None => false end.

Definition isOpaque (c : color) : bool :=
  match _rawColor c with Some rc => strict_eq (a rc) (of_Z 1) | None => false end.

Definition isTransparent (c : color) : bool :=
  match _rawColor c with Some rc => lt (a rc) (of_Z 1) | None => false end.

Definition ensureColor (c : color) : result bool :=
  if negb (isColor c) then
    Throw (Error ("Color.ensureColor: The color object does not represent a valid color. It was created from the value " ++ js_to_string (_input c)))
  else Ok true.

Definition ensureOpaque (c : color) : result bool :=
  let! _ := ensureColor c in
  if negb (isOpaque c) then
    let! rc := rawColor c in
    Throw (Error ("Color.ensureOpaque: Color is required to be opaque, but it is not (a = " ++ Number_toString (a rc) ++ ")"))
  else Ok true.

Definition ensureTransparent (c : color) : result bool :=
  let! _ := ensureColor c in
  if negb (isTransparent c) then
    Throw (Error "Color.ensureTransparent: Color is required to be transparent, but it is not")
  else Ok true.

(** ** Internal arrays *)

Definition _getRawArrayRgb (c : color) : result (list num) :=
  let! rc := rawColor c in Ok [r rc; g rc; b rc].

Definition _asRGBArray (c : color) : result (list num) :=
  let! l := _getRawArrayRgb c in Ok (map rawToBase256 l).

Definition _asAgColorArray (c : color) : result (list num) :=
  let! l := _getRawArrayRgb c in
  let! rc := rawColor c in
  Ok (map rawToFraction l ++ [a rc])%list.

(** [_.map] of a function that may throw: the first exception wins. *)
Fixpoint map_result {A B : Type} (f : A -> result B) (l : list A) : result (list B) :=
  match l with
  | [] => Ok []
  | x :: l' => let! y := f x in let! ys := map_result f l' in Ok (y :: ys)
  end.

(** [list.join(sep)] of a list of numbers. *)
Definition join_nums (sep : string) (l : list num) : string := join sep (map Number_toString l).

(** ** Conversions *)

Definition asHex (c : color) (options : jsval) : result string :=
  let prefix := if truthy options && strict_equals (get_field options "prefix") (JBool false)
                then "" else "#" in
  let! _ := ensureOpaque c in
  let! l := _getRawArrayRgb c in
  Ok (prefix ++ join "" (map (fun ch => rawToHex ch options) l)).

Definition asHexUC (c : color) : result string := asHex c (JObj [("upperCase", JBool true)]).
Definition asHexLC (c : color) : result string := asHex c (JObj [("lowerCase", JBool true)]).

Definition asRGBArray (c : color) : result (list num) :=
  let! _ := ensureOpaque c in _asRGBArray c.

Definition asRGB (c : color) : result string :=
  let! _ := ensureOpaque c in
  let! l := asRGBArray c in
  Ok ("rgb(" ++ join_nums ", " l ++ ")").

Definition asPercentRGB (c : color) (options : jsval) : result string :=
  let! _ := ensureOpaque c in
  let! l := _getRawArrayRgb c in
  let! ps := map_result (fun ch => rawToPercent ch options) l in
  Ok ("rgb(" ++ join ", " ps ++ ")").

Definition asRGBA (c : color) : result string :=
  let! _ := ensureColor c in
  let! l := _asRGBArray c in
  let! rc := rawColor c in
  let! alpha := toDecimalNotation (a rc) in
  Ok ("rgba(" ++ join ", " (map Number_toString l ++ [alpha])%list ++ ")").

Definition asPercentRGBA (c : color) (options : jsval) : result string :=
  let! _ := ensureColor c in
  let! l := _getRawArrayRgb c in
  let! ps := map_result (fun ch => rawToPercent ch options) l in
  let! rc := rawColor c in
  let! alpha := toDecimalNotation (a rc) in
  Ok ("rgba(" ++ join ", " (ps ++ [alpha])%list ++ ")").

Definition asAgColor (c : color) : result string :=
  let! _ := ensureColor c in
  let! l := _asAgColorArray c in
  let! ss := map_result toDecimalNotation l in
  Ok ("AgColor( " ++ join ", " ss ++ " )").

Definition asRGBAArray (c : color) : result (list num) :=
  let! _ := ensureColor c in
  let! l := _asRGBArray c in
  let! rc := rawColor c in
  Ok (l ++ [a rc])%list.

(** ** Comparisons *)

(** [otherColor instanceof Color ? otherColor : new Color(otherColor)] *)
Definition coerce (other : jsval) : color :=
  match other with
  | JColor input raw => {| _input := input; _rawColor := raw |}
  | _ => Color other
  end.

(** [pairedChannel[0] <= pairedChannel[1] + tolerance &&
     pairedChannel[0] >= pairedChannel[1] - tolerance] *)
Definition within (tolerance : jsval) (pair : num * num) : bool :=
  js_le (JNum (fst pair)) (js_plus (JNum (snd pair)) tolerance)
  && js_ge (JNum (fst pair)) (js_minus (JNum (snd pair)) tolerance).

Definition equals (c : color) (otherColor : jsval) (options : jsval) : result bool :=
  let tolerance := js_or (option_field options "tolerance") (JNum zero) in
  let other := coerce otherColor in
  let isColor' := isColor c && isColor other in
  let! isEqual := if isColor'
                  then let! s1 := asRGBA c in let! s2 := asRGBA other in Ok (String.eqb s1 s2)
                  else Ok false in
  if isColor' && negb isEqual && js_gt tolerance (JNum zero) then
    let! l1 := asRGBAArray c in
    let! l2 := asRGBAArray other in
    let pairedChannels := combine l1 l2 in
    let pairedAlpha := last pairedChannels (NaN, NaN) in
    let pairedChannels := removelast pairedChannels in
    Ok (forallb (within tolerance) pairedChannels
        && strict_eq (fst pairedAlpha) (snd pairedAlpha))
  else Ok isEqual.

Definition strictlyEquals (c : color) (otherColor : jsval) : result bool :=
  let other := coerce otherColor in
  if isColor c && isColor other then
    let! s1 := asPercentRGBA c JUndefined in
    let! s2 := asPercentRGBA other JUndefined in
    Ok (String.eqb s1 s2)
  else Ok false.

(** ** Properties *)

Definition not_color_error (c : color) : js_error :=
  Error ("Color.ensureColor: The color object does not represent a valid color. It was created from the value " ++ js_to_string (_input c)).

Definition not_opaque_error (rc : raw_color) : js_error :=
  Error ("Color.ensureOpaque: Color is required to be opaque, but it is not (a = " ++ Number_toString (a rc) ++ ")").

(** *** Guards *)

(** (C18) Every conversion of a value that is not a color fails with the
    "not a valid color" error, which names the input. *)
Theorem conversions_not_color (c : color) (options : jsval) :
  isColor c = false ->
  asHex c options = Throw (not_color_error c) /\ asRGB c = Throw (not_color_error c) /\
  asPercentRGB c options = Throw (not_color_error c) /\ asRGBA c = Throw (not_color_error c) /\
  asPercentRGBA c options = Throw (not_color_error c) /\ asAgColor c = Throw (not_color_error c) /\
  asRGBArray c = Throw (not_color_error c) /\ asRGBAArray c = Throw (not_color_error c) /\
  ensureOpaque c = Throw (not_color_error c) /\ ensureTransparent c = Throw (not_color_error c).
Proof.
  intros H.
  assert (E : ensureColor c = Throw (not_color_error c)) by (unfold ensureColor; rewrite H; reflexivity).
  assert (O : ensureOpaque c = Throw (not_color_error c)) by (unfold ensureOpaque; rewrite E; reflexivity).
  unfold asHex, asRGB, asPercentRGB, asRGBA, asPercentRGBA, asAgColor, asRGBArray, asRGBAArray,
    ensureTransparent.
  rewrite O, E. repeat split.
Qed.

Lemma conversions_not_color_witness :
  isColor (Color (JStr "foo")) = false /\
  asRGB (Color (JStr "foo")) = Throw (not_color_error (Color (JStr "foo"))).
Proof.
  assert (H : isColor (Color (JStr "foo")) = false) by (vm_compute; reflexivity).
  split; [exact H | exact (proj1 (proj2 (conversions_not_color _ JUndefined H)))].
Defined.

Lemma lt_not_strict_eq (x y : num) : lt x y = true -> strict_eq x y = false.
Proof. unfold lt, strict_eq, SFltb, SFeqb. destruct (SFcompare x y) as [[]|]; congruence. Qed.

(** (C19) A valid color whose alpha is below 1 passes [ensureTransparent]
    and fails every accessor that needs an opaque color with the
    "required to be opaque" error, which reports the alpha. *)
Theorem opaque_conversions_transparent (c : color) (rc : raw_color) (options : jsval) :
  _rawColor c = Some rc -> lt (a rc) (of_Z 1) = true ->
  ensureTransparent c = Ok true /\
  ensureOpaque c = Throw (not_opaque_error rc) /\ asHex c options = Throw (not_opaque_error rc) /\
  asRGB c = Throw (not_opaque_error rc) /\ asPercentRGB c options = Throw (not_opaque_error rc) /\
  asRGBArray c = Throw (not_opaque_error rc).
Proof.
  intros Hc Ha.
  assert (E : ensureColor c = Ok true) by (unfold ensureColor, isColor; rewrite Hc; reflexivity).
  assert (O : ensureOpaque c = Throw (not_opaque_error rc)).
  { unfold ensureOpaque, isOpaque, rawColor. rewrite E, Hc, lt_not_strict_eq by exact Ha.
    reflexivity. }
  unfold ensureTransparent, asHex, asRGB, asPercentRGB, asRGBArray, isTransparent.
  rewrite O, E, Hc, Ha. repeat split.
Qed.

Lemma opaque_conversions_transparent_witness :
  let c := Color (JStr "rgba(0, 153, 170, .5)") in
  exists rc, _rawColor c = Some rc /\ lt (a rc) (of_Z 1) = true /\
             asRGB c = Throw (not_opaque_error rc).
Proof.
  intros c. eexists. split; [vm_compute; reflexivity|].
  split; [vm_compute; reflexivity|].
  apply (opaque_conversions_transparent c _ JUndefined); vm_compute; reflexivity.
Defined.

(** *** Comparisons *)

(** (C20) [equals] and [strictlyEquals] return [false], and throw
    nothing, as soon as one of the two is not a valid color, even when
    both are made from the same invalid input: the [isColor] tests of
    lines 602 and 627 come before any accessor that would throw. *)
Theorem equals_needs_colors (c : color) (other options : jsval) :
  isColor c = false \/ isColor (coerce other) = false ->
  equals c other options = Ok false /\ strictlyEquals c other = Ok false.
Proof.
  intros H.
  assert (E : isColor c && isColor (coerce other) = false)
    by (destruct H as [-> | ->]; [reflexivity | apply andb_false_r]).
  unfold equals, strictlyEquals. cbv zeta. rewrite E. split; reflexivity.
Qed.

Lemma equals_needs_colors_witness :
  isColor (Color (JStr "foo")) = false /\
  equals (Color (JStr "foo")) (JStr "foo") JUndefined = Ok false /\
  strictlyEquals (Color (JStr "foo")) (JStr "foo") = Ok false.
Proof.
  assert (H : isColor (Color (JStr "foo")) = false) by (vm_compute; reflexivity).
  split; [exact H | exact (equals_needs_colors _ (JStr "foo") JUndefined (or_introl H))].
Defined.

(** *** Round trip of the hexadecimal form *)

Lemma rawToHex_pair (h1 h2 : ascii) :
  cc_match Grammar.hexLC h1 = true -> cc_match Grammar.hexLC h2 = true ->
  rawToHex (of_Z (16 * hex_value h1 + hex_value h2)) JUndefined = String h1 (String h2 "").
Proof.
  intros H1 H2. apply hexLC_in in H1, H2. simpl in H1, H2.
  repeat (destruct H1 as [<- | H1]); try contradiction;
  repeat (destruct H2 as [<- | H2]); try contradiction; vm_compute; reflexivity.
Qed.

Local Arguments rawToHex : simpl never.

(** (C11) [asHex] gives back every lower-case [#rrggbb] it parsed. *)
Theorem asHex_hex6_roundtrip (h1 h2 h3 h4 h5 h6 : ascii) :
  cc_match Grammar.hexLC h1 = true -> cc_match Grammar.hexLC h2 = true ->
  cc_match Grammar.hexLC h3 = true -> cc_match Grammar.hexLC h4 = true ->
  cc_match Grammar.hexLC h5 = true -> cc_match Grammar.hexLC h6 = true ->
  asHex (Color (JStr (hex6 h1 h2 h3 h4 h5 h6))) JUndefined = Ok (hex6 h1 h2 h3 h4 h5 h6).
Proof.
  intros H1 H2 H3 H4 H5 H6.
  unfold Color. rewrite (parseColor_hex6 _ _ _ _ _ _ H1 H2 H3 H4 H5 H6).
  unfold asHex, ensureOpaque, ensureColor, isColor, isOpaque, _getRawArrayRgb, rawColor.
  unfold opaque_rgb. cbn [_rawColor a r g b].
  replace (strict_eq (of_Z 1) (of_Z 1)) with true by reflexivity.
  simpl. rewrite !rawToHex_pair by assumption. reflexivity.
Qed.

Lemma asHex_hex6_roundtrip_witness :
  asHex (Color (JStr (hex6 "0" "4" "9" "0" "a" "3"))) JUndefined = Ok (hex6 "0" "4" "9" "0" "a" "3").
Proof. apply asHex_hex6_roundtrip; reflexivity. Defined.

(** *** The specification's examples, and where the code departs from it *)

Definition nums (l : list string) : jsval := JArr (map (fun x => JNum (StringToNumber x)) l).
Definition tolerance (t : Z) : jsval := JObj [("tolerance", JNum (of_Z t))].

(** The tolerance examples of the specification (section 8): rounded
    channels within the tolerance, and alpha exactly whatever the
    tolerance. *)
Example equals_tolerance_examples :
  equals (Color (nums ["0"; "153"; "169"])) (nums ["2"; "155"; "171"]) (tolerance 2) = Ok true /\
  equals (Color (nums ["0"; "153"; "169"])) (nums ["2"; "155"; "172"]) (tolerance 2) = Ok false /\
  equals (Color (nums ["10"; "20"; "30"; "0.5"])) (nums ["10"; "20"; "30"; "0.5000000001"])
         (tolerance 255) = Ok false /\
  equals (Color (JStr "rgb(0, 128, 254)")) (JStr "rgb(0%, 50%, 99.411765%)") JUndefined = Ok true /\
  equals (Color (JStr "rgb(0, 128, 254)")) (JStr "rgb(0%, 50%, 99.411764%)") JUndefined = Ok false.
Proof. vm_compute. repeat split. Qed.

(** The specification's example of strict equality (section 8): two
    colors that differ beyond the 20th digit are strictly equal, since
    [strictlyEquals] compares at 0 digits (see [Compare]). *)
Example strictlyEquals_rounds_percentages :
  asPercentRGBA (Color (JStr "rgb(0%, 50%, 100%)")) JUndefined = Ok "rgba(0%, 50%, 100%, 1)" /\
  asPercentRGBA (Color (JStr "rgb(0.00000000000000000001%, 50.00000000000000000001%, 99.99999999999999999999%)")) JUndefined
    = Ok "rgba(0%, 50%, 100%, 1)" /\
  strictlyEquals (Color (JStr "rgb(0%, 50%, 100%)"))
    (JStr "rgb(0.00000000000000000001%, 50.00000000000000000001%, 99.99999999999999999999%)") = Ok true.
Proof. vm_compute. repeat split. Qed.

(** [equals] compares alphas through their text, which
    [toDecimalNotation] cuts at 20 digits: two different alphas below
    1e-20 are equal. *)
Example equals_tiny_alphas :
  let c1 := Color (JStr "rgba(0, 0, 0, 0.000000000000000000001)") in
  let c2 := Color (JStr "rgba(0, 0, 0, 0.000000000000000000002)") in
  (match _rawColor c1, _rawColor c2 with
   | Some x, Some y => strict_eq (a x) (a y)
   | _, _ => true
   end) = false /\
  equals c1 (JStr "rgba(0, 0, 0, 0.000000000000000000002)") JUndefined = Ok true /\
  strictlyEquals c1 (JStr "rgba(0, 0, 0, 0.000000000000000000002)") = Ok true.
Proof. vm_compute. repeat split. Qed.

(** Two strings inherited from [Object.prototype] are valid and equal
    "colors". *)
Example equals_inherited_names :
  isColor (Color (JStr "constructor")) = true /\
  equals (Color (JStr "constructor")) (JStr "valueOf") JUndefined = Ok true /\
  asRGBA (Color (JStr "toString")) = Ok "rgba(NaN, NaN, NaN, 1)".
Proof. vm_compute. repeat split. Qed.

(** Keyword, [transparent] and the inputs the specification lists as
    not colors (section 8). *)
Example spec_inputs :
  asRGBAArray (Color (JStr "turquoise")) = Ok [of_Z 64; of_Z 224; of_Z 208; of_Z 1] /\
  asRGBAArray (Color (JStr "transparent")) = Ok [of_Z 0; of_Z 0; of_Z 0; of_Z 0] /\
  isColor (Color (JArr [])) = false /\
  isColor (Color (nums ["1"; "2"; "3"; "0.5"; "1"])) = false /\
  isColor (Color (JBool true)) = false /\ isColor (Color (JBool false)) = false /\
  isColor (Color JUndefined) = false /\ isColor (Color JNull) = false /\
  isColor (Color (JObj [("r", JNum (of_Z 1)); ("b", JNum (of_Z 2))])) = false.
Proof. vm_compute. repeat split. Qed.

End Color.
