(* ===== verification/RoundTrips.v ===== *)
(** * Round trips: parsing, then writing back

    The round-trip law of the specification for each syntax, on the
    canonical texts the accessors write: [rgb(r, g, b)] through [asRGB]
    and [#rrggbb] through [asHex] for every byte triple, [rgb(p%, q%, r%)]
    through [asPercentRGB] at the default precision for every integral
    percentage, and [AgColor( r, g, b, a )] through [asAgColor] for every
    three-decimal fraction; and where the law fails, at full precision
    for percentages. *)

From Stdlib Require Import ZArith List String Ascii Bool Lia.
From Stdlib Require Import SpecFloat.
From S2P Require Import Prelude JsNumber JsValue Regex Grammar Rounding Format Parse ParseRgb.
From S2P Require Import ParsePercent ParseAgColor Color.
Import ListNotations.
Import JsNumber JsValue Regex Rounding Format Parse ParseRgb ParsePercent ParseAgColor Color.

Module RoundTrips.

Local Open Scope colorful_scope.

(** ** Byte triples *)

(** What the round trips need of one byte, decided for the 256 of them. *)
Definition byte_round_ok (v : Z) : bool :=
  num_eqb (rawToBase256 (of_Z v)) (of_Z v) &&
  cc_match Grammar.hexLC (hex_char (v / 16)) && cc_match Grammar.hexLC (hex_char (v mod 16)) &&
  Z.eqb (16 * hex_value (hex_char (v / 16)) + hex_value (hex_char (v mod 16))) v.

Lemma byte_round_check : forallb (fun i => byte_round_ok (0 + Z.of_nat i)) (seq 0 256) = true.
Proof. vm_compute. reflexivity. Qed.

Lemma byte_round_spec (v : Z) :
  is_byte v ->
  rawToBase256 (of_Z v) = of_Z v /\
  cc_match Grammar.hexLC (hex_char (v / 16)) = true /\ cc_match Grammar.hexLC (hex_char (v mod 16)) = true /\
  (16 * hex_value (hex_char (v / 16)) + hex_value (hex_char (v mod 16)))%Z = v.
Proof.
  intros Hv. pose proof (forallb_Zrange _ 0 256 byte_round_check v Hv) as H.
  unfold byte_round_ok in H.
  apply andb_prop in H as [H H4]. apply andb_prop in H as [H H3]. apply andb_prop in H as [H1 H2].
  apply num_eqb_eq in H1. apply Z.eqb_eq in H4. auto.
Qed.

Lemma opaque_ensureOpaque (c : color) (rr gg bb : Z) :
  _rawColor c = Some (opaque_rgb rr gg bb) -> ensureOpaque c = Ok true.
Proof. intros H. unfold ensureOpaque, ensureColor, isColor, isOpaque. rewrite H. reflexivity. Qed.

(** (C2) The round-trip law for the base-256 form: the text [asRGB]
    writes for a color parsed from [rgb(r, g, b)] is that text. *)
Theorem asRGB_rgb_text (rr gg bb : Z) :
  is_byte rr -> is_byte gg -> is_byte bb ->
  asRGB (Color (JStr (rgb_text rr gg bb))) = Ok (rgb_text rr gg bb).
Proof.
  intros Hr Hg Hb.
  assert (Hc : _rawColor (Color (JStr (rgb_text rr gg bb))) = Some (opaque_rgb rr gg bb)).
  { cbn [Color _rawColor]. unfold parseColor. rewrite parse_string_rgb_text by assumption. reflexivity. }
  unfold asRGB, asRGBArray, _asRGBArray, _getRawArrayRgb, rawColor.
  rewrite (opaque_ensureOpaque _ _ _ _ Hc), Hc. cbn [bind map opaque_rgb r g b].
  destruct (byte_round_spec rr Hr) as (-> & _). destruct (byte_facts_spec rr Hr) as (_ & _ & _ & _ & Er).
  destruct (byte_round_spec gg Hg) as (-> & _). destruct (byte_facts_spec gg Hg) as (_ & _ & _ & _ & Eg).
  destruct (byte_round_spec bb Hb) as (-> & _). destruct (byte_facts_spec bb Hb) as (_ & _ & _ & _ & Eb).
  unfold join_nums, rgb_text. cbn [map join]. rewrite Er, Eg, Eb, !string_app_assoc. reflexivity.
Qed.

Lemma asRGB_rgb_text_witness :
  is_byte 0 /\ is_byte 153 /\ is_byte 170 /\
  asRGB (Color (JStr "rgb(0, 153, 170)")) = Ok "rgb(0, 153, 170)".
Proof.
  assert (H0 : is_byte 0) by (unfold is_byte; lia).
  assert (H1 : is_byte 153) by (unfold is_byte; lia).
  assert (H2 : is_byte 170) by (unfold is_byte; lia).
  split; [exact H0|]. split; [exact H1|]. split; [exact H2|].
  exact (asRGB_rgb_text 0 153 170 H0 H1 H2).
Defined.

(** (C3) [asHex] writes every byte triple as [#rrggbb], and parsing
    that text gives the color back. *)
Theorem asHex_parse_roundtrip (rr gg bb : Z) :
  is_byte rr -> is_byte gg -> is_byte bb ->
  let c := Color (JArr [JNum (of_Z rr); JNum (of_Z gg); JNum (of_Z bb)]) in
  asHex c JUndefined = Ok ("#" ++ hex_byte rr ++ hex_byte gg ++ hex_byte bb) /\
  parseColor (JStr ("#" ++ hex_byte rr ++ hex_byte gg ++ hex_byte bb)) = _rawColor c.
Proof.
  intros Hr Hg Hb c.
  assert (Hc : _rawColor c = Some (opaque_rgb rr gg bb)).
  { cbn [c Color _rawColor]. unfold parseColor. cbn [List.length Nat.eqb orb]. unfold parseColorString.
    rewrite rgb_call_bytes, parse_string_rgb_text by assumption. reflexivity. }
  destruct (byte_round_spec rr Hr) as (_ & Hr1 & Hr2 & Er).
  destruct (byte_round_spec gg Hg) as (_ & Hg1 & Hg2 & Eg).
  destruct (byte_round_spec bb Hb) as (_ & Hb1 & Hb2 & Eb).
  split.
  - unfold asHex, _getRawArrayRgb, rawColor. rewrite (opaque_ensureOpaque _ _ _ _ Hc), Hc.
    cbn [bind map opaque_rgb r g b join truthy andb]. unfold rawToHex. cbn [upperCase_option truthy].
    rewrite (proj1 (padded_hex_byte rr Hr)), (proj2 (padded_hex_byte rr Hr)),
            (proj1 (padded_hex_byte gg Hg)), (proj2 (padded_hex_byte gg Hg)),
            (proj1 (padded_hex_byte bb Hb)), (proj2 (padded_hex_byte bb Hb)).
    reflexivity.
  - rewrite Hc. unfold parseColor.
    change ("#" ++ hex_byte rr ++ hex_byte gg ++ hex_byte bb)
      with (hex6 (hex_char (rr / 16)) (hex_char (rr mod 16)) (hex_char (gg / 16))
                 (hex_char (gg mod 16)) (hex_char (bb / 16)) (hex_char (bb mod 16))).
    rewrite parse_string_hex6 by assumption. rewrite Er, Eg, Eb. reflexivity.
Qed.

Lemma asHex_parse_roundtrip_witness :
  is_byte 4 /\ is_byte 144 /\ is_byte 163 /\
  asHex (Color (JArr [JNum (of_Z 4); JNum (of_Z 144); JNum (of_Z 163)])) JUndefined = Ok "#0490a3".
Proof.
  assert (H0 : is_byte 4) by (unfold is_byte; lia).
  assert (H1 : is_byte 144) by (unfold is_byte; lia).
  assert (H2 : is_byte 163) by (unfold is_byte; lia).
  split; [exact H0|]. split; [exact H1|]. split; [exact H2|].
  rewrite (proj1 (asHex_parse_roundtrip 4 144 163 H0 H1 H2)). reflexivity.
Defined.

(** ** The percent form *)

(** (C6) At the default precision, [asPercentRGB] of a color parsed
    from [rgb(p%, q%, r%)] with integral percentages is that text. *)
Theorem asPercentRGB_pct_text (pp qq rr : Z) :
  is_pct pp -> is_pct qq -> is_pct rr ->
  asPercentRGB (Color (JStr (pct_text pp qq rr))) JUndefined = Ok (pct_text pp qq rr).
Proof.
  intros Hp Hq Hr.
  assert (Hc : _rawColor (Color (JStr (pct_text pp qq rr))) =
               Some {| r := pct_raw pp; g := pct_raw qq; b := pct_raw rr; a := of_Z 1 |}).
  { cbn [Color _rawColor]. unfold parseColor. rewrite parse_string_pct_text by assumption. reflexivity. }
  assert (Ho : ensureOpaque (Color (JStr (pct_text pp qq rr))) = Ok true)
    by (unfold ensureOpaque, ensureColor, isColor, isOpaque; rewrite Hc; reflexivity).
  unfold asPercentRGB, _getRawArrayRgb, rawColor. rewrite Ho, Hc. cbn [bind map_result r g b].
  destruct (pct_facts_spec pp Hp) as (_ & _ & _ & _ & ->).
  destruct (pct_facts_spec qq Hq) as (_ & _ & _ & _ & ->).
  destruct (pct_facts_spec rr Hr) as (_ & _ & _ & _ & ->).
  cbn [bind join]. unfold pct_text. rewrite !string_app_assoc. reflexivity.
Qed.

Lemma asPercentRGB_pct_text_witness :
  is_pct 0 /\ is_pct 60 /\ is_pct 67 /\
  asPercentRGB (Color (JStr "rgb(0%, 60%, 67%)")) JUndefined = Ok "rgb(0%, 60%, 67%)".
Proof.
  assert (H0 : is_pct 0) by (unfold is_pct; lia).
  assert (H1 : is_pct 60) by (unfold is_pct; lia).
  assert (H2 : is_pct 67) by (unfold is_pct; lia).
  split; [exact H0|]. split; [exact H1|]. split; [exact H2|].
  exact (asPercentRGB_pct_text 0 60 67 H0 H1 H2).
Defined.

(** The precision option [{ precision: "max" }]. *)
Definition max_option : jsval := JObj [("precision", JStr "max")].

(** The integral percentages [v] for which [v * 255 / 100 * 100 / 255]
    is not [v] in binary64. *)
Definition max_losses : list Z := [1; 2; 4; 7; 8; 14; 16; 27; 28; 32; 51; 54; 56; 59; 61; 64]%Z.

(** What the full-precision round trip needs of one percentage, decided
    for the 101 of them. *)
Definition max_facts (v : Z) : bool :=
  free_of "," (digits_of_Z v ++ "%") &&
  match rawToPercent (pct_raw v) max_option with
  | Ok s => free_of "," s && Bool.eqb (String.eqb s (digits_of_Z v ++ "%")) (negb (existsb (Z.eqb v) max_losses))
  | Throw _ => false
  end.

Lemma max_facts_check : forallb (fun i => max_facts (0 + Z.of_nat i)) (seq 0 101) = true.
Proof. vm_compute. reflexivity. Qed.

Lemma In_Z_existsb (v : Z) (l : list Z) : existsb (Z.eqb v) l = true <-> In v l.
Proof.
  rewrite existsb_exists. split.
  - intros (y & Hy & E). apply Z.eqb_eq in E. subst. exact Hy.
  - intros H. exists v. split; [exact H | apply Z.eqb_refl].
Qed.

Lemma max_facts_spec (v : Z) :
  is_pct v -> free_of "," (digits_of_Z v ++ "%") = true /\
  exists s, rawToPercent (pct_raw v) max_option = Ok s /\ free_of "," s = true /\
            (s = digits_of_Z v ++ "%" <-> ~ In v max_losses).
Proof.
  intros Hv. assert (Hr : (0 <= v < 0 + Z.of_nat 101)%Z) by (unfold is_pct in Hv; lia).
  pose proof (forallb_Zrange _ 0 101 max_facts_check v Hr) as H. unfold max_facts in H.
  apply andb_prop in H as [H0 H]. split; [exact H0|].
  destruct (rawToPercent (pct_raw v) max_option) as [s|]; [|discriminate].
  apply andb_prop in H as [H1 H2]. exists s. split; [reflexivity|]. split; [exact H1|].
  rewrite <- In_Z_existsb, <- String.eqb_eq.
  destruct (String.eqb s _), (existsb (Z.eqb v) max_losses); cbn in H2 |- *; intuition congruence.
Qed.

(** (C7) At full precision the round-trip law holds for exactly the
    integral percentages outside [max_losses]: [asPercentRGB] with
    [{ precision: "max" }] gives back [rgb(p%, q%, r%)] if and only if
    none of [p], [q], [r] is one of the 16 percentages that binary64
    does not bring back (it writes [rgb(1%, 0%, 0%)] as
    [rgb(0.9999999999999999%, 0%, 0%)]), against the law of the
    specification (section 8) for [precision="max"]. *)
Theorem asPercentRGB_max_roundtrip (pp qq rr : Z) :
  is_pct pp -> is_pct qq -> is_pct rr ->
  asPercentRGB (Color (JStr (pct_text pp qq rr))) max_option = Ok (pct_text pp qq rr) <->
  ~ In pp max_losses /\ ~ In qq max_losses /\ ~ In rr max_losses.
Proof.
  intros Hp Hq Hr.
  assert (Hc : _rawColor (Color (JStr (pct_text pp qq rr))) =
               Some {| r := pct_raw pp; g := pct_raw qq; b := pct_raw rr; a := of_Z 1 |}).
  { cbn [Color _rawColor]. unfold parseColor. rewrite parse_string_pct_text by assumption. reflexivity. }
  assert (Ho : ensureOpaque (Color (JStr (pct_text pp qq rr))) = Ok true)
    by (unfold ensureOpaque, ensureColor, isColor, isOpaque; rewrite Hc; reflexivity).
  unfold asPercentRGB, _getRawArrayRgb, rawColor. rewrite Ho, Hc. cbn [bind map_result r g b].
  destruct (max_facts_spec pp Hp) as (Fp & sp & -> & Gp & Ep).
  destruct (max_facts_spec qq Hq) as (Fq & sq & -> & Gq & Eq).
  destruct (max_facts_spec rr Hr) as (Fr & sr & -> & Gr & Er).
  cbn [bind].
  replace (pct_text pp qq rr)
    with ("rgb(" ++ join ", " [digits_of_Z pp ++ "%"; digits_of_Z qq ++ "%"; digits_of_Z rr ++ "%"] ++ ")")
    by (unfold pct_text; cbn [join]; rewrite !string_app_assoc; reflexivity).
  split.
  - intros E. apply (f_equal (fun x => match x with Ok s => s | Throw _ => EmptyString end)) in E.
    cbv beta iota in E. apply wrapped_join_eq in E;
      [| reflexivity | cbn [forallb]; rewrite Gp, Gq, Gr; reflexivity
                     | cbn [forallb]; rewrite Fp, Fq, Fr; reflexivity].
    injection E as E1 E2 E3. tauto.
  - intros (Np & Nq & Nr). apply Ep in Np. apply Eq in Nq. apply Er in Nr. subst. reflexivity.
Qed.

Lemma asPercentRGB_max_roundtrip_witness :
  is_pct 1 /\ is_pct 0 /\
  asPercentRGB (Color (JStr (pct_text 1 0 0))) max_option <> Ok (pct_text 1 0 0).
Proof.
  assert (H1 : is_pct 1) by (unfold is_pct; lia). assert (H0 : is_pct 0) by (unfold is_pct; lia).
  split; [exact H1|]. split; [exact H0|].
  rewrite (asPercentRGB_max_roundtrip 1 0 0 H1 H0 H0). intros [N _]. apply N. left. reflexivity.
Defined.

(** ** The [rgba()] form *)

(** (C4) [asRGBA] of a color parsed from [rgba(r, g, b, a)], with byte
    channels and an alpha that is the shortest text of a multiple of
    1/1000 in [0, 1], is that text. *)
Theorem asRGBA_rgba_text (rr gg bb k : Z) :
  is_byte rr -> is_byte gg -> is_byte bb -> is_milli k ->
  asRGBA (Color (JStr (rgba_text rr gg bb k))) = Ok (rgba_text rr gg bb k).
Proof.
  intros Hr Hg Hb Hk.
  assert (Hc : _rawColor (Color (JStr (rgba_text rr gg bb k))) =
               Some {| r := of_Z rr; g := of_Z gg; b := of_Z bb; a := StringToNumber (frac_text k) |}).
  { cbn [Color _rawColor]. unfold parseColor. rewrite parse_string_rgba_text by assumption. reflexivity. }
  unfold asRGBA, ensureColor, isColor, _asRGBArray, _getRawArrayRgb, rawColor. rewrite Hc.
  cbn [bind map negb r g b a].
  destruct (byte_round_spec rr Hr) as (-> & _). destruct (byte_facts_spec rr Hr) as (_ & _ & _ & _ & Er).
  destruct (byte_round_spec gg Hg) as (-> & _). destruct (byte_facts_spec gg Hg) as (_ & _ & _ & _ & Eg).
  destruct (byte_round_spec bb Hb) as (-> & _). destruct (byte_facts_spec bb Hb) as (_ & _ & _ & _ & Eb).
  destruct (agc_facts_spec k Hk) as (_ & _ & _ & _ & ->).
  cbn [bind map app join]. rewrite Er, Eg, Eb. unfold rgba_text. rewrite !string_app_assoc. reflexivity.
Qed.

Lemma asRGBA_rgba_text_witness :
  is_byte 0 /\ is_byte 153 /\ is_byte 170 /\ is_milli 500 /\
  asRGBA (Color (JStr "rgba(0, 153, 170, 0.5)")) = Ok "rgba(0, 153, 170, 0.5)".
Proof.
  assert (H0 : is_byte 0) by (unfold is_byte; lia).
  assert (H1 : is_byte 153) by (unfold is_byte; lia).
  assert (H2 : is_byte 170) by (unfold is_byte; lia).
  assert (H3 : is_milli 500) by (unfold is_milli; lia).
  split; [exact H0|]. split; [exact H1|]. split; [exact H2|]. split; [exact H3|].
  exact (asRGBA_rgba_text 0 153 170 500 H0 H1 H2 H3).
Defined.

(** ** The [AgColor] form *)

(** (C5) [asAgColor] of a color parsed from [AgColor( r, g, b, a )],
    with each component the shortest text of a multiple of 1/1000 in
    [0, 1], is that text: multiplying by 255 and dividing by 255 in
    binary64 gives back the parsed value for each of these fractions. *)
Theorem asAgColor_agc_text (k1 k2 k3 k4 : Z) :
  is_milli k1 -> is_milli k2 -> is_milli k3 -> is_milli k4 ->
  asAgColor (Color (JStr (agc_text k1 k2 k3 k4))) = Ok (agc_text k1 k2 k3 k4).
Proof.
  intros H1 H2 H3 H4.
  assert (Hc : _rawColor (Color (JStr (agc_text k1 k2 k3 k4))) =
               Some {| r := mul (StringToNumber (frac_text k1)) (of_Z 255);
                       g := mul (StringToNumber (frac_text k2)) (of_Z 255);
                       b := mul (StringToNumber (frac_text k3)) (of_Z 255);
                       a := StringToNumber (frac_text k4) |}).
  { cbn [Color _rawColor]. unfold parseColor. rewrite parse_string_agc_text by assumption. reflexivity. }
  unfold asAgColor, ensureColor, isColor, _asAgColorArray, _getRawArrayRgb, rawColor. rewrite Hc.
  cbn [bind map app negb r g b a map_result].
  destruct (agc_facts_spec k1 H1) as (_ & _ & _ & -> & _).
  destruct (agc_facts_spec k2 H2) as (_ & _ & _ & -> & _).
  destruct (agc_facts_spec k3 H3) as (_ & _ & _ & -> & _).
  destruct (agc_facts_spec k4 H4) as (_ & _ & _ & _ & ->).
  cbn [bind join]. unfold agc_text. rewrite !string_app_assoc. reflexivity.
Qed.

Lemma asAgColor_agc_text_witness :
  is_milli 0 /\ is_milli 600 /\ is_milli 667 /\ is_milli 500 /\
  asAgColor (Color (JStr "AgColor( 0, 0.6, 0.667, 0.5 )")) = Ok "AgColor( 0, 0.6, 0.667, 0.5 )".
Proof.
  assert (H0 : is_milli 0) by (unfold is_milli; lia).
  assert (H1 : is_milli 600) by (unfold is_milli; lia).
  assert (H2 : is_milli 667) by (unfold is_milli; lia).
  assert (H3 : is_milli 500) by (unfold is_milli; lia).
  split; [exact H0|]. split; [exact H1|]. split; [exact H2|]. split; [exact H3|].
  exact (asAgColor_agc_text 0 600 667 500 H0 H1 H2 H3).
Defined.

End RoundTrips.
