(* ===== verification/Compare.v ===== *)
(** * The comparisons on the colors of byte triples

    [equals] (colorful.js lines 597-619) and [strictlyEquals] (lines
    625-628) on every pair of colors parsed from [rgb(r, g, b)] texts
    with byte channels.  [equals] without a tolerance compares the
    texts [asRGBA] writes, [strictlyEquals] the texts [asPercentRGBA]
    writes at its default precision; both texts are lists joined by
    [", "] whose items contain no comma, so equal texts have equal items
    ([join_inj]), and an item gives back its number.  The result:
    [equals] is equality of the three bytes, and [strictlyEquals] is
    equality of the three bytes rounded to whole percentages, which is
    coarser, against the specification (section 4.6), which says it is
    the finer of the two. *)

From Stdlib Require Import ZArith List String Ascii Bool Lia.
From Stdlib Require Import SpecFloat.
From S2P Require Import Prelude JsNumber JsValue Regex Grammar Rounding Format Parse ParseRgb.
From S2P Require Import Color RoundTrips.
Import ListNotations.
Import JsNumber JsValue Rounding Format Parse ParseRgb Color RoundTrips.

Module Compare.

Local Open Scope colorful_scope.

(** The whole percentage [asPercentRGBA] writes for a byte [v] at the
    default precision: [v / 2.55] rounded half up, in exact arithmetic
    (no byte lies on a tie). *)
Definition pct_of_byte (v : Z) : Z := ((200 * v + 255) / 510)%Z.

Definition pct_item (v : Z) : string := digits_of_Z (pct_of_byte v) ++ "%".

(** The number an item of the texts starts with. *)
Definition leading_number (s : string) : Z := digits_to_Z (fst (span_digits (list_ascii_of_string s))).

(** What the comparisons need of one byte, decided for the 256 of them. *)
Definition compare_facts (v : Z) : bool :=
  free_of "," (digits_of_Z v) && Z.eqb (leading_number (digits_of_Z v)) v &&
  free_of "," (pct_item v) && Z.eqb (leading_number (pct_item v)) (pct_of_byte v) &&
  match rawToPercent (of_Z v) JUndefined with Ok s => String.eqb s (pct_item v) | Throw _ => false end.

Lemma compare_facts_check : forallb (fun i => compare_facts (0 + Z.of_nat i)) (seq 0 256) = true.
Proof. vm_compute. reflexivity. Qed.

Lemma compare_facts_spec (v : Z) :
  is_byte v ->
  free_of "," (digits_of_Z v) = true /\ leading_number (digits_of_Z v) = v /\
  free_of "," (pct_item v) = true /\ leading_number (pct_item v) = pct_of_byte v /\
  rawToPercent (of_Z v) JUndefined = Ok (pct_item v).
Proof.
  intros Hv. pose proof (forallb_Zrange _ 0 256 compare_facts_check v Hv) as H.
  unfold compare_facts in H.
  apply andb_prop in H as [H H5]. apply andb_prop in H as [H H4].
  apply andb_prop in H as [H H3]. apply andb_prop in H as [H1 H2].
  apply Z.eqb_eq in H2, H4. repeat split; auto.
  destruct (rawToPercent (of_Z v) JUndefined); [apply String.eqb_eq in H5; subst; reflexivity | discriminate].
Qed.

Lemma rawColor_rgb_text (rr gg bb : Z) :
  is_byte rr -> is_byte gg -> is_byte bb ->
  _rawColor (Color (JStr (rgb_text rr gg bb))) = Some (opaque_rgb rr gg bb).
Proof.
  intros Hr Hg Hb. cbn [Color _rawColor]. unfold parseColor.
  rewrite parse_string_rgb_text by assumption. reflexivity.
Qed.

Lemma alpha_one_text : toDecimalNotation (of_Z 1) = Ok "1".
Proof. vm_compute. reflexivity. Qed.

(** The two texts the comparisons read. *)
Lemma asRGBA_bytes (rr gg bb : Z) :
  is_byte rr -> is_byte gg -> is_byte bb ->
  asRGBA (Color (JStr (rgb_text rr gg bb))) =
  Ok ("rgba(" ++ join ", " [digits_of_Z rr; digits_of_Z gg; digits_of_Z bb; "1"] ++ ")").
Proof.
  intros Hr Hg Hb. pose proof (rawColor_rgb_text rr gg bb Hr Hg Hb) as Hc.
  unfold asRGBA, ensureColor, isColor, _asRGBArray, _getRawArrayRgb, rawColor. rewrite Hc.
  cbn [bind map negb opaque_rgb r g b a]. rewrite alpha_one_text.
  destruct (byte_round_spec rr Hr) as (-> & _). destruct (byte_facts_spec rr Hr) as (_ & _ & _ & _ & ->).
  destruct (byte_round_spec gg Hg) as (-> & _). destruct (byte_facts_spec gg Hg) as (_ & _ & _ & _ & ->).
  destruct (byte_round_spec bb Hb) as (-> & _). destruct (byte_facts_spec bb Hb) as (_ & _ & _ & _ & ->).
  reflexivity.
Qed.

Lemma asPercentRGBA_bytes (rr gg bb : Z) :
  is_byte rr -> is_byte gg -> is_byte bb ->
  asPercentRGBA (Color (JStr (rgb_text rr gg bb))) JUndefined =
  Ok ("rgba(" ++ join ", " [pct_item rr; pct_item gg; pct_item bb; "1"] ++ ")").
Proof.
  intros Hr Hg Hb. pose proof (rawColor_rgb_text rr gg bb Hr Hg Hb) as Hc.
  unfold asPercentRGBA, ensureColor, isColor, _getRawArrayRgb, rawColor. rewrite Hc.
  cbn [bind map_result negb opaque_rgb r g b a]. rewrite alpha_one_text.
  destruct (compare_facts_spec rr Hr) as (_ & _ & _ & _ & ->).
  destruct (compare_facts_spec gg Hg) as (_ & _ & _ & _ & ->).
  destruct (compare_facts_spec bb Hb) as (_ & _ & _ & _ & ->).
  reflexivity.
Qed.

(** Two texts [rgba( x1, x2, x3, 1 )] are equal exactly when their items
    are, when no item has a comma. *)
Lemma rgba_text_eqb (x1 x2 x3 y1 y2 y3 : string) :
  forallb (free_of ",") [x1; x2; x3] = true -> forallb (free_of ",") [y1; y2; y3] = true ->
  String.eqb ("rgba(" ++ join ", " [x1; x2; x3; "1"] ++ ")") ("rgba(" ++ join ", " [y1; y2; y3; "1"] ++ ")")
  = String.eqb x1 y1 && String.eqb x2 y2 && String.eqb x3 y3.
Proof.
  intros Hx Hy. cbn [forallb] in Hx, Hy.
  assert (H1 : free_of "," "1" = true) by reflexivity.
  match goal with |- String.eqb ?X ?Y = _ => destruct (String.eqb_spec X Y) as [E | E] end.
  - apply wrapped_join_eq in E; [| reflexivity | cbn [forallb]; rewrite H1; exact Hx
                                               | cbn [forallb]; rewrite H1; exact Hy].
    injection E as -> -> ->. rewrite !String.eqb_refl. reflexivity.
  - symmetry. destruct (String.eqb_spec x1 y1) as [-> | ]; [|reflexivity].
    destruct (String.eqb_spec x2 y2) as [-> | ]; [|reflexivity].
    destruct (String.eqb_spec x3 y3) as [-> | ]; [|reflexivity].
    exfalso. apply E. reflexivity.
Qed.

(** An item is determined by its leading number. *)
Lemma item_eqb (f : Z -> string) (n : Z -> Z) (v w : Z) :
  leading_number (f v) = n v -> leading_number (f w) = n w ->
  (forall z z', n z = n z' -> f z = f z') ->
  String.eqb (f v) (f w) = Z.eqb (n v) (n w).
Proof.
  intros Hv Hw Hf. destruct (String.eqb_spec (f v) (f w)) as [E | E].
  - symmetry. apply Z.eqb_eq. rewrite <- Hv, <- Hw, E. reflexivity.
  - symmetry. apply Z.eqb_neq. intros En. apply E, Hf, En.
Qed.

Lemma isColor_rgb_text (rr gg bb : Z) :
  is_byte rr -> is_byte gg -> is_byte bb -> isColor (Color (JStr (rgb_text rr gg bb))) = true.
Proof. intros Hr Hg Hb. unfold isColor. rewrite rawColor_rgb_text by assumption. reflexivity. Qed.

Lemma free_digits (v : Z) : is_byte v -> free_of "," (digits_of_Z v) = true.
Proof. intros Hv. apply (compare_facts_spec v Hv). Qed.

Lemma free_pct (v : Z) : is_byte v -> free_of "," (pct_item v) = true.
Proof. intros Hv. apply (compare_facts_spec v Hv). Qed.

Lemma no_tolerance : js_gt (js_or (option_field JUndefined "tolerance") (JNum zero)) (JNum zero) = false.
Proof. vm_compute. reflexivity. Qed.

Section Pairs.
Variables r1 g1 b1 r2 g2 b2 : Z.
Hypotheses (Hr1 : is_byte r1) (Hg1 : is_byte g1) (Hb1 : is_byte b1)
           (Hr2 : is_byte r2) (Hg2 : is_byte g2) (Hb2 : is_byte b2).

Ltac items := repeat match goal with
  | |- context [String.eqb (digits_of_Z ?v) (digits_of_Z ?w)] =>
      rewrite (item_eqb digits_of_Z (fun z => z) v w); [| apply compare_facts_spec; assumption
                                                        | apply compare_facts_spec; assumption
                                                        | intros ? ? ->; reflexivity]
  | |- context [String.eqb (pct_item ?v) (pct_item ?w)] =>
      rewrite (item_eqb pct_item pct_of_byte v w); [| apply compare_facts_spec; assumption
                                                    | apply compare_facts_spec; assumption
                                                    | intros ? ? E; unfold pct_item; rewrite E; reflexivity]
  end.

Ltac free_items := cbn [forallb]; rewrite ?free_digits, ?free_pct by assumption; reflexivity.

(** C21: without a tolerance, two colors parsed from [rgb(r, g, b)]
    texts with byte channels are [equals] exactly when their three
    bytes are equal. *)
Theorem equals_byte_colors :
  equals (Color (JStr (rgb_text r1 g1 b1))) (JStr (rgb_text r2 g2 b2)) JUndefined
  = Ok (Z.eqb r1 r2 && Z.eqb g1 g2 && Z.eqb b1 b2).
Proof.
  unfold equals. cbv zeta. cbn [coerce]. rewrite no_tolerance, !isColor_rgb_text by assumption.
  rewrite !asRGBA_bytes by assumption. cbn [bind andb]. rewrite andb_false_r.
  rewrite rgba_text_eqb by free_items. items. reflexivity.
Qed.

(** C25: two colors parsed from [rgb(r, g, b)] texts with byte channels
    are [strictlyEquals] exactly when their bytes round to the same
    whole percentages: [strictlyEquals] compares [asPercentRGBA] at its
    default precision of 0 digits, so it is coarser than [equals], where
    the specification makes it the finer comparison. *)
Theorem strictlyEquals_byte_colors :
  strictlyEquals (Color (JStr (rgb_text r1 g1 b1))) (JStr (rgb_text r2 g2 b2))
  = Ok (Z.eqb (pct_of_byte r1) (pct_of_byte r2) && Z.eqb (pct_of_byte g1) (pct_of_byte g2) &&
        Z.eqb (pct_of_byte b1) (pct_of_byte b2)).
Proof.
  unfold strictlyEquals. cbn [coerce]. rewrite !isColor_rgb_text by assumption.
  rewrite !asPercentRGBA_bytes by assumption. cbn [bind andb].
  rewrite rgba_text_eqb by free_items. items. reflexivity.
Qed.

End Pairs.

(** [rgb(0, 127, 254)] and [rgb(0, 128, 255)] differ in two bytes,
    which round to the same percentages: not equal, but strictly
    equal. *)
Lemma equals_byte_colors_witness :
  is_byte 0 /\ is_byte 127 /\ is_byte 254 /\ is_byte 128 /\ is_byte 255 /\
  equals (Color (JStr "rgb(0, 127, 254)")) (JStr "rgb(0, 128, 255)") JUndefined = Ok false.
Proof.
  assert (H0 : is_byte 0) by (unfold is_byte; lia). assert (H1 : is_byte 127) by (unfold is_byte; lia).
  assert (H2 : is_byte 254) by (unfold is_byte; lia). assert (H3 : is_byte 128) by (unfold is_byte; lia).
  assert (H4 : is_byte 255) by (unfold is_byte; lia).
  split; [exact H0|]. split; [exact H1|]. split; [exact H2|]. split; [exact H3|]. split; [exact H4|].
  exact (equals_byte_colors 0 127 254 0 128 255 H0 H1 H2 H0 H3 H4).
Defined.

Lemma strictlyEquals_byte_colors_witness :
  is_byte 0 /\ is_byte 127 /\ is_byte 254 /\ is_byte 128 /\ is_byte 255 /\
  strictlyEquals (Color (JStr "rgb(0, 127, 254)")) (JStr "rgb(0, 128, 255)") = Ok true.
Proof.
  assert (H0 : is_byte 0) by (unfold is_byte; lia). assert (H1 : is_byte 127) by (unfold is_byte; lia).
  assert (H2 : is_byte 254) by (unfold is_byte; lia). assert (H3 : is_byte 128) by (unfold is_byte; lia).
  assert (H4 : is_byte 255) by (unfold is_byte; lia).
  split; [exact H0|]. split; [exact H1|]. split; [exact H2|]. split; [exact H3|]. split; [exact H4|].
  change "rgb(0, 127, 254)" with (rgb_text 0 127 254). change "rgb(0, 128, 255)" with (rgb_text 0 128 255).
  rewrite (strictlyEquals_byte_colors 0 127 254 0 128 255 H0 H1 H2 H0 H3 H4). reflexivity.
Defined.

(** ** Equality within a tolerance *)

(** The integers from [lo], [n] of them, with their binary64 values. *)
Definition zrange (lo : Z) (n : nat) : list (Z * num) :=
  map (fun i => let z := (lo + Z.of_nat i)%Z in (z, of_Z z)) (seq 0 n).

Lemma in_zrange (lo z : Z) (n : nat) : (lo <= z < lo + Z.of_nat n)%Z -> In (z, of_Z z) (zrange lo n).
Proof.
  intros Hz. apply in_map_iff. exists (Z.to_nat (z - lo)).
  rewrite Z2Nat.id by lia. replace (lo + (z - lo))%Z with z by lia. split; [reflexivity|].
  apply in_seq. lia.
Qed.

(** Comparisons of binary64 integers are those of the integers. *)
Definition cmp_ok (x z : Z * num) : bool :=
  negb (isNaN (snd z)) && Bool.eqb (lt (snd z) (snd x)) (Z.ltb (fst z) (fst x)) &&
  Bool.eqb (lt (snd x) (snd z)) (Z.ltb (fst x) (fst z)).

Lemma cmp_check : let zs := zrange (-255) 766 in forallb (fun x => forallb (cmp_ok x) zs) (zrange 0 256) = true.
Proof. vm_compute. reflexivity. Qed.

(** Sums and differences of a byte and a tolerance are exact, and a
    tolerance is a positive number. *)
Definition arith_ok (y t : Z * num) : bool :=
  num_eqb (add (snd y) (snd t)) (of_Z (fst y + fst t)) && num_eqb (sub (snd y) (snd t)) (of_Z (fst y - fst t)) &&
  lt zero (snd t) && negb (isNaN (snd t)).

Lemma arith_check : let ts := zrange 1 255 in forallb (fun y => forallb (arith_ok y) ts) (zrange 0 256) = true.
Proof. vm_compute. reflexivity. Qed.

Lemma cmp_spec (x z : Z) :
  (0 <= x <= 255)%Z -> (-255 <= z <= 510)%Z ->
  isNaN (of_Z z) = false /\ lt (of_Z z) (of_Z x) = Z.ltb z x /\ lt (of_Z x) (of_Z z) = Z.ltb x z.
Proof.
  intros Hx Hz. pose proof cmp_check as H. cbv zeta in H. rewrite forallb_forall in H.
  specialize (H _ (in_zrange 0 x 256 ltac:(lia))). rewrite forallb_forall in H.
  specialize (H _ (in_zrange (-255) z 766 ltac:(lia))). unfold cmp_ok in H. cbn [fst snd] in H.
  apply andb_prop in H as [H H3]. apply andb_prop in H as [H1 H2].
  apply negb_true_iff in H1. apply Bool.eqb_prop in H2, H3. auto.
Qed.

Lemma arith_spec (y t : Z) :
  is_byte y -> (1 <= t <= 255)%Z ->
  add (of_Z y) (of_Z t) = of_Z (y + t) /\ sub (of_Z y) (of_Z t) = of_Z (y - t) /\
  lt zero (of_Z t) = true /\ isNaN (of_Z t) = false.
Proof.
  intros Hy Ht. unfold is_byte in Hy. pose proof arith_check as H. cbv zeta in H. rewrite forallb_forall in H.
  specialize (H _ (in_zrange 0 y 256 ltac:(lia))). rewrite forallb_forall in H.
  specialize (H _ (in_zrange 1 t 255 ltac:(lia))). unfold arith_ok in H. cbn [fst snd] in H.
  apply andb_prop in H as [H H4]. apply andb_prop in H as [H H3]. apply andb_prop in H as [H1 H2].
  apply num_eqb_eq in H1, H2. apply negb_true_iff in H4. auto.
Qed.

(** One paired channel within the tolerance [t]. *)
Lemma within_bytes (x y t : Z) :
  is_byte x -> is_byte y -> (1 <= t <= 255)%Z ->
  within (JNum (of_Z t)) (of_Z x, of_Z y) = Z.leb (Z.abs (x - y)) t.
Proof.
  intros Hx Hy Ht. destruct (arith_spec y t Hy Ht) as (Ea & Es & _). unfold is_byte in *.
  unfold within, js_le, js_ge, is_less_than, js_plus, js_minus. cbn [fst snd to_primitive to_number].
  rewrite Ea, Es.
  destruct (cmp_spec x (y + t) ltac:(lia) ltac:(lia)) as (N1 & L1 & _).
  destruct (cmp_spec x (y - t) ltac:(lia) ltac:(lia)) as (N2 & _ & L2).
  destruct (cmp_spec x x ltac:(lia) ltac:(lia)) as (N0 & _).
  rewrite N0, N1, N2, L1, L2. cbn [orb].
  destruct (Z.ltb_spec (y + t) x), (Z.ltb_spec x (y - t)), (Z.leb_spec (Z.abs (x - y)) t); try reflexivity; lia.
Qed.

Lemma tolerance_value (t : Z) :
  (1 <= t <= 255)%Z -> js_or (option_field (tolerance t) "tolerance") (JNum zero) = JNum (of_Z t).
Proof.
  intros Ht. destruct (arith_spec 0 t ltac:(unfold is_byte; lia) Ht) as (_ & _ & Hp & Hn).
  assert (T : truthy (JNum (of_Z t)) = true)
    by (revert Hp Hn; destruct (of_Z t); cbn; first [reflexivity | discriminate]).
  unfold tolerance, option_field, js_or.
  change (get_field (JObj [("tolerance", JNum (of_Z t))]) "tolerance") with (JNum (of_Z t)).
  change (truthy (JObj [("tolerance", JNum (of_Z t))])) with true. cbv iota. rewrite T. reflexivity.
Qed.

Lemma tolerance_positive (t : Z) :
  (1 <= t <= 255)%Z -> js_gt (JNum (of_Z t)) (JNum zero) = true.
Proof.
  intros Ht. destruct (arith_spec 0 t ltac:(unfold is_byte; lia) Ht) as (_ & _ & Hp & Hn).
  unfold js_gt, is_less_than. cbn [to_primitive to_number]. rewrite Hn, Hp. reflexivity.
Qed.

Lemma asRGBAArray_bytes (rr gg bb : Z) :
  is_byte rr -> is_byte gg -> is_byte bb ->
  asRGBAArray (Color (JStr (rgb_text rr gg bb))) = Ok [of_Z rr; of_Z gg; of_Z bb; of_Z 1].
Proof.
  intros Hr Hg Hb. pose proof (rawColor_rgb_text rr gg bb Hr Hg Hb) as Hc.
  unfold asRGBAArray, ensureColor, isColor, _asRGBArray, _getRawArrayRgb, rawColor. rewrite Hc.
  cbn [bind map negb opaque_rgb r g b a].
  destruct (byte_round_spec rr Hr) as (-> & _). destruct (byte_round_spec gg Hg) as (-> & _).
  destruct (byte_round_spec bb Hb) as (-> & _). reflexivity.
Qed.

Section TolerancePairs.
Variables r1 g1 b1 r2 g2 b2 t : Z.
Hypotheses (Hr1 : is_byte r1) (Hg1 : is_byte g1) (Hb1 : is_byte b1)
           (Hr2 : is_byte r2) (Hg2 : is_byte g2) (Hb2 : is_byte b2) (Ht : (1 <= t <= 255)%Z).

(** C28: with a whole tolerance [t] between 1 and 255, two colors
    parsed from [rgb(r, g, b)] texts with byte channels are [equals]
    exactly when each pair of channels differs by at most [t],
    inclusive, as the specification says (section 4.6). *)
Theorem equals_tolerance_bytes :
  equals (Color (JStr (rgb_text r1 g1 b1))) (JStr (rgb_text r2 g2 b2)) (tolerance t)
  = Ok (Z.leb (Z.abs (r1 - r2)) t && Z.leb (Z.abs (g1 - g2)) t && Z.leb (Z.abs (b1 - b2)) t).
Proof.
  unfold equals. cbv zeta. cbn [coerce]. rewrite (tolerance_value t Ht), (tolerance_positive t Ht).
  rewrite !isColor_rgb_text, !asRGBA_bytes by assumption. cbn [bind andb].
  rewrite rgba_text_eqb by (cbn [forallb]; rewrite ?free_digits by assumption; reflexivity).
  rewrite !(item_eqb digits_of_Z (fun z => z)) by first [apply compare_facts_spec; assumption
                                                      | intros ? ? ->; reflexivity].
  rewrite !asRGBAArray_bytes by assumption. cbn [bind combine last removelast fst snd forallb].
  replace (strict_eq (of_Z 1) (of_Z 1)) with true by reflexivity.
  rewrite !within_bytes by assumption. rewrite !andb_true_r.
  destruct (Z.eqb_spec r1 r2), (Z.eqb_spec g1 g2), (Z.eqb_spec b1 b2); subst; cbn [andb negb];
    try (rewrite ?andb_assoc; reflexivity).
  rewrite !Z.sub_diag, !Z.abs_0. replace (Z.leb 0 t) with true by (symmetry; apply Z.leb_le; lia).
  reflexivity.
Qed.

End TolerancePairs.

Lemma equals_tolerance_bytes_witness :
  is_byte 0 /\ is_byte 153 /\ is_byte 169 /\ is_byte 2 /\ is_byte 155 /\ is_byte 172 /\ (1 <= 2 <= 255)%Z /\
  equals (Color (JStr "rgb(0, 153, 169)")) (JStr "rgb(2, 155, 172)") (tolerance 2) = Ok false.
Proof.
  assert (H0 : is_byte 0) by (unfold is_byte; lia). assert (H1 : is_byte 153) by (unfold is_byte; lia).
  assert (H2 : is_byte 169) by (unfold is_byte; lia). assert (H3 : is_byte 2) by (unfold is_byte; lia).
  assert (H4 : is_byte 155) by (unfold is_byte; lia). assert (H5 : is_byte 172) by (unfold is_byte; lia).
  assert (Ht : (1 <= 2 <= 255)%Z) by lia.
  do 7 (split; [assumption|]).
  change "rgb(0, 153, 169)" with (rgb_text 0 153 169). change "rgb(2, 155, 172)" with (rgb_text 2 155 172).
  rewrite (equals_tolerance_bytes 0 153 169 2 155 172 2 H0 H1 H2 H3 H4 H5 Ht). reflexivity.
Defined.

End Compare.
