(* ===== verification/Host.v ===== *)
(** * The host of the module wrapper

    The JavaScript host the wrapper of [src/src/colorful.js] runs in: a
    heap of objects (a [gmap] from locations) reached through shared
    references, identifier resolution through a function scope and then
    the global object, [typeof], [ToBoolean], property reads and strict
    property writes, and which function a callable object runs.  This is
    the runtime, not code of the repository.  Lemmas: the steps on the
    heap (allocation, assignment, [_.extend]-like folds), the
    well-formedness invariant [wf] and its preservation by each step,
    and the frame lemmas ([ext]) saying that extending the heap does not
    change what the host resolves. *)

From stdpp Require Import base gmap list strings.
From Stdlib Require Import String Bool Lia.
From Stdlib Require Import SpecFloat.
From S2P Require Import Prelude JsNumber.
Import JsNumber.

Module Host.

Local Open Scope string_scope.
Local Open Scope colorful_scope.

(** ** Host values and the heap *)

Definition loc := nat.

(** Callable objects, by the code they run. *)
Inductive fkind : Type :=
  | KDefine                   (** an AMD loader's [define] *)
  | KRequire                  (** CommonJS [require] *)
  | KExtend                   (** Underscore's [_.extend] *)
  | KFactory                  (** the factory closure, line 34 *)
  | KColor                    (** the [Color] constructor, line 487 *)
  | KMethod (name : string)   (** a method of the prototype literal *)
  | KOther.                   (** any other function *)

#[global] Instance fkind_eq_dec : EqDecision fkind.
Proof. solve_decision. Defined.

Inductive hval : Type :=
  | HUndefined
  | HNull
  | HBool (b : bool)
  | HNum (x : num)
  | HStr (s : string)
  | HRef (l : loc).

#[global] Instance spec_float_eq_dec : EqDecision spec_float.
Proof. solve_decision. Defined.

#[global] Instance hval_eq_dec : EqDecision hval.
Proof. solve_decision. Defined.

(** An object: callable or not, with its own properties in creation
    order. *)
Record obj : Type := mk_obj { o_call : option fkind; o_props : list (string * hval) }.

Record host : Type := mk_host {
  heap : gmap loc obj;
  next : loc;                          (** the next free location *)
  scope : list (string * hval);        (** bindings of the enclosing function scope *)
  global : loc;                        (** the global object *)
  this_val : hval;                     (** [this] where the wrapper is called *)
  modules : list (string * hval);      (** what CommonJS [require] returns, by id *)
  defined : list (list string * hval)  (** the [define] calls an AMD loader received *)
}.

Definition with_heap (h : host) (hp : gmap loc obj) (n : loc) : host :=
  mk_host hp n (scope h) (global h) (this_val h) (modules h) (defined h).

Definition with_defined (h : host) (d : list (list string * hval)) : host :=
  mk_host (heap h) (next h) (scope h) (global h) (this_val h) (modules h) d.

(** Property lists: the first binding of a key wins; an assignment
    replaces a binding in place or appends a new key. *)
Fixpoint assoc {A} (k : string) (l : list (string * A)) : option A :=
  match l with
  | [] => None
  | (k', v) :: l' => if String.eqb k k' then Some v else assoc k l'
  end.

Fixpoint assoc_set {A} (k : string) (v : A) (l : list (string * A)) : list (string * A) :=
  match l with
  | [] => [(k, v)]
  | (k', v') :: l' => if String.eqb k k' then (k, v) :: l' else (k', v') :: assoc_set k v l'
  end.

Definition alloc (h : host) (o : obj) : host * loc :=
  (with_heap h (<[next h := o]> (heap h)) (S (next h)), next h).

(** ** ECMAScript operations on host values *)

(** [typeof v] *)
Definition typeof_val (h : host) (v : hval) : string :=
  match v with
  | HUndefined => "undefined"
  | HNull => "object"
  | HBool _ => "boolean"
  | HNum _ => "number"
  | HStr _ => "string"
  | HRef l =>
      match heap h !! l with
      | Some (mk_obj (Some _) _) => "function"
      | _ => "object"
      end
  end.

(** [ToBoolean] *)
Definition truthy (v : hval) : bool :=
  match v with
  | HUndefined | HNull => false
  | HBool b => b
  | HNum x => match x with S754_zero _ | S754_nan => false | _ => true end
  | HStr s => negb (String.eqb s "")
  | HRef _ => true
  end.

(** Identifier resolution: the function scope, then the global object. *)
Definition resolve (h : host) (x : string) : option hval :=
  match assoc x (scope h) with
  | Some v => Some v
  | None =>
      match heap h !! global h with
      | Some o => assoc x (o_props o)
      | None => None
      end
  end.

(** [typeof x] of an identifier does not throw when [x] is undeclared. *)
Definition typeof_var (h : host) (x : string) : string :=
  match resolve h x with
  | Some v => typeof_val h v
  | None => "undefined"
  end.

Definition get_var (h : host) (x : string) : result hval :=
  match resolve h x with
  | Some v => Ok v
  | None => Throw (ReferenceError (x ++ " is not defined"))
  end.

(** [v.p]: own properties (the prototype chain is not modelled). *)
Definition get_prop (h : host) (v : hval) (p : string) : result hval :=
  match v with
  | HUndefined | HNull => Throw (TypeError ("Cannot read property '" ++ p ++ "'"))
  | HRef l =>
      match heap h !! l with
      | Some o => Ok (default HUndefined (assoc p (o_props o)))
      | None => Ok HUndefined
      end
  | _ => Ok HUndefined
  end.

(** [v.p = w] in strict code: a primitive base throws. *)
Definition set_prop (h : host) (v : hval) (p : string) (w : hval) : result host :=
  match v with
  | HRef l =>
      match heap h !! l with
      | Some o => Ok (with_heap h (<[l := mk_obj (o_call o) (assoc_set p w (o_props o))]> (heap h)) (next h))
      | None => Throw (TypeError ("Cannot create property '" ++ p ++ "'"))
      end
  | _ => Throw (TypeError ("Cannot create property '" ++ p ++ "'"))
  end.

(** The code a value runs when called; [None] when it is not callable. *)
Definition callee_kind (h : host) (v : hval) : option fkind :=
  match v with
  | HRef l => heap h !! l ≫= o_call
  | _ => None
  end.

(** ** Well-formed hosts

    Every reference the host holds points to an allocated object, and
    every location from [next] on is free. *)

Definition val_ok (h : host) (v : hval) : Prop :=
  match v with HRef l => is_Some (heap h !! l) | _ => True end.

Definition props_ok (h : host) (ps : list (string * hval)) : Prop :=
  Forall (fun kv => val_ok h kv.2) ps.

Definition fresh (h : host) : Prop := forall l, next h <= l -> heap h !! l = None.

Record wf (h : host) : Prop := {
  wf_fresh : fresh h;
  wf_global : is_Some (heap h !! global h);
  wf_scope : props_ok h (scope h);
  wf_this : val_ok h (this_val h);
  wf_modules : props_ok h (modules h);
  wf_objects : map_Forall (fun _ o => props_ok h (o_props o)) (heap h);
  wf_defined : Forall (fun d => val_ok h d.2) (defined h)
}.

(** The heap only grows its domain. *)
Definition dom_le (h h' : host) : Prop :=
  forall l, is_Some (heap h !! l) -> is_Some (heap h' !! l).

Definition env_eq (h h' : host) : Prop :=
  scope h' = scope h /\ global h' = global h /\ this_val h' = this_val h /\
  modules h' = modules h /\ defined h' = defined h.

(** [h'] extends the heap of [h] and keeps its scopes. *)
Definition ext (h h' : host) : Prop :=
  heap h ⊆ heap h' /\ scope h' = scope h /\ global h' = global h.

(** ** Executable well-formedness *)

Definition val_okb (h : host) (v : hval) : bool :=
  match v with HRef l => bool_decide (is_Some (heap h !! l)) | _ => true end.

Definition props_okb (h : host) (ps : list (string * hval)) : bool :=
  forallb (fun kv => val_okb h kv.2) ps.

Definition wfb (h : host) : bool :=
  bool_decide (map_Forall (fun l _ => l < next h) (heap h)) &&
  bool_decide (is_Some (heap h !! global h)) && props_okb h (scope h) &&
  val_okb h (this_val h) && props_okb h (modules h) &&
  bool_decide (map_Forall (fun _ o => props_okb h (o_props o) = true) (heap h)) &&
  forallb (fun d => val_okb h d.2) (defined h).

(** ** Lemmas *)

Section Assoc.

Context {A : Type}.

Implicit Types (l : list (string * A)) (k : string) (v : A).

Lemma assoc_In k v l : assoc k l = Some v -> In (k, v) l.
Proof.
  induction l as [|[k' v'] l IH]; simpl; [discriminate|].
  destruct (String.eqb_spec k k') as [->|]; [intros [= ->]; auto | auto].
Qed.

Lemma assoc_assoc_set k k' v l :
  assoc k (assoc_set k' v l) = if String.eqb k k' then Some v else assoc k l.
Proof.
  induction l as [|[k1 v1] l IH]; simpl.
  - destruct (String.eqb k k'); reflexivity.
  - destruct (String.eqb_spec k' k1) as [->|Hne]; simpl.
    + destruct (String.eqb k k1); reflexivity.
    + rewrite IH. destruct (String.eqb_spec k k'), (String.eqb_spec k k1); congruence.
Qed.

Lemma assoc_notin k l : k ∉ map fst l -> assoc k l = None.
Proof.
  induction l as [|[k' v'] l IH]; simpl; [done|].
  simpl. rewrite not_elem_of_cons. intros [Hne Hn].
  destruct (String.eqb_spec k k'); [congruence | auto].
Qed.

(** Assigning the properties of [ms] in order, with distinct keys. *)
Lemma assoc_fold_set k ms l0 :
  NoDup (map fst ms) ->
  assoc k (fold_left (fun l kv => assoc_set kv.1 kv.2 l) ms l0) =
  match assoc k ms with Some v => Some v | None => assoc k l0 end.
Proof.
  revert l0. induction ms as [|[k' v'] ms IH]; intros l0 Hnd; simpl; [done|].
  apply NoDup_cons in Hnd as [Hn Hnd].
  rewrite IH by done. rewrite assoc_assoc_set.
  destruct (String.eqb_spec k k') as [->|]; [|done].
  by rewrite assoc_notin.
Qed.

End Assoc.

Lemma props_ok_assoc h ps k v : props_ok h ps -> assoc k ps = Some v -> val_ok h v.
Proof.
  intros Hok Ha. apply assoc_In in Ha.
  unfold props_ok in Hok. rewrite List.Forall_forall in Hok. exact (Hok _ Ha).
Qed.

Lemma props_ok_assoc_set h ps k v : props_ok h ps -> val_ok h v -> props_ok h (assoc_set k v ps).
Proof.
  intros Hok Hv. induction Hok as [|[k' v'] ps ? ? IH]; simpl; [by constructor|].
  destruct (String.eqb k k'); constructor; auto.
Qed.

Lemma val_ok_mono h h' v : dom_le h h' -> val_ok h v -> val_ok h' v.
Proof. destruct v; simpl; auto. Qed.

Lemma props_ok_mono h h' ps : dom_le h h' -> props_ok h ps -> props_ok h' ps.
Proof. intros Hd Hp. eapply Forall_impl; [exact Hp|]. intros ?. by apply val_ok_mono. Qed.

Create HintDb host.

#[export] Hint Resolve val_ok_mono props_ok_mono props_ok_assoc_set : host.

(** ** Steps on the heap *)

Lemma fresh_next h : fresh h -> heap h !! next h = None.
Proof. intros Hf. apply Hf. lia. Qed.

Lemma alloc_subseteq h o : fresh h -> heap h ⊆ heap (alloc h o).1.
Proof. intros Hf. apply insert_subseteq, fresh_next, Hf. Qed.

Lemma fresh_alloc h o : fresh h -> fresh (alloc h o).1.
Proof. intros Hf l Hl. simpl in *. rewrite lookup_insert_ne by lia. apply Hf. lia. Qed.

Lemma dom_le_refl h : dom_le h h.
Proof. by intros l. Qed.

Lemma dom_le_trans h1 h2 h3 : dom_le h1 h2 -> dom_le h2 h3 -> dom_le h1 h3.
Proof. intros H12 H23 l Hl. auto. Qed.

Lemma dom_le_subseteq h h' : heap h ⊆ heap h' -> dom_le h h'.
Proof. intros Hs l [o Ho]. exists o. eapply lookup_weaken; eauto. Qed.

Lemma dom_le_insert h h' l o :
  is_Some (heap h !! l) -> heap h' = <[l := o]> (heap h) -> dom_le h h'.
Proof.
  intros Hl Hh l' Hl'. rewrite Hh, lookup_insert. case_decide; [eauto | done].
Qed.

Lemma set_prop_ref h l o p w :
  heap h !! l = Some o ->
  set_prop h (HRef l) p w =
  Ok (with_heap h (<[l := mk_obj (o_call o) (assoc_set p w (o_props o))]> (heap h)) (next h)).
Proof. intros Hl. simpl. by rewrite Hl. Qed.

(** [set_prop] changes one allocated object and nothing else. *)
Lemma set_prop_inv h v p w h' :
  set_prop h v p w = Ok h' ->
  exists l o, v = HRef l /\ heap h !! l = Some o /\
    heap h' = <[l := mk_obj (o_call o) (assoc_set p w (o_props o))]> (heap h) /\
    next h' = next h /\ env_eq h h'.
Proof.
  destruct v as [| | | | |l]; simpl; try discriminate.
  destruct (heap h !! l) as [o|] eqn:Hl; [|discriminate].
  intros [= <-]. exists l, o. repeat split; auto.
Qed.

Lemma fresh_set_prop h v p w h' : fresh h -> set_prop h v p w = Ok h' -> fresh h'.
Proof.
  intros Hf (l & o & -> & Hl & Hh & Hn & _)%set_prop_inv k Hk.
  rewrite Hh, lookup_insert. rewrite Hn in Hk. case_decide; [|auto].
  subst. rewrite Hf in Hl by lia. discriminate.
Qed.

Lemma dom_le_set_prop h v p w h' : set_prop h v p w = Ok h' -> dom_le h h'.
Proof.
  intros (l & o & -> & Hl & Hh & _)%set_prop_inv. eapply dom_le_insert; eauto.
Qed.

Lemma wf_alloc h o : wf h -> props_ok h (o_props o) -> wf (alloc h o).1.
Proof.
  intros [Hf Hg Hs Ht Hm Ho Hd] Hp.
  assert (Hle : dom_le h (alloc h o).1) by (apply dom_le_subseteq, alloc_subseteq, Hf).
  split; [apply fresh_alloc, Hf | exact (Hle _ Hg) | eauto with host.. | |].
  - apply map_Forall_insert_2; [eauto with host|].
    eapply map_Forall_impl; [exact Ho|]. intros ? ? ?. eauto with host.
  - eapply Forall_impl; [exact Hd|]. intros ? ?. eauto with host.
Qed.

Lemma wf_set_prop h v p w h' : wf h -> val_ok h w -> set_prop h v p w = Ok h' -> wf h'.
Proof.
  intros Hw Hv Hs. pose proof (dom_le_set_prop _ _ _ _ _ Hs) as Hle.
  pose proof (fresh_set_prop _ _ _ _ _ (wf_fresh _ Hw) Hs) as Hf.
  apply set_prop_inv in Hs as (l & o & -> & Hl & Hh & Hn & Hsc & Hg & Ht & Hm & Hd).
  destruct Hw as [_ Hwg Hws Hwt Hwm Hwo Hwd].
  split; [exact Hf| rewrite Hg; auto | rewrite Hsc; eauto with host | rewrite Ht; eauto with host
         | rewrite Hm; eauto with host | | ].
  - rewrite Hh. apply map_Forall_insert_2.
    + simpl. eapply props_ok_mono; [exact Hle|]. apply props_ok_assoc_set; [|exact Hv].
      exact (Hwo _ _ Hl).
    + eapply map_Forall_impl; [exact Hwo|]. intros ? ? ?. eauto with host.
  - rewrite Hd. eapply Forall_impl; [exact Hwd|]. intros ? ?. eauto with host.
Qed.

Lemma lookup_alloc h o : heap (alloc h o).1 !! (alloc h o).2 = Some o.
Proof. apply lookup_insert_eq. Qed.

Lemma env_eq_refl h : env_eq h h.
Proof. by repeat split. Qed.

Lemma env_eq_trans h1 h2 h3 : env_eq h1 h2 -> env_eq h2 h3 -> env_eq h1 h3.
Proof. intros (?&?&?&?&?) (?&?&?&?&?). repeat split; congruence. Qed.

#[export] Hint Resolve env_eq_refl dom_le_refl : host.

Lemma get_prop_ok h v p w : wf h -> get_prop h v p = Ok w -> val_ok h w.
Proof.
  intros Hw. destruct v as [| | | | |l]; simpl; try (intros [= <-]; exact I); try discriminate.
  destruct (heap h !! l) as [o|] eqn:Hl; intros [= <-]; [|exact I].
  destruct (assoc p (o_props o)) eqn:Ha; simpl; [|exact I].
  eapply props_ok_assoc; [exact (wf_objects _ Hw _ _ Hl) | exact Ha].
Qed.

Lemma get_var_ok h x v : wf h -> get_var h x = Ok v -> val_ok h v.
Proof.
  intros Hw. unfold get_var, resolve.
  destruct (assoc x (scope h)) eqn:Hs; [intros [= <-]; exact (props_ok_assoc _ _ _ _ (wf_scope _ Hw) Hs)|].
  destruct (heap h !! global h) as [o|] eqn:Hg; [|discriminate].
  destruct (assoc x (o_props o)) eqn:Ha; [|discriminate]. intros [= <-].
  exact (props_ok_assoc _ _ _ _ (wf_objects _ Hw _ _ Hg) Ha).
Qed.

Lemma fold_set_prop_throw (dest : hval) ps e :
  fold_left (fun acc (kv : string * hval) => let! h' := acc in set_prop h' dest kv.1 kv.2) ps (Throw e) = Throw e.
Proof. induction ps; simpl; auto. Qed.

(** [_.extend] onto an allocated object rewrites that object only. *)
Lemma fold_set_prop_spec p ps h0 o0 :
  heap h0 !! p = Some o0 ->
  fold_left (fun acc (kv : string * hval) => let! h' := acc in set_prop h' (HRef p) kv.1 kv.2) ps (Ok h0) =
  Ok (with_heap h0 (<[p := mk_obj (o_call o0) (fold_left (fun l kv => assoc_set kv.1 kv.2 l) ps (o_props o0))]> (heap h0)) (next h0)).
Proof.
  revert h0 o0. induction ps as [|[k v] ps IH]; intros h0 o0 Hp; simpl.
  - replace (mk_obj (o_call o0) (o_props o0)) with o0 by (by destruct o0).
    rewrite insert_id by exact Hp. by destruct h0.
  - rewrite Hp. simpl. erewrite IH; [|simpl; apply lookup_insert_eq]. simpl.
    by rewrite insert_insert_eq.
Qed.

Lemma wf_fold_set_prop dest ps h h' :
  wf h -> props_ok h ps ->
  fold_left (fun acc (kv : string * hval) => let! h' := acc in set_prop h' dest kv.1 kv.2) ps (Ok h) = Ok h' ->
  wf h'.
Proof.
  revert h. induction ps as [|[k v] ps IH]; intros h0 Hw Hps; simpl; [intros [= <-]; exact Hw|].
  apply Forall_cons in Hps as [Hv Hps].
  destruct (set_prop h0 dest k v) as [h1|e] eqn:Hset; simpl; [|by rewrite fold_set_prop_throw].
  apply IH; [eapply wf_set_prop; eauto|].
  eapply props_ok_mono; [eapply dom_le_set_prop; eauto | exact Hps].
Qed.

Lemma get_prop_weaken h h' v p x :
  heap h ⊆ heap h' -> get_prop h v p = Ok (HRef x) -> get_prop h' v p = Ok (HRef x).
Proof.
  intros Hs. destruct v as [| | | | |l]; simpl; try discriminate.
  destruct (heap h !! l) as [o|] eqn:Hl; [|discriminate].
  by rewrite (lookup_weaken _ _ _ _ Hl Hs).
Qed.

Lemma callee_kind_weaken h h' v k :
  heap h ⊆ heap h' -> callee_kind h v = Some k -> callee_kind h' v = Some k.
Proof.
  intros Hs. destruct v as [| | | | |l]; simpl; try discriminate.
  destruct (heap h !! l) as [o|] eqn:Hl; [|discriminate].
  by rewrite (lookup_weaken _ _ _ _ Hl Hs).
Qed.

Lemma subseteq_insert_fresh h hp l o :
  fresh h -> next h <= l -> heap h ⊆ hp -> heap h ⊆ <[l := o]> hp.
Proof. intros Hf Hl Hs. apply insert_subseteq_r; [by apply Hf | exact Hs]. Qed.

Ltac heap_lookup :=
  repeat first [rewrite lookup_insert_eq | rewrite lookup_insert_ne by lia].

Ltac heap_lookup_in H :=
  repeat first [rewrite lookup_insert_eq in H | rewrite lookup_insert_ne in H by lia].

Lemma get_prop_ref h l o p :
  heap h !! l = Some o -> get_prop h (HRef l) p = Ok (default HUndefined (assoc p (o_props o))).
Proof. intros Hl. simpl. by rewrite Hl. Qed.

Lemma callee_kind_ref h l o : heap h !! l = Some o -> callee_kind h (HRef l) = o_call o.
Proof. intros Hl. simpl. by rewrite Hl. Qed.

Lemma default_Some {A} (d x : A) : default d (Some x) = x.
Proof. reflexivity. Qed.

Lemma dom_le_fold_set_prop dest ps h h' :
  fold_left (fun acc (kv : string * hval) => let! h' := acc in set_prop h' dest kv.1 kv.2) ps (Ok h) = Ok h' ->
  dom_le h h'.
Proof.
  revert h. induction ps as [|[k v] ps IH]; intros h0; simpl; [intros [= <-]; apply dom_le_refl|].
  destruct (set_prop h0 dest k v) as [h1|e] eqn:Hset; simpl; [|by rewrite fold_set_prop_throw].
  intros Hfold. eapply dom_le_trans; [eapply dom_le_set_prop; eauto | exact (IH _ Hfold)].
Qed.

Lemma dom_le_alloc h o : fresh h -> dom_le h (alloc h o).1.
Proof. intros Hf. apply dom_le_subseteq, alloc_subseteq, Hf. Qed.

Lemma resolve_ok h x v : wf h -> resolve h x = Some v -> val_ok h v.
Proof. intros Hw Hr. apply (get_var_ok h x v Hw). unfold get_var. by rewrite Hr. Qed.

Lemma ext_alloc h o : fresh h -> ext h (alloc h o).1.
Proof. intros Hf. split; [apply alloc_subseteq, Hf | split; reflexivity]. Qed.

(** ** Extending the heap *)

Lemma resolve_ext h h' x : wf h -> ext h h' -> resolve h' x = resolve h x.
Proof.
  intros Hw (Hs & Hsc & Hg). destruct (wf_global _ Hw) as [o Ho].
  unfold resolve. by rewrite Hsc, Hg, (lookup_weaken _ _ _ _ Ho Hs), Ho.
Qed.

Lemma typeof_val_ext h h' v : ext h h' -> val_ok h v -> typeof_val h' v = typeof_val h v.
Proof.
  intros (Hs & _). destruct v as [| | | | |l]; simpl; auto.
  intros [o Ho]. by rewrite (lookup_weaken _ _ _ _ Ho Hs), Ho.
Qed.

Lemma get_prop_ext h h' v p : ext h h' -> val_ok h v -> get_prop h' v p = get_prop h v p.
Proof.
  intros (Hs & _). destruct v as [| | | | |l]; simpl; auto.
  intros [o Ho]. by rewrite (lookup_weaken _ _ _ _ Ho Hs), Ho.
Qed.

Lemma callee_kind_ext h h' v : ext h h' -> val_ok h v -> callee_kind h' v = callee_kind h v.
Proof.
  intros (Hs & _). destruct v as [| | | | |l]; simpl; auto.
  intros [o Ho]. by rewrite (lookup_weaken _ _ _ _ Ho Hs), Ho.
Qed.

Lemma typeof_var_ext h h' x : wf h -> ext h h' -> typeof_var h' x = typeof_var h x.
Proof.
  intros Hw He. unfold typeof_var. rewrite (resolve_ext h h' x Hw He).
  destruct (resolve h x) eqn:Hr; [|done]. apply (typeof_val_ext _ _ _ He), (resolve_ok _ _ _ Hw Hr).
Qed.

Lemma get_var_ext h h' x : wf h -> ext h h' -> get_var h' x = get_var h x.
Proof. intros Hw He. unfold get_var. by rewrite (resolve_ext h h' x Hw He). Qed.

Ltac ext_rewrite Hw He :=
  repeat first [rewrite (typeof_var_ext _ _ _ Hw He) | rewrite (get_var_ext _ _ _ Hw He)].

(** A value [typeof] reports as ["object"] or ["function"] and that is
    truthy is a reference. *)
Lemma typeof_truthy_ref h v :
  (String.eqb (typeof_val h v) "object" || String.eqb (typeof_val h v) "function") = true ->
  truthy v = true -> exists l, v = HRef l.
Proof. destruct v; simpl; try discriminate; eauto. Qed.

Lemma callee_kind_Some h l k : callee_kind h (HRef l) = Some k -> exists o, heap h !! l = Some o /\ o_call o = Some k.
Proof. simpl. destruct (heap h !! l) as [o|]; simpl; [eauto | discriminate]. Qed.

Lemma get_prop_truthy h v p : truthy v = true -> exists w, get_prop h v p = Ok w.
Proof. destruct v as [| | | | |l]; simpl; try discriminate; eauto. destruct (heap h !! l); eauto. Qed.

Lemma typeof_function_ref h v : String.eqb (typeof_val h v) "function" = true -> exists l, v = HRef l.
Proof. destruct v; simpl; try discriminate; eauto. Qed.

Lemma env_eq_set_prop h v p w h' : set_prop h v p w = Ok h' -> env_eq h h'.
Proof. intros (? & ? & _ & _ & _ & _ & He)%set_prop_inv. exact He. Qed.

Lemma env_eq_fold_set_prop dest ps h h' :
  fold_left (fun acc (kv : string * hval) => let! h' := acc in set_prop h' dest kv.1 kv.2) ps (Ok h) = Ok h' ->
  env_eq h h'.
Proof.
  revert h. induction ps as [|[k v] ps IH]; intros h0; simpl; [intros [= <-]; apply env_eq_refl|].
  destruct (set_prop h0 dest k v) as [h1|e] eqn:Hset; simpl; [|by rewrite fold_set_prop_throw].
  intros Hfold. eapply env_eq_trans; [eapply env_eq_set_prop; eauto | exact (IH _ Hfold)].
Qed.

Lemma wf_with_defined h d : wf h -> Forall (fun x => val_ok h x.2) d -> wf (with_defined h d).
Proof. intros [? ? ? ? ? ? ?] Hd. by split. Qed.

Lemma callee_kind_typeof h v k : callee_kind h v = Some k -> typeof_val h v = "function".
Proof.
  destruct v as [| | | | |l]; simpl; try discriminate.
  destruct (heap h !! l) as [[[] ?]|]; simpl; congruence.
Qed.

Lemma val_okb_sound h v : val_okb h v = true -> val_ok h v.
Proof. destruct v; simpl; auto. apply bool_decide_eq_true. Qed.

Lemma props_okb_sound h ps : props_okb h ps = true -> props_ok h ps.
Proof.
  unfold props_okb, props_ok. rewrite forallb_forall, List.Forall_forall.
  intros Hb kv Hin. apply val_okb_sound, Hb, Hin.
Qed.

Lemma wfb_sound h : wfb h = true -> wf h.
Proof.
  unfold wfb. rewrite !andb_true_iff, !bool_decide_eq_true.
  intros ((((((Hn & Hg) & Hs) & Ht) & Hm) & Ho) & Hd). split.
  - intros l Hl. destruct (heap h !! l) as [o|] eqn:Hlo; [|done].
    specialize (Hn l o Hlo). simpl in Hn. lia.
  - exact Hg.
  - by apply props_okb_sound.
  - by apply val_okb_sound.
  - by apply props_okb_sound.
  - intros l o Hlo. apply props_okb_sound, (Ho l o Hlo).
  - rewrite forallb_forall in Hd. apply List.Forall_forall. intros d Hin. apply val_okb_sound, Hd, Hin.
Qed.

End Host.
