(* ===== verification/Umd.v ===== *)
(** * The UMD module wrapper

    [src/src/colorful.js] lines 1-34: the wrapper that registers the
    library with an AMD loader, with a CommonJS [require], or with the
    global scope; and the part of the factory that is observable from
    outside it: the [Color] constructor and its prototype (line 487),
    the [_.extend] call that fills the prototype (line 494) and the
    export [exports.Color = Color] (line 645).  The host ([Host]) is a
    heap with shared references, so the [exports] object a loader hands
    to the factory is the object its caller reads afterwards.  Theorems:
    the guards never throw (C30), AMD wins (C31), CommonJS and global
    loading export [Color] (C32, C33), the error paths (C34), and a
    CommonJS load writes nothing but [exports.Color] (C35); concrete
    hosts witness each.  Every load also keeps the host well formed
    ([umd_preserves_wf]). *)

From stdpp Require Import base gmap list strings.
From Stdlib Require Import String Bool Lia.
From Stdlib Require Import SpecFloat.
From S2P Require Import Prelude JsNumber Host.
Import JsNumber Host.

Module Umd.

Local Open Scope string_scope.
Local Open Scope colorful_scope.

(** ** The factory (colorful.js lines 34-645), as seen from outside *)

(** The keys of the object literal passed to [_.extend] at line 494,
    in source order. *)
Definition prototype_methods : list string :=
  ["isColor"; "ensureColor"; "ensureOpaque"; "ensureTransparent"; "isOpaque";
   "isTransparent"; "asHex"; "asHexUC"; "asHexLC"; "asRGB"; "asPercentRGB";
   "asRGBA"; "asPercentRGBA"; "asAgColor"; "asRGBArray"; "asRGBAArray";
   "equals"; "strictlyEquals"; "_asAgColorArray"; "_asRGBArray"; "_getRawArrayRgb"].

(** Evaluating the literal's function expressions, one closure each. *)
Fixpoint alloc_methods (h : host) (names : list string) : host * list (string * hval) :=
  match names with
  | [] => (h, [])
  | n :: ns =>
      let '(h1, l) := alloc h (mk_obj (Some (KMethod n)) []) in
      let '(h2, ps) := alloc_methods h1 ns in
      (h2, (n, HRef l) :: ps)
  end.

(** [_.extend(dest, src)]: assigns the own properties of [src] to
    [dest], in order. *)
Definition extend (h : host) (dest src : hval) : result host :=
  match src with
  | HRef ls =>
      match heap h !! ls with
      | Some o => fold_left (fun acc kv => let! h' := acc in set_prop h' dest kv.1 kv.2)
                    (o_props o) (Ok h)
      | None => Ok h
      end
  | _ => Ok h
  end.

(** The factory [function ( exports, _ )] up to its last statement.
    The declaration [function Color] is instantiated on entry, with a
    fresh [prototype] whose [constructor] is [Color]; line 494 then calls
    [_.extend] with the prototype and the method literal.  A callee other
    than Underscore's [extend] has no modelled effect.  Returns the heap
    and the location of [Color]. *)
Definition factory_init (h : host) (u : hval) : result (host * loc) :=
  let '(h1, p) := alloc h (mk_obj None []) in
  let '(h2, c) := alloc h1 (mk_obj (Some KColor) [("prototype", HRef p)]) in
  let! h3 := set_prop h2 (HRef p) "constructor" (HRef c) in
  let! f := get_prop h3 u "extend" in
  let! proto := get_prop h3 (HRef c) "prototype" in
  let '(h4, ms) := alloc_methods h3 prototype_methods in
  let '(h5, lit) := alloc h4 (mk_obj None ms) in
  let! h6 := match callee_kind h5 f with
             | Some KExtend => extend h5 proto (HRef lit)
             | Some _ => Ok h5
             | None => Throw (TypeError "_.extend is not a function")
             end in
  Ok (h6, c).

(** The factory, ending with line 645: [exports.Color = Color]. *)
Definition factory_body (h : host) (exports u : hval) : result host :=
  let! r := factory_init h u in
  set_prop r.1 exports "Color" (HRef r.2).

(** ** The wrapper (colorful.js lines 1-34) *)

(** Line 10.  The [&&] chain is used only for its truthiness. *)
Definition supportsExports (h : host) : result bool :=
  if negb (String.eqb (typeof_var h "exports") "object") then Ok false else
  let! e := get_var h "exports" in
  if negb (truthy e) then Ok false else
  let! et := get_prop h e "nodeType" in
  if truthy et then Ok false else
  if negb (String.eqb (typeof_var h "module") "object") then Ok false else
  let! m := get_var h "module" in
  if negb (truthy m) then Ok false else
  let! mt := get_prop h m "nodeType" in
  Ok (negb (truthy mt)).

(** Line 17: [typeof define === "function" && typeof define.amd ===
    "object" && define.amd]. *)
Definition amd_check (h : host) : result bool :=
  if negb (String.eqb (typeof_var h "define") "function") then Ok false else
  let! d := get_var h "define" in
  let! da := get_prop h d "amd" in
  if negb (String.eqb (typeof_val h da) "object") then Ok false else
  let! da' := get_prop h d "amd" in
  Ok (truthy da').

(** Line 20: [define( [ "exports", "underscore" ], factory )].  An AMD
    loader's [define] records the registration. *)
Definition define_call (h : host) (deps : list string) (factory : hval) : result host :=
  let! d := get_var h "define" in
  match callee_kind h d with
  | Some KDefine => Ok (with_defined h (defined h ++ [(deps, factory)]))
  | Some _ => Ok h
  | None => Throw (TypeError "define is not a function")
  end.

(** [require( id )] in a CommonJS scope. *)
Definition require_call (h : host) (id : string) : result hval :=
  let! r := get_var h "require" in
  match callee_kind h r with
  | Some KRequire =>
      match assoc id (modules h) with
      | Some v => Ok v
      | None => Throw (Error ("Cannot find module '" ++ id ++ "'"))
      end
  | Some _ => Ok HUndefined
  | None => Throw (TypeError "require is not a function")
  end.

Definition call_factory (h : host) (f exports u : hval) : result host :=
  match callee_kind h f with
  | Some KFactory => factory_body h exports u
  | Some _ => Ok h
  | None => Throw (TypeError "factory is not a function")
  end.

(** The body of [function ( root, factory )], lines 2-32. *)
Definition umd_wrapper (h : host) (root factory : hval) : result host :=
  let! se := supportsExports h in
  let! isamd := amd_check h in
  if isamd then define_call h ["exports"; "underscore"] factory
  else if se then
    let! e := get_var h "exports" in
    let! u := require_call h "underscore" in
    call_factory h factory e u
  else
    let! u := get_var h "_" in
    call_factory h factory root u.

(** Lines 1 and 34: [( function ( root, factory ) { ... }( this,
    function ( exports, _ ) { ... } ) )], the factory a fresh closure. *)
Definition umd (h : host) : result host :=
  let '(h1, f) := alloc h (mk_obj (Some KFactory) []) in
  umd_wrapper h1 (this_val h1) (HRef f).

(** ** What a module exports *)

Definition has_method (h : host) (proto : hval) (m : string) : bool :=
  match get_prop h proto m with
  | Ok f => bool_decide (callee_kind h f = Some (KMethod m))
  | Throw _ => false
  end.

(** [e.Color] is the [Color] constructor, whose prototype carries every
    method of the literal at line 494 and points back to it. *)
Definition exports_Color (h : host) (e : hval) : bool :=
  match get_prop h e "Color" with
  | Ok c =>
      bool_decide (callee_kind h c = Some KColor) &&
      match get_prop h c "prototype" with
      | Ok p =>
          forallb (has_method h p) prototype_methods &&
          match get_prop h p "constructor" with
          | Ok c' => bool_decide (c' = c)
          | Throw _ => false
          end
      | Throw _ => false
      end
  | Throw _ => false
  end.

(** ** Concrete hosts *)

(** Underscore as loaded in each host: an object whose [extend] is
    Underscore's. *)
Definition underscore_obj (extend_at : loc) : obj := mk_obj None [("extend", HRef extend_at)].

Definition extend_fn : obj := mk_obj (Some KExtend) [].

(** A Node.js module scope: [exports], [module] and [require] bound by
    the module wrapper, [this] the [exports] object, and Underscore
    installed. *)
Definition node_host : host :=
  mk_host (list_to_map [(0, mk_obj None []); (1, mk_obj None []);
                        (2, mk_obj None [("exports", HRef 1)]); (3, mk_obj (Some KRequire) []);
                        (4, underscore_obj 5); (5, extend_fn)])
    6 [("exports", HRef 1); ("module", HRef 2); ("require", HRef 3)] 0 (HRef 1)
    [("underscore", HRef 4)] [].

(** A page with RequireJS: a global [define] with [define.amd], global
    [exports] and [module] objects besides, and Underscore loaded as an
    AMD module (its value at location 5). *)
Definition amd_page : host :=
  mk_host (list_to_map [(0, mk_obj None [("define", HRef 1); ("exports", HRef 3); ("module", HRef 4)]);
                        (1, mk_obj (Some KDefine) [("amd", HRef 2)]); (2, mk_obj None []);
                        (3, mk_obj None []); (4, mk_obj None []);
                        (5, underscore_obj 6); (6, extend_fn)])
    7 [] 0 (HRef 0) [] [].

(** A browser page with Underscore loaded by a script tag, and an
    element [id="exports"], which browsers expose as a global. *)
Definition browser_page : host :=
  mk_host (list_to_map [(0, mk_obj None [("_", HRef 1); ("exports", HRef 3)]);
                        (1, underscore_obj 2); (2, extend_fn);
                        (3, mk_obj None [("nodeType", HNum (of_Z 1))])])
    4 [] 0 (HRef 0) [] [].

(** The same page without Underscore, as an ES module ([this] is
    [undefined]), and a CommonJS scope without Underscore installed. *)
Definition bare_page : host := mk_host (list_to_map [(0, mk_obj None [])]) 1 [] 0 (HRef 0) [] [].

Definition es_module : host :=
  mk_host (heap browser_page) 4 [] 0 HUndefined [] [].

Definition node_no_underscore : host :=
  mk_host (heap node_host) 6 (scope node_host) 0 (HRef 1) [] [].

(** ** Lemmas *)

Lemma supportsExports_total h : exists b, supportsExports h = Ok b.
Proof.
  unfold supportsExports, typeof_var, get_var.
  destruct (resolve h "exports") as [e|]; simpl; [|eauto].
  destruct (negb _); [eauto|]. cbn [bind].
  destruct (truthy e) eqn:Ht; simpl; [|eauto].
  destruct (get_prop_truthy h e "nodeType" Ht) as [w ->]. cbn [bind].
  destruct (truthy w); [eauto|].
  destruct (resolve h "module") as [m|]; simpl; [|eauto].
  destruct (negb _); [eauto|]. cbn [bind].
  destruct (truthy m) eqn:Hm; simpl; [|eauto].
  destruct (get_prop_truthy h m "nodeType" Hm) as [w' ->]. eauto.
Qed.

Lemma amd_check_total h : exists b, amd_check h = Ok b.
Proof.
  unfold amd_check, typeof_var, get_var.
  destruct (resolve h "define") as [d|]; simpl; [|eauto].
  destruct (String.eqb (typeof_val h d) "function") eqn:Ht; simpl; [|eauto].
  destruct (typeof_function_ref h d Ht) as [l ->]. simpl.
  destruct (heap h !! l); simpl; repeat case_match; eauto.
Qed.

(** The closures of the method literal are fresh objects. *)
Lemma alloc_methods_spec h names h' ps :
  fresh h -> alloc_methods h names = (h', ps) ->
  fresh h' /\ heap h ⊆ heap h' /\ env_eq h h' /\ map fst ps = names /\ props_ok h' ps /\
  forall n, n ∈ names -> exists l, assoc n ps = Some (HRef l) /\
    heap h' !! l = Some (mk_obj (Some (KMethod n)) []) /\ heap h !! l = None.
Proof.
  revert h h' ps. induction names as [|n ns IH]; intros h h' ps Hf Ha; cbn [alloc_methods] in Ha.
  - injection Ha as <- <-. repeat split; auto with host. constructor. set_solver.
  - rewrite (surjective_pairing (alloc h _)) in Ha. cbv beta iota in Ha.
    destruct (alloc_methods (alloc h (mk_obj (Some (KMethod n)) [])).1 ns) as [h2 ps2] eqn:Ha2.
    injection Ha as <- <-.
    pose proof (alloc_subseteq _ (mk_obj (Some (KMethod n)) []) Hf) as Hs1.
    destruct (IH _ _ _ (fresh_alloc _ _ Hf) Ha2) as (Hf2 & Hs2 & He2 & Hm2 & Hp2 & Hl2).
    assert (Hn : heap h2 !! next h = Some (mk_obj (Some (KMethod n)) [])).
    { eapply lookup_weaken; [apply lookup_alloc | exact Hs2]. }
    refine (conj Hf2 (conj _ (conj _ (conj _ (conj _ _))))).
    { by trans (heap (alloc h (mk_obj (Some (KMethod n)) [])).1). }
    { exact (env_eq_trans _ _ _ (env_eq_refl h) He2). }
    { simpl. by rewrite Hm2. }
    { constructor; [simpl; eauto | exact Hp2]. }
    intros n' Hin. simpl. destruct (String.eqb_spec n' n) as [->|Hne].
    + exists (next h). split; [done|]. split; [exact Hn | exact (fresh_next _ Hf)].
    + apply elem_of_cons in Hin as [?|Hin]; [congruence|].
      destruct (Hl2 n' Hin) as (l & Hal & Hhl & Hnone). exists l. repeat split; auto.
      apply eq_None_not_Some. intros [x Hx].
      rewrite (lookup_weaken _ _ _ _ Hx Hs1) in Hnone. discriminate.
Qed.

Lemma wf_alloc_methods h names h' ps :
  wf h -> alloc_methods h names = (h', ps) -> wf h'.
Proof.
  revert h h' ps. induction names as [|n ns IH]; intros h h' ps Hw Ha; cbn [alloc_methods] in Ha.
  - by injection Ha as <- <-.
  - rewrite (surjective_pairing (alloc h _)) in Ha. cbv beta iota in Ha.
    destruct (alloc_methods (alloc h (mk_obj (Some (KMethod n)) [])).1 ns) as [h2 ps2] eqn:Ha2.
    injection Ha as <- <-. eapply IH; [|exact Ha2]. apply wf_alloc; [exact Hw | constructor].
Qed.

Lemma extend_spec h p op ls os :
  heap h !! p = Some op -> heap h !! ls = Some os ->
  extend h (HRef p) (HRef ls) =
  Ok (with_heap h (<[p := mk_obj (o_call op) (fold_left (fun l kv => assoc_set kv.1 kv.2 l) (o_props os) (o_props op))]> (heap h)) (next h)).
Proof. intros Hp Hs. unfold extend. rewrite Hs. by apply fold_set_prop_spec. Qed.

Lemma wf_extend h dest src h' : wf h -> extend h dest src = Ok h' -> wf h'.
Proof.
  unfold extend. intros Hw.
  destruct src as [| | | | |ls]; try (intros [= <-]; exact Hw).
  destruct (heap h !! ls) as [os|] eqn:Hs; [|intros [= <-]; exact Hw].
  apply wf_fold_set_prop; [exact Hw | exact (wf_objects _ Hw _ _ Hs)].
Qed.

Lemma prototype_methods_NoDup : NoDup prototype_methods.
Proof. apply (bool_decide_unpack _). vm_compute. exact I. Qed.

(** The factory up to line 645, with an [_] whose [extend] is
    Underscore's: it leaves every existing object unchanged, and
    assigning [Color] to any existing object then exports a complete
    [Color]. *)
Lemma factory_init_spec h u lx ox :
  fresh h -> get_prop h u "extend" = Ok (HRef lx) -> heap h !! lx = Some ox -> o_call ox = Some KExtend ->
  exists h6 c, factory_init h u = Ok (h6, c) /\ heap h ⊆ heap h6 /\ fresh h6 /\
    forall le oe, heap h !! le = Some oe ->
    exists hF, set_prop h6 (HRef le) "Color" (HRef c) = Ok hF /\
      heap hF = <[le := mk_obj (o_call oe) (assoc_set "Color" (HRef c) (o_props oe))]> (heap h6) /\
      exports_Color hF (HRef le) = true.
Proof.
  intros Hf Hx Hlx Hk.
  unfold factory_init. cbn [alloc fst snd with_heap next heap].
  erewrite set_prop_ref; [|cbn [heap with_heap]; heap_lookup; reflexivity].
  cbn [bind with_heap next heap o_call o_props assoc_set].
  match goal with |- context [get_prop ?X u "extend"] => set (h3 := X) end.
  assert (Hs3 : heap h ⊆ heap h3).
  { simpl. repeat (apply subseteq_insert_fresh; [exact Hf | simpl; lia |]). done. }
  assert (Hf3 : fresh h3).
  { intros l Hl. simpl in *. heap_lookup. apply Hf. lia. }
  rewrite (get_prop_weaken _ _ _ _ _ Hs3 Hx). cbn [bind].
  replace (get_prop h3 (HRef (S (next h))) "prototype") with (Ok (HRef (next h)))
    by (simpl; heap_lookup; done). cbn [bind].
  destruct (alloc_methods h3 prototype_methods) as [h4 ms] eqn:Ham.
  destruct (alloc_methods_spec _ _ _ _ Hf3 Ham) as (Hf4 & Hs4 & _ & Hm4 & _ & Hl4).
  pose proof (alloc_subseteq h4 (mk_obj None ms) Hf4) as Hs5. cbn [alloc fst] in Hs5.
  match goal with |- context [extend ?X] => set (h5 := X) end.
  assert (Hk5 : callee_kind h5 (HRef lx) = Some KExtend).
  { eapply callee_kind_weaken; [etrans; [exact Hs3 | etrans; [exact Hs4 | exact Hs5]]|].
    simpl. by rewrite Hlx. }
  rewrite Hk5.
  assert (Hn5 : heap h5 !! next h = Some (mk_obj None [("constructor", HRef (S (next h)))])).
  { eapply lookup_weaken; [|etrans; [exact Hs4 | exact Hs5]]. simpl. heap_lookup. done. }
  rewrite (extend_spec h5 (next h) _ (next h4) (mk_obj None ms)) by (exact Hn5 || apply lookup_insert_eq).
  cbn [bind o_call o_props].
  assert (Hs35 : heap h3 ⊆ heap h5) by (etrans; [exact Hs4 | exact Hs5]).
  assert (Hs5' : heap h ⊆ heap h5) by (by etrans).
  eexists _, _. split; [reflexivity|]. split; [|split].
  { cbn [heap with_heap]. apply subseteq_insert_fresh; [exact Hf | lia | exact Hs5']. }
  { assert (Hf5 : fresh h5) by exact (fresh_alloc _ _ Hf4).
    assert (next h < next h5).
    { destruct (decide (next h < next h5)); [done|]. rewrite Hf5 in Hn5 by lia. discriminate. }
    intros l Hl. cbn [heap with_heap next] in *. heap_lookup. apply Hf5. exact Hl. }
  intros le oe Hle.
  assert (Hlt : le < next h) by (destruct (decide (le < next h)); [done|]; rewrite Hf in Hle by lia; done).
  assert (Hle5 : heap h5 !! le = Some oe) by (eapply lookup_weaken; [exact Hle | exact Hs5']).
  erewrite set_prop_ref; [|cbn [heap with_heap]; heap_lookup; exact Hle5].
  eexists; split; [reflexivity|]. split; [reflexivity|].
  assert (Hc5 : heap h5 !! S (next h) = Some (mk_obj (Some KColor) [("prototype", HRef (next h))])).
  { eapply lookup_weaken; [|exact Hs35]. simpl. heap_lookup. done. }
  assert (Hnd : NoDup (map fst ms)) by (rewrite Hm4; apply prototype_methods_NoDup).
  match goal with |- exports_Color ?X _ = true => set (hF := X) end.
  assert (HFle : heap hF !! le = Some (mk_obj (o_call oe) (assoc_set "Color" (HRef (S (next h))) (o_props oe))))
    by (simpl; heap_lookup; done).
  assert (HFc : heap hF !! S (next h) = Some (mk_obj (Some KColor) [("prototype", HRef (next h))]))
    by (simpl; heap_lookup; exact Hc5).
  assert (HFn : heap hF !! next h = Some (mk_obj None (fold_left (fun l kv => assoc_set kv.1 kv.2 l)
                                                   ms [("constructor", HRef (S (next h)))])))
    by (simpl; heap_lookup; done).
  unfold exports_Color. rewrite (get_prop_ref _ _ _ _ HFle). cbn [o_props default].
  rewrite assoc_assoc_set, String.eqb_refl, default_Some.
  rewrite (callee_kind_ref _ _ _ HFc), (get_prop_ref _ _ _ _ HFc).
  cbn [o_call o_props assoc]. rewrite bool_decide_eq_true_2 by reflexivity. cbn [andb].
  rewrite String.eqb_refl, default_Some.
  rewrite (get_prop_ref _ _ _ _ HFn). cbn [o_props default].
  rewrite assoc_fold_set by exact Hnd.
  rewrite (assoc_notin "constructor" ms)
    by (rewrite Hm4; apply (bool_decide_unpack _); vm_compute; exact I).
  cbn [assoc]. rewrite String.eqb_refl, default_Some.
  rewrite bool_decide_eq_true_2 by reflexivity. rewrite andb_true_r.
  apply forallb_forall. intros m Hm%list_elem_of_In.
  destruct (Hl4 m Hm) as (l & Hal & Hhl & Hnone).
  assert (l <> next h) by (intros ->; unfold h3 in Hnone; cbn [heap with_heap] in Hnone; heap_lookup_in Hnone; discriminate).
  assert (l <> le) by (intros ->; rewrite (lookup_weaken _ _ _ _ Hle Hs3) in Hnone; done).
  assert (l <> S (next h)) by (intros ->; unfold h3 in Hnone; cbn [heap with_heap] in Hnone; heap_lookup_in Hnone; discriminate).
  assert (HFl : heap hF !! l = Some (mk_obj (Some (KMethod m)) [])).
  { unfold hF, h5. cbn [heap with_heap]. heap_lookup. eapply lookup_weaken; [exact Hhl | exact Hs5]. }
  unfold has_method. rewrite (get_prop_ref _ _ _ _ HFn). cbn [o_props default].
  rewrite assoc_fold_set, Hal, default_Some by exact Hnd. cbn iota beta.
  rewrite (callee_kind_ref _ _ _ HFl). by apply bool_decide_eq_true_2.
Qed.

Lemma factory_body_exports h le oe u lx ox :
  fresh h -> heap h !! le = Some oe ->
  get_prop h u "extend" = Ok (HRef lx) -> heap h !! lx = Some ox -> o_call ox = Some KExtend ->
  exists h', factory_body h (HRef le) u = Ok h' /\ exports_Color h' (HRef le) = true.
Proof.
  intros Hf Hle Hx Hlx Hk.
  destruct (factory_init_spec h u lx ox Hf Hx Hlx Hk) as (h6 & c & Hi & _ & _ & Hset).
  destruct (Hset le oe Hle) as (hF & HF & _ & Hc).
  unfold factory_body. rewrite Hi. exists hF. split; [exact HF | exact Hc].
Qed.

(** The factory writes one existing object, the one it exports to, and
    only its [Color]. *)
Lemma factory_body_frame h le oe u lx ox :
  fresh h -> heap h !! le = Some oe ->
  get_prop h u "extend" = Ok (HRef lx) -> heap h !! lx = Some ox -> o_call ox = Some KExtend ->
  exists h' c, factory_body h (HRef le) u = Ok h' /\
    heap h' !! le = Some (mk_obj (o_call oe) (assoc_set "Color" c (o_props oe))) /\
    forall l o, heap h !! l = Some o -> l <> le -> heap h' !! l = Some o.
Proof.
  intros Hf Hle Hx Hlx Hk.
  destruct (factory_init_spec h u lx ox Hf Hx Hlx Hk) as (h6 & c & Hi & Hs6 & _ & Hset).
  destruct (Hset le oe Hle) as (hF & HF & Heq & _).
  exists hF, (HRef c). unfold factory_body. rewrite Hi. split; [exact HF|].
  rewrite Heq. split; [apply lookup_insert_eq|].
  intros l o Hl Hne. rewrite lookup_insert_ne by congruence. eapply lookup_weaken; [exact Hl | exact Hs6].
Qed.

Lemma dom_le_extend h dest src h' : extend h dest src = Ok h' -> dom_le h h'.
Proof.
  unfold extend. destruct src as [| | | | |ls]; try (intros [= <-]; apply dom_le_refl).
  destruct (heap h !! ls); [apply dom_le_fold_set_prop | intros [= <-]; apply dom_le_refl].
Qed.

Lemma extend_call_wf h5 f proto lit h6 :
  wf h5 ->
  match callee_kind h5 f with
  | Some KExtend => extend h5 proto lit
  | Some _ => Ok h5
  | None => Throw (TypeError "_.extend is not a function")
  end = Ok h6 -> wf h6 /\ dom_le h5 h6.
Proof.
  intros Hw. destruct (callee_kind h5 f) as [[]|]; try discriminate;
    try (intros [= <-]; split; [exact Hw | apply dom_le_refl]).
  intros He. split; [exact (wf_extend _ _ _ _ Hw He) | exact (dom_le_extend _ _ _ _ He)].
Qed.

Lemma wf_factory_init h u h6 c : wf h -> factory_init h u = Ok (h6, c) -> wf h6 /\ val_ok h6 (HRef c).
Proof.
  intros Hw. unfold factory_init. cbn [alloc fst snd].
  set (h1 := (alloc h (mk_obj None [])).1).
  assert (Hw1 : wf h1) by (apply wf_alloc; [exact Hw | constructor]).
  set (h2 := (alloc h1 (mk_obj (Some KColor) [("prototype", HRef (next h))])).1).
  assert (Hw2 : wf h2).
  { apply wf_alloc; [exact Hw1|]. constructor; [|constructor]. simpl. rewrite lookup_insert_eq. eauto. }
  assert (Hc2 : val_ok h2 (HRef (next h1))) by (simpl; rewrite lookup_insert_eq; eauto).
  match goal with |- context [set_prop ?X (HRef ?P) "constructor" ?V] =>
    destruct (set_prop X (HRef P) "constructor" V) as [h3|] eqn:Hs3; [|discriminate] end.
  cbn [bind].
  assert (Hw3 : wf h3) by exact (wf_set_prop h2 _ _ _ _ Hw2 Hc2 Hs3).
  assert (Hd3 : dom_le h2 h3) by exact (dom_le_set_prop h2 _ _ _ _ Hs3).
  destruct (get_prop h3 u "extend") as [f|]; [|discriminate]. cbn [bind].
  destruct (get_prop h3 _ "prototype") as [proto|]; [|discriminate]. cbn [bind].
  destruct (alloc_methods h3 prototype_methods) as [h4 ms] eqn:Ham.
  destruct (alloc_methods_spec _ _ _ _ (wf_fresh _ Hw3) Ham) as (Hf4 & Hs4 & _ & _ & Hp4 & _).
  pose proof (wf_alloc_methods _ _ _ _ Hw3 Ham) as Hw4.
  assert (Hw5 : wf (alloc h4 (mk_obj None ms)).1) by (apply wf_alloc; [exact Hw4 | exact Hp4]).
  assert (Hd5 : dom_le h2 (alloc h4 (mk_obj None ms)).1).
  { eapply dom_le_trans; [exact Hd3|]. eapply dom_le_trans; [apply dom_le_subseteq, Hs4|].
    apply dom_le_alloc, Hf4. }
  lazymatch goal with |- bind ?M _ = _ -> _ => destruct M as [h6'|] eqn:Hm; [|discriminate] end.
  cbn [bind]. intros [= <- <-].
  destruct (extend_call_wf _ _ _ _ _ Hw5 Hm) as [Hw6 Hd6].
  split; [exact Hw6|]. eapply val_ok_mono; [exact (dom_le_trans _ _ _ Hd5 Hd6)|]. exact Hc2.
Qed.

Lemma wf_factory_body h e u h' : wf h -> factory_body h e u = Ok h' -> wf h'.
Proof.
  intros Hw. unfold factory_body.
  destruct (factory_init h u) as [[h6 c]|] eqn:Hi; [|discriminate]. cbn [bind fst snd].
  destruct (wf_factory_init _ _ _ _ Hw Hi) as [Hw6 Hc].
  exact (wf_set_prop _ _ _ _ _ Hw6 Hc).
Qed.

(** The guards read the host only: extending the heap does not change
    them. *)
Lemma supportsExports_ext h h' : wf h -> ext h h' -> supportsExports h' = supportsExports h.
Proof.
  intros Hw He. unfold supportsExports. ext_rewrite Hw He.
  destruct (String.eqb _ "object"); cbn [negb]; [|done].
  destruct (get_var h "exports") as [e|] eqn:Hge; cbn [bind]; [|done].
  rewrite (get_prop_ext _ _ _ _ He (get_var_ok _ _ _ Hw Hge)).
  destruct (truthy e); cbn [negb]; [|done].
  destruct (get_prop h e "nodeType") as [et|]; cbn [bind]; [|done].
  destruct (truthy et); [done|].
  destruct (String.eqb (typeof_var h "module") "object"); cbn [negb]; [|done].
  destruct (get_var h "module") as [m|] eqn:Hgm; cbn [bind]; [|done].
  by rewrite (get_prop_ext _ _ _ _ He (get_var_ok _ _ _ Hw Hgm)).
Qed.

Lemma amd_check_ext h h' : wf h -> ext h h' -> amd_check h' = amd_check h.
Proof.
  intros Hw He. unfold amd_check. ext_rewrite Hw He.
  destruct (String.eqb _ "function"); cbn [negb]; [|done].
  destruct (get_var h "define") as [d|] eqn:Hgd; cbn [bind]; [|done].
  pose proof (get_var_ok _ _ _ Hw Hgd) as Hd. rewrite !(get_prop_ext _ _ _ _ He Hd).
  destruct (get_prop h d "amd") as [da|] eqn:Hda; cbn [bind]; [|done].
  by rewrite (typeof_val_ext _ _ _ He (get_prop_ok _ _ _ _ Hw Hda)).
Qed.

Lemma supportsExports_true h :
  supportsExports h = Ok true -> exists l, resolve h "exports" = Some (HRef l).
Proof.
  unfold supportsExports, typeof_var, get_var.
  destruct (resolve h "exports") as [e|]; [|discriminate]. cbn [bind].
  destruct (String.eqb (typeof_val h e) "object") eqn:Ht; cbn [negb]; [|discriminate].
  destruct (truthy e) eqn:Htr; cbn [negb]; [|discriminate].
  intros _. destruct (typeof_truthy_ref h e) as [l ->]; [by rewrite Ht | exact Htr | eauto].
Qed.

Lemma umd_eq h : umd h = umd_wrapper (alloc h (mk_obj (Some KFactory) [])).1 (this_val h) (HRef (next h)).
Proof. reflexivity. Qed.

Lemma callee_kind_factory h :
  callee_kind (alloc h (mk_obj (Some KFactory) [])).1 (HRef (next h)) = Some KFactory.
Proof. simpl. by rewrite lookup_insert_eq. Qed.


Lemma env_eq_extend h dest src h' : extend h dest src = Ok h' -> env_eq h h'.
Proof.
  unfold extend. destruct src as [| | | | |ls]; try (intros [= <-]; apply env_eq_refl).
  destruct (heap h !! ls); [apply env_eq_fold_set_prop | intros [= <-]; apply env_eq_refl].
Qed.

Lemma env_eq_alloc_methods h names : env_eq h (alloc_methods h names).1.
Proof.
  revert h. induction names as [|n ns IH]; intros h; [apply env_eq_refl|].
  cbn [alloc_methods]. rewrite (surjective_pairing (alloc h _)). cbv beta iota.
  destruct (alloc_methods _ ns) as [h2 ps] eqn:Ha. simpl.
  apply (env_eq_trans _ (alloc h (mk_obj (Some (KMethod n)) [])).1); [by repeat split|].
  specialize (IH (alloc h (mk_obj (Some (KMethod n)) [])).1). rewrite Ha in IH. exact IH.
Qed.

Lemma extend_call_env h5 f proto lit h6 :
  match callee_kind h5 f with
  | Some KExtend => extend h5 proto lit
  | Some _ => Ok h5
  | None => Throw (TypeError "_.extend is not a function")
  end = Ok h6 -> env_eq h5 h6.
Proof.
  destruct (callee_kind h5 f) as [[]|]; try discriminate; try (intros [= <-]; apply env_eq_refl).
  apply env_eq_extend.
Qed.

Lemma env_eq_factory_init h u h6 c : factory_init h u = Ok (h6, c) -> env_eq h h6.
Proof.
  unfold factory_init. cbn [alloc fst snd].
  match goal with |- context [set_prop ?X (HRef ?P) "constructor" ?V] =>
    destruct (set_prop X (HRef P) "constructor" V) as [h3|] eqn:Hs3; [|discriminate] end.
  cbn [bind]. apply env_eq_set_prop in Hs3.
  destruct (get_prop h3 u "extend") as [f|]; [|discriminate]. cbn [bind].
  destruct (get_prop h3 _ "prototype") as [proto|]; [|discriminate]. cbn [bind].
  destruct (alloc_methods h3 prototype_methods) as [h4 ms] eqn:Ham.
  pose proof (env_eq_alloc_methods h3 prototype_methods) as E4. rewrite Ham in E4.
  lazymatch goal with |- bind ?M _ = _ -> _ => destruct M as [h6'|] eqn:Hm; [|discriminate] end.
  cbn [bind]. intros [= <- <-]. apply extend_call_env in Hm.
  eapply env_eq_trans; [|exact Hm]. eapply env_eq_trans; [|eapply env_eq_trans; [exact E4|]].
  - eapply env_eq_trans; [|exact Hs3]. by repeat split.
  - by repeat split.
Qed.

Lemma env_eq_factory_body h e u h' : factory_body h e u = Ok h' -> env_eq h h'.
Proof.
  unfold factory_body. destruct (factory_init h u) as [[h6 c]|] eqn:Hi; [|discriminate].
  cbn [bind fst snd]. intros Hs.
  exact (env_eq_trans _ _ _ (env_eq_factory_init _ _ _ _ Hi) (env_eq_set_prop _ _ _ _ _ Hs)).
Qed.

Lemma wf_umd_wrapper h f h' : wf h -> val_ok h f -> umd_wrapper h (this_val h) f = Ok h' -> wf h'.
Proof.
  intros Hw Hf. unfold umd_wrapper.
  destruct (supportsExports_total h) as [se ->], (amd_check_total h) as [[] ->]; cbn [bind].
  - unfold define_call. destruct (get_var h "define") as [d|]; cbn [bind]; [|discriminate].
    destruct (callee_kind h d) as [[]|]; try discriminate; try (intros [= <-]; exact Hw).
    intros [= <-]. apply wf_with_defined; [exact Hw|].
    apply Forall_app; split; [apply (wf_defined _ Hw) | by constructor].
  - unfold call_factory. destruct se.
    + destruct (get_var h "exports"); cbn [bind]; [|discriminate].
      destruct (require_call h "underscore"); cbn [bind]; [|discriminate].
      destruct (callee_kind h f) as [[]|]; try discriminate; try (intros [= <-]; exact Hw).
      apply wf_factory_body, Hw.
    + destruct (get_var h "_"); cbn [bind]; [|discriminate].
      destruct (callee_kind h f) as [[]|]; try discriminate; try (intros [= <-]; exact Hw).
      apply wf_factory_body, Hw.
Qed.

(** ** Loading the module *)

(** C30: the guards of lines 10 and 17 never throw, in any host: each
    identifier is tested with [typeof] before it is read, and each
    property is read only from a value tested truthy or a function. *)
Theorem umd_guards_total h :
  (exists b, supportsExports h = Ok b) /\ (exists b, amd_check h = Ok b).
Proof. split; [apply supportsExports_total | apply amd_check_total]. Qed.

(** An object that exports [Color] and is the global object makes
    [Color] a global variable. *)
Lemma exports_Color_typeof h g :
  exports_Color h (HRef g) = true -> global h = g -> assoc "Color" (scope h) = None ->
  typeof_var h "Color" = "function".
Proof.
  intros Hc Hg Hsc. unfold typeof_var, resolve. rewrite Hsc, Hg.
  unfold exports_Color in Hc. cbn [get_prop] in Hc.
  destruct (heap h !! g) as [o|]; [|rewrite bool_decide_eq_false_2 in Hc by discriminate; discriminate].
  destruct (assoc "Color" (o_props o)) as [c|]; cbn [default] in Hc;
    [|rewrite bool_decide_eq_false_2 in Hc by discriminate; discriminate].
  apply andb_prop in Hc as [Hc _]. apply bool_decide_eq_true in Hc.
  exact (callee_kind_typeof _ _ _ Hc).
Qed.

Lemma wf_loaded h : wf h -> wf (alloc h (mk_obj (Some KFactory) [])).1.
Proof. intros Hw. apply wf_alloc; [exact Hw | constructor]. Qed.

Section Loading.

Variable h : host.

Hypothesis Hw : wf h.

Lemma ext_loaded : ext h (alloc h (mk_obj (Some KFactory) [])).1.
Proof. apply ext_alloc, (wf_fresh _ Hw). Qed.

Lemma fresh_loaded : fresh (alloc h (mk_obj (Some KFactory) [])).1.
Proof. apply fresh_alloc, (wf_fresh _ Hw). Qed.

Ltac load_guards :=
  rewrite umd_eq; unfold umd_wrapper;
  rewrite (supportsExports_ext _ _ Hw ext_loaded), (amd_check_ext _ _ Hw ext_loaded).

Ltac read_var Hr :=
  rewrite (get_var_ext _ _ _ Hw ext_loaded); unfold get_var at 1; rewrite Hr; cbn [bind].

(** The AMD branch, exactly: the factory closure is registered and
    nothing else changes. *)
Lemma umd_amd_step d :
  amd_check h = Ok true -> resolve h "define" = Some d -> callee_kind h d = Some KDefine ->
  umd h = Ok (with_defined (alloc h (mk_obj (Some KFactory) [])).1
                (defined h ++ [(["exports"; "underscore"], HRef (next h))])%list).
Proof.
  intros Ha Hd Hk. load_guards. rewrite Ha.
  destruct (supportsExports_total h) as [se ->]. cbn [bind].
  unfold define_call. read_var Hd.
  by rewrite (callee_kind_ext _ _ _ ext_loaded (resolve_ok _ _ _ Hw Hd)), Hk.
Qed.

(** C31: when an AMD [define] is present it wins over CommonJS: the
    wrapper registers the factory with the dependencies [exports] and
    [underscore] and changes no existing object, even when an [exports]
    object is also in scope. *)
Theorem umd_amd_registers d :
  amd_check h = Ok true -> resolve h "define" = Some d -> callee_kind h d = Some KDefine ->
  exists h' f, umd h = Ok h' /\
    defined h' = (defined h ++ [(["exports"; "underscore"], HRef f)])%list /\
    callee_kind h' (HRef f) = Some KFactory /\ heap h ⊆ heap h'.
Proof.
  intros Ha Hd Hk. rewrite (umd_amd_step d Ha Hd Hk).
  eexists _, _. split; [reflexivity|]. split; [reflexivity|].
  split; [apply callee_kind_factory | apply ext_loaded].
Qed.

(** C32: without AMD, in a CommonJS scope whose [require("underscore")]
    gives Underscore, the wrapper runs the factory on the scope's
    [exports] object, which then exports the [Color] constructor with
    every prototype method. *)
Theorem umd_commonjs_exports e r u lx :
  amd_check h = Ok false -> supportsExports h = Ok true ->
  resolve h "exports" = Some e -> resolve h "require" = Some r -> callee_kind h r = Some KRequire ->
  assoc "underscore" (modules h) = Some u ->
  get_prop h u "extend" = Ok (HRef lx) -> callee_kind h (HRef lx) = Some KExtend ->
  exists h', umd h = Ok h' /\ exports_Color h' e = true.
Proof.
  intros Ha Hs Hre Hrr Hk Hu Hx Hkx.
  destruct (supportsExports_true h Hs) as [le Hle]. rewrite Hre in Hle. injection Hle as ->.
  destruct (resolve_ok _ _ _ Hw Hre) as [oe Hoe].
  destruct (callee_kind_Some _ _ _ Hkx) as (ox & Hox & Hkox).
  load_guards. rewrite Hs, Ha. cbn [bind]. read_var Hre.
  unfold require_call. read_var Hrr.
  rewrite (callee_kind_ext _ _ _ ext_loaded (resolve_ok _ _ _ Hw Hrr)), Hk.
  change (modules (alloc h (mk_obj (Some KFactory) [])).1) with (modules h). rewrite Hu. cbn [bind].
  unfold call_factory. rewrite callee_kind_factory.
  apply (factory_body_exports _ le oe u lx ox); [exact fresh_loaded | | | | exact Hkox].
  - eapply lookup_weaken; [exact Hoe | apply ext_loaded].
  - rewrite (get_prop_ext _ _ _ _ ext_loaded); [exact Hx|].
    exact (props_ok_assoc _ _ _ _ (wf_modules _ Hw) Hu).
  - eapply lookup_weaken; [exact Hox | apply ext_loaded].
Qed.

(** C33: with neither AMD nor CommonJS, the wrapper runs the factory on
    [root], the [this] of the call site; in a browser script that is
    the global object, so [Color] becomes a global variable, although
    the comment at line 8 says the module does not create a global. *)
Theorem umd_global_exports u lx :
  amd_check h = Ok false -> supportsExports h = Ok false -> resolve h "_" = Some u ->
  get_prop h u "extend" = Ok (HRef lx) -> callee_kind h (HRef lx) = Some KExtend ->
  this_val h = HRef (global h) -> assoc "Color" (scope h) = None ->
  exists h', umd h = Ok h' /\ exports_Color h' (HRef (global h)) = true /\
    typeof_var h' "Color" = "function".
Proof.
  intros Ha Hs Hu Hx Hkx Ht Hsc.
  destruct (wf_global _ Hw) as [og Hog].
  destruct (callee_kind_Some _ _ _ Hkx) as (ox & Hox & Hkox).
  load_guards. rewrite Hs, Ha. cbn [bind]. read_var Hu.
  unfold call_factory. rewrite callee_kind_factory, Ht.
  destruct (factory_body_exports (alloc h (mk_obj (Some KFactory) [])).1 (global h) og u lx ox)
    as (h' & Hb & Hc); [exact fresh_loaded | | | | exact Hkox |].
  - eapply lookup_weaken; [exact Hog | apply ext_loaded].
  - rewrite (get_prop_ext _ _ _ _ ext_loaded); [exact Hx | exact (resolve_ok _ _ _ Hw Hu)].
  - eapply lookup_weaken; [exact Hox | apply ext_loaded].
  - exists h'. split; [exact Hb|]. split; [exact Hc|].
    destruct (env_eq_factory_body _ _ _ _ Hb) as (Hsc' & Hg' & _).
    apply (exports_Color_typeof _ (global h) Hc); [exact Hg' | rewrite Hsc'; exact Hsc].
Qed.

(** C34: the error paths of the wrapper.  Without AMD: in a page where
    [_] is not declared the global branch throws a [ReferenceError]; in
    a CommonJS scope where [require] cannot find [underscore] the
    wrapper throws its [Error]; and where [this] is not an object (an
    ES module, or a caller in strict code) the factory throws a
    [TypeError] at [exports.Color = Color]. *)
Theorem umd_error_paths :
  amd_check h = Ok false ->
  (supportsExports h = Ok false -> resolve h "_" = None ->
     umd h = Throw (ReferenceError "_ is not defined")) /\
  (forall r, supportsExports h = Ok true -> resolve h "require" = Some r ->
     callee_kind h r = Some KRequire -> assoc "underscore" (modules h) = None ->
     umd h = Throw (Error "Cannot find module 'underscore'")) /\
  (forall u lx, supportsExports h = Ok false -> resolve h "_" = Some u ->
     get_prop h u "extend" = Ok (HRef lx) -> callee_kind h (HRef lx) = Some KExtend ->
     (forall l, this_val h <> HRef l) ->
     umd h = Throw (TypeError "Cannot create property 'Color'")).
Proof.
  intros Ha. split; [|split].
  - intros Hs Hu. load_guards. rewrite Hs, Ha. cbn [bind].
    rewrite (get_var_ext _ _ _ Hw ext_loaded). unfold get_var. by rewrite Hu.
  - intros r Hs Hrr Hk Hu. destruct (supportsExports_true h Hs) as [le Hle].
    load_guards. rewrite Hs, Ha. cbn [bind]. read_var Hle.
    unfold require_call. read_var Hrr.
    rewrite (callee_kind_ext _ _ _ ext_loaded (resolve_ok _ _ _ Hw Hrr)), Hk.
    change (modules (alloc h (mk_obj (Some KFactory) [])).1) with (modules h). by rewrite Hu.
  - intros u lx Hs Hu Hx Hkx Ht. destruct (callee_kind_Some _ _ _ Hkx) as (ox & Hox & Hkox).
    load_guards. rewrite Hs, Ha. cbn [bind]. read_var Hu.
    unfold call_factory. rewrite callee_kind_factory. unfold factory_body.
    destruct (factory_init_spec (alloc h (mk_obj (Some KFactory) [])).1 u lx ox)
      as (h6 & c & Hi & _); [exact fresh_loaded | | | exact Hkox |].
    + rewrite (get_prop_ext _ _ _ _ ext_loaded); [exact Hx | exact (resolve_ok _ _ _ Hw Hu)].
    + eapply lookup_weaken; [exact Hox | apply ext_loaded].
    + rewrite Hi. cbn [bind fst snd].
      destruct (this_val h) eqn:Htv; try reflexivity. exfalso. eapply Ht; eauto.
Qed.

(** C35: in a CommonJS scope, loading the module changes no object that
    existed before but the scope's [exports], which only gains the
    property [Color], and declares no variable: the module leaves the
    rest of the program's state alone. *)
Theorem umd_commonjs_frame e r u lx :
  amd_check h = Ok false -> supportsExports h = Ok true ->
  resolve h "exports" = Some e -> resolve h "require" = Some r -> callee_kind h r = Some KRequire ->
  assoc "underscore" (modules h) = Some u ->
  get_prop h u "extend" = Ok (HRef lx) -> callee_kind h (HRef lx) = Some KExtend ->
  exists h' le oe c, umd h = Ok h' /\ e = HRef le /\ heap h !! le = Some oe /\
    heap h' !! le = Some (mk_obj (o_call oe) (assoc_set "Color" c (o_props oe))) /\
    (forall l o, heap h !! l = Some o -> l <> le -> heap h' !! l = Some o) /\
    scope h' = scope h.
Proof.
  intros Ha Hs Hre Hrr Hk Hu Hx Hkx.
  destruct (supportsExports_true h Hs) as [le Hle]. rewrite Hre in Hle. injection Hle as ->.
  destruct (resolve_ok _ _ _ Hw Hre) as [oe Hoe].
  destruct (callee_kind_Some _ _ _ Hkx) as (ox & Hox & Hkox).
  load_guards. rewrite Hs, Ha. cbn [bind]. read_var Hre.
  unfold require_call. read_var Hrr.
  rewrite (callee_kind_ext _ _ _ ext_loaded (resolve_ok _ _ _ Hw Hrr)), Hk.
  change (modules (alloc h (mk_obj (Some KFactory) [])).1) with (modules h). rewrite Hu. cbn [bind].
  unfold call_factory. rewrite callee_kind_factory.
  pose proof ext_loaded as [Hsub [Hsc _]].
  destruct (factory_body_frame _ le oe u lx ox fresh_loaded) as (h' & c & Hb & Hle' & Hfr).
  - eapply lookup_weaken; [exact Hoe | exact Hsub].
  - rewrite (get_prop_ext _ _ _ _ ext_loaded); [exact Hx|].
    exact (props_ok_assoc _ _ _ _ (wf_modules _ Hw) Hu).
  - eapply lookup_weaken; [exact Hox | exact Hsub].
  - exact Hkox.
  - exists h', le, oe, c. split; [exact Hb|]. split; [reflexivity|]. split; [exact Hoe|].
    split; [exact Hle'|]. split.
    + intros l o Hl Hne. apply Hfr; [eapply lookup_weaken; [exact Hl | exact Hsub] | exact Hne].
    + destruct (env_eq_factory_body _ _ _ _ Hb) as (Hsc' & _). rewrite Hsc'. exact Hsc.
Qed.

(** Loading the module keeps the host well formed: every reference it
    stores points to an allocated object and every location from
    [next] on stays free. *)
Lemma umd_preserves_wf h' : umd h = Ok h' -> wf h'.
Proof.
  rewrite umd_eq. apply (wf_umd_wrapper (alloc h (mk_obj (Some KFactory) [])).1 (HRef (next h)));
    [exact (wf_loaded _ Hw)|]. simpl. rewrite lookup_insert_eq. eauto.
Qed.

End Loading.

Lemma node_host_wf : wf node_host.
Proof. apply wfb_sound. vm_compute. reflexivity. Qed.

Lemma amd_page_wf : wf amd_page.
Proof. apply wfb_sound. vm_compute. reflexivity. Qed.

Lemma browser_page_wf : wf browser_page.
Proof. apply wfb_sound. vm_compute. reflexivity. Qed.

Lemma bare_page_wf : wf bare_page.
Proof. apply wfb_sound. vm_compute. reflexivity. Qed.

Lemma es_module_wf : wf es_module.
Proof. apply wfb_sound. vm_compute. reflexivity. Qed.

Lemma node_no_underscore_wf : wf node_no_underscore.
Proof. apply wfb_sound. vm_compute. reflexivity. Qed.

(** ** Witnesses *)

Lemma umd_amd_registers_witness :
  exists h' f, umd amd_page = Ok h' /\
    defined h' = (defined amd_page ++ [(["exports"; "underscore"], HRef f)])%list /\
    callee_kind h' (HRef f) = Some KFactory /\ heap amd_page ⊆ heap h'.
Proof. apply (umd_amd_registers amd_page amd_page_wf (HRef 1)); vm_compute; reflexivity. Defined.

Lemma umd_commonjs_exports_witness : exists h', umd node_host = Ok h' /\ exports_Color h' (HRef 1) = true.
Proof. apply (umd_commonjs_exports node_host node_host_wf (HRef 1) (HRef 3) (HRef 4) 5); vm_compute; reflexivity. Defined.

Lemma umd_global_exports_witness :
  exists h', umd browser_page = Ok h' /\ exports_Color h' (HRef 0) = true /\ typeof_var h' "Color" = "function".
Proof. apply (umd_global_exports browser_page browser_page_wf (HRef 1) 2); vm_compute; reflexivity. Defined.

Lemma umd_error_paths_witness :
  umd bare_page = Throw (ReferenceError "_ is not defined") /\
  umd node_no_underscore = Throw (Error "Cannot find module 'underscore'") /\
  umd es_module = Throw (TypeError "Cannot create property 'Color'").
Proof.
  split; [|split].
  - apply (proj1 (umd_error_paths bare_page bare_page_wf ltac:(vm_compute; reflexivity)));
      vm_compute; reflexivity.
  - apply (proj1 (proj2 (umd_error_paths node_no_underscore node_no_underscore_wf
             ltac:(vm_compute; reflexivity))) (HRef 3)); vm_compute; reflexivity.
  - apply (proj2 (proj2 (umd_error_paths es_module es_module_wf ltac:(vm_compute; reflexivity)))
             (HRef 1) 2); [vm_compute; reflexivity.. | intros l; discriminate].
Defined.

Lemma umd_commonjs_frame_witness :
  exists h' le oe c, umd node_host = Ok h' /\ HRef 1 = HRef le /\ heap node_host !! le = Some oe /\
    heap h' !! le = Some (mk_obj (o_call oe) (assoc_set "Color" c (o_props oe))) /\
    (forall l o, heap node_host !! l = Some o -> l <> le -> heap h' !! l = Some o) /\
    scope h' = scope node_host.
Proof. apply (umd_commonjs_frame node_host node_host_wf (HRef 1) (HRef 3) (HRef 4) 5); vm_compute; reflexivity. Defined.

End Umd.
