(* ===== verification/DemoConfig.v ===== *)
(** * The AMD demo: its RequireJS configuration and the loading of the library

    [src/demo/amd/require-config.js] configures RequireJS for the AMD
    demo: a [baseUrl] and a table of [paths] from module ids to file
    paths.  [require_config] is that configuration.  Loading the
    library in the demo composes three parts: the wrapper of
    [src/src/colorful.js] registers its factory with [define] ([Umd]),
    RequireJS resolves each dependency id to a URL through the
    configuration ([module_url]) and, once the dependencies are loaded,
    calls the factory with a fresh [exports] object and the loaded
    modules ([amd_load]); the module's value is that [exports] object.
    [module_url] and [amd_load] follow RequireJS's [nameToUrl] and the
    AMD specification for module ids without [/] segments, the only
    ones the demo uses: they are the loader, not code of the
    repository. *)

From stdpp Require Import base gmap list strings.
From Stdlib Require Import String Ascii Bool Lia.
From S2P Require Import Prelude Host Umd.
Import Host Umd.

Module DemoConfig.

Local Open Scope string_scope.
Local Open Scope colorful_scope.

(** ** The configuration (require-config.js lines 1-18) *)

Record amd_config : Type := mk_config {
  baseUrl : string;
  paths : list (string * string)
}.

Definition require_config : amd_config := {|
  baseUrl := "../../";
  paths := [("usertiming", "demo/bower_demo_components/usertiming/src/usertiming");
            ("underscore", "bower_components/underscore/underscore");
            ("jquery", "demo/bower_demo_components/jquery/dist/jquery");
            ("vue", "demo/bower_demo_components/vue/dist/vue");
            ("colorful", "dist/colorful");
            ("local.main", "demo/amd/main")]
|}.

(** ** The loader *)

(** A path is used without [baseUrl] when it starts with [/] or with a
    URL scheme ([[\w+.-]+:]). *)
Definition scheme_char (c : Ascii.ascii) : bool :=
  is_digit c || in_range 65 90 c || in_range 97 122 c ||
  Ascii.eqb c "_"%char || Ascii.eqb c "+"%char || Ascii.eqb c "."%char || Ascii.eqb c "-"%char.

Fixpoint scheme_run (s : string) : bool :=
  match s with
  | EmptyString => false
  | String c s' => Ascii.eqb c ":"%char || (scheme_char c && scheme_run s')
  end.

Definition has_scheme (s : string) : bool :=
  match s with
  | EmptyString => false
  | String c s' => scheme_char c && scheme_run s'
  end.

Definition is_absolute (p : string) : bool :=
  match p with String "/"%char _ => true | _ => has_scheme p end.

(** [nameToUrl] for an id without [/]: its [paths] entry or the id
    itself, under [baseUrl] unless absolute, with the [.js] suffix. *)
Definition module_url (cfg : amd_config) (id : string) : string :=
  let p := default id (assoc id (paths cfg)) in
  (if is_absolute p then p else baseUrl cfg ++ p) ++ ".js".

(** The arguments of a registered factory: a fresh object for
    ["exports"], the value of the loaded module for any other id;
    [None] while a dependency is not loaded. *)
Fixpoint amd_args (h : host) (loaded : list (string * hval)) (deps : list string)
    : option (host * list hval) :=
  match deps with
  | [] => Some (h, [])
  | d :: ds =>
      if String.eqb d "exports" then
        let '(h1, l) := alloc h (mk_obj None []) in
        match amd_args h1 loaded ds with
        | Some (h2, vs) => Some (h2, HRef l :: vs)
        | None => None
        end
      else
        match assoc d loaded, amd_args h loaded ds with
        | Some v, Some (h2, vs) => Some (h2, v :: vs)
        | _, _ => None
        end
  end.

(** The value of a module whose factory returns nothing: its
    [exports] argument. *)
Definition amd_exports (deps : list string) (args : list hval) : hval :=
  default HUndefined (assoc "exports" (zip deps args)).

(** Instantiating a registration [(deps, factory)]. *)
Definition amd_load (h : host) (loaded : list (string * hval)) (reg : list string * hval)
    : option (result (host * hval)) :=
  match amd_args h loaded reg.1 with
  | None => None
  | Some (h1, args) =>
      Some (let! h2 := call_factory h1 reg.2 (nth 0 args HUndefined) (nth 1 args HUndefined) in
            Ok (h2, amd_exports reg.1 args))
  end.

(** ** Loading the library in the demo *)

(** The dependencies the wrapper declares are ["exports"], which the
    loader provides, or ids the demo configuration maps to a path. *)
Definition dep_resolvable (cfg : amd_config) (dep : string) : Prop :=
  dep = "exports" \/ is_Some (assoc dep (paths cfg)).

Lemma amd_args_colorful h u :
  amd_args h [("underscore", u)] ["exports"; "underscore"] =
  Some ((alloc h (mk_obj None [])).1, [HRef (next h); u]).
Proof. reflexivity. Qed.

(** C36: the AMD demo loads the library: on a page whose RequireJS
    [define] is present, the wrapper registers a factory whose
    dependencies the demo configuration resolves; once Underscore is
    loaded, RequireJS instantiates the registration and the module's
    value is an [exports] object that exports the [Color] constructor
    with every prototype method. *)
Theorem demo_amd_load h d u lx :
  wf h -> amd_check h = Ok true -> resolve h "define" = Some d -> callee_kind h d = Some KDefine ->
  val_ok h u -> get_prop h u "extend" = Ok (HRef lx) -> callee_kind h (HRef lx) = Some KExtend ->
  exists h' deps f h'' m, umd h = Ok h' /\
    defined h' = (defined h ++ [(deps, f)])%list /\
    Forall (dep_resolvable require_config) deps /\
    amd_load h' [("underscore", u)] (deps, f) = Some (Ok (h'', m)) /\
    exports_Color h'' m = true.
Proof.
  intros Hw Ha Hd Hk Hu Hx Hkx.
  destruct (callee_kind_Some _ _ _ Hkx) as (ox & Hox & Hkox).
  pose proof (wf_fresh _ Hw) as Hf.
  set (h1 := (alloc h (mk_obj (Some KFactory) [])).1).
  set (h' := with_defined h1 (defined h ++ [(["exports"; "underscore"], HRef (next h))])%list).
  set (h2 := (alloc h' (mk_obj None [])).1).
  assert (Hf2 : fresh h2) by (apply fresh_alloc, fresh_alloc, Hf).
  assert (Hs2 : heap h ⊆ heap h2).
  { cbn [h2 h' h1 alloc fst heap with_heap with_defined].
    apply subseteq_insert_fresh; [exact Hf | simpl; lia|].
    apply subseteq_insert_fresh; [exact Hf | lia | done]. }
  destruct (factory_body_exports h2 (next h') (mk_obj None []) u lx ox) as (h'' & Hb & Hc);
    [exact Hf2 | apply lookup_insert_eq | | eapply lookup_weaken; eauto | exact Hkox |].
  { rewrite (get_prop_ext h h2); [exact Hx | split; [exact Hs2 | done] | exact Hu]. }
  exists h', ["exports"; "underscore"], (HRef (next h)), h'', (HRef (next h')).
  split; [exact (umd_amd_step h Hw d Ha Hd Hk)|]. split; [reflexivity|].
  split; [constructor; [left; reflexivity | constructor; [right; eexists; reflexivity | constructor]]|].
  split; [|exact Hc].
  unfold amd_load. cbn [fst snd]. rewrite amd_args_colorful. fold h2.
  unfold call_factory. cbn [nth].
  replace (callee_kind h2 (HRef (next h))) with (Some KFactory)
    by (cbn [h2 h' h1 alloc fst heap with_heap with_defined callee_kind];
        rewrite lookup_insert_ne by (simpl; lia); by rewrite lookup_insert_eq).
  by rewrite Hb.
Qed.

Lemma demo_amd_load_witness :
  exists h' deps f h'' m, umd amd_page = Ok h' /\
    defined h' = (defined amd_page ++ [(deps, f)])%list /\
    Forall (dep_resolvable require_config) deps /\
    amd_load h' [("underscore", HRef 5)] (deps, f) = Some (Ok (h'', m)) /\
    exports_Color h'' m = true.
Proof.
  apply (demo_amd_load amd_page (HRef 1) (HRef 5) 6 amd_page_wf);
    [vm_compute; reflexivity.. | apply val_okb_sound; vm_compute; reflexivity | | ];
    vm_compute; reflexivity.
Defined.

End DemoConfig.
