(* ===== verification/Harness.v ===== *)
(** * Running the test suite against the model

    [src/spec/color.spec.js] is a Mocha suite with Chai assertions.  A
    test builds a [Color] from an input and makes one or more
    assertions on the results of its methods.  This file holds what the
    suite runs on:

    - [prototype]: the methods of [Color.prototype] by name, as the
      object literal of colorful.js lines 494-643 defines them, each
      taking the arguments of its source signature and ignoring the
      others, as JavaScript does;
    - [call_method]: [colour.name(args)], which throws a [TypeError]
      when the prototype has no method of that name;
    - the Chai assertions the suite uses ([expectation], [check]) and a
      Mocha test ([test], [run_test]): a test passes when each of its
      assertions holds, in order; an exception outside [expect(fn)]
      fails it.

    Mocha and Chai are libraries, modelled from their documentation; the
    suite's data are in [TestParsing] and [TestMethods]. *)

From Stdlib Require Import ZArith List String Ascii Bool.
From Stdlib Require Import SpecFloat.
From S2P Require Import Prelude JsNumber JsValue Color.
Import ListNotations.
Import JsNumber JsValue Color.

Module Harness.

Local Open Scope colorful_scope.
Local Open Scope string_scope.

(** ** The prototype *)

(** What a method returns. *)
Inductive value : Type :=
  | VBool (b : bool)
  | VStr (s : string)
  | VNums (l : list num).

Definition arg (args : list jsval) (i : nat) : jsval := nth i args JUndefined.

Definition ret_bool (r : result bool) : result value := let! b := r in Ok (VBool b).
Definition ret_str (r : result string) : result value := let! s := r in Ok (VStr s).
Definition ret_nums (r : result (list num)) : result value := let! l := r in Ok (VNums l).

Definition method : Type := color -> list jsval -> result value.

(** [_.extend( Color.prototype, { ... } )], lines 494-643. *)
Definition prototype : list (string * method) := [
  ("isColor", fun c _ => Ok (VBool (isColor c)));
  ("ensureColor", fun c _ => ret_bool (ensureColor c));
  ("ensureOpaque", fun c _ => ret_bool (ensureOpaque c));
  ("ensureTransparent", fun c _ => ret_bool (ensureTransparent c));
  ("isOpaque", fun c _ => Ok (VBool (isOpaque c)));
  ("isTransparent", fun c _ => Ok (VBool (isTransparent c)));
  ("asHex", fun c args => ret_str (asHex c (arg args 0)));
  ("asHexUC", fun c _ => ret_str (asHexUC c));
  ("asHexLC", fun c _ => ret_str (asHexLC c));
  ("asRGB", fun c _ => ret_str (asRGB c));
  ("asPercentRGB", fun c args => ret_str (asPercentRGB c (arg args 0)));
  ("asRGBA", fun c _ => ret_str (asRGBA c));
  ("asPercentRGBA", fun c args => ret_str (asPercentRGBA c (arg args 0)));
  ("asAgColor", fun c _ => ret_str (asAgColor c));
  ("asRGBArray", fun c _ => ret_nums (asRGBArray c));
  ("asRGBAArray", fun c _ => ret_nums (asRGBAArray c));
  ("equals", fun c args => ret_bool (equals c (arg args 0) (arg args 1)));
  ("strictlyEquals", fun c args => ret_bool (strictlyEquals c (arg args 0)));
  ("_asAgColorArray", fun c _ => ret_nums (_asAgColorArray c));
  ("_asRGBArray", fun c _ => ret_nums (_asRGBArray c));
  ("_getRawArrayRgb", fun c _ => ret_nums (_getRawArrayRgb c))
].

Definition lookup_method (name : string) : option method :=
  match find (fun nm => String.eqb (fst nm) name) prototype with
  | Some (_, f) => Some f
  | None => None
  end.

(** [colour.name( args )] *)
Definition call_method (c : color) (name : string) (args : list jsval) : result value :=
  match lookup_method name with
  | Some f => f c args
  | None => Throw (TypeError ("colour." ++ name ++ " is not a function"))
  end.

(** ** Chai assertions and Mocha tests *)

Inductive expectation : Type :=
  | ToBeTrue                  (** [expect( x ).to.be.true] *)
  | ToBeFalse                 (** [expect( x ).to.be.false] *)
  | ToEqual (s : string)      (** [expect( x ).to.equal( s )] *)
  | ToEql (l : list num)      (** [expect( x ).to.eql( l )] *)
  | ToThrow (msg : string)    (** [expect( fn ).to.throw( msg )] *)
  | NotToThrow.               (** [expect( fn ).not.to.throw()] *)

Definition message (e : js_error) : string :=
  match e with
  | Error m | TypeError m | RangeError m | ReferenceError m => m
  end.

Definition contains (s sub : string) : bool :=
  match String.index 0 sub s with Some _ => true | None => false end.

(** [eql] on arrays of numbers: same length, and elementwise [===]
    except that [NaN] equals [NaN] and [0] differs from [-0]. *)
Fixpoint eql_nums (l l' : list num) : bool :=
  match l, l' with
  | [], [] => true
  | x :: l, y :: l' => num_eqb x y && eql_nums l l'
  | _, _ => false
  end.

(** Whether an assertion holds of the result of a call.  A call that
    throws fails every assertion but [to.throw], which holds when the
    message contains the expected text. *)
Definition check (r : result value) (e : expectation) : bool :=
  match e, r with
  | ToBeTrue, Ok (VBool true) => true
  | ToBeFalse, Ok (VBool false) => true
  | ToEqual s, Ok (VStr s') => String.eqb s' s
  | ToEql l, Ok (VNums l') => eql_nums l' l
  | ToThrow m, Throw err => contains (message err) m
  | NotToThrow, Ok _ => true
  | _, _ => false
  end.

(** A test: the value its colour is built from, and its assertions,
    each on one method call. *)
Record step : Type := mk_step { s_method : string; s_args : list jsval; s_expect : expectation }.
Record test : Type := mk_test { t_title : string; t_input : jsval; t_steps : list step }.

Definition run_step (c : color) (s : step) : bool := check (call_method c (s_method s) (s_args s)) (s_expect s).

Definition run_test (t : test) : bool := forallb (run_step (Color (t_input t))) (t_steps t).

(** The titles of the tests that fail. *)
Definition failures (ts : list test) : list string :=
  map t_title (filter (fun t => negb (run_test t)) ts).

(** ** Literals of the suite *)

(** A number literal, and a number as JavaScript prints it. *)
Definition lit (s : string) : num := StringToNumber s.
Definition jn (s : string) : jsval := JNum (lit s).
Definition nums_of (l : list string) : list num := map lit l.
Definition jarr (l : list string) : jsval := JArr (map jn l).

End Harness.
