(* ===== verification/TestParsing.v ===== *)
(** * The suite's invocation and parsing tests

    [src/spec/color.spec.js] lines 7-206: [Color] called without [new]
    (lines 7-27), the table [inputColourScenario] of valid inputs and
    the tests [describeWithData] runs on each (lines 31-114), and the
    inputs classified as not being a colour (lines 118-204).  Each test
    is transcribed with its title, input and assertions; numbers are
    written as the source writes them and read with [StringToNumber],
    as a JavaScript number literal is. *)

From Stdlib Require Import ZArith List String Ascii Bool.
From Stdlib Require Import SpecFloat.
From S2P Require Import Prelude JsNumber JsValue Color Harness.
Import ListNotations.
Import JsNumber JsValue Color Harness.

Module TestParsing.

Local Open Scope string_scope.

(** ** Invocation (lines 7-27) *)

Definition invocation_tests : list test := [
  mk_test "Invocation: is recognized as a colour" (JStr "#0490A3")
    [mk_step "isColor" [] ToBeTrue];
  mk_test "Invocation: is represented by the correct RGBA value" (JStr "#0490A3")
    [mk_step "asRgbaArray" [] (ToEql (nums_of ["4"; "144"; "163"; "1"]))]
].

(** ** Valid colours (lines 31-114) *)

Record scenario : Type := mk_scenario {
  sc_name : string;
  sc_input : jsval;
  sc_expectedRGBA : list num;
  sc_expectedPreciseRGBA : option (list num)
}.

Definition plain (name : string) (input : jsval) (expected : list string) : scenario :=
  mk_scenario name input (nums_of expected) None.

Definition hash (l : list (string * jsval)) : jsval := JObj l.

Definition inputColourScenario : list scenario := [
  plain "as a keyword" (JStr "turquoise") ["64"; "224"; "208"; "1"];
  plain "defined by the keyword transparent" (JStr "transparent") ["0"; "0"; "0"; "0"];

  plain "in hex format #RRGGBB" (JStr "#0490A3") ["4"; "144"; "163"; "1"];
  plain "in hex format #rrggbb" (JStr "#0490a3") ["4"; "144"; "163"; "1"];
  plain "in hex format #RGB" (JStr "#09A") ["0"; "153"; "170"; "1"];
  plain "in hex format #rgb" (JStr "#09a") ["0"; "153"; "170"; "1"];

  plain "in rgb() format" (JStr "rgb(0, 153, 170)") ["0"; "153"; "170"; "1"];
  plain "in rgb() format without spaces" (JStr "rgb(0,153,170)") ["0"; "153"; "170"; "1"];
  plain "in rgb() format with excess spaces" (JStr "  rgb   (   0   ,   153   ,   170   )   ") ["0"; "153"; "170"; "1"];

  plain "in rgb() percent format" (JStr "rgb(0%, 60%, 67%)") ["0"; "153"; "171"; "1"];
  plain "in rgb() percent format with fractions" (JStr "rgb(0.0000%, 100.0%, 67.2587491%)") ["0"; "255"; "172"; "1"];
  plain "in rgb() percent format with fractions (0.x as .x)" (JStr "rgb(.623%, 100.0%, 67.2587491%)") ["2"; "255"; "172"; "1"];
  plain "in rgb() percent format without spaces" (JStr "rgb(0%,60%,67%)") ["0"; "153"; "171"; "1"];
  plain "in rgb() percent format with excess spaces" (JStr "  rgb   (   0%   ,   60%   ,   67%   )   ") ["0"; "153"; "171"; "1"];

  plain "in rgba() format (opacity 1)" (JStr "rgba(0, 153, 170, 1)") ["0"; "153"; "170"; "1"];
  plain "in rgba() format (opacity 0.5)" (JStr "rgba(0, 153, 170, 0.5)") ["0"; "153"; "170"; "0.5"];
  plain "in rgba() format (opacity .5)" (JStr "rgba(0, 153, 170, .5)") ["0"; "153"; "170"; "0.5"];
  plain "in rgba() format (opacity 0)" (JStr "rgba(0, 153, 170, 0)") ["0"; "153"; "170"; "0"];
  plain "in rgba() format without spaces" (JStr "rgba(0,153,170,1)") ["0"; "153"; "170"; "1"];
  plain "in rgba() format with excess spaces" (JStr "  rgba   (   0   ,   153   ,   170,   1   )   ") ["0"; "153"; "170"; "1"];

  plain "in rgba() percent format" (JStr "rgba(0%, 60%, 67%, .5)") ["0"; "153"; "171"; "0.5"];
  plain "in rgba() percent format with fractions" (JStr "rgba(0.0000%, 100.0%, 67.2587491%, 0.5)") ["0"; "255"; "172"; "0.5"];
  plain "in rgba() percent format with fractions (0.x as .x)" (JStr "rgba(.623%, 100.0%, 67.2587491%, .5)") ["2"; "255"; "172"; "0.5"];
  plain "in rgba() percent format without spaces" (JStr "rgba(0%,60%,67%,.5)") ["0"; "153"; "171"; "0.5"];
  plain "in rgba() percent format with excess spaces" (JStr "  rgba   (   0%   ,   60%   ,   67%   ,   .5   )   ") ["0"; "153"; "171"; "0.5"];

  plain "in AgColor format (0 as 0, 1 as 1)" (JStr "AgColor(0, 1, 0.672587491, 0.5)") ["0"; "255"; "172"; "0.5"];
  plain "in AgColor format (0 as 0.0000, 1 as 1.0)" (JStr "AgColor(0.0000, 1.0, 0.672587491, 0.5)") ["0"; "255"; "172"; "0.5"];
  plain "in AgColor format (0.x as .x)" (JStr "AgColor(.00623, 1, .672587491, .5)") ["2"; "255"; "172"; "0.5"];
  plain "in AgColor format without spaces" (JStr "AgColor(.00623,1,.672587491,.5)") ["2"; "255"; "172"; "0.5"];
  plain "in AgColor format with excess spaces" (JStr "   AgColor   (   .00623   ,   1   ,   .672587491   ,   .5   )") ["2"; "255"; "172"; "0.5"];

  plain "as an array of integer RGB values" (jarr ["4"; "144"; "163"]) ["4"; "144"; "163"; "1"];
  plain "as an array of integer RGBA values" (jarr ["4"; "144"; "163"; "0.5"]) ["4"; "144"; "163"; "0.5"];
  mk_scenario "as an array of RGB values with decimals"
    (jarr ["4.499999999999999"; "143.5"; "163.00000010101010101"])
    (nums_of ["4"; "144"; "163"; "1"])
    (Some (nums_of ["4.499999999999999"; "143.5"; "163.00000010101010101"; "1"]));
  mk_scenario "as an array of RGBA values with decimals"
    (jarr ["4.499999999999999"; "143.5"; "163.00000010101010101"; "0.5"])
    (nums_of ["4"; "144"; "163"; "0.5"])
    (Some (nums_of ["4.499999999999999"; "143.5"; "163.00000010101010101"; "0.5"]));
  plain "as an array of RGB percentage values" (JArr [JStr ".623%"; JStr "100.0%"; JStr "67.2587491%"]) ["2"; "255"; "172"; "1"];
  plain "as an array of RGBA percentage values" (JArr [JStr ".623%"; JStr "100.0%"; JStr "67.2587491%"; jn "0.5"]) ["2"; "255"; "172"; "0.5"];
  mk_scenario "as a mixed array of integer RGB values, RGB values with decimals, and percentages"
    (JArr [jn "4.499999999999999"; jn "143.5"; JStr "67.2587491%"])
    (nums_of ["4"; "144"; "172"; "1"])
    (Some [lit "4.499999999999999"; lit "143.5"; mul (lit "67.2587491") (lit "2.55"); lit "1"]);
  mk_scenario "as a mixed array of integer RGBA values, RGBA values with decimals, and percentages"
    (JArr [jn "4.499999999999999"; jn "143.5"; JStr "67%"; jn "0.5"])
    (nums_of ["4"; "144"; "171"; "0.5"])
    (Some [lit "4.499999999999999"; lit "143.5"; mul (lit "67") (lit "2.55"); lit "0.5"]);

  plain "as a hash of integer RGB values" (hash [("r", jn "4"); ("g", jn "144"); ("b", jn "163")]) ["4"; "144"; "163"; "1"];
  plain "as a hash of integer RGBA values" (hash [("r", jn "4"); ("g", jn "144"); ("b", jn "163"); ("a", jn "0.5")]) ["4"; "144"; "163"; "0.5"];
  mk_scenario "as a hash of RGB values with decimals"
    (hash [("r", jn "4.499999999999999"); ("g", jn "143.5"); ("b", jn "163.00000010101010101")])
    (nums_of ["4"; "144"; "163"; "1"])
    (Some (nums_of ["4.499999999999999"; "143.5"; "163.00000010101010101"; "1"]));
  mk_scenario "as a hash of RGBA values with decimals"
    (hash [("r", jn "4.499999999999999"); ("g", jn "143.5"); ("b", jn "163.00000010101010101"); ("a", jn "0.5")])
    (nums_of ["4"; "144"; "163"; "0.5"])
    (Some (nums_of ["4.499999999999999"; "143.5"; "163.00000010101010101"; "0.5"]));
  plain "as a hash of RGB percentage values" (hash [("r", JStr ".623%"); ("g", JStr "100.0%"); ("b", JStr "67.2587491%")]) ["2"; "255"; "172"; "1"];
  plain "as a hash of RGBA percentage values" (hash [("r", JStr ".623%"); ("g", JStr "100.0%"); ("b", JStr "67.2587491%"); ("a", jn "0.5")]) ["2"; "255"; "172"; "0.5"];
  mk_scenario "as a mixed hash of integer RGB values, RGB values with decimals, and percentages"
    (hash [("r", jn "4.499999999999999"); ("g", jn "143.5"); ("b", JStr "67.2587491%")])
    (nums_of ["4"; "144"; "172"; "1"])
    (Some [lit "4.499999999999999"; lit "143.5"; mul (lit "67.2587491") (lit "2.55"); lit "1"]);
  mk_scenario "as a mixed hash of integer RGBA values, RGBA values with decimals, and percentages"
    (hash [("r", jn "4.499999999999999"); ("g", jn "143.5"); ("b", JStr "67%"); ("a", jn "0.5")])
    (nums_of ["4"; "144"; "171"; "0.5"])
    (Some [lit "4.499999999999999"; lit "143.5"; mul (lit "67") (lit "2.55"); lit "0.5"])
].

(** [describeWithData( inputColourScenario, ... )], lines 84-112: two
    tests per scenario, and a third when it has a precise expectation. *)
Definition scenario_tests (sc : scenario) : list test :=
  [mk_test (sc_name sc ++ ": is recognized as a colour") (sc_input sc)
     [mk_step "isColor" [] ToBeTrue];
   mk_test (sc_name sc ++ ": is represented by the correct RGBA value") (sc_input sc)
     [mk_step "asRgbaArray" [] (ToEql (sc_expectedRGBA sc))]] ++
  match sc_expectedPreciseRGBA sc with
  | Some l =>
      [mk_test (sc_name sc ++ ": is represented by the correct RGBA value when enabling full precision")
         (sc_input sc)
         [mk_step "asRgbaArray" [JObj [("precision", JStr "max")]] (ToEql l)]]
  | None => []
  end.

Definition valid_colour_tests : list test := flat_map scenario_tests inputColourScenario.

(** ** Other inputs (lines 118-204) *)

Definition not_a_colour (title : string) (input : jsval) : test :=
  mk_test ("Not a colour: " ++ title) input [mk_step "isColor" [] ToBeFalse].

Definition invalid_input_tests : list test := [
  not_a_colour "for an arbitrary, non-colour word" (JStr "foo");
  not_a_colour "for an rgb() string mixing percentages with non-percentage values" (JStr "rgb(0, 60%, 67%)");
  not_a_colour "for an rgba() string mixing percentages with non-percentage values" (JStr "rgba(0, 60%, 67%, .5)");
  not_a_colour "for an empty hash" (JObj []);
  not_a_colour "for an RGB hash with incomplete r, g, b properties" (hash [("r", jn "10"); ("b", jn "10")]);
  not_a_colour "for an RGBA hash with incomplete r, g, b properties" (hash [("r", jn "10"); ("b", jn "10"); ("a", jn "0.5")]);
  not_a_colour "for an empty array" (JArr []);
  not_a_colour "for an array with arbitrary strings" (JArr [JStr "foo"; JStr "bar"; JStr "baz"]);
  not_a_colour "for an array with arbitrary percentage strings" (JArr [JStr "foo%"; JStr "bar%"; JStr "baz%"]);
  not_a_colour "for an array with a percentage above 100%" (JArr [JStr "10%"; JStr "100.01%"; JStr "10%"]);
  not_a_colour "for an array with a negative percentage" (JArr [JStr "-10%"; JStr "100%"; JStr "10%"]);
  not_a_colour "for an RGB array with a number greater than 255" (jarr ["10"; "256"; "10"]);
  not_a_colour "for an RGB array with a negative number" (JArr [jn "10"; JNum (neg (lit "10")); jn "10"]);
  not_a_colour "for an array with an alpha channel greater than 1" (jarr ["10"; "256"; "10"; "1.01"]);
  not_a_colour "for an array with a negative alpha channel" (JArr [jn "10"; jn "256"; jn "10"; JNum (neg (lit "0.01"))]);
  not_a_colour "for an array with more than four values" (jarr ["1"; "1"; "1"; "1"; "1"]);
  not_a_colour "for a boolean true" (JBool true);
  not_a_colour "for a boolean false" (JBool false);
  not_a_colour "for null" JNull;
  not_a_colour "for undefined" JUndefined;
  not_a_colour "when the colour argument is missing" JUndefined
].

Definition parsing_tests : list test := invocation_tests ++ valid_colour_tests ++ invalid_input_tests.

End TestParsing.
