(* ===== verification/TestMethods.v ===== *)
(** * The suite's tests of the methods

    [src/spec/color.spec.js] lines 208-929: the output methods on the
    [scenarios] table (lines 208-663), the queries (665-730), the
    guards (732-807) and the comparisons (809-929), each test with its
    title, the input of its colour and its assertions in order.  Where
    the source computes an expected value ([169/2.55] concatenated to a
    string, [toLowerCase], [slice(1)], an array [join]), the model
    computes it with the same JavaScript operations. *)

From Stdlib Require Import ZArith List String Ascii Bool.
From Stdlib Require Import SpecFloat.
From S2P Require Import Prelude JsNumber JsValue Parse Color Harness.
Import ListNotations.
Import JsNumber JsValue Parse Color Harness.

Module TestMethods.

Local Open Scope string_scope.

(** ** Output methods (lines 208-663) *)

(** [scenarios], lines 210-241. *)
Definition opaque_input : jsval := jarr ["0"; "153"; "169"].
Definition transparent_input : jsval := jarr ["0"; "153"; "169"; "0.5"].
(** [scenarios.transparent.noColour]: the object has no such key. *)
Definition noColour_read : jsval := JUndefined.

Definition expected_hex : string := "#0099A9".
Definition expected_rgb : string := "rgb(0, 153, 169)".
Definition expected_rgba : string := "rgba(0, 153, 169, 1)".
Definition expected_rgbArray : list num := nums_of ["0"; "153"; "169"].
Definition expected_rgbaArray : list num := nums_of ["0"; "153"; "169"; "1"].
Definition expected_rgbPercent : string := "rgb(0%, 60%, 66%)".
Definition expected_rgbPercent_precision5 : string := "rgb(0%, 60%, 66.27451%)".
Definition expected_rgbPercent_precisionMax : string :=
  "rgb(0%, 60%, " ++ Number_toString (div (lit "169") (lit "2.55")) ++ "%)".
Definition expected_rgbaPercent : string := "rgba(0%, 60%, 66%, 1)".
Definition expected_rgbaPercent_precision5 : string := "rgba(0%, 60%, 66.27451%, 1)".
Definition expected_rgbaPercent_precisionMax : string :=
  "rgba(0%, 60%, " ++ Number_toString (div (lit "169") (lit "2.55")) ++ "%, 1)".
Definition expected_agColor : string :=
  "AgColor( 0, 0.6, " ++ Number_toString (div (lit "169") (lit "255")) ++ ", 1 )".
Definition expected_transparent_rgba : string := "rgba(0, 153, 169, 0.5)".

Definition slice1 (s : string) : string :=
  match s with String _ s' => s' | EmptyString => EmptyString end.

Definition opaque_msg : string := "Color.ensureOpaque: Color is required to be opaque, but it is not".
Definition color_msg : string := "Color.ensureColor: The color object does not represent a valid color".
Definition transparent_msg : string := "Color.ensureTransparent: Color is required to be transparent, but it is not".

Definition options_arg (l : list (string * jsval)) : list jsval := [JObj l].

(** ["AgColor(" + [254.4999/255, 254.5/255, 254.5111/255, a].join( ", " ) + ")"] *)
Definition agcolor_254 (alpha : num) : jsval :=
  JStr ("AgColor(" ++ join ", " (map Number_toString
          [div (lit "254.4999") (lit "255"); div (lit "254.5") (lit "255");
           div (lit "254.5111") (lit "255"); alpha]) ++ ")").

(** The two tests every conversion has on a transparent colour and on
    [Color( scenarios.transparent.noColour )]. *)
Definition throws_opaque (m : string) : test :=
  mk_test (m ++ ": throws an error when the colour is transparent") transparent_input
    [mk_step m [] (ToThrow opaque_msg)].
Definition no_throw_transparent (m : string) : test :=
  mk_test (m ++ ": does not throw an error when the colour is transparent") transparent_input
    [mk_step m [] NotToThrow].
Definition throws_not_color (m : string) : test :=
  mk_test (m ++ ": throws an error when the colour passed to the constructor has not been a valid CSS colour")
    noColour_read [mk_step m [] (ToThrow color_msg)].

Definition on_opaque (m title : string) (args : list jsval) (e : expectation) : test :=
  mk_test (m ++ ": " ++ title) opaque_input [mk_step m args e].

Definition asHex_tests : list test := [
  on_opaque "asHex" "returns the hex value as #rrggbb by default" [] (ToEqual (toLowerCase expected_hex));
  on_opaque "asHex" "returns the hex value as #rrggbb with options.lowerCase"
    (options_arg [("lowerCase", JBool true)]) (ToEqual (toLowerCase expected_hex));
  on_opaque "asHex" "returns the hex value as #RRGGBB with options.upperCase"
    (options_arg [("upperCase", JBool true)]) (ToEqual (toUpperCase expected_hex));
  on_opaque "asHex" "returns the hex value as #RRGGBB with options.lowerCase = false"
    (options_arg [("lowerCase", JBool false)]) (ToEqual (toUpperCase expected_hex));
  on_opaque "asHex" "returns the hex value as rrggbb (no # prefix) with options.prefix = false"
    (options_arg [("prefix", JBool false)]) (ToEqual (slice1 (toLowerCase expected_hex)));
  throws_opaque "asHex"; throws_not_color "asHex";
  on_opaque "asHexLC" "returns the hex value as #rrggbb" [] (ToEqual (toLowerCase expected_hex));
  throws_opaque "asHexLC"; throws_not_color "asHexLC";
  on_opaque "asHexUC" "returns the hex value as #rrggbb" [] (ToEqual (toUpperCase expected_hex));
  throws_opaque "asHexUC"; throws_not_color "asHexUC"
].

Definition asRgb_tests : list test := [
  on_opaque "asRgb" "returns the rgb() value" [] (ToEqual expected_rgb);
  mk_test "asRgb: returns the rgb() value rounded to integers" (agcolor_254 (lit "1"))
    [mk_step "asRgb" [] (ToEqual "rgb(254, 255, 255)")];
  throws_opaque "asRgb"; throws_not_color "asRgb";
  on_opaque "asRgbPercent" "returns the rgb() value with percentages (integers)" [] (ToEqual expected_rgbPercent);
  on_opaque "asRgbPercent" "returns the rgb() value with percentages in the precision specified by options.precision"
    (options_arg [("precision", jn "5")]) (ToEqual expected_rgbPercent_precision5);
  on_opaque "asRgbPercent" "returns the rgb() value with percentages in full precision when options.precision = max"
    (options_arg [("precision", JStr "max")]) (ToEqual expected_rgbPercent_precisionMax);
  mk_test "asRgbPercent: returns the rgb() value with percentages in full, original precision when options.precision = max"
    (JStr "rgb(0.01%, 66.078%, 66.079%)")
    [mk_step "asRgb" [] (ToEqual "rgb(0, 168, 169)");
     mk_step "asRgbPercent" (options_arg [("precision", JStr "max")]) (ToEqual "rgb(0.01%, 66.078%, 66.079%)")];
  mk_test "asRgbPercent: returns the rgb() value without converting near-zero values into scientific notation when options.precision = n"
    (JStr "rgb(0.000000000421%, 50%, 50%)")
    [mk_step "asRgbPercent" (options_arg [("precision", jn "12")]) (ToEqual "rgb(0.000000000421%, 50%, 50%)")];
  mk_test "asRgbPercent: returns the rgb() value without converting near-zero values into scientific notation when options.precision = max"
    (JStr "rgb(0.000000000000000001%, 50%, 50%)")
    [mk_step "asRgbPercent" (options_arg [("precision", JStr "max")]) (ToEqual "rgb(0.000000000000000001%, 50%, 50%)")];
  throws_opaque "asRgbPercent"; throws_not_color "asRgbPercent"
].

Definition asRgba_tests : list test := [
  on_opaque "asRgba" "returns the rgba() value" [] (ToEqual expected_rgba);
  mk_test "asRgba: returns the RGB channels of the rgba() value rounded to integers" (agcolor_254 (lit "0.6789"))
    [mk_step "asRgba" [] (ToEqual "rgba(254, 255, 255, 0.6789)")];
  no_throw_transparent "asRgba"; throws_not_color "asRgba";
  on_opaque "asRgbaPercent" "returns the rgba() value with percentages (integers)" [] (ToEqual expected_rgbaPercent);
  on_opaque "asRgbaPercent" "returns the rgba() value with percentages in the precision specified by options.precision"
    (options_arg [("precision", jn "5")]) (ToEqual expected_rgbaPercent_precision5);
  on_opaque "asRgbaPercent" "returns the rgba() value with percentages in full precision when options.precision = max"
    (options_arg [("precision", JStr "max")]) (ToEqual expected_rgbaPercent_precisionMax);
  mk_test "asRgbaPercent: returns the rgba() value with percentages in full, original precision when options.precision = max"
    (JStr "rgba(0.01%, 66.078%, 66.079%, 0.4)")
    [mk_step "asRgba" [] (ToEqual "rgba(0, 168, 169, 0.4)");
     mk_step "asRgbaPercent" (options_arg [("precision", JStr "max")]) (ToEqual "rgba(0.01%, 66.078%, 66.079%, 0.4)")];
  mk_test "asRgbaPercent: returns the rgba() value without converting near-zero values into scientific notation when options.precision = n"
    (JStr "rgba(0.000000000421%, 50%, 50%, 0.00000000000421)")
    [mk_step "asRgbaPercent" (options_arg [("precision", jn "12")]) (ToEqual "rgba(0.000000000421%, 50%, 50%, 0.00000000000421)")];
  mk_test "asRgbaPercent: returns the rgba() value without converting near-zero values into scientific notation when options.precision = max"
    (JStr "rgba(0.000000000000000001%, 50%, 50%, 0.000000000000000001)")
    [mk_step "asRgbaPercent" (options_arg [("precision", JStr "max")])
       (ToEqual "rgba(0.000000000000000001%, 50%, 50%, 0.000000000000000001)")];
  no_throw_transparent "asRgbaPercent"; throws_not_color "asRgbaPercent"
].

Definition asAgColor_tests : list test := [
  on_opaque "asAgColor" "returns the AgColor() value with fractions" [] (ToEqual expected_agColor);
  mk_test "asAgColor: returns the AgColor() fractions in full, original precision"
    (JStr "AgColor( 0.0001, 0.66078, 0.66079, 0.4123456789 )")
    [mk_step "asRgba" [] (ToEqual "rgba(0, 168, 169, 0.4123456789)");
     mk_step "asAgColor" [] (ToEqual "AgColor( 0.0001, 0.66078, 0.66079, 0.4123456789 )")];
  mk_test "asAgColor: returns the AgColor() value without converting near-zero values into scientific notation"
    (JStr "AgColor( 0.00000000000000000123, 0.5, 0.5, 0.00000000000000000123 )")
    [mk_step "asAgColor" [] (ToEqual "AgColor( 0.00000000000000000123, 0.5, 0.5, 0.00000000000000000123 )")];
  no_throw_transparent "asAgColor"; throws_not_color "asAgColor"
].

(** [preciseScenario] of lines 545-554 and 593-602. *)
Definition precise_rgb : list string := ["254.499999999460001"; "254.5"; "254.500000000150001"].

Definition asArray_tests : list test := [
  on_opaque "asRgbArray" "returns the rgb() values" [] (ToEql expected_rgbArray);
  mk_test "asRgbArray: returns the rgb() values rounded to integers" (jarr precise_rgb)
    [mk_step "asRgbArray" [] (ToEql (nums_of ["254"; "255"; "255"]))];
  mk_test "asRgbArray: returns the rgb() values in the precision specified by options.precision" (jarr precise_rgb)
    [mk_step "asRgbArray" (options_arg [("precision", jn "10")]) (ToEql (nums_of ["254.4999999995"; "254.5"; "254.5000000002"]))];
  mk_test "asRgbArray: returns the rgb() values in full precision when options.precision = max" (jarr precise_rgb)
    [mk_step "asRgbArray" (options_arg [("precision", JStr "max")]) (ToEql (nums_of precise_rgb))];
  throws_opaque "asRgbArray"; throws_not_color "asRgbArray";
  on_opaque "asRgbaArray" "returns the rgba() values" [] (ToEql expected_rgbaArray);
  mk_test "asRgbaArray: returns the RGB channels of the array rounded to integers" (jarr (precise_rgb ++ ["0.5"]))
    [mk_step "asRgbaArray" [] (ToEql (nums_of ["254"; "255"; "255"; "0.5"]))];
  mk_test "asRgbaArray: returns the RGB channels of the array in the precision specified by options.precision"
    (jarr (precise_rgb ++ ["0.5"]))
    [mk_step "asRgbaArray" (options_arg [("precision", jn "10")])
       (ToEql (nums_of ["254.4999999995"; "254.5"; "254.5000000002"; "0.5"]))];
  mk_test "asRgbaArray: returns the RGB channels of the array in full precision when options.precision = max"
    (jarr (precise_rgb ++ ["0.5"]))
    [mk_step "asRgbaArray" (options_arg [("precision", JStr "max")]) (ToEql (nums_of (precise_rgb ++ ["0.5"])))];
  no_throw_transparent "asRgbaArray"; throws_not_color "asRgbaArray"
].

Definition asComputed_tests : list test := [
  on_opaque "asComputed" "returns the rgb() value when the colour is opaque" [] (ToEqual expected_rgb);
  mk_test "asComputed: returns the channels of the rgb() value rounded to integers" (agcolor_254 (lit "1"))
    [mk_step "asComputed" [] (ToEqual "rgb(254, 255, 255)")];
  mk_test "asComputed: returns the rgba() value when the colour is transparent" transparent_input
    [mk_step "asComputed" [] (ToEqual expected_transparent_rgba)];
  mk_test "asComputed: returns the RGB channels of the rgba() value rounded to integers" (agcolor_254 (lit "0.6789"))
    [mk_step "asComputed" [] (ToEqual "rgba(254, 255, 255, 0.6789)")];
  throws_not_color "asComputed"
].

Definition output_tests : list test :=
  asHex_tests ++ asRgb_tests ++ asRgba_tests ++ asAgColor_tests ++ asArray_tests ++ asComputed_tests.

(** ** Queries and guards (lines 665-807) *)

(** [inputs], lines 667-671 and 734-738. *)
Definition noColour_input : jsval := JStr "foo".

Definition query_test (m title : string) (input : jsval) (e : expectation) : test :=
  mk_test (m ++ ": " ++ title) input [mk_step m [] e].

Definition query_tests : list test := [
  query_test "isColor" "returns true for a valid, opaque CSS colour" opaque_input ToBeTrue;
  query_test "isColor" "returns true for a valid, transparent CSS colour" transparent_input ToBeTrue;
  query_test "isColor" "returns false for an invalid colour" noColour_input ToBeFalse;
  query_test "isOpaque" "returns true for a valid, opaque CSS colour" opaque_input ToBeTrue;
  query_test "isOpaque" "returns false for a valid, transparent CSS colour" transparent_input ToBeFalse;
  query_test "isOpaque" "returns false for an invalid colour" noColour_input ToBeFalse;
  query_test "isTransparent" "returns false for a valid, opaque CSS colour" opaque_input ToBeFalse;
  query_test "isTransparent" "returns true for a valid, transparent CSS colour" transparent_input ToBeTrue;
  query_test "isTransparent" "returns false for an invalid colour" noColour_input ToBeFalse;
  query_test "ensureColor" "returns true for a valid, opaque CSS colour" opaque_input ToBeTrue;
  query_test "ensureColor" "returns true for a valid, transparent CSS colour" transparent_input ToBeTrue;
  query_test "ensureColor" "throws for an invalid colour" noColour_input (ToThrow color_msg);
  query_test "ensureOpaque" "returns true for a valid, opaque CSS colour" opaque_input ToBeTrue;
  query_test "ensureOpaque" "throws for a valid, transparent CSS colour" transparent_input (ToThrow opaque_msg);
  query_test "ensureOpaque" "throws for an invalid colour" noColour_input (ToThrow color_msg);
  query_test "ensureTransparent" "returns true for a valid, transparent CSS colour" transparent_input ToBeTrue;
  query_test "ensureTransparent" "throws for a valid, opaque CSS colour" opaque_input (ToThrow transparent_msg);
  query_test "ensureTransparent" "throws for an invalid colour" noColour_input (ToThrow color_msg)
].

(** ** Comparisons (lines 809-929) *)

(** [inputs], lines 811-832. *)
Definition in_asRgb : jsval := JStr "rgb(0, 128, 254)".
Definition in_asHex : jsval := JStr "#0080FE".
Definition in_asPercentApprox : jsval := JStr "rgb(0%, 50%, 99.411765%)".
Definition in_adjacent : jsval := JStr "rgb(0%, 50%, 99.411764%)".
Definition in_offBy2_above : jsval := jarr ["2"; "130"; "255"].
Definition in_offBy2_below : jsval := jarr ["0"; "126"; "252"].
Definition pct_of (x : num) : jsval := JStr (Number_toString x ++ "%").
Definition in_offByMore_above : jsval :=
  JArr [pct_of (div (lit "2.5") (lit "2.55")); pct_of (div (lit "130.5") (lit "2.55")); JStr "100%"].
Definition in_offByMore_below : jsval :=
  JArr [JStr "0%"; pct_of (div (lit "125.4999999999") (lit "2.55")); pct_of (div (lit "251.4999999999") (lit "2.55"))].
Definition in_alpha_value : jsval := jarr ["10"; "20"; "30"; "0.5"].
Definition in_alpha_diff : jsval := jarr ["10"; "20"; "30"; "0.5000000001"].

(** [new Color( value )] passed as an argument. *)
Definition color_object (v : jsval) : jsval := JColor v (parseColor v).

Definition tol (t : string) : jsval := JObj [("tolerance", jn t)].

Definition comparison (m title : string) (input : jsval) (steps : list (list jsval * expectation)) : test :=
  mk_test (m ++ ": " ++ title) input (map (fun ae => mk_step m (fst ae) (snd ae)) steps).

Definition comparison_tests : list test := [
  comparison "equals" "accepts string input and detects equality when colours match exactly" in_asRgb
    [([in_asHex], ToBeTrue)];
  comparison "equals" "accepts another color object and detects equality when colours match exactly" in_asRgb
    [([color_object in_asHex], ToBeTrue)];
  comparison "equals" "returns true if colours values are slightly different but map to the same RGB integers" in_asRgb
    [([in_asPercentApprox], ToBeTrue)];
  comparison "equals" "returns false if colour values are slightly different but map to adjacent RGB values" in_asRgb
    [([in_adjacent], ToBeFalse)];
  comparison "equals" "returns true if the colour values only differ as much as the specified tolerance" in_asRgb
    [([in_offBy2_above; tol "2"], ToBeTrue); ([in_offBy2_below; tol "2"], ToBeTrue)];
  comparison "equals" "returns false if the colour values differ slightly more than the specified tolerance" in_asRgb
    [([in_offByMore_above; tol "2"], ToBeFalse); ([in_offByMore_below; tol "2"], ToBeFalse)];
  comparison "equals" "returns false if the alpha channel differs slightly, irrespective of the specified tolerance" in_alpha_value
    [([in_alpha_diff; tol "255"], ToBeFalse)];
  comparison "equals" "returns false if the colour object is not a valid colour" noColour_input
    [([in_asHex], ToBeFalse)];
  comparison "equals" "returns false if the colour object is not a valid colour, when a tolerance is specified" noColour_input
    [([in_asHex; tol "2"], ToBeFalse)];
  comparison "equals" "returns false if the colour argument is not a valid colour" in_asHex
    [([noColour_input], ToBeFalse)];
  comparison "equals" "returns false if the colour argument is not a valid colour, when a tolerance is specified" in_asHex
    [([noColour_input; tol "2"], ToBeFalse)];
  comparison "equals" "returns false if both are defined by the same invalid input value" noColour_input
    [([noColour_input], ToBeFalse)];
  comparison "strictlyEquals" "accepts string input and detects equality when colours match exactly" in_asRgb
    [([in_asHex], ToBeTrue)];
  comparison "strictlyEquals" "accepts another color object and detects equality when colours match exactly" in_asRgb
    [([color_object in_asHex], ToBeTrue)];
  comparison "strictlyEquals" "returns false if colour values are different" in_asRgb
    [([in_adjacent], ToBeFalse)];
  comparison "strictlyEquals" "returns false if colours values are slightly different but map to the same RGB integers" in_asRgb
    [([in_asPercentApprox], ToBeFalse)];
  comparison "strictlyEquals" "returns false if colours values would be rounded to the same RGB percentages"
    (JStr "rgb(0%, 50%, 100%)")
    [([JStr "rgb(0.00000000000000000001%, 50.00000000000000000001%, 99.99999999999999999999%)"], ToBeFalse)];
  comparison "strictlyEquals" "returns false if the alpha channel differs slightly" in_alpha_value
    [([in_alpha_diff], ToBeFalse)];
  comparison "strictlyEquals" "returns false if the colour object is not a valid colour" noColour_input
    [([in_asHex], ToBeFalse)];
  comparison "strictlyEquals" "returns false if the colour argument is not a valid colour" in_asHex
    [([noColour_input], ToBeFalse)];
  comparison "strictlyEquals" "returns false if both are defined by the same invalid input value" noColour_input
    [([noColour_input], ToBeFalse)]
].

Definition method_tests : list test := output_tests ++ query_tests ++ comparison_tests.

End TestMethods.
