(* ===== verification/TestSuite.v ===== *)
(** * The test suite run against the code

    The 221 tests of [src/spec/color.spec.js] ([TestParsing],
    [TestMethods]) run on the model of colorful.js through the
    prototype of [Harness].  The suite was written for another version
    of the API: it calls [asRgb], [asRgbPercent], [asRgba],
    [asRgbaPercent], [asRgbArray], [asRgbaArray] and [asComputed],
    which [Color.prototype] does not define (the code has [asRGB],
    [asPercentRGB], [asRGBA], [asPercentRGBA], [asRGBArray],
    [asRGBAArray] and nothing like [asComputed]).  [suite_outcome]
    says exactly which tests fail: those that call a missing method,
    and nine that expect what the code does not do. *)

From Stdlib Require Import List String Bool.
From S2P Require Import Prelude JsNumber JsValue Color Harness TestParsing TestMethods Umd.
Import ListNotations.
Import JsValue Harness TestParsing TestMethods.

Module TestSuite.

Local Open Scope string_scope.

Definition suite : list test := parsing_tests ++ method_tests.

Definition defines_method (name : string) : bool :=
  match lookup_method name with Some _ => true | None => false end.

(** A test calls a method [Color.prototype] does not have. *)
Definition calls_missing (t : test) : bool :=
  existsb (fun s => negb (defines_method (s_method s))) (t_steps t).

(** The tests that call only methods of the prototype and still fail:
    colours given by arrays or hashes with fractional channels, which
    the code rejects, and two percentages that differ below the
    precision [strictlyEquals] compares at. *)
Definition divergent_titles : list string := [
  "as an array of RGB values with decimals: is recognized as a colour";
  "as an array of RGBA values with decimals: is recognized as a colour";
  "as a mixed array of integer RGB values, RGB values with decimals, and percentages: is recognized as a colour";
  "as a mixed array of integer RGBA values, RGBA values with decimals, and percentages: is recognized as a colour";
  "as a hash of RGB values with decimals: is recognized as a colour";
  "as a hash of RGBA values with decimals: is recognized as a colour";
  "as a mixed hash of integer RGB values, RGB values with decimals, and percentages: is recognized as a colour";
  "as a mixed hash of integer RGBA values, RGBA values with decimals, and percentages: is recognized as a colour";
  "strictlyEquals: returns false if colours values would be rounded to the same RGB percentages"
].

Definition expected_verdict (t : test) : bool :=
  negb (calls_missing t || existsb (String.eqb (t_title t)) divergent_titles).

(** The names the test suite expects, mapped to the methods of the code
    that do what the tests describe; [asComputed] has no counterpart. *)
Definition api_aliases : list (string * string) :=
  [("asRgb", "asRGB"); ("asRgbPercent", "asPercentRGB"); ("asRgba", "asRGBA");
   ("asRgbaPercent", "asPercentRGBA"); ("asRgbArray", "asRGBArray"); ("asRgbaArray", "asRGBAArray")].

Definition alias (name : string) : string :=
  match find (fun p => String.eqb (fst p) name) api_aliases with
  | Some (_, m) => m
  | None => name
  end.

Definition renamed (t : test) : test :=
  mk_test (t_title t) (t_input t)
    (map (fun s => mk_step (alias (s_method s)) (s_args s) (s_expect s)) (t_steps t)).

(** ** Lemmas *)

Lemma existsb_eqb_In (x : string) (l : list string) : existsb (String.eqb x) l = true <-> In x l.
Proof.
  rewrite existsb_exists. split.
  - intros (y & Hy & E). apply String.eqb_eq in E. subst. exact Hy.
  - intros Hin. exists x. split; [exact Hin | apply String.eqb_refl].
Qed.

(** The prototype the suite calls is the one the wrapper extends. *)
Lemma prototype_names : map fst prototype = Umd.prototype_methods.
Proof. reflexivity. Qed.

Lemma suite_verdicts : forallb (fun t => Bool.eqb (run_test t) (expected_verdict t)) suite = true.
Proof. vm_compute. reflexivity. Qed.

(** With the suite's method names mapped to the code's, the failures
    are the fractional-channel colours, the precision options the
    code's array methods do not take, [asComputed], and the
    [strictlyEquals] rounding. *)
Lemma renamed_suite_failures :
  List.length (failures (map renamed suite)) = 36.
Proof. vm_compute. reflexivity. Qed.

(** C39: run against colorful.js, a test of the suite fails exactly
    when it calls a method [Color.prototype] does not define, or it is
    one of nine tests that expect fractional channels in arrays and
    hashes to be accepted or [strictlyEquals] to tell apart percentages
    that differ below its precision. *)
Theorem suite_outcome (t : test) :
  In t suite ->
  (run_test t = false <-> calls_missing t = true \/ In (t_title t) divergent_titles).
Proof.
  intros Hin. pose proof suite_verdicts as H. rewrite forallb_forall in H.
  specialize (H t Hin). apply Bool.eqb_prop in H. rewrite H. unfold expected_verdict.
  rewrite negb_false_iff, orb_true_iff, existsb_eqb_In. reflexivity.
Qed.

Lemma suite_outcome_witness :
  let t := nth 216 suite (mk_test "" JUndefined []) in
  In t suite /\ run_test t = false /\ calls_missing t = false /\
  In (t_title t) divergent_titles.
Proof.
  cbv zeta.
  assert (Hin : In (nth 216 suite (mk_test "" JUndefined [])) suite)
    by (apply nth_In; vm_compute; repeat constructor).
  assert (Hd : In (t_title (nth 216 suite (mk_test "" JUndefined []))) divergent_titles)
    by (apply existsb_eqb_In; vm_compute; reflexivity).
  split; [exact Hin|]. split; [apply (suite_outcome _ Hin); right; exact Hd|].
  split; [vm_compute; reflexivity | exact Hd].
Defined.

End TestSuite.
